(* ===== verification/_CoqProject ===== *)
-Q . S2P
Prelude.v
Arch.v
Pit.v
Vga.v
Shell.v
Mem.v
Gdt.v
Sched.v
Dispatch.v
Alloc.v
Frames.v
Events.v
Interrupts.v
Hal.v
Cpu.v
Context.v
Syscall.v
DataStructures.v
Driver.v
Boot.v
Testing.v
MainTest.v
Run.v
Preempt.v
System.v
UserMode.v
