(* ===== verification/Prelude.v ===== *)
(** * LeafOS: a verification of the kernel

    LeafOS is a small x86_64 kernel in Rust: a VGA text console with a line-editing shell, a keyboard
    path, the interrupt table with APIC and PIT timers, a preemptive round-robin scheduler whose context
    switch is assembly, one system call, frame and heap allocation, and a fixed-size block allocator.
    This library translates its sources (src/src) into Rocq functions and proves what makes them
    correct.  This file holds what all components share.

    ** How code becomes definitions

    A function of the kernel is an executable definition with the name it has in Rust.  Code with
    effects is in the monad [M S A], from a state [S] to [res]: [Ok] with the value and the new state,
    [Panic] with the reason (index, overflow, unwrap, assertion, explicit), or [Hang] for code that
    never returns: a second [lock] of a held [spin::Mutex] ([with_lock]), a [hlt] that no interrupt
    ends, [hlt_loop].  A component is code on its own record; [zoom] along a [lens] runs it in a larger
    state, so that the kernel's statics are composed without being copied.  A w-bit integer is a [Z];
    [add_w], [sub_w] and [mul_w] panic or wrap as the build profile says ([Profile], universally
    quantified).  Strings are byte lists; a [fmt::Arguments] is the list of its pieces, which [write_fmt]
    hands to the [write_str] of a writer ([FmtWrite]).  Raw memory is [Mem.mem], bytes by address.
    Programs that do the same on every state are equal ([meq]), and can be rewritten in each other's
    place.

    ** Files

    - [Arch] (arch/x86, drivers/pic.rs, exit_qemu): RFLAGS, port traffic as a trace, [without_interrupts].
    - [Pit] (drivers/pit.rs): the timer's registers, over a decoder of the chip's commands.
    - [Vga] (vga_buffer.rs): colours, coloured strings, the 25 x 80 screen with its copying loops.
    - [Shell] (shell.rs, print.rs): prompt, keys, [print!], with the two spin locks.
    - [Mem]: byte memory, 64-bit words, stack slots.
    - [Gdt] (gdt.rs): descriptors, selectors, the TSS.
    - [Sched] (process.rs, scheduler.rs): the run queue, current, idle and boot tasks, and the initial
      stack of a process, written into memory.
    - [Dispatch] (the trait [Scheduler] and its users in scheduler.rs): the trait as a class with laws, the
      dispatch code for every implementation, and the round-robin scheduler as one.
    - [Alloc] (allocators/fixed_size_block.rs): free lists threaded through the free blocks in memory.
    - [Frames] (memory.rs, allocators/mod.rs): the frame allocator, [init_heap], [memory::setup].
    - [Events] (events.rs, init_kb_handler of lib.rs): the handler registry.
    - [Interrupts] (interrupts.rs): table, handlers, delivery, acknowledgement, APIC calibration.
    - [Hal] (arch/): the dispatch of arch/mod.rs and its implementations for x86_64, riscv and aarch64.
    - [Cpu]: registers, stack and memory of the processor, call and interrupt return, on which the
      kernel's assembly runs.
    - [Context] (apic_timer_handler and restart_apic of interrupts.rs, tss_ptr of gdt.rs).
    - [Syscall] (syscall.rs, error_codes.rs, syscall_handler of interrupts.rs).
    - [DataStructures] (data_structures/): linked lists and the ring buffer.
    - [Driver] (drivers/driver.rs): the driver traits as classes, boxed trait objects, wrappers.
    - [Boot] (init of lib.rs, main.rs): everything above composed in the order of [kernel_main].
    - [Testing] (serial.rs, the test harness of lib.rs, the test cases of the library).
    - [MainTest] (main.rs under cfg(test)): the kernel's own test build.
    - [Run] (test_fn of main.rs): from [Boot] through the first ticks to the processes, for ever.
    - [Preempt] (print.rs, shell.rs, scheduler.rs again): the code that takes locks, a step at a time, with
      interrupts between the steps; [init_apic]'s wait.
    - [System] (test_fn and test_fn_hello of main.rs, an instruction at a time): the machine after
      [kernel_main], executing instructions of its processes and taking the interrupts of the local APIC
      between them.
    - [UserMode]: timer ticks of processes at ring 3, on the stack the TSS names.

    ** What is shown

    - Console: the copying loops are scrolls; [write_string] is hard wrapping on a scrolling screen; key
      events implement an abstract line editor; [print!] reaches the screen, releases its locks and
      restores the interrupt flag; no key makes the shell panic.
    - Scheduling: [select_next_task] refines a FIFO; no process is lost or duplicated by any sequence of
      starts and ticks, nor by any implementation of the trait that keeps to its laws; out of memory,
      [start_proc] and the tick that needs the idle task panic.
    - Context switch: one timer tick saves the complete context of the running task and resumes exactly
      the saved context of the next, under an invariant that the tick restores; a preempted task
      resumes where it was; [ProcessState::new] builds such a suspended context.
    - Memory: allocations are fresh, aligned and disjoint in every state clients can reach, freed blocks
      are reused; each usable frame is handed out once; [setup] maps every page of the heap.
    - Interrupts: the gates, one acknowledgement per interrupt, the way of a key from the port to the
      screen, that keyboard interrupts return whatever the keyboard sends, the calibration of the APIC
      timer and its rounding.
    - System calls: the assembly and [SyscallArgs] agree, [write] prints the caller's bytes.
    - Boot: from power-on, [kernel_main] reaches its final wait with all of this set up; the first tick
      enters a process, and from then on every tick returns and the processes take turns, whatever they
      do in between; [test_fn] prints its text in each round of its turns.
    - The running system: for every sequence of instructions and of timer, error and spurious interrupts
      after power-on, the machine refines a specification of which process runs, where each of them is and
      what has been printed; every time slice of [test_fn] counts, however it cuts its loop.
    - Interleaving: [print!] is atomic whatever interrupts arrive between its steps, and code that prints
      never deadlocks; the wait of [init_apic] terminates exactly if the APIC timer fires.
    - The hardware abstraction layer: [without_interrupts] on each of its targets.
    - The tests of the library and of the kernel: which pass, and what is reported.

    Theorems also record where the code does less than it means to: the keyboard's interrupt vector, the
    result of a system call, [write_char_indexed], the erasing of raw keys, the TSS pointer and what it
    does to processes in user mode, the frame of a new process, the locks that are taken with interrupts
    on ([start_proc], [Shell::init]), the tick that comes before the shell is started, and the test of the
    breakpoint exception.

    ** Code outside the sources

    The crates are arguments of the definitions, with what the kernel relies on as laws of a class:
    [Heap]/[HeapLaws] (linked_list_allocator), [AllocOk] (the global allocator: requests of up to a page
    succeed), [Ascending] (as long as nothing has been freed it allocates upwards), [AddrOps]/[AddrLaws],
    [Mapper]/[MapperLaws] and [SegmentTable] (x86_64), [pc_keyboard]'s decoder and key names, the answers of I/O ports ([device]); x2apic, pic8259 and uart_16550 are the
    sequences of the commands sent to them.  [Abi]/[AbiLaws] is what the calling convention leaves to
    the compiler: caller-saved registers and scratch stack of at most [stack_use] bytes.  Every theorem
    that uses a class has a witness at an instance of it.

    ** Bounds

    [wait_loop] (the calibration's busy wait) runs with fuel one above the number of interrupts still to
    arrive: each round consumes one, and a round without one never returns.  All other recursion is
    structural.  The line editor's theorem is about lines that fit the screen (2000 cells).

    ** Not modelled

    Interrupts are taken where code waits for them, between the instructions of a process, and, in
    [Preempt], between the steps of the code that shares locks with handlers; [kernel_main] is interrupted
    inside [start_proc], once its processes are started, inside [Shell::init] and in its final wait, and
    runs undisturbed elsewhere.  The processes of [System] are not typed at.  The machine has one core.  [do_syscall_3] is inlined into [test_fn], with
    one load for each argument.  The formatted stack frame of an exception report is a parameter.
    filesystem.rs (an empty trait) and rb_tree.rs (commented out) are left out, as are the empty [exit]
    functions of syscall.rs and the programs of tests/, which import a crate of another name and do not
    build.

    ** Plan

    Keyboard interrupts between the instructions of [System]; a tick before the first process is started;
    the tests of tests/heap_allocation.rs on the fixed-size block allocator. *)

From stdpp Require Export base list numbers option strings gmap.
From Stdlib Require Export ZArith Lia.
#[global] Open Scope Z_scope.

(** ** Outcomes *)

(** The reasons for which the kernel's Rust code panics. *)
Inductive panic : Type :=
  | IndexOutOfBounds
  | ArithmeticOverflow
  | DivideByZero
  | UnwrapNone
  | UnwrapErr
  | ExpectFailed
  | AssertFailed
  | Unimplemented
  | Explicit (msg : string).

(** What running a piece of kernel code comes to: a value, a panic (the crate is built with
    [panic = "abort"], so nothing runs after it but the panic handler), or spinning for ever on a
    [spin::Mutex] that is already held. *)
Inductive res (A : Type) : Type :=
  | Ok (a : A)
  | Panic (p : panic)
  | Hang.
Arguments Ok {A} a.
Arguments Panic {A} p.
Arguments Hang {A}.

Definition is_ok {A} (r : res A) : bool :=
  match r with Ok _ => true | _ => false end.

Definition res_bind {A B} (r : res A) (k : A -> res B) : res B :=
  match r with
  | Ok a => k a
  | Panic p => Panic p
  | Hang => Hang
  end.

(** [Option::unwrap]. *)
Definition unwrap {A} (o : option A) : res A :=
  match o with Some a => Ok a | None => Panic UnwrapNone end.

(** ** The kernel monad: state of type [S], panics and hangs *)

Definition M (S A : Type) : Type := S -> res (A * S).

Definition ret {S A} (a : A) : M S A := fun s => Ok (a, s).
Definition bind {S A B} (m : M S A) (k : A -> M S B) : M S B :=
  fun s => res_bind (m s) (fun p => k p.1 p.2).
Definition get {S} : M S S := fun s => Ok (s, s).
Definition gets {S A} (f : S -> A) : M S A := fun s => Ok (f s, s).
Definition modify {S} (f : S -> S) : M S unit := fun s => Ok (tt, f s).
Definition throw {S A} (p : panic) : M S A := fun _ => Panic p.
Definition lift {S A} (r : res A) : M S A := fun s => res_bind r (fun a => Ok (a, s)).

Declare Scope leaf_scope.
Delimit Scope leaf_scope with leaf.
Notation "'let!' x := m 'in' k" := (bind m (fun x => k))
  (at level 10, x pattern, m at level 100, k at level 200,
   format "'[v' 'let!'  x  :=  m  'in' '/' k ']'") : leaf_scope.
Notation "m ;; k" := (bind m (fun _ => k))
  (at level 100, k at level 200, right associativity) : leaf_scope.
#[global] Open Scope leaf_scope.

(** [for x in xs { body }]. *)
Fixpoint for_each {S A} (xs : list A) (body : A -> M S unit) : M S unit :=
  match xs with
  | [] => ret tt
  | x :: xs => body x ;; for_each xs body
  end.

(** [lo..hi]: empty when [hi <= lo]. *)
Definition range (lo hi : Z) : list Z := seqZ lo (hi - lo).

Arguments range : simpl never.
Arguments for_each : simpl never.

(** ** State components

    A piece of code that works on one field of a larger state is lifted along a lens. *)
Record lens (S A : Type) : Type := Lens { view : S -> A; update : A -> S -> S }.
Arguments Lens {S A} _ _.
Arguments view {S A} _ _.
Arguments update {S A} _ _ _.

Class LensLaws {S A} (l : lens S A) : Prop := {
  view_update : forall a s, view l (update l a s) = a;
  update_view : forall s, update l (view l s) s = s;
  update_update : forall a b s, update l a (update l b s) = update l a s;
}.

Definition zoom {S A B} (l : lens S A) (m : M A B) : M S B := fun s =>
  res_bind (m (view l s)) (fun p => Ok (p.1, update l p.2 s)).

(** ** Spin locks

    [spin::Mutex<A>]: the lock bit and the protected value.  [lock] spins while the bit is set; on
    one core nobody else can clear it, so a second [lock] hangs. *)
Record mutex (A : Type) : Type := Mutex { locked : bool; inner : A }.
Arguments Mutex {A} _ _.
Arguments locked {A} _.
Arguments inner {A} _.

Definition mutex_new {A} (a : A) : mutex A := Mutex false a.

Definition inner_lens {A} : lens (mutex A) A :=
  Lens inner (fun a m => Mutex (locked m) a).

Definition lens_comp {S A B} (l : lens S A) (k : lens A B) : lens S B :=
  Lens (fun s => view k (view l s)) (fun b s => update l (update k b (view l s)) s).

(** Run [body] with the guard of the mutex at [l] alive, and drop the guard afterwards. *)
Definition with_lock {S A B} (l : lens S (mutex A)) (body : M S B) : M S B := fun s =>
  if locked (view l s) then Hang
  else
    res_bind (body (update l (Mutex true (inner (view l s))) s))
      (fun p => Ok (p.1, update l (Mutex false (inner (view l p.2))) p.2)).

(** ** Machine integers

    A [w]-bit unsigned integer is a [Z] in [0, 2^w).  Whether [+], [-] and [*] panic or wrap on
    overflow is the build profile's [overflow-checks]: on in [dev], off in [release]. *)
Class Profile : Type := overflow_checks : bool.

Definition dev_profile : Profile := true.
Definition release_profile : Profile := false.

Definition wrap (w x : Z) : Z := x mod 2 ^ w.
Definition fits (w x : Z) : Prop := 0 <= x < 2 ^ w.

Definition arith `{P : Profile} (w x : Z) : res Z :=
  if decide (0 <= x < 2 ^ w) then Ok x
  else if P then Panic ArithmeticOverflow else Ok (wrap w x).

Definition add_w `{Profile} (w a b : Z) : res Z := arith w (a + b).
Definition sub_w `{Profile} (w a b : Z) : res Z := arith w (a - b).
Definition mul_w `{Profile} (w a b : Z) : res Z := arith w (a * b).
(** Division panics on zero in both profiles. *)
Definition div_w (a b : Z) : res Z := if b =? 0 then Panic DivideByZero else Ok (a / b).
Definition rem_w (a b : Z) : res Z := if b =? 0 then Panic DivideByZero else Ok (a mod b).

(** ** Strings: a [&str] is the list of its UTF-8 bytes *)
Fixpoint bytes (s : string) : list Z :=
  match s with
  | EmptyString => []
  | String c s => Z.of_N (Ascii.N_of_ascii c) :: bytes s
  end.

(** ** Formatted output

    [core::fmt::Write]: a writer of type [W] in a state of type [S] takes text a piece at a time.  A
    [fmt::Arguments] is the sequence of pieces that [write_fmt] hands to [write_str], up to the first
    error. *)
Inductive fmt_Error : Type := FmtError.

Class FmtWrite (W S : Type) : Type := write_str : list Z -> M S (fmt_Error + unit).

Fixpoint write_fmt (W : Type) {S : Type} `{FW : FmtWrite W S} (args : list (list Z)) : M S (fmt_Error + unit) :=
  match args with
  | [] => ret (inr tt)
  | piece :: args =>
      let! r := write_str piece in
      match r with inl e => ret (inl e) | inr _ => write_fmt W args end
  end.

(** [Result::unwrap] and [Result::expect]. *)
Definition result_unwrap {S E A} (r : E + A) : M S A :=
  match r with inl _ => throw UnwrapErr | inr a => ret a end.
Definition result_expect {S E A} (r : E + A) : M S A :=
  match r with inl _ => throw ExpectFailed | inr a => ret a end.

(** * Lemmas *)

#[global] Arguments Z.setbit : simpl never.
#[global] Arguments Z.testbit : simpl never.
#[global] Arguments Z.clearbit : simpl never.

Create HintDb leaf.

Lemma bind_Ok {S A B} (m : M S A) (k : A -> M S B) s a s' :
  m s = Ok (a, s') -> bind m k s = k a s'.
Proof. intros H. unfold bind. by rewrite H. Qed.

Lemma bind_gets {S A B} (f : S -> A) (k : A -> M S B) s : bind (gets f) k s = k (f s) s.
Proof. done. Qed.

Lemma bind_modify {S B} (f : S -> S) (k : unit -> M S B) s : bind (modify f) k s = k tt (f s).
Proof. done. Qed.

Lemma bind_ret {S A B} (a : A) (k : A -> M S B) s : bind (ret a) k s = k a s.
Proof. done. Qed.

Lemma bind_assoc {S A B C} (m : M S A) (k : A -> M S B) (h : B -> M S C) s :
  bind (bind m k) h s = bind m (fun a => bind (k a) h) s.
Proof. unfold bind. by destruct (m s) as [[a s']| |]. Qed.

Lemma bind_inv {S A B} (m : M S A) (k : A -> M S B) s b s'' :
  bind m k s = Ok (b, s'') -> exists a s', m s = Ok (a, s') /\ k a s' = Ok (b, s'').
Proof.
  unfold bind. destruct (m s) as [[a s']| |]; simpl; intros H; try discriminate.
  by exists a, s'.
Qed.

Lemma arith_fits `{P : Profile} w x : fits w x -> arith w x = Ok x.
Proof. intros H. unfold arith. by rewrite decide_True. Qed.

Lemma arith_wrap w x : @arith release_profile w x = Ok (wrap w x).
Proof.
  unfold arith, wrap. case_decide as H; [|done]. by rewrite Z.mod_small.
Qed.

Lemma wrap_fits w x : 0 <= w -> fits w (wrap w x).
Proof. intros. apply Z.mod_pos_bound. by apply Z.pow_pos_nonneg. Qed.

Lemma wrap_small w x : fits w x -> wrap w x = x.
Proof. apply Z.mod_small. Qed.

(** A round of a loop, from the run of that round alone. *)
Lemma bind_ret_tt {S A} (f : M S A) (g : M S unit) s s' :
  bind f (fun _ => ret tt) s = Ok (tt, s') -> bind f (fun _ => g) s = g s'.
Proof. unfold bind. destruct (f s) as [[v s1]| |]; intros E; [|discriminate..]. by injection E as ->. Qed.

Lemma for_each_cons {S A} (body : A -> M S unit) x xs s :
  for_each (x :: xs) body s = bind (body x) (fun _ => for_each xs body) s.
Proof. done. Qed.

Lemma for_each_one {S A} (body : A -> M S unit) x s : for_each [x] body s = body x s.
Proof. rewrite for_each_cons. unfold bind. by destruct (body x s) as [[[] s']| |]. Qed.

(** A loop whose body, under the invariant, is a pure step is a fold of that step. *)
Lemma for_each_fold {S A} (I : S -> Prop) (step : A -> S -> S) (body : A -> M S unit) xs s :
  (forall x s, x ∈ xs -> I s -> body x s = Ok (tt, step x s) /\ I (step x s)) ->
  I s ->
  for_each xs body s = Ok (tt, foldl (fun s x => step x s) s xs) /\
  I (foldl (fun s x => step x s) s xs).
Proof.
  revert s. induction xs as [|x xs IH]; intros s Hb Hs; [done|].
  destruct (Hb x s) as [E HI]; [by apply list_elem_of_here|done|].
  rewrite for_each_cons, (bind_Ok _ _ _ _ _ E). apply IH; [|done].
  intros y s' Hy. apply Hb. by apply list_elem_of_further.
Qed.

Lemma for_each_app {S A} (body : A -> M S unit) xs ys s :
  for_each (xs ++ ys) body s = (for_each xs body ;; for_each ys body) s.
Proof.
  revert s. induction xs as [|x xs IH]; intros s; [done|].
  rewrite <- app_comm_cons, for_each_cons. unfold bind. rewrite for_each_cons. unfold bind. destruct (body x s) as [[[] s']| |]; simpl; [|done..].
  apply IH.
Qed.

(** ** Equality of programs

    Two programs are equal when they do the same on every state; programs can be rewritten with it. *)
Definition meq {S A} (m k : M S A) : Prop := forall s, m s = k s.
Infix "≈" := meq (at level 70) : leaf_scope.

#[export] Instance meq_equivalence {S A} : Equivalence (@meq S A).
Proof.
  split; [by intros m s|by intros m k E s; rewrite E|]. intros m k h E1 E2 s. by rewrite E1, E2.
Qed.

#[export] Instance bind_proper {S A B} : Proper (meq ==> pointwise_relation A meq ==> meq) (@bind S A B).
Proof.
  intros m m' E k k' E' s. unfold bind. rewrite E. destruct (m' s) as [[a s']| |]; [apply E'|done..].
Qed.

#[export] Instance for_each_proper {S A} (xs : list A) : Proper (pointwise_relation A meq ==> meq) (@for_each S A xs).
Proof.
  intros f f' E. induction xs as [|x xs IH]; [done|]. intros s. rewrite !for_each_cons.
  apply bind_proper; [apply E|intros []; exact IH].
Qed.

#[export] Instance zoom_proper {S A B} (l : lens S A) : Proper (meq ==> meq) (@zoom S A B l).
Proof. intros m k E s. unfold zoom. by rewrite E. Qed.

#[export] Instance with_lock_proper {S A B} (l : lens S (mutex A)) : Proper (meq ==> meq) (@with_lock S A B l).
Proof. intros m k E s. unfold with_lock. by rewrite E. Qed.

Lemma zoom_bind {S A B C} (l : lens S A) `{!LensLaws l} (m : M A B) (k : B -> M A C) :
  zoom l (bind m k) ≈ bind (zoom l m) (fun b => zoom l (k b)).
Proof.
  intros s. unfold zoom, bind. destruct (m (view l s)) as [[b a]| |]; [|done..]. cbn [res_bind fst snd].
  rewrite view_update. destruct (k b a) as [[c a']| |]; [|done..]. cbn [res_bind fst snd]. by rewrite update_update.
Qed.

Lemma zoom_for_each {S A B} (l : lens S A) `{!LensLaws l} (f : B -> M A unit) xs :
  zoom l (for_each xs f) ≈ for_each xs (fun x => zoom l (f x)).
Proof.
  induction xs as [|x xs IH]; intros s.
  - unfold zoom, for_each, ret. cbn [res_bind fst snd]. by rewrite update_view.
  - rewrite for_each_cons. transitivity (bind (zoom l (f x)) (fun _ => zoom l (for_each xs f)) s); [by apply zoom_bind|].
    apply bind_proper; [done|intros []; exact IH].
Qed.

(** A writer whose [write_str] always succeeds: then [write_fmt] writes all pieces and no [unwrap] or
    [expect] of its result panics. *)
Class FmtInfallible (W S : Type) {FW : FmtWrite W S} (put : list Z -> M S unit) : Prop :=
  write_str_put : forall piece, write_str (W := W) piece ≈ (put piece ;; ret (inr tt)).

Lemma write_fmt_put (W : Type) {S} (put : list Z -> M S unit) `{FI : FmtInfallible W S put} args :
  write_fmt W args ≈ (for_each args put ;; ret (inr tt)).
Proof.
  induction args as [|a args IH]; [done|]. cbn [write_fmt]. rewrite write_str_put. intros s.
  rewrite !bind_assoc. change (for_each (a :: args) put) with (put a ;; for_each args put). rewrite bind_assoc.
  apply bind_proper; [done|]. intros []. exact IH.
Qed.

Lemma write_fmt_unwrap (W : Type) {S} (put : list Z -> M S unit) `{FI : FmtInfallible W S put} args :
  (let! r := write_fmt W args in result_unwrap r) ≈ for_each args put.
Proof.
  rewrite (write_fmt_put W put). intros s. rewrite bind_assoc. unfold bind, ret, result_unwrap.
  by destruct (for_each args put s) as [[[] s']| |].
Qed.

Lemma write_fmt_expect (W : Type) {S} (put : list Z -> M S unit) `{FI : FmtInfallible W S put} args :
  (let! r := write_fmt W args in result_expect r) ≈ for_each args put.
Proof.
  rewrite (write_fmt_put W put). intros s. rewrite bind_assoc. unfold bind, ret, result_expect.
  by destruct (for_each args put s) as [[[] s']| |].
Qed.

Lemma range_cons lo hi : lo < hi -> range lo hi = lo :: range (lo + 1) hi.
Proof.
  intros H. unfold range. rewrite seqZ_cons by lia. f_equal. f_equal; lia.
Qed.

Lemma range_nil lo hi : hi <= lo -> range lo hi = [].
Proof. intros. apply seqZ_nil. lia. Qed.

Lemma elem_of_range x lo hi : x ∈ range lo hi <-> lo <= x < hi.
Proof. unfold range. rewrite elem_of_seqZ. lia. Qed.

Lemma list_eq_ext {A} (l k : list A) :
  length l = length k ->
  (forall i, (i < length l)%nat -> l !! i = k !! i) -> l = k.
Proof.
  intros Hl H. apply list_eq. intros i.
  destruct (decide (i < length l)%nat) as [Hi|Hi]; [by apply H|].
  rewrite !lookup_ge_None_2; [done|lia..].
Qed.

Lemma removelast_cons {A} (x : A) l : l <> [] -> removelast (x :: l) = x :: removelast l.
Proof. by destruct l. Qed.

Lemma list_insert_middle {A} (l k : list A) (x y : A) n :
  n = length l -> <[n := y]> (l ++ x :: k) = l ++ y :: k.
Proof. intros ->. by rewrite insert_app_r_alt, Nat.sub_diag by lia. Qed.

(** [R] holds between any two elements at different positions. *)
Fixpoint pairwise {A} (R : A -> A -> Prop) (l : list A) : Prop :=
  match l with [] => True | x :: l => Forall (R x) l /\ pairwise R l end.

Lemma pairwise_perm {A} (R : A -> A -> Prop) `{!Symmetric R} l k :
  l ≡ₚ k -> pairwise R l -> pairwise R k.
Proof.
  induction 1 as [|x l k Hp IH|x y l|l1 l2 l3 _ IH1 _ IH2]; simpl; auto.
  - intros [Hx Hl]. split; [by rewrite <- Hp|auto].
  - intros [Hy [Hx Hl]]. apply Forall_cons_1 in Hy as [Hyx Hy].
    split_and!; [apply Forall_cons; split; [by symmetry|done]|done|done].
Qed.

Lemma pairwise_fmap {A B} (f : A -> B) (R : B -> B -> Prop) (Q : A -> A -> Prop) l :
  (forall x y, R (f x) (f y) -> Q x y) -> pairwise R (f <$> l) -> pairwise Q l.
Proof.
  intros HR. induction l as [|x l IH]; simpl; [done|]. rewrite Forall_fmap. intros [Hx Hl].
  split; [|auto]. eapply Forall_impl; [exact Hx|]. intros y. apply HR.
Qed.

Lemma pairwise_app_r {A} (R : A -> A -> Prop) l k : pairwise R (l ++ k) -> pairwise R k.
Proof. induction l as [|x l IH]; simpl; [done|]. intros [_ ?]. auto. Qed.

#[global] Instance inner_lens_laws {A} : LensLaws (@inner_lens A).
Proof. by split; intros; simpl; try destruct s. Qed.

(** ** Tactics *)

(** [run_pure] performs the reads and assignments at the head of a program; [run_bind] runs the
    next action whose result the given equation states. *)
Ltac run_pure :=
  repeat first [rewrite bind_gets | rewrite bind_modify | rewrite bind_ret | rewrite bind_assoc].
Ltac run_bind lem := rewrite (bind_Ok _ _ _ _ _ lem); simpl.

(** Goals [Forall P (_ ++ _ :: _)] from hypotheses of the same shape. *)
Ltac solve_Forall :=
  repeat first [setoid_rewrite Forall_app | setoid_rewrite Forall_cons];
  repeat match goal with
    | H : Forall _ (_ ++ _) |- _ => apply Forall_app in H; destruct H
    | H : Forall _ (_ :: _) |- _ => apply Forall_cons in H; destruct H
    end;
  repeat split; auto using Forall_nil_2.

(** Splits [H : bind m k s = Ok _] into its two halves. *)
Ltac inv_bind H :=
  let a := fresh "a" in let s := fresh "s" in let E := fresh "E" in
  apply bind_inv in H as (a & s & E & H).

#[export] Hint Resolve wrap_fits : leaf.
