(* ===== verification/Arch.v ===== *)
(** * The machine layer (src/src/arch, src/src/drivers/pic.rs, exit_qemu of src/src/lib.rs)

    The part of the x86 processor the kernel's HAL touches: RFLAGS and the I/O ports.  Port traffic
    is a trace; what a port answers is a parameter (the hardware), a function of the trace so
    far.  [without_interrupts] works on every state that contains the machine. *)

From S2P Require Import Prelude.

(** An access of [width] bits to an I/O port. *)
Inductive io_event : Type :=
  | PortOut (port width value : Z)
  | PortIn (port width value : Z).

Record Machine : Type := MkMachine { rflags : Z; io : list io_event }.

Definition set_rflags (f : Z) (m : Machine) : Machine := MkMachine f (io m).
Definition add_io (e : io_event) (m : Machine) : Machine := MkMachine (rflags m) (io m ++ [e]).

(** ** x86 instructions (arch/x86/mod.rs) *)

Definition INTERRUPT_FLAG : Z := 0x0200.

(** [pushf; pop]. *)
Definition flags : M Machine Z := gets rflags.
(** [sti] and [cli]. *)
Definition hal_enable_interrupts : M Machine unit :=
  modify (fun m => set_rflags (Z.setbit (rflags m) 9) m).
Definition hal_disable_interrupts : M Machine unit :=
  modify (fun m => set_rflags (Z.clearbit (rflags m) 9) m).
Definition hal_is_interrupts_enabled : M Machine bool :=
  let! f := flags in ret (negb (Z.land f INTERRUPT_FLAG =? 0)).
Definition hal_nop : M Machine unit := ret tt.

(** ** Ports *)

Definition out (port width value : Z) : M Machine unit :=
  modify (add_io (PortOut port width value)).

Section Device.
(** The value the hardware puts on the bus when a port is read. *)
Variable device : list io_event -> Z -> Z.

Definition inp (port width : Z) : M Machine Z :=
  let! v := gets (fun m => wrap width (device (io m) port)) in
  modify (add_io (PortIn port width v)) ;;
  ret v.
End Device.

(** ** The architecture-independent interface (arch/mod.rs)

    A state that contains the machine. *)
Class HasMachine (S : Type) : Type := machine : lens S Machine.

#[export] Instance machine_self : HasMachine Machine := Lens id (fun m _ => m).

Section Hal.
Context {S : Type} `{HM : HasMachine S}.

Definition enable_interrupts : M S unit := zoom machine hal_enable_interrupts.
Definition disable_interrupts : M S unit := zoom machine hal_disable_interrupts.
Definition is_interrupts_enabled : M S bool := zoom machine hal_is_interrupts_enabled.
Definition nop : M S unit := zoom machine hal_nop.

Definition without_interrupts {R} (f : M S R) : M S R :=
  let! enabled := is_interrupts_enabled in
  if enabled : bool then
    disable_interrupts ;;
    let! result := f in
    enable_interrupts ;;
    ret result
  else f.
End Hal.

(** [pic::disable]: mask every line of the slave and of the master controller. *)
Definition pic_disable : M Machine unit :=
  out 0xa1 8 0xff ;;
  out 0x21 8 0xff.

Inductive QemuExitCode : Type := Success | Failed.
Definition exit_code_u32 (c : QemuExitCode) : Z :=
  match c with Success => 0x10 | Failed => 0x11 end.
Definition exit_qemu (exit_code : QemuExitCode) : M Machine unit :=
  out 0xf4 32 (exit_code_u32 exit_code).

(** * Lemmas *)

(** The interrupt flag. *)
Definition IF (m : Machine) : bool := Z.testbit (rflags m) 9.

Lemma interrupt_flag_bit f : negb (Z.land f INTERRUPT_FLAG =? 0) = Z.testbit f 9.
Proof.
  change INTERRUPT_FLAG with (2 ^ 9).
  assert (Z.land f (2 ^ 9) = if Z.testbit f 9 then 2 ^ 9 else 0) as ->.
  { apply Z.bits_inj'. intros n Hn. rewrite Z.land_spec, Z.pow2_bits_eqb by lia.
    destruct (Z.eqb_spec 9 n) as [<-|Hne].
    - destruct (Z.testbit f 9); [by rewrite Z.pow2_bits_true|by rewrite Z.bits_0].
    - rewrite andb_false_r. destruct (Z.testbit f 9); [|by rewrite Z.bits_0].
      by rewrite Z.pow2_bits_false. }
  by destruct (Z.testbit f 9).
Qed.

Lemma set_clear_if f : Z.testbit f 9 = true -> Z.setbit (Z.clearbit f 9) 9 = f.
Proof.
  intros H. apply Z.bits_inj'. intros n Hn.
  destruct (decide (n = 9)) as [->|Hne].
  - rewrite Z.setbit_eq by lia. done.
  - rewrite Z.setbit_neq, Z.clearbit_neq by lia. done.
Qed.

Lemma restore_flags m :
  (if IF m then set_rflags (Z.setbit (Z.clearbit (rflags m) 9) 9) m else m) = m.
Proof.
  unfold IF. destruct (Z.testbit (rflags m) 9) eqn:E; [|done].
  rewrite set_clear_if by done. by destruct m.
Qed.

#[export] Instance machine_self_laws : LensLaws (@machine Machine _).
Proof. by split. Qed.

Section HalLemmas.
Context {S : Type} `{HM : HasMachine S} `{!LensLaws (machine (S:=S))}.

Definition interrupts_on (s : S) : bool := IF (view machine s).

Lemma is_interrupts_enabled_run s : is_interrupts_enabled s = Ok (interrupts_on s, s).
Proof.
  unfold is_interrupts_enabled, zoom, hal_is_interrupts_enabled, flags. run_pure. simpl.
  rewrite update_view. by rewrite interrupt_flag_bit.
Qed.

Definition set_interrupts (b : bool) (s : S) : S :=
  let m := view machine s in
  update machine (set_rflags ((if b then Z.setbit else Z.clearbit) (rflags m) 9) m) s.

Lemma enable_interrupts_run s : enable_interrupts s = Ok (tt, set_interrupts true s).
Proof. done. Qed.

Lemma disable_interrupts_run s : disable_interrupts s = Ok (tt, set_interrupts false s).
Proof. done. Qed.

Lemma interrupts_on_set b s : interrupts_on (set_interrupts b s) = b.
Proof.
  unfold interrupts_on, set_interrupts, IF. rewrite view_update. cbn [rflags set_rflags].
  destruct b; [by apply Z.setbit_eq|by apply Z.clearbit_eq].
Qed.

Lemma without_interrupts_run {R} (f : M S R) s :
  without_interrupts f s =
  if interrupts_on s
  then res_bind (f (set_interrupts false s)) (fun p => Ok (p.1, set_interrupts true p.2))
  else f s.
Proof.
  unfold without_interrupts. rewrite (bind_Ok _ _ _ _ _ (is_interrupts_enabled_run s)).
  destruct (interrupts_on s); [|done].
  rewrite (bind_Ok _ _ _ _ _ (disable_interrupts_run s)). unfold bind at 1.
  by destruct (f (set_interrupts false s)) as [[r s']| |].
Qed.

End HalLemmas.

#[export] Instance without_interrupts_proper {S} `{HM : HasMachine S} {R} : Proper (meq ==> meq) (@without_interrupts S HM R).
Proof. intros f g E. unfold without_interrupts. f_equiv. intros []; [|exact E]. f_equiv. intros []. by f_equiv. Qed.

(** * Properties *)

(** [without_interrupts] is a critical section: the closure runs with the interrupt flag
    clear, its result is returned, and the flag is afterwards what it was before, for every closure
    that leaves interrupts off. *)
Theorem without_interrupts_critical_section {S} `{HM : HasMachine S}
    `{!LensLaws (machine (S:=S))} {R} (f : M S R) (s s' : S) (r : R)
    (Hf : forall t t' x, f t = Ok (x, t') -> interrupts_on t = false -> interrupts_on t' = false)
    (Hrun : without_interrupts f s = Ok (r, s')) :
  interrupts_on s' = interrupts_on s /\
  exists t t', interrupts_on t = false /\ f t = Ok (r, t') /\
    (t = s \/ t = set_interrupts false s) /\ (s' = t' \/ s' = set_interrupts true t').
Proof.
  rewrite without_interrupts_run in Hrun. destruct (interrupts_on s) eqn:E.
  - destruct (f (set_interrupts false s)) as [[x t']| |] eqn:Ef; simplify_eq/=.
    split; [apply interrupts_on_set|]. exists (set_interrupts false s), t'.
    split_and!; auto using interrupts_on_set.
  - split; [by eapply Hf|]. exists s, s'. split_and!; auto.
Qed.

Lemma without_interrupts_critical_section_witness :
  interrupts_on (MkMachine 0x202 [PortOut 0xa1 8 0xff; PortOut 0x21 8 0xff]) =
  interrupts_on (MkMachine 0x202 []).
Proof.
  refine (proj1 (without_interrupts_critical_section pic_disable (MkMachine 0x202 [])
    (MkMachine 0x202 [PortOut 0xa1 8 0xff; PortOut 0x21 8 0xff]) tt _ _)).
  - intros [f i] t' x H. vm_compute in H. injection H as _ <-. trivial.
  - reflexivity.
Defined.
