(* ===== verification/Pit.v ===== *)
(** * The programmable interval timer (src/src/drivers/pit.rs)

    The command byte, the two-byte counter accesses and the divisor computation, run on the machine
    of [Arch].  [decode_command] is the table of the source's comment and [pit_reload] the
    counter's documented low-byte/high-byte protocol: the reference the driver is proved against. *)

From S2P Require Import Prelude Arch.

Definition CHANNEL0 : Z := 0x40.
Definition CHANNEL1 : Z := 0x41.
Definition CHANNEL2 : Z := 0x42.
Definition COMMAND_REG : Z := 0x43.

Inductive Channel : Type := Channel0 | Channel1 | Channel2 | ReadBackCommand.
Inductive AccessMode : Type := LatchCountDownValueCommand | LoByteOnly | HiByteOnly | LoHiByte.
Inductive OperatingMode : Type :=
  | InterruptOnTerminalCount
  | HardwareReTriggerableOneShot
  | RateGenerator
  | SquareWaveGenerator
  | SoftwareTriggeredStrobe
  | HardwareTriggeredStrobe.
Inductive DataMode : Type := Binary | BCD.

Definition channel_u8 (c : Channel) : Z :=
  match c with Channel0 => 0 | Channel1 => 1 | Channel2 => 2 | ReadBackCommand => 3 end.
Definition access_u8 (a : AccessMode) : Z :=
  match a with
  | LatchCountDownValueCommand => 0 | LoByteOnly => 1 | HiByteOnly => 2 | LoHiByte => 3
  end.
Definition operating_u8 (o : OperatingMode) : Z :=
  match o with
  | InterruptOnTerminalCount => 0
  | HardwareReTriggerableOneShot => 1
  | RateGenerator => 2
  | SquareWaveGenerator => 3
  | SoftwareTriggeredStrobe => 4
  | HardwareTriggeredStrobe => 5
  end.
Definition data_u8 (d : DataMode) : Z := match d with Binary => 0 | BCD => 1 end.

(** The command byte; the shifts are on [u8] and drop the bits they push out. *)
Definition mode_byte (c : Channel) (a : AccessMode) (o : OperatingMode) (d : DataMode) : Z :=
  Z.lor (Z.lor (Z.lor (data_u8 d)
    (wrap 8 (Z.shiftl (operating_u8 o) 1)))
    (wrap 8 (Z.shiftl (access_u8 a) 4)))
    (wrap 8 (Z.shiftl (channel_u8 c) 6)).

Definition write_mode (channel : Channel) (access_mode : AccessMode)
    (operating_mode : OperatingMode) (data_mode : DataMode) : M Machine unit :=
  without_interrupts (out COMMAND_REG 8 (mode_byte channel access_mode operating_mode data_mode)).

Definition set_pit_count (count : Z) : M Machine unit :=
  without_interrupts (
    out CHANNEL0 8 (wrap 8 (Z.land count 0xff)) ;;
    out CHANNEL0 8 (wrap 8 (Z.shiftr (Z.land count 0xff00) 8))).

Definition write_channel0_count (count : Z) : M Machine unit :=
  write_mode Channel0 LoHiByte RateGenerator Binary ;;
  set_pit_count count.

Definition read_pit_count (device : list io_event -> Z -> Z) : M Machine Z :=
  without_interrupts (
    out COMMAND_REG 8 0 ;;
    let! count_low := inp device CHANNEL0 8 in
    let! count_high := inp device CHANNEL0 8 in
    ret (Z.lor count_low (wrap 16 (Z.shiftl count_high 8)))).

Definition PIT_FREQUENCY_HZ : Z := 1000.
Definition PIT_DIVIDEND : Z := 1193182.

Section Pit.
Context `{P : Profile}.

(** The divisor of [set_frequency], before the cast to [u16]. *)
Definition frequency_divisor (frequency : Z) : res Z :=
  res_bind (div_w PIT_DIVIDEND frequency) (fun new_divisor =>
  res_bind (rem_w PIT_DIVIDEND frequency) (fun rest =>
  res_bind (div_w frequency 2) (fun half =>
  if half <? rest then add_w 64 new_divisor 1 else Ok new_divisor))).

Definition set_frequency (frequency : Z) : M Machine unit :=
  let! new_divisor := lift (frequency_divisor frequency) in
  write_mode Channel0 LoHiByte RateGenerator Binary ;;
  set_pit_count (wrap 16 new_divisor).

Definition pit_init : M Machine unit := set_frequency PIT_FREQUENCY_HZ.
End Pit.

(** * Reference: the 8253/8254 as the comment in pit.rs describes it *)

(** Bits 6-7, 4-5, 1-3 and 0 of the command register; operating modes 6 and 7 alias 2 and 3. *)
Definition decode_command (b : Z) : Channel * AccessMode * OperatingMode * DataMode :=
  (match Z.land (Z.shiftr b 6) 3 with
   | 0 => Channel0 | 1 => Channel1 | 2 => Channel2 | _ => ReadBackCommand end,
   match Z.land (Z.shiftr b 4) 3 with
   | 0 => LatchCountDownValueCommand | 1 => LoByteOnly | 2 => HiByteOnly | _ => LoHiByte end,
   match Z.land (Z.shiftr b 1) 7 with
   | 0 => InterruptOnTerminalCount | 1 => HardwareReTriggerableOneShot
   | 2 => RateGenerator | 3 => SquareWaveGenerator
   | 4 => SoftwareTriggeredStrobe | 5 => HardwareTriggeredStrobe
   | 6 => RateGenerator | _ => SquareWaveGenerator end,
   if Z.land b 1 =? 0 then Binary else BCD).

(** Channel 0 of the device: the programmed modes, the low byte of a half-written counter, and the
    reload value of the last complete write. *)
Record pit_state : Type := MkPit {
  pit_mode : option (AccessMode * OperatingMode * DataMode);
  pit_low : option Z;
  pit_reload : option Z
}.

Definition pit_step (p : pit_state) (e : io_event) : pit_state :=
  match e with
  | PortOut port _ v =>
      if port =? 0x43 then
        match decode_command v with
        | (Channel0, LatchCountDownValueCommand, _, _) => p
        | (Channel0, a, o, d) => MkPit (Some (a, o, d)) None None
        | _ => p
        end
      else if port =? 0x40 then
        match pit_mode p, pit_low p with
        | Some (LoHiByte, _, _), None => MkPit (pit_mode p) (Some v) (pit_reload p)
        | Some (LoHiByte, _, _), Some low => MkPit (pit_mode p) None (Some (low + 256 * v))
        | _, _ => p
        end
      else p
  | PortIn _ _ _ => p
  end.

(** The device after a trace of port traffic. *)
Definition pit_after (tr : list io_event) : pit_state :=
  foldl pit_step (MkPit None None None) tr.

(** * Lemmas *)

Lemma decode_mode_byte c a o d : decode_command (mode_byte c a o d) = (c, a, o, d).
Proof. by destruct c, a, o, d. Qed.

Lemma low_byte count : fits 16 count -> wrap 8 (Z.land count 0xff) = count mod 256.
Proof.
  intros H. change 0xff with (Z.ones 8). rewrite Z.land_ones by lia.
  unfold wrap. by rewrite Z.mod_mod.
Qed.

Lemma high_byte count : fits 16 count -> wrap 8 (Z.shiftr (Z.land count 0xff00) 8) = count / 256.
Proof.
  unfold fits. intros H. rewrite Z.shiftr_land. change (Z.shiftr 0xff00 8) with (Z.ones 8).
  rewrite Z.land_ones, Z.shiftr_div_pow2 by lia. unfold wrap. rewrite Z.mod_mod by lia.
  apply Z.mod_small. change (2 ^ 8) with 256. change (2 ^ 16) with 65536 in H.
  split; [apply Z.div_pos; lia|apply Z.div_lt_upper_bound; lia].
Qed.

(** A critical section that only does port output. *)
Definition push_io (es : list io_event) (m : Machine) : Machine := MkMachine (rflags m) (io m ++ es).

Lemma without_interrupts_io {R} (f : M Machine R) r es m :
  (forall g, f (MkMachine g (io m)) = Ok (r, MkMachine g (io m ++ es))) ->
  without_interrupts f m = Ok (r, push_io es m).
Proof.
  intros H. rewrite without_interrupts_run. unfold interrupts_on, IF.
  destruct m as [f0 tr]. cbn [view machine machine_self id rflags io] in *. destruct (Z.testbit f0 9) eqn:E.
  - unfold set_interrupts, set_rflags. cbn [view update machine machine_self rflags io id].
    rewrite H. cbn [res_bind fst snd rflags io]. by rewrite set_clear_if.
  - by rewrite H.
Qed.

Lemma write_mode_run c a o d m :
  write_mode c a o d m = Ok (tt, push_io [PortOut COMMAND_REG 8 (mode_byte c a o d)] m).
Proof. by apply without_interrupts_io. Qed.

Lemma set_pit_count_run count m :
  fits 16 count ->
  set_pit_count count m =
  Ok (tt, push_io [PortOut CHANNEL0 8 (count mod 256); PortOut CHANNEL0 8 (count / 256)] m).
Proof.
  intros H. apply without_interrupts_io. intros g.
  unfold bind, out, modify, add_io. simpl. rewrite <- app_assoc. simpl.
  by rewrite low_byte, high_byte.
Qed.

Lemma write_channel0_count_run count m :
  fits 16 count ->
  write_channel0_count count m =
  Ok (tt, push_io [PortOut COMMAND_REG 8 0x34; PortOut CHANNEL0 8 (count mod 256);
                   PortOut CHANNEL0 8 (count / 256)] m).
Proof.
  intros H. unfold write_channel0_count. rewrite (bind_Ok _ _ _ _ _ (write_mode_run _ _ _ _ m)).
  rewrite set_pit_count_run by done. unfold push_io. simpl. by rewrite <- app_assoc.
Qed.

Lemma pit_after_channel0_count tr count :
  pit_after (tr ++ [PortOut COMMAND_REG 8 0x34; PortOut CHANNEL0 8 (count mod 256);
                    PortOut CHANNEL0 8 (count / 256)]) =
  MkPit (Some (LoHiByte, RateGenerator, Binary)) None (Some count).
Proof.
  unfold pit_after. rewrite foldl_app. destruct (foldl _ _ tr) as [mode low reload].
  rewrite (Z.div_mod count 256) at 3 by lia. rewrite Z.add_comm. done.
Qed.

(** A low and a high byte. *)
Lemma lor_bytes lo hi : fits 8 lo -> fits 8 hi -> Z.lor lo (wrap 16 (Z.shiftl hi 8)) = lo + 256 * hi.
Proof.
  unfold fits, wrap. intros Hlo Hhi. rewrite Z.shiftl_mul_pow2 by lia.
  rewrite Z.mod_small by (change (2 ^ 16) with 65536; change (2 ^ 8) with 256 in *; lia).
  rewrite (Z.mul_comm 256). change 256 with (2 ^ 8).
  assert (Z.land lo (hi * 2 ^ 8) = 0) as Hd.
  { apply Z.bits_inj'. intros n Hn. rewrite Z.land_spec, Z.bits_0.
    destruct (Z_lt_dec n 8).
    - by rewrite Z.mul_pow2_bits_low, andb_false_r.
    - rewrite <- (Z.mod_small lo (2 ^ 8)) by done. by rewrite Z.mod_pow2_bits_high by lia. }
  by rewrite (Z.add_nocarry_lxor _ _ Hd), Z.lxor_lor.
Qed.

(** The counter as the device delivers it after the latch command. *)
Definition latched (device : list io_event -> Z -> Z) (tr : list io_event) : Z * Z :=
  let tr1 := tr ++ [PortOut COMMAND_REG 8 0] in
  let low := wrap 8 (device tr1 CHANNEL0) in
  (low, wrap 8 (device (tr1 ++ [PortIn CHANNEL0 8 low]) CHANNEL0)).
Definition pit_reading (device : list io_event -> Z -> Z) (tr : list io_event) : Z :=
  (latched device tr).1 + 256 * (latched device tr).2.

Lemma pit_reading_fits device tr : fits 16 (pit_reading device tr).
Proof.
  unfold pit_reading, latched. cbn [fst snd].
  set (lo := device _ _). set (hi := device _ _).
  pose proof (wrap_fits 8 lo ltac:(lia)). pose proof (wrap_fits 8 hi ltac:(lia)).
  unfold fits in *. change (2 ^ 8) with 256 in *. change (2 ^ 16) with 65536. lia.
Qed.

Lemma read_pit_count_run device m :
  read_pit_count device m =
  Ok (pit_reading device (io m),
      push_io [PortOut COMMAND_REG 8 0; PortIn CHANNEL0 8 (latched device (io m)).1;
               PortIn CHANNEL0 8 (latched device (io m)).2] m).
Proof.
  apply without_interrupts_io. intros g. unfold bind, out, inp, modify, add_io. simpl.
  unfold ret, pit_reading, latched. cbn [fst snd]. rewrite lor_bytes by (by apply wrap_fits).
  by rewrite <- !app_assoc.
Qed.

Section PitLemmas.
Context `{P : Profile}.

Lemma frequency_divisor_run f :
  fits 64 f -> 0 < f ->
  frequency_divisor f =
  Ok (PIT_DIVIDEND / f + (if f / 2 <? PIT_DIVIDEND mod f then 1 else 0)).
Proof.
  intros Hf H0. unfold frequency_divisor, div_w, rem_w. simpl.
  destruct (Z.eqb_spec f 0); [lia|]. simpl.
  destruct (f / 2 <? _); [|by rewrite Z.add_0_r].
  apply arith_fits. unfold fits.
  assert (0 <= PIT_DIVIDEND / f <= PIT_DIVIDEND).
  { split; [apply Z.div_pos; [done|lia]|]. apply Z.div_le_upper_bound; [lia|].
    unfold PIT_DIVIDEND. lia. }
  unfold PIT_DIVIDEND in *. lia.
Qed.

Lemma set_frequency_run f m :
  fits 64 f -> 0 < f ->
  let d := PIT_DIVIDEND / f + (if f / 2 <? PIT_DIVIDEND mod f then 1 else 0) in
  set_frequency f m = write_channel0_count (wrap 16 d) m.
Proof.
  intros Hf H0 d. unfold set_frequency.
  rewrite (bind_Ok _ _ _ d m); [done|].
  unfold lift. by rewrite frequency_divisor_run.
Qed.
End PitLemmas.

(** * Properties *)

(** The command byte [write_mode] sends means, by the register table in the source, exactly
    the channel, access mode, operating mode and data mode it was given. *)
Theorem mode_byte_decodes (c : Channel) (a : AccessMode) (o : OperatingMode) (d : DataMode) :
  fits 8 (mode_byte c a o d) /\ decode_command (mode_byte c a o d) = (c, a, o, d).
Proof. split; [|apply decode_mode_byte]. by destruct c, a, o, d; vm_compute. Qed.

(** Programming channel 0 reaches the device: whatever the trace before, after
    [write_channel0_count c] the timer is a binary rate generator in low/high byte mode whose
    reload value is [c], with no half-written counter; and RFLAGS is what it was. *)
Theorem write_channel0_count_programs_pit (count : Z) (m : Machine) (Hc : fits 16 count) :
  exists m', write_channel0_count count m = Ok (tt, m') /\ rflags m' = rflags m /\
    pit_after (io m') = MkPit (Some (LoHiByte, RateGenerator, Binary)) None (Some count).
Proof.
  eexists. split; [by apply write_channel0_count_run|]. split; [done|].
  apply pit_after_channel0_count.
Qed.

Lemma write_channel0_count_programs_pit_witness :
  exists m', write_channel0_count 65535 (MkMachine 0x202 []) = Ok (tt, m') /\
    pit_reload (pit_after (io m')) = Some 65535.
Proof.
  destruct (write_channel0_count_programs_pit 65535 (MkMachine 0x202 [])) as (m' & H1 & _ & H2).
  - split; [lia|reflexivity].
  - exists m'. split; [exact H1|]. rewrite H2. reflexivity.
Defined.

(** C34: [set_frequency f] loads the divisor nearest to [1193182 / f] (exact halves may go either
    way), when that divisor fits the 16-bit counter, which is for [f >= 19]; frequency 0 panics. *)
Theorem set_frequency_rounds_to_nearest `{P : Profile} (f : Z) (m : Machine)
    (Hf : fits 64 f) (H19 : 19 <= f) :
  set_frequency 0 m = Panic DivideByZero /\
  exists m' d, set_frequency f m = Ok (tt, m') /\
    pit_after (io m') = MkPit (Some (LoHiByte, RateGenerator, Binary)) None (Some d) /\
    2 * Z.abs (PIT_DIVIDEND - d * f) <= f.
Proof.
  split; [done|].
  set (d := PIT_DIVIDEND / f + (if f / 2 <? PIT_DIVIDEND mod f then 1 else 0)).
  pose proof (Z.div_mod PIT_DIVIDEND f ltac:(lia)) as Hdm.
  pose proof (Z.mod_pos_bound PIT_DIVIDEND f ltac:(lia)) as Hr.
  pose proof (Z.div_mod f 2 ltac:(lia)) as Hf2. pose proof (Z.mod_pos_bound f 2 ltac:(lia)) as Hr2.
  assert (0 <= PIT_DIVIDEND / f < 62800) as Hq.
  { split; [apply Z.div_pos; [done|lia]|]. apply Z.div_lt_upper_bound; [lia|].
    unfold PIT_DIVIDEND. lia. }
  assert (fits 16 d) as Hd.
  { unfold fits, d. change (2 ^ 16) with 65536. destruct (_ <? _); lia. }
  rewrite set_frequency_run, wrap_small by (done || lia).
  eexists _, d. split; [by apply write_channel0_count_run|]. split.
  - apply pit_after_channel0_count.
  - unfold d. destruct (Z.ltb_spec (f / 2) (PIT_DIVIDEND mod f)); nia.
Qed.

Lemma set_frequency_rounds_to_nearest_witness :
  exists m' d, @set_frequency release_profile 1000 (MkMachine 2 []) = Ok (tt, m') /\
    pit_reload (pit_after (io m')) = Some d /\ 2 * Z.abs (PIT_DIVIDEND - d * 1000) <= 1000.
Proof.
  destruct (@set_frequency_rounds_to_nearest release_profile 1000 (MkMachine 2 []))
    as (_ & m' & d & H1 & H2 & H3).
  - split; [lia|reflexivity].
  - lia.
  - exists m', d. split; [exact H1|]. split; [rewrite H2; reflexivity|exact H3].
Defined.
