(* ===== verification/Vga.v ===== *)
(** * The VGA text driver (src/src/vga_buffer.rs)

    The 80x25 character matrix at 0xb8000, the [Writer] that scrolls it, colour codes and coloured
    strings.  Every operation is the loop the source runs over the matrix, with array indexing that
    panics out of bounds; the lemmas give each operation a closed form on well-formed writers. *)

From S2P Require Import Prelude.

(** ** Colours *)

Inductive Color : Type :=
  | Black | Blue | Green | Cyan | Red | Magenta | Brown | LightGray
  | DarkGray | LightBlue | LightGreen | LightCyan | LightRed | Pink | Yellow | White.

(** The [#[repr(u8)]] discriminants. *)
Definition color_u8 (c : Color) : Z :=
  match c with
  | Black => 0 | Blue => 1 | Green => 2 | Cyan => 3 | Red => 4 | Magenta => 5 | Brown => 6
  | LightGray => 7 | DarkGray => 8 | LightBlue => 9 | LightGreen => 10 | LightCyan => 11
  | LightRed => 12 | Pink => 13 | Yellow => 14 | White => 15
  end.

Record ColorCode : Type := MkColorCode { color_byte : Z }.

#[export] Instance ColorCode_eq_dec : EqDecision ColorCode.
Proof. solve_decision. Defined.

Definition ColorCode_new (foreground background : Color) : ColorCode :=
  MkColorCode (Z.lor (wrap 8 (Z.shiftl (color_u8 background) 4)) (color_u8 foreground)).

(** ** Characters and coloured strings *)

Record ScreenChar : Type := MkScreenChar { ascii_character : Z; color_code : ColorCode }.

#[export] Instance ScreenChar_eq_dec : EqDecision ScreenChar.
Proof. solve_decision. Defined.

Definition raw_char (c : ScreenChar) : Z := ascii_character c.
Definition raw_color (c : ScreenChar) : ColorCode := color_code c.

Record ColoredString : Type := MkColoredString {
  cs_chars : list ScreenChar;
  curr_color : ColorCode
}.

Definition ColoredString_new : ColoredString :=
  MkColoredString [] (ColorCode_new White Black).

Definition push_char (char : Z) (s : ColoredString) : ColoredString :=
  MkColoredString (cs_chars s ++ [MkScreenChar char (curr_color s)]) (curr_color s).

Definition set_color (color : ColorCode) (s : ColoredString) : ColoredString :=
  MkColoredString (cs_chars s) color.

Definition push_colored (char : Z) (color : ColorCode) (s : ColoredString) : ColoredString :=
  push_char char (set_color color s).

Definition from_string (str : list Z) : ColoredString :=
  foldl (fun ret char => push_char char ret)
    (MkColoredString [] (ColorCode_new White Black)) str.

(** ** The writer *)

Definition BUFFER_HEIGHT : Z := 25.
Definition BUFFER_WIDTH : Z := 80.

(** [buffer] is the referenced matrix, row by row from the top. *)
Record Writer : Type := MkWriter {
  column_position : Z;
  w_color : ColorCode;
  buffer : list (list ScreenChar)
}.

Definition set_column (col : Z) (w : Writer) : Writer :=
  MkWriter col (w_color w) (buffer w).
Definition set_buffer (b : list (list ScreenChar)) (w : Writer) : Writer :=
  MkWriter (column_position w) (w_color w) b.
Definition set_row (row : nat) (r : list ScreenChar) (w : Writer) : Writer :=
  set_buffer (<[row := r]> (buffer w)) w.

(** [self.buffer.chars[row][col].read()]. *)
Definition chars_read (row col : Z) : M Writer ScreenChar := fun w =>
  match buffer w !! Z.to_nat row with
  | Some r =>
      match r !! Z.to_nat col with
      | Some c => Ok (c, w)
      | None => Panic IndexOutOfBounds
      end
  | None => Panic IndexOutOfBounds
  end.

(** [self.buffer.chars[row][col].write(c)]. *)
Definition chars_write (row col : Z) (c : ScreenChar) : M Writer unit := fun w =>
  match buffer w !! Z.to_nat row with
  | Some r =>
      match r !! Z.to_nat col with
      | Some _ => Ok (tt, set_row (Z.to_nat row) (<[Z.to_nat col := c]> r) w)
      | None => Panic IndexOutOfBounds
      end
  | None => Panic IndexOutOfBounds
  end.

Definition get_column_position : M Writer Z := gets column_position.
Definition set_column_position (column_pos : Z) : M Writer unit := modify (set_column column_pos).

Definition clear_row (row : Z) : M Writer unit :=
  let! color := gets w_color in
  let blank := MkScreenChar 32 color in
  for_each (range 0 BUFFER_WIDTH) (fun col => chars_write row col blank).

Definition new_line : M Writer unit :=
  for_each (range 1 BUFFER_HEIGHT) (fun row =>
    for_each (range 0 BUFFER_WIDTH) (fun col =>
      let! character := chars_read row col in
      chars_write (row - 1) col character)) ;;
  clear_row (BUFFER_HEIGHT - 1) ;;
  set_column_position 0.

Definition old_line : M Writer unit :=
  for_each (reverse (range 0 (BUFFER_HEIGHT - 1))) (fun row =>
    for_each (range 0 BUFFER_WIDTH) (fun col =>
      let! character := chars_read row col in
      chars_write (row + 1) col character)) ;;
  clear_row 0 ;;
  set_column_position 0.

(** The loop of [is_current_row_clear], from the first of [cols] on. *)
Fixpoint row_clear_loop (cols : list Z) : M Writer bool :=
  match cols with
  | [] => ret true
  | col :: cols =>
      let! character := chars_read (BUFFER_HEIGHT - 1) col in
      let! color := gets w_color in
      if negb (ascii_character character =? 32)
         || negb (bool_decide (color_code character = color))
      then ret false
      else row_clear_loop cols
  end.

Definition is_current_row_clear : M Writer bool := row_clear_loop (range 0 BUFFER_WIDTH).

(** Returns whether a new line was started. *)
Definition set_byte_colored (char : Z) (color : ColorCode) : M Writer bool :=
  if char =? 10 then new_line ;; ret true
  else
    let! column := gets column_position in
    (if BUFFER_WIDTH <=? column then new_line else ret tt) ;;
    let row := BUFFER_HEIGHT - 1 in
    let! col := gets column_position in
    chars_write row col (MkScreenChar char color) ;;
    ret false.

Definition set_byte (char : Z) : M Writer unit :=
  let! color := gets w_color in
  set_byte_colored char color ;; ret tt.

(** Bytes that are printed as they are: printable ASCII. *)
Definition printable (char : Z) : bool := (0x20 <=? char) && (char <=? 0x7e).

Section Writer.
Context `{P : Profile}.

(** [self.column_position += 1]. *)
Definition advance : M Writer unit :=
  let! col := gets column_position in
  let! col' := lift (add_w 64 col 1) in
  set_column_position col'.

Definition write_byte_colored (char : Z) (color : ColorCode) : M Writer unit :=
  let! newline := set_byte_colored char color in
  if negb newline then advance else ret tt.

Definition write_byte (char : Z) : M Writer unit :=
  let! color := gets w_color in
  write_byte_colored char color.

Definition write_string (s : list Z) : M Writer unit :=
  for_each s (fun char =>
    if printable char || (char =? 10) then write_byte char else write_byte 0xfe).

Definition write_colored_string (colored : ColoredString) : M Writer unit :=
  for_each (cs_chars colored) (fun char =>
    let! column := gets column_position in
    (if BUFFER_WIDTH <=? column then new_line else ret tt) ;;
    let row := BUFFER_HEIGHT - 1 in
    let! col := gets column_position in
    chars_write row col char ;;
    advance).

(** [impl fmt::Write for Writer]. *)
#[export] Instance Writer_write_str : FmtWrite Writer Writer := fun s => write_string s ;; ret (inr tt).

(** ** The character-driver interface of the writer *)

Definition HEIGHT_MASK : Z :=
  let start := 255 in
  let start := Z.land start (Z.lnot (Z.shiftl 1 5)) in
  let start := Z.land start (Z.lnot (Z.shiftl 1 6)) in
  Z.land start (Z.lnot (Z.shiftl 1 7)).

Definition WIDTH_MASK : Z :=
  let start := 255 in
  let start := Z.land start (Z.lnot (Z.shiftl 1 7)) in
  Z.shiftl start 8.

Definition write_char (char : ScreenChar) : M Writer unit :=
  write_byte_colored (ascii_character char) (color_code char).

Definition write_char_indexed (index : Z) (char : ScreenChar) : M Writer unit :=
  chars_write (Z.land index HEIGHT_MASK) (Z.land index WIDTH_MASK) char.

Definition read_char : M Writer ScreenChar := throw Unimplemented.
Definition read_char_indexed (_index : Z) : M Writer ScreenChar := throw Unimplemented.

End Writer.

(** The initial [WRITER]: the colours are fixed, the matrix is whatever the screen shows. *)
Definition WRITER_init (screen : list (list ScreenChar)) : Writer :=
  MkWriter 0 (ColorCode_new Yellow Black) screen.

(** * Lemmas *)

(** ** Well-formed writers *)

Definition row_wf (r : list ScreenChar) : Prop := length r = 80%nat.

Record writer_wf (w : Writer) : Prop := {
  wf_height : length (buffer w) = 25%nat;
  wf_rows : Forall row_wf (buffer w);
  wf_column : fits 64 (column_position w);
}.

Definition blank (w : Writer) : ScreenChar := MkScreenChar 32 (w_color w).
Definition blank_row (w : Writer) : list ScreenChar := replicate 80 (blank w).

(** Closed forms of the two scrolling operations. *)
Definition scrolled_up (w : Writer) : Writer :=
  MkWriter 0 (w_color w) (tail (buffer w) ++ [blank_row w]).
Definition scrolled_down (w : Writer) : Writer :=
  MkWriter 0 (w_color w) (blank_row w :: take 24 (buffer w)).

Lemma length_blank_row w : length (blank_row w) = 80%nat.
Proof. apply length_replicate. Qed.

Lemma wf_row w i r : writer_wf w -> buffer w !! i = Some r -> length r = 80%nat.
Proof. intros Hw H. eapply (Forall_lookup_1 row_wf); [apply Hw|done]. Qed.

Lemma set_row_row i r r' w : set_row i r (set_row i r' w) = set_row i r w.
Proof. unfold set_row, set_buffer. simpl. by rewrite list_insert_insert_eq. Qed.

Lemma set_row_id i r w : buffer w !! i = Some r -> set_row i r w = w.
Proof. destruct w. unfold set_row, set_buffer. simpl. intros. by rewrite list_insert_id. Qed.

Lemma chars_read_run (w : Writer) (row col : nat) r c :
  buffer w !! row = Some r -> r !! col = Some c ->
  chars_read (Z.of_nat row) (Z.of_nat col) w = Ok (c, w).
Proof. intros Hr Hc. unfold chars_read. by rewrite !Nat2Z.id, Hr, Hc. Qed.

Lemma chars_write_run (w : Writer) (row col : nat) r c :
  buffer w !! row = Some r -> (col < length r)%nat ->
  chars_write (Z.of_nat row) (Z.of_nat col) c w = Ok (tt, set_row row (<[col := c]> r) w).
Proof.
  intros Hr Hc. unfold chars_write. rewrite !Nat2Z.id, Hr.
  by destruct (lookup_lt_is_Some_2 _ _ Hc) as [x ->].
Qed.

(** ** Loops over one row *)

(** A loop that writes the cells of [new], left to right, into row [d] replaces the row. *)
Lemma fill_row_from (w : Writer) (d : nat) (old new : list ScreenChar) (body : Z -> M Writer unit) n :
  buffer w !! d = Some old -> length old = 80%nat -> length new = 80%nat -> (n <= 80)%nat ->
  (forall c x r, new !! c = Some x ->
     body (Z.of_nat c) (set_row d r w) =
     chars_write (Z.of_nat d) (Z.of_nat c) x (set_row d r w)) ->
  for_each (range (80 - Z.of_nat n) 80) body
    (set_row d (take (80 - n) new ++ drop (80 - n) old) w) = Ok (tt, set_row d new w).
Proof.
  intros Hold Hlo Hln Hn Hbody. pose proof (lookup_lt_Some _ _ _ Hold) as Hd.
  revert Hn. induction n as [|n IH]; intros Hn.
  { rewrite range_nil by lia. rewrite Nat.sub_0_r.
    rewrite take_ge, drop_ge by lia. by rewrite app_nil_r. }
  rewrite range_cons by lia. rewrite for_each_cons.
  destruct (lookup_lt_is_Some_2 new (80 - S n)) as [x Hx]; [lia|].
  replace (80 - Z.of_nat (S n)) with (Z.of_nat (80 - S n)) by lia.
  assert (E : body (Z.of_nat (80 - S n)) (set_row d (take (80 - S n) new ++ drop (80 - S n) old) w)
    = Ok (tt, set_row d (take (80 - n) new ++ drop (80 - n) old) w)).
  { rewrite (Hbody _ x) by done.
    rewrite (chars_write_run _ _ _ (take (80 - S n) new ++ drop (80 - S n) old)).
    - rewrite set_row_row. do 3 f_equal.
      rewrite insert_app_r_alt by (rewrite length_take; lia).
      rewrite length_take, Nat.min_l, Nat.sub_diag by lia.
      destruct (lookup_lt_is_Some_2 old (80 - S n)) as [y Hy]; [lia|].
      rewrite (drop_S old y) by done. simpl.
      replace (80 - n)%nat with (S (80 - S n)) by lia.
      rewrite (take_S_r new (80 - S n) x) by done. by rewrite <- app_assoc.
    - simpl. by rewrite list_lookup_insert_eq.
    - rewrite length_app, length_take, length_drop. lia. }
  rewrite (bind_Ok _ _ _ _ _ E).
  replace (Z.of_nat (80 - S n) + 1) with (80 - Z.of_nat n) by lia.
  apply IH. lia.
Qed.

Lemma fill_row (w : Writer) (d : nat) (old new : list ScreenChar) (body : Z -> M Writer unit) :
  buffer w !! d = Some old -> length old = 80%nat -> length new = 80%nat ->
  (forall c x r, new !! c = Some x ->
     body (Z.of_nat c) (set_row d r w) =
     chars_write (Z.of_nat d) (Z.of_nat c) x (set_row d r w)) ->
  for_each (range 0 BUFFER_WIDTH) body w = Ok (tt, set_row d new w).
Proof.
  intros Hold Hlo Hln Hbody.
  pose proof (fill_row_from w d old new body 80 Hold Hlo Hln) as H. simpl in H.
  rewrite drop_0 in H. rewrite (set_row_id _ _ _ Hold) in H. apply H; [lia|done].
Qed.

Lemma copy_row (w : Writer) (s d : nat) (rs rd : list ScreenChar) :
  s <> d -> buffer w !! s = Some rs -> buffer w !! d = Some rd ->
  length rs = 80%nat -> length rd = 80%nat ->
  for_each (range 0 BUFFER_WIDTH) (fun col =>
    let! character := chars_read (Z.of_nat s) col in
    chars_write (Z.of_nat d) col character) w = Ok (tt, set_row d rs w).
Proof.
  intros Hne Hs Hd Ls Ld. apply (fill_row _ _ rd); try done.
  intros c x r Hx. rewrite (bind_Ok _ _ _ x (set_row d r w)); [done|].
  apply (chars_read_run _ _ _ rs); [|done].
  simpl. by rewrite list_lookup_insert_ne.
Qed.

Lemma clear_row_run (w : Writer) (row : nat) :
  writer_wf w -> (row < 25)%nat ->
  clear_row (Z.of_nat row) w = Ok (tt, set_row row (blank_row w) w).
Proof.
  intros Hw Hr. destruct (lookup_lt_is_Some_2 (buffer w) row) as [r E].
  { rewrite (wf_height w) by done. lia. }
  unfold clear_row. run_pure.
  apply (fill_row _ _ r); [done|by eapply wf_row|apply length_blank_row|].
  intros c x r' Hx. apply lookup_replicate in Hx as [-> _]. done.
Qed.

(** ** Scrolling *)

Lemma rows_up (pre post : list (list ScreenChar)) x col color :
  Forall row_wf (pre ++ x :: post) ->
  for_each (range (Z.of_nat (length pre) + 1) (Z.of_nat (length pre) + 1 + Z.of_nat (length post)))
    (fun row => for_each (range 0 BUFFER_WIDTH) (fun col =>
      let! character := chars_read row col in
      chars_write (row - 1) col character))
    (MkWriter col color (pre ++ x :: post)) =
  Ok (tt, MkWriter col color (pre ++ post ++ [default x (last post)])).
Proof.
  revert pre x. induction post as [|y post IH]; intros pre x Hwf.
  { rewrite range_nil by (simpl; lia). done. }
  rewrite range_cons by (simpl; lia).
  assert (Forall row_wf ((pre ++ [y]) ++ y :: post)) as Hwf'.
  { solve_Forall. }
  rewrite for_each_cons. erewrite bind_Ok.
  2:{ replace (Z.of_nat (length pre) + 1) with (Z.of_nat (S (length pre))) by lia.
      replace (Z.of_nat (S (length pre)) - 1) with (Z.of_nat (length pre)) by lia.
      rewrite !Forall_app, !Forall_cons in Hwf. destruct_and!.
      apply (copy_row _ (S (length pre)) (length pre) y x); [lia| | |done|done]; simpl.
      - rewrite lookup_app_r by lia.
        by replace (S (length pre) - length pre)%nat with 1%nat by lia.
      - by rewrite list_lookup_middle. }
  unfold set_row, set_buffer. simpl. rewrite list_insert_middle by done.
  specialize (IH (pre ++ [y]) y Hwf'). rewrite length_app in IH. simpl in IH.
  rewrite <- !app_assoc in IH. simpl in IH.
  replace (Z.of_nat (length pre) + 1 + 1) with (Z.of_nat (length pre + 1) + 1) by lia.
  replace (Z.of_nat (length pre) + 1 + Z.of_nat (S (length post)))
    with (Z.of_nat (length pre + 1) + 1 + Z.of_nat (length post)) by lia.
  rewrite IH. destruct post as [|z post]; [done|]. rewrite last_cons_cons.
  destruct (last (z :: post)) eqn:E; [done|]. by apply last_None in E.
Qed.

Lemma rows_down (pre post : list (list ScreenChar)) x col color :
  Forall row_wf (pre ++ x :: post) ->
  for_each (reverse (range 0 (Z.of_nat (length pre))))
    (fun row => for_each (range 0 BUFFER_WIDTH) (fun col =>
      let! character := chars_read row col in
      chars_write (row + 1) col character))
    (MkWriter col color (pre ++ x :: post)) =
  Ok (tt, MkWriter col color (default x (head pre) :: pre ++ post)).
Proof.
  revert x post. induction pre as [|y pre IH] using rev_ind; intros x post Hwf.
  { rewrite range_nil by (simpl; lia). done. }
  assert (reverse (range 0 (Z.of_nat (length (pre ++ [y])))) =
          Z.of_nat (length pre) :: reverse (range 0 (Z.of_nat (length pre)))) as ->.
  { rewrite length_app, Nat2Z.inj_add. unfold range. rewrite !Z.sub_0_r. simpl.
    rewrite seqZ_app by lia. rewrite reverse_app. by rewrite Z.add_0_l. }
  rewrite <- app_assoc in *. simpl in *.
  assert (Forall row_wf (pre ++ y :: y :: post)) as Hwf'.
  { solve_Forall. }
  rewrite for_each_cons. erewrite bind_Ok.
  2:{ replace (Z.of_nat (length pre) + 1) with (Z.of_nat (S (length pre))) by lia.
      rewrite !Forall_app, !Forall_cons in Hwf. destruct Hwf as (_ & Hy & Hx & _).
      apply (copy_row _ (length pre) (S (length pre)) y x); [lia| | |done|done]; simpl.
      - by rewrite list_lookup_middle.
      - rewrite lookup_app_r by lia.
        by replace (S (length pre) - length pre)%nat with 1%nat by lia. }
  unfold set_row, set_buffer. simpl.
  rewrite insert_app_r_alt by lia.
  replace (S (length pre) - length pre)%nat with 1%nat by lia. simpl.
  rewrite IH by done. rewrite <- app_assoc. do 3 f_equal. by destruct pre.
Qed.

Lemma new_line_run w : writer_wf w -> new_line w = Ok (tt, scrolled_up w).
Proof.
  intros Hw. destruct w as [col color b]. destruct b as [|x b]; [by destruct Hw|].
  pose proof (wf_height _ Hw) as Hh. pose proof (wf_rows _ Hw) as Hr. simpl in Hh, Hr.
  assert (b <> []) as Hb by (destruct b; simpl in *; congruence).
  destruct (exists_last Hb) as (b' & z & ->). rewrite length_app in Hh. simpl in Hh.
  pose proof (rows_up [] (b' ++ [z]) x col color Hr) as Hup.
  rewrite last_snoc, length_app in Hup. simpl in Hup.
  replace (Z.of_nat 0 + 1 + Z.of_nat (length b' + 1)) with BUFFER_HEIGHT in Hup
    by (unfold BUFFER_HEIGHT; lia).
  replace (Z.of_nat 0 + 1) with 1 in Hup by lia.
  unfold new_line. rewrite (bind_Ok _ _ _ _ _ Hup). clear Hup.
  assert (writer_wf (MkWriter col color ((b' ++ [z]) ++ [z]))) as Hw'.
  { split; simpl; [rewrite !length_app; simpl; lia| |apply Hw].
    solve_Forall. }
  rewrite (bind_Ok _ _ _ _ _ (clear_row_run _ 24 Hw' ltac:(lia))).
  unfold set_column_position, modify, set_row, set_buffer, scrolled_up, set_column. simpl.
  do 3 f_equal. replace 24%nat with (length (b' ++ [z])) by (rewrite length_app; simpl; lia).
  by rewrite list_insert_middle by done.
Qed.

Lemma old_line_run w : writer_wf w -> old_line w = Ok (tt, scrolled_down w).
Proof.
  intros Hw. destruct w as [col color b].
  pose proof (wf_height _ Hw) as Hh. pose proof (wf_rows _ Hw) as Hr. simpl in Hh, Hr.
  destruct (exists_last (l := b)) as (pre & z & ->); [by destruct b|].
  rewrite length_app in Hh. simpl in Hh.
  destruct pre as [|p pre]; [simpl in *; lia|].
  pose proof (rows_down (p :: pre) [] z col color Hr) as Hdown. simpl in Hdown.
  replace (Z.of_nat (S (length pre))) with (BUFFER_HEIGHT - 1) in Hdown
    by (unfold BUFFER_HEIGHT; simpl in *; lia).
  unfold old_line. simpl. rewrite (bind_Ok _ _ _ _ _ Hdown). clear Hdown.
  rewrite app_nil_r.
  assert (writer_wf (MkWriter col color (p :: p :: pre))) as Hw'.
  { split; simpl in *; [lia| |apply Hw].
    solve_Forall. }
  rewrite (bind_Ok _ _ _ _ _ (clear_row_run _ 0 Hw' ltac:(lia))).
  unfold set_column_position, modify, set_row, set_buffer, scrolled_down, set_column. simpl.
  do 4 f_equal. rewrite take_app_length'; [done|simpl in *; lia].
Qed.

Lemma scrolled_up_wf w : writer_wf w -> writer_wf (scrolled_up w).
Proof.
  intros [Hh Hr Hc]. split; simpl.
  - rewrite length_app. destruct (buffer w); simpl in *; lia.
  - apply Forall_app. split; [by apply Forall_tail|].
    apply Forall_singleton, length_blank_row.
  - done.
Qed.

Lemma scrolled_down_wf w : writer_wf w -> writer_wf (scrolled_down w).
Proof.
  intros [Hh Hr Hc]. split; simpl.
  - rewrite length_take. lia.
  - apply Forall_cons. split; [apply length_blank_row|by apply Forall_take].
  - done.
Qed.

(** ** Writing one character *)

(** The scroll that a full bottom row asks for. *)
Definition make_room (w : Writer) : Writer :=
  if 80 <=? column_position w then scrolled_up w else w.

(** [c] stored under the cursor, and stored with the cursor moved past it. *)
Definition stored (c : ScreenChar) (w : Writer) : Writer :=
  let w := make_room w in
  set_buffer (alter (<[Z.to_nat (column_position w) := c]>) 24%nat (buffer w)) w.
Definition typed (c : ScreenChar) (w : Writer) : Writer :=
  let w := stored c w in set_column (column_position w + 1) w.

Lemma set_buffer_wf w b :
  writer_wf w -> length b = 25%nat -> Forall row_wf b -> writer_wf (set_buffer b w).
Proof. intros Hw Hh Hr. split; [done|done|apply Hw]. Qed.

Lemma make_room_wf w : writer_wf w -> writer_wf (make_room w).
Proof. unfold make_room. destruct (80 <=? _); auto using scrolled_up_wf. Qed.

Lemma make_room_column w : writer_wf w -> 0 <= column_position (make_room w) < 80.
Proof.
  intros Hw. pose proof (wf_column _ Hw) as Hc. unfold make_room, fits in *.
  destruct (Z.leb_spec 80 (column_position w)); simpl; lia.
Qed.

Lemma stored_wf c w : writer_wf w -> writer_wf (stored c w).
Proof.
  intros Hw%make_room_wf. apply set_buffer_wf; [done|..].
  - rewrite length_alter. apply Hw.
  - apply Forall_alter; [apply Hw|]. intros r _ Hr. unfold row_wf. by rewrite length_insert.
Qed.

Lemma stored_column c w : column_position (stored c w) = column_position (make_room w).
Proof. done. Qed.

Lemma typed_wf c w : writer_wf w -> writer_wf (typed c w).
Proof.
  intros Hw. pose proof (make_room_column w Hw) as Hc.
  destruct (stored_wf c w Hw) as [? ? ?]. split; [done|done|].
  unfold fits, typed. simpl. lia.
Qed.

Lemma make_room_run w :
  writer_wf w ->
  (if BUFFER_WIDTH <=? column_position w then new_line else ret tt) w = Ok (tt, make_room w).
Proof.
  intros Hw. unfold make_room. change BUFFER_WIDTH with 80.
  destruct (80 <=? _); [by apply new_line_run|done].
Qed.

(** The store into the bottom row that ends every character write. *)
Lemma store_run w c :
  writer_wf w -> 0 <= column_position w < 80 ->
  chars_write (BUFFER_HEIGHT - 1) (column_position w) c w =
  Ok (tt, set_buffer (alter (<[Z.to_nat (column_position w) := c]>) 24%nat (buffer w)) w).
Proof.
  intros Hw Hc. destruct (lookup_lt_is_Some_2 (buffer w) 24) as [r Hr].
  { rewrite (wf_height w) by done. lia. }
  pose proof (chars_write_run w 24 (Z.to_nat (column_position w)) r c Hr) as H.
  rewrite Z2Nat.id in H by lia. change (BUFFER_HEIGHT - 1) with (Z.of_nat 24).
  rewrite H by (rewrite (wf_row w _ _ Hw Hr); lia).
  unfold set_row, set_buffer. do 3 f_equal.
  apply list_eq. intros i. destruct (decide (i = 24%nat)) as [->|Hi].
  - rewrite list_lookup_alter_eq, Hr, list_lookup_insert_eq; [done|].
    by eapply lookup_lt_Some.
  - by rewrite list_lookup_alter_ne, list_lookup_insert_ne.
Qed.

Lemma set_byte_colored_run char color w :
  writer_wf w ->
  set_byte_colored char color w =
  if char =? 10 then Ok (true, scrolled_up w)
  else Ok (false, stored (MkScreenChar char color) w).
Proof.
  intros Hw. unfold set_byte_colored. destruct (char =? 10).
  { by rewrite (bind_Ok _ _ _ _ _ (new_line_run w Hw)). }
  run_pure. rewrite (bind_Ok _ _ _ _ _ (make_room_run w Hw)). run_pure.
  by rewrite (bind_Ok _ _ _ _ _ (store_run _ _ (make_room_wf w Hw) (make_room_column w Hw))).
Qed.

Lemma set_byte_run char w :
  writer_wf w -> char <> 10 ->
  set_byte char w = Ok (tt, stored (MkScreenChar char (w_color w)) w).
Proof.
  intros Hw Hc. unfold set_byte. run_pure.
  pose proof (set_byte_colored_run char (w_color w) w Hw) as H.
  rewrite (proj2 (Z.eqb_neq _ _) Hc) in H. by rewrite (bind_Ok _ _ _ _ _ H).
Qed.

Section WriterLemmas.
Context `{P : Profile}.

Lemma advance_run w :
  fits 64 (column_position w + 1) ->
  advance w = Ok (tt, set_column (column_position w + 1) w).
Proof.
  intros Hc. unfold advance, lift, add_w. run_pure.
  rewrite (bind_Ok _ _ _ (column_position w + 1) w); [done|].
  by rewrite arith_fits.
Qed.

Lemma stored_advance c w :
  writer_wf w -> advance (stored c w) = Ok (tt, typed c w).
Proof.
  intros Hw. apply advance_run. rewrite stored_column.
  pose proof (make_room_column w Hw). unfold fits. lia.
Qed.

Lemma write_byte_colored_run char color w :
  writer_wf w ->
  write_byte_colored char color w =
  Ok (tt, if char =? 10 then scrolled_up w else typed (MkScreenChar char color) w).
Proof.
  intros Hw. unfold write_byte_colored.
  pose proof (set_byte_colored_run char color w Hw) as H.
  destruct (char =? 10); rewrite (bind_Ok _ _ _ _ _ H); simpl; [done|].
  by apply stored_advance.
Qed.

Lemma write_byte_run char w :
  writer_wf w ->
  write_byte char w =
  Ok (tt, if char =? 10 then scrolled_up w else typed (MkScreenChar char (w_color w)) w).
Proof. apply write_byte_colored_run. Qed.

(** ** Writing strings

    A string is a sequence of items: [None] starts a new line, [Some c] shows the cell [c]. *)

Definition apply_item (i : option ScreenChar) (w : Writer) : Writer :=
  match i with None => scrolled_up w | Some c => typed c w end.
Definition apply_items (its : list (option ScreenChar)) (w : Writer) : Writer :=
  foldl (fun w i => apply_item i w) w its.

(** The item a byte of a plain string stands for: bytes outside printable ASCII show as 0xfe. *)
Definition item_of (color : ColorCode) (char : Z) : option ScreenChar :=
  if char =? 10 then None
  else Some (MkScreenChar (if printable char then char else 0xfe) color).

Lemma apply_item_wf i w : writer_wf w -> writer_wf (apply_item i w).
Proof. destruct i; [apply typed_wf|apply scrolled_up_wf]. Qed.

Lemma apply_items_wf its w : writer_wf w -> writer_wf (apply_items its w).
Proof.
  unfold apply_items. revert w. induction its as [|i its IH]; intros w Hw; [done|].
  apply IH. by apply apply_item_wf.
Qed.

Lemma apply_items_app its js w :
  apply_items (its ++ js) w = apply_items js (apply_items its w).
Proof. unfold apply_items. by rewrite foldl_app. Qed.

Lemma apply_item_color i w : w_color (apply_item i w) = w_color w.
Proof.
  destruct i; [|done]. unfold apply_item, typed, stored, make_room. simpl.
  by destruct (80 <=? _).
Qed.

Lemma apply_items_color its w : w_color (apply_items its w) = w_color w.
Proof.
  unfold apply_items. revert w. induction its as [|i its IH]; intros w; [done|].
  simpl. rewrite IH. apply apply_item_color.
Qed.

Lemma write_string_run s w :
  writer_wf w ->
  write_string s w = Ok (tt, apply_items (item_of (w_color w) <$> s) w).
Proof.
  revert w. induction s as [|char s IH]; intros w Hw; [done|].
  unfold write_string. rewrite for_each_cons.
  rewrite (bind_Ok _ _ _ tt (apply_item (item_of (w_color w) char) w)).
  - change (write_string s (apply_item (item_of (w_color w) char) w) =
      Ok (tt, apply_items (item_of (w_color w) <$> s) (apply_item (item_of (w_color w) char) w))).
    rewrite IH by (by apply apply_item_wf). by rewrite apply_item_color.
  - unfold item_of. destruct (char =? 10) eqn:E.
    + rewrite orb_true_r, write_byte_run by done. by rewrite E.
    + rewrite orb_false_r. destruct (printable char);
        rewrite write_byte_run by done; [by rewrite E|done].
Qed.

Lemma write_colored_string_run cs w :
  writer_wf w ->
  write_colored_string cs w = Ok (tt, apply_items (Some <$> cs_chars cs) w).
Proof.
  unfold write_colored_string. generalize (cs_chars cs). clear cs. intros s.
  revert w. induction s as [|c s IH]; intros w Hw; [done|].
  rewrite for_each_cons. rewrite (bind_Ok _ _ _ tt (typed c w)).
  { apply IH. by apply typed_wf. }
  run_pure. rewrite (bind_Ok _ _ _ _ _ (make_room_run w Hw)). run_pure.
  rewrite (bind_Ok _ _ _ _ _ (store_run _ _ (make_room_wf w Hw) (make_room_column w Hw))).
  by apply stored_advance.
Qed.

Lemma write_string_keeps_wf s w w' : writer_wf w -> write_string s w = Ok (tt, w') -> writer_wf w'.
Proof. intros Hw. rewrite write_string_run by exact Hw. intros [= <-]. by apply apply_items_wf. Qed.

Lemma write_colored_string_keeps_wf cs w w' : writer_wf w -> write_colored_string cs w = Ok (tt, w') -> writer_wf w'.
Proof. intros Hw. rewrite write_colored_string_run by exact Hw. intros [= <-]. by apply apply_items_wf. Qed.

#[export] Instance writer_infallible : FmtInfallible Writer Writer write_string.
Proof. by intros s. Qed.
End WriterLemmas.

(** ** The specification of text output

    [layout width cur items] breaks a text into screen lines: [cur] is the line being written, a
    line is ended by [None] or, when it already holds [width] cells, by the next cell. *)
Fixpoint layout {A} (width : nat) (cur : list A) (items : list (option A)) : list (list A) :=
  match items with
  | [] => [cur]
  | None :: items => cur :: layout width [] items
  | Some c :: items =>
      if bool_decide (length cur < width)%nat then layout width (cur ++ [c]) items
      else cur :: layout width [c] items
  end.

(** The last [n] elements. *)
Definition lastn {A} (n : nat) (l : list A) : list A := drop (length l - n) l.

Definition pad (w : Writer) (line : list ScreenChar) : list ScreenChar :=
  line ++ replicate (80 - length line) (blank w).

(** The writer is on a line that shows [cur] and is blank after it, below the 24 rows [above]. *)
Record at_line (w : Writer) (above : list (list ScreenChar)) (cur : list ScreenChar) : Prop := {
  line_buffer : buffer w = above ++ [pad w cur];
  line_column : column_position w = Z.of_nat (length cur);
  line_width : (length cur <= 80)%nat;
  line_above : length above = 24%nat;
  line_rows : Forall row_wf above;
}.

Lemma length_lastn {A} n (l : list A) : length (lastn n l) = Nat.min n (length l).
Proof. unfold lastn. rewrite length_drop. lia. Qed.

Lemma lastn_all {A} n (l : list A) : (length l <= n)%nat -> lastn n l = l.
Proof. intros H. unfold lastn. replace (length l - n)%nat with 0%nat by lia. done. Qed.

Lemma lastn_app_cons {A} n (l k : list A) x :
  length l = n -> lastn n (l ++ x :: k) = lastn n (tail (l ++ [x]) ++ k).
Proof.
  intros <-. unfold lastn. destruct l as [|y l]; simpl.
  { by rewrite !Nat.sub_0_r, !drop_all. }
  rewrite <- app_assoc. simpl. rewrite !length_app. simpl.
  replace (length l + S (length k) - length l)%nat with (S (length k)) by lia.
  by replace (length l + S (length k) - S (length l))%nat with (length k) by lia.
Qed.

Lemma layout_ne {A} width (cur : list A) items : layout width cur items <> [].
Proof.
  revert cur. induction items as [|[c|] items IH]; intros cur; simpl; [done| |done].
  by case_bool_decide.
Qed.

(** No cell is lost or reordered. *)
Lemma layout_concat {A} width (cur : list A) items :
  concat (layout width cur items) = cur ++ omap id items.
Proof.
  revert cur. induction items as [|[c|] items IH]; intros cur; simpl.
  - done.
  - case_bool_decide; simpl; rewrite IH; by rewrite <- ?app_assoc.
  - by rewrite IH.
Qed.

(** No line is wider than the screen. *)
Lemma layout_width {A} width (cur : list A) items :
  (0 < width)%nat -> (length cur <= width)%nat ->
  Forall (fun l => length l <= width)%nat (layout width cur items).
Proof.
  intros H0. revert cur. induction items as [|[c|] items IH]; intros cur Hc; simpl.
  - by apply Forall_singleton.
  - case_bool_decide; [apply IH; rewrite length_app; simpl; lia|].
    apply Forall_cons. split; [done|]. apply IH. simpl. lia.
  - apply Forall_cons. split; [done|]. apply IH. simpl. lia.
Qed.

Lemma length_pad w l : (length l <= 80)%nat -> length (pad w l) = 80%nat.
Proof. intros H. unfold pad. rewrite length_app, length_replicate. lia. Qed.

Lemma pad_color w w' l : w_color w = w_color w' -> pad w l = pad w' l.
Proof. unfold pad, blank. by intros ->. Qed.

Lemma at_line_wf w above cur : at_line w above cur -> writer_wf w.
Proof.
  intros [Hb Hc Hw Ha Hr]. split.
  - rewrite Hb, length_app, Ha. done.
  - rewrite Hb. apply Forall_app. split; [done|]. apply Forall_singleton. by apply length_pad.
  - rewrite Hc. unfold fits. lia.
Qed.

Lemma at_line_new_line w above cur :
  at_line w above cur -> at_line (scrolled_up w) (tail (above ++ [pad w cur])) [].
Proof.
  intros [Hb Hc Hw Ha Hr]. split; simpl; [by rewrite Hb|done|lia|..].
  - destruct above; simpl in *; [lia|]. rewrite length_app. simpl. lia.
  - apply Forall_tail, Forall_app. split; [done|]. apply Forall_singleton. by apply length_pad.
Qed.

Lemma at_line_typed_short w above cur c :
  at_line w above cur -> (length cur < 80)%nat -> at_line (typed c w) above (cur ++ [c]).
Proof.
  intros [Hb Hc Hw Ha Hr] Hlt.
  assert (make_room w = w) as Hroom.
  { unfold make_room. by rewrite (proj2 (Z.leb_gt 80 (column_position w))) by lia. }
  assert (blank (typed c w) = blank w) as Hbl.
  { unfold blank. f_equal. apply (apply_item_color (Some c)). }
  split; try done.
  - unfold pad. rewrite Hbl. unfold typed, stored. rewrite Hroom. simpl.
    rewrite Hb, Hc, Nat2Z.id, alter_app_r_alt, Ha by lia.
    change (24 - 24)%nat with 0%nat. cbn [alter list_alter]. do 2 f_equal. unfold pad.
    rewrite insert_app_r_alt by lia. rewrite Nat.sub_diag, <- app_assoc, length_app.
    change (length [c]) with 1%nat.
    replace (80 - length cur)%nat with (S (80 - (length cur + 1))) by lia. done.
  - unfold typed, stored. rewrite Hroom. simpl. rewrite length_app. simpl. lia.
  - rewrite length_app. simpl. lia.
Qed.

Lemma at_line_typed_full w above cur c :
  at_line w above cur -> length cur = 80%nat ->
  at_line (typed c w) (tail (above ++ [cur])) [c].
Proof.
  intros H Hlt. pose proof (at_line_new_line _ _ _ H) as H'.
  assert (pad w cur = cur) as Hpad.
  { unfold pad. by rewrite Hlt, app_nil_r. }
  rewrite Hpad in H'. apply (at_line_typed_short _ _ _ c) in H'; [|simpl; lia].
  assert (typed c w = typed c (scrolled_up w)) as ->; [|done].
  unfold typed, stored, make_room. simpl.
  rewrite (proj2 (Z.leb_le 80 (column_position w))); [done|].
  rewrite (line_column _ _ _ H). lia.
Qed.

(** ** The output theorem, in the form the components use *)

Lemma layout_head {A} width (cur : list A) items :
  exists l ls, layout width cur items = l :: ls.
Proof. destruct (layout width cur items) as [|l ls] eqn:E; [by apply layout_ne in E|eauto]. Qed.

Lemma at_line_ext w above above' cur cur' :
  at_line w above cur -> above = above' -> cur = cur' -> at_line w above' cur'.
Proof. by intros ? -> ->. Qed.

Lemma apply_items_at_line items w above cur :
  at_line w above cur ->
  let lines := layout 80 cur items in
  at_line (apply_items items w)
    (lastn 24 (above ++ (pad w <$> removelast lines))) (default [] (last lines)).
Proof.
  revert w above cur. induction items as [|[c|] items IH]; intros w above cur H; simpl.
  - rewrite app_nil_r, lastn_all; [exact H|]. by rewrite (line_above _ _ _ H).
  - case_bool_decide as Hlt.
    + pose proof (IH _ _ _ (at_line_typed_short _ _ _ c H Hlt)) as IH'. simpl in IH'.
      eapply at_line_ext; [exact IH'| |done]. do 2 f_equal.
      apply list_fmap_ext. intros _ l _. apply pad_color, (apply_item_color (Some c)).
    + assert (length cur = 80%nat) as Hfull by (pose proof (line_width _ _ _ H); lia).
      pose proof (IH _ _ _ (at_line_typed_full _ _ _ c H Hfull)) as IH'. simpl in IH'.
      destruct (layout_head 80 [c] items) as (l & ls & Hl). rewrite Hl in *.
      eapply at_line_ext; [exact IH'| |done].
      rewrite (removelast_cons cur (l :: ls)) by done. rewrite fmap_cons.
      rewrite lastn_app_cons by apply H.
      assert (pad w cur = cur) as -> by (unfold pad; by rewrite Hfull, app_nil_r).
      do 2 f_equal. apply list_fmap_ext. intros _ k _.
      apply pad_color, (apply_item_color (Some c)).
  - pose proof (IH _ _ _ (at_line_new_line _ _ _ H)) as IH'. simpl in IH'.
    destruct (layout_head 80 (@nil ScreenChar) items) as (l & ls & Hl). rewrite Hl in *.
    eapply at_line_ext; [exact IH'| |done].
    rewrite fmap_cons. by rewrite lastn_app_cons by apply H.
Qed.

Lemma layout_short {A} width (cur xs : list A) items :
  (length cur + length xs <= width)%nat ->
  layout width cur ((Some <$> xs) ++ items) = layout width (cur ++ xs) items.
Proof.
  revert cur. induction xs as [|x xs IH]; intros cur H; simpl in *.
  { by rewrite app_nil_r. }
  rewrite bool_decide_true by lia. rewrite IH by (rewrite length_app; simpl; lia).
  by rewrite <- app_assoc.
Qed.

Lemma items_printable color s :
  Forall (fun c => printable c = true) s ->
  item_of color <$> s = Some <$> ((fun c => MkScreenChar c color) <$> s).
Proof.
  induction 1 as [|c s Hc _ IH]; [done|]. rewrite !fmap_cons, IH. f_equal.
  unfold item_of. rewrite Hc. unfold printable in Hc. by destruct (Z.eqb_spec c 10) as [->|].
Qed.

Lemma row_clear_loop_run w n :
  writer_wf w -> (n <= 80)%nat ->
  row_clear_loop (range (80 - Z.of_nat n) 80) w =
  Ok (bool_decide (drop (80 - n) (default [] (last (buffer w))) = replicate n (blank w)), w).
Proof.
  intros Hw. destruct (exists_last (l := buffer w)) as (b & r & Hb).
  { intros E. pose proof (wf_height w Hw) as H. by rewrite E in H. }
  pose proof (wf_height w Hw) as Hh. rewrite Hb, length_app in Hh. simpl in Hh.
  assert (buffer w !! 24%nat = Some r) as Hr.
  { rewrite Hb. apply list_lookup_middle. lia. }
  pose proof (wf_row _ _ _ Hw Hr) as Hlen.
  rewrite Hb, last_snoc. change (default [] (Some r)) with r.
  induction n as [|n IH]; intros Hn.
  { rewrite range_nil by lia. rewrite drop_ge by lia. done. }
  rewrite range_cons by lia. cbn [row_clear_loop].
  destruct (lookup_lt_is_Some_2 r (80 - S n)) as [x Hx]; [lia|].
  replace (80 - Z.of_nat (S n)) with (Z.of_nat (80 - S n)) by lia.
  rewrite (bind_Ok _ _ _ _ _ (chars_read_run w 24 _ r x Hr Hx)). run_pure.
  rewrite (drop_S r x) by done. replace (S (80 - S n)) with (80 - n)%nat by lia.
  replace (Z.of_nat (80 - S n) + 1) with (80 - Z.of_nat n) by lia.
  rewrite replicate_S. destruct x as [ch co]. unfold blank at 1. simpl.
  destruct (Z.eqb_spec ch 32) as [->|Hne]; simpl.
  - destruct (bool_decide_reflect (co = w_color w)) as [->|Hne]; simpl.
    + rewrite IH by lia. do 2 f_equal. apply bool_decide_ext. split; congruence.
    + unfold ret. by rewrite bool_decide_false by congruence.
  - unfold ret. by rewrite bool_decide_false by congruence.
Qed.

Lemma is_current_row_clear_run w :
  writer_wf w ->
  is_current_row_clear w = Ok (bool_decide (last (buffer w) = Some (blank_row w)), w).
Proof.
  intros Hw. unfold is_current_row_clear, BUFFER_WIDTH.
  pose proof (row_clear_loop_run w 80 Hw ltac:(lia)) as H.
  change (80 - Z.of_nat 80) with 0 in H. rewrite H. do 2 f_equal. change (80 - 80)%nat with 0%nat.
  rewrite drop_0. destruct (last (buffer w)) as [r|] eqn:E.
  - change (default [] (Some r)) with r. apply bool_decide_ext. unfold blank_row. split; congruence.
  - apply last_None in E. pose proof (wf_height w Hw) as Hh. by rewrite E in Hh.
Qed.

(** * Properties *)

Definition spaces : list (list ScreenChar) :=
  replicate 25 (replicate 80 (MkScreenChar 32 (ColorCode_new Yellow Black))).
Definition clear_writer : Writer := WRITER_init spaces.

Lemma clear_writer_at_line : at_line clear_writer (take 24 spaces) [].
Proof. split; try done; [simpl; lia|by repeat constructor]. Defined.

Lemma clear_writer_wf : writer_wf clear_writer.
Proof. exact (at_line_wf _ _ _ clear_writer_at_line). Defined.

(** The element-by-element copying loop of [new_line] is the scroll it stands for: on every
    well-formed screen it does not index out of bounds, it drops the top row, moves each other row
    up by one, appends a blank row in the writer's colour and returns the cursor to column 0. *)
Theorem new_line_scrolls_up (w : Writer) (Hw : writer_wf w) :
  new_line w =
  Ok (tt, MkWriter 0 (w_color w)
            (tail (buffer w) ++ [replicate 80 (MkScreenChar 32 (w_color w))])).
Proof. by apply new_line_run. Qed.

Lemma new_line_scrolls_up_witness :
  new_line clear_writer =
  Ok (tt, MkWriter 0 (w_color clear_writer)
            (tail (buffer clear_writer) ++ [replicate 80 (MkScreenChar 32 (w_color clear_writer))])).
Proof. apply (new_line_scrolls_up clear_writer). exact clear_writer_wf. Defined.

(** [old_line] runs its rows bottom-up so that no row is overwritten before it is copied: it
    moves every row down by one (the bottom one is dropped), blanks the top row and returns the
    cursor to column 0; after [new_line] it brings rows 1 to 24 back to where they were. *)
Theorem old_line_undoes_new_line (w : Writer) (Hw : writer_wf w) :
  old_line w =
    Ok (tt, MkWriter 0 (w_color w)
              (replicate 80 (MkScreenChar 32 (w_color w)) :: take 24 (buffer w))) /\
  (new_line ;; old_line) w =
    Ok (tt, MkWriter 0 (w_color w)
              (replicate 80 (MkScreenChar 32 (w_color w)) :: tail (buffer w))).
Proof.
  split; [by apply old_line_run|].
  rewrite (bind_Ok _ _ _ _ _ (new_line_run w Hw)).
  rewrite old_line_run by (by apply scrolled_up_wf).
  unfold scrolled_down, scrolled_up, blank_row, blank. simpl.
  rewrite take_app_length'; [done|].
  pose proof (wf_height w Hw). destruct (buffer w); simpl in *; lia.
Qed.

Lemma old_line_undoes_new_line_witness :
  (new_line ;; old_line) clear_writer =
    Ok (tt, MkWriter 0 (w_color clear_writer)
              (replicate 80 (MkScreenChar 32 (w_color clear_writer)) :: tail (buffer clear_writer))).
Proof. apply (old_line_undoes_new_line clear_writer). exact clear_writer_wf. Defined.

(** C12: what [write_string] puts on the screen.  Starting on a line that shows [cur], any byte
    string is written without panicking, and the screen is then the last 24 rows of the old rows
    followed by the finished lines, above the line in progress, where the lines are those of
    hard-wrapping the text at 80 columns ([layout]); the cursor is behind the last cell. *)
Theorem write_string_lays_out_text `{P : Profile} (w : Writer) above cur (s : list Z)
    (Hw : at_line w above cur) :
  let lines := layout 80 cur (item_of (w_color w) <$> s) in
  exists w', write_string s w = Ok (tt, w') /\ w_color w' = w_color w /\
    at_line w' (lastn 24 (above ++ (pad w <$> removelast lines))) (default [] (last lines)).
Proof.
  intros lines. exists (apply_items (item_of (w_color w) <$> s) w). split_and!.
  - by apply write_string_run, (at_line_wf w above cur).
  - apply apply_items_color.
  - by apply apply_items_at_line.
Qed.

Lemma write_string_lays_out_text_witness :
  exists w', @write_string release_profile (bytes "two" ++ 10 :: bytes "lines") clear_writer
      = Ok (tt, w') /\ column_position w' = 5.
Proof.
  destruct (@write_string_lays_out_text release_profile clear_writer (take 24 spaces) []
              (bytes "two" ++ 10 :: bytes "lines") clear_writer_at_line) as (w' & H1 & _ & H2).
  exists w'. split; [exact H1|]. rewrite (line_column _ _ _ H2). reflexivity.
Defined.

(** C33: totality and the type invariant of the writer.  From every well-formed writer, wherever
    its cursor stands (also past the right edge), [write_string], [write_colored_string] and
    [write_char] return, keep the screen 25 rows of 80 cells and keep the colour. *)
Theorem writer_operations_preserve_wf `{P : Profile} (w : Writer) s cs c (Hw : writer_wf w) :
  (exists w', write_string s w = Ok (tt, w') /\ writer_wf w' /\ w_color w' = w_color w) /\
  (exists w', write_colored_string cs w = Ok (tt, w') /\ writer_wf w' /\ w_color w' = w_color w) /\
  (exists w', write_char c w = Ok (tt, w') /\ writer_wf w' /\ w_color w' = w_color w).
Proof.
  split_and!; eexists; (split; [|split]).
  - by apply write_string_run.
  - by apply apply_items_wf.
  - apply apply_items_color.
  - by apply write_colored_string_run.
  - by apply apply_items_wf.
  - apply apply_items_color.
  - by apply write_byte_colored_run.
  - destruct (_ =? 10); [by apply scrolled_up_wf|by apply typed_wf].
  - destruct (_ =? 10); [done|]. apply (apply_item_color (Some _)).
Qed.

Lemma writer_operations_preserve_wf_witness :
  exists w', @write_char dev_profile (MkScreenChar 65 (ColorCode_new Red Blue))
               (set_column 1000 clear_writer) = Ok (tt, w') /\ writer_wf w'.
Proof.
  destruct (@writer_operations_preserve_wf dev_profile (set_column 1000 clear_writer) []
    ColoredString_new (MkScreenChar 65 (ColorCode_new Red Blue))) as (_ & _ & w' & H & H' & _).
  - destruct clear_writer_wf as [Hh Hr _]. split; [exact Hh|exact Hr|split; vm_compute; congruence].
  - exists w'. split; assumption.
Defined.

(** The contract of the test [test_println_output], for every text: a printable text that
    fits on the current line, followed by a newline (what [println!] sends to the writer), ends up
    on row 23, cell by cell, right after what the line showed before. *)
Theorem println_shows_on_row_23 `{P : Profile} (w : Writer) above cur (s : list Z)
    (Hw : at_line w above cur) (Hs : Forall (fun c => printable c = true) s)
    (Hfit : (length cur + length s <= 80)%nat) :
  exists w' row, (write_string s ;; write_string [10]) w = Ok (tt, w') /\
    column_position w' = 0 /\ buffer w' !! 23%nat = Some row /\
    forall i c, s !! i = Some c ->
      row !! (length cur + i)%nat = Some (MkScreenChar c (w_color w)).
Proof.
  pose proof (at_line_wf _ _ _ Hw) as Hwf.
  rewrite (bind_Ok _ _ _ _ _ (write_string_run s w Hwf)).
  rewrite write_string_run by (by apply apply_items_wf).
  rewrite apply_items_color, <- apply_items_app.
  rewrite (items_printable _ _ Hs).
  set (cells := (fun c => MkScreenChar c (w_color w)) <$> s).
  pose proof (apply_items_at_line ((Some <$> cells) ++ (item_of (w_color w) <$> [10])) w _ _ Hw) as H.
  rewrite layout_short in H by (unfold cells; by rewrite length_fmap).
  simpl in H. rewrite lastn_app_cons, app_nil_r in H by apply Hw.
  exists (apply_items ((Some <$> cells) ++ [item_of (w_color w) 10]) w), (pad w (cur ++ cells)). split_and!; [done|apply H| |].
  - rewrite (line_buffer _ _ _ H). destruct above as [|a above]; [by destruct Hw|].
    pose proof (line_above _ _ _ Hw) as Ha. simpl in *.
    rewrite lastn_all by (rewrite length_app; simpl; lia).
    rewrite <- app_assoc. apply list_lookup_middle. lia.
  - intros i c Hi. unfold pad. rewrite lookup_app_l.
    + rewrite lookup_app_r by lia. replace (length cur + i - length cur)%nat with i by lia.
      unfold cells. by rewrite list_lookup_fmap, Hi.
    + rewrite length_app. unfold cells. rewrite length_fmap.
      apply lookup_lt_Some in Hi. lia.
Qed.

Lemma println_shows_on_row_23_witness :
  exists w' row, (@write_string release_profile (bytes "hi") ;;
                  @write_string release_profile [10]) clear_writer = Ok (tt, w') /\
    buffer w' !! 23%nat = Some row /\ row !! 1%nat = Some (MkScreenChar 105 (w_color clear_writer)).
Proof.
  destruct (@println_shows_on_row_23 release_profile clear_writer (take 24 spaces) [] (bytes "hi")
    clear_writer_at_line) as (w' & row & H1 & _ & H2 & H3).
  - repeat constructor.
  - simpl. lia.
  - exists w', row. split; [exact H1|]. split; [exact H2|]. apply (H3 1%nat). reflexivity.
Defined.

(** The colours a colour byte encodes, as the VGA hardware reads it: background in the high half,
    foreground in the low half. *)
Definition color_of_u8 (x : Z) : Color :=
  nth (Z.to_nat x)
    [Black; Blue; Green; Cyan; Red; Magenta; Brown; LightGray; DarkGray; LightBlue; LightGreen;
     LightCyan; LightRed; Pink; Yellow; White] Black.

(** A colour code fits in its byte and encodes its two colours without loss: reading the low
    and the high half back gives the foreground and the background. *)
Theorem color_code_roundtrip (fg bg : Color) :
  fits 8 (color_byte (ColorCode_new fg bg)) /\
  color_of_u8 (Z.land (color_byte (ColorCode_new fg bg)) 15) = fg /\
  color_of_u8 (Z.shiftr (color_byte (ColorCode_new fg bg)) 4) = bg.
Proof. destruct fg, bg; vm_compute; repeat split; congruence. Qed.

Lemma index_masks row col :
  0 <= row < 25 -> 0 <= col < 80 ->
  Z.land (row + 256 * col) HEIGHT_MASK = row /\ Z.land (row + 256 * col) WIDTH_MASK = 256 * col.
Proof.
  intros Hr Hc. change HEIGHT_MASK with (Z.ones 5).
  change WIDTH_MASK with (Z.shiftl (Z.ones 7) 8). split.
  - rewrite Z.land_ones by lia. change (2 ^ 5) with 32. symmetry.
    apply (Z.mod_unique _ _ (8 * col)); lia.
  - assert (row + 256 * col = Z.lor row (Z.shiftl col 8)) as ->.
    { rewrite Z.shiftl_mul_pow2 by lia.
      pose proof (Z.add_lor_land row (col * 2 ^ 8)) as Hadd.
      assert (Z.land row (col * 2 ^ 8) = 0) as Hz; [|lia].
      rewrite <- (Z.mod_small row (2 ^ 8)), <- Z.land_ones by lia.
      rewrite <- Z.land_assoc, (Z.land_comm (Z.ones 8)), Z.land_ones by lia.
      rewrite Z.mod_mul by lia. apply Z.land_0_r. }
    rewrite Z.land_lor_distr_l, <- Z.shiftl_land, Z.land_ones by lia.
    rewrite (Z.mod_small col) by lia. rewrite (Z.shiftl_mul_pow2 col) by lia.
    assert (Z.land row (Z.shiftl (Z.ones 7) 8) = 0) as ->; [|rewrite Z.lor_0_l; lia].
    rewrite <- (Z.mod_small row (2 ^ 8)), <- Z.land_ones by lia.
    rewrite <- Z.land_assoc. change (Z.land (Z.ones 8) _) with 0. apply Z.land_0_r.
Qed.

(** C40: what [write_char_indexed] does with the index format its comment documents (first byte a
    row, second byte a column): it masks the column but does not shift it down, so column 0 is
    written and every other column panics with an index out of bounds. *)
Theorem write_char_indexed_only_column_0 (w : Writer) (row col : Z) (c : ScreenChar)
    (Hw : writer_wf w) (Hrow : 0 <= row < 25) (Hcol : 0 <= col < 80) :
  write_char_indexed (row + 256 * col) c w =
  if col =? 0 then Ok (tt, set_row (Z.to_nat row) (<[0%nat := c]> (buffer w !!! Z.to_nat row)) w)
  else Panic IndexOutOfBounds.
Proof.
  destruct (lookup_lt_is_Some_2 (buffer w) (Z.to_nat row)) as [r Hr].
  { rewrite (wf_height w Hw). lia. }
  pose proof (wf_row _ _ _ Hw Hr) as Hlen.
  unfold write_char_indexed, chars_write.
  destruct (index_masks row col Hrow Hcol) as [-> ->].
  rewrite Hr. destruct (Z.eqb_spec col 0) as [->|Hne].
  - destruct (lookup_lt_is_Some_2 r 0) as [x Hx]; [lia|]. change (Z.to_nat (256 * 0)) with 0%nat.
    rewrite Hx. by rewrite (list_lookup_total_correct _ _ _ Hr).
  - by rewrite lookup_ge_None_2 by lia.
Qed.

Lemma write_char_indexed_only_column_0_witness :
  write_char_indexed (3 + 256 * 7) (MkScreenChar 65 (ColorCode_new White Black)) clear_writer =
  Panic IndexOutOfBounds.
Proof.
  apply (write_char_indexed_only_column_0 clear_writer 3 7 (MkScreenChar 65 (ColorCode_new White Black)));
    [exact clear_writer_wf|lia|lia].
Defined.
