(* ===== verification/Shell.v ===== *)
(** * The shell and the kernel's print path (src/src/shell.rs, src/src/print.rs)

    The console state is what these two files share: the [SHELL] and [WRITER] mutexes, the
    [INITIALIZED] flag and the machine.  A method of [Shell] runs while its caller holds the
    [SHELL] guard and takes the [WRITER] guard itself.  The keyboard crate's [KeyCode] and its
    [Debug] text are parameters. *)

From S2P Require Import Prelude Arch Vga.

Record Shell : Type := MkShell {
  prompt : ColoredString;
  written_char_count : Z;
  prompt_enabled : bool
}.

Definition Shell_new (prompt : ColoredString) : Shell := MkShell prompt 0 true.

Record Console : Type := MkConsole {
  shell : mutex Shell;
  initialized : bool;
  writer : mutex Writer;
  console_cpu : Machine
}.

Definition SHELL : lens Console (mutex Shell) :=
  Lens shell (fun x c => MkConsole x (initialized c) (writer c) (console_cpu c)).
Definition INITIALIZED : lens Console bool :=
  Lens initialized (fun x c => MkConsole (shell c) x (writer c) (console_cpu c)).
Definition WRITER : lens Console (mutex Writer) :=
  Lens writer (fun x c => MkConsole (shell c) (initialized c) x (console_cpu c)).
#[export] Instance console_machine : HasMachine Console :=
  Lens console_cpu (fun x c => MkConsole (shell c) (initialized c) (writer c) x).

(** Code that works on the [&mut self] of the shell, or on the writer behind its guard. *)
Definition sh {A} (m : M Shell A) : M Console A := zoom (lens_comp SHELL inner_lens) m.
Definition wr {A} (m : M Writer A) : M Console A := zoom (lens_comp WRITER inner_lens) m.

Definition set_count (n : Z) : M Shell unit :=
  modify (fun s => MkShell (prompt s) n (prompt_enabled s)).
Definition set_enable_prompt (enabled : bool) : M Shell unit :=
  modify (fun s => MkShell (prompt s) (written_char_count s) enabled).

Definition has_shell : M Console bool := gets initialized.

(** ** Key events *)

(** UTF-8, the encoding in which [fmt::Write] receives a [char]. *)
Definition utf8 (c : Z) : list Z :=
  if c <? 0x80 then [c]
  else if c <? 0x800 then
    [Z.lor 0xc0 (Z.shiftr c 6); Z.lor 0x80 (Z.land c 0x3f)]
  else if c <? 0x10000 then
    [Z.lor 0xe0 (Z.shiftr c 12); Z.lor 0x80 (Z.land (Z.shiftr c 6) 0x3f);
     Z.lor 0x80 (Z.land c 0x3f)]
  else
    [Z.lor 0xf0 (Z.shiftr c 18); Z.lor 0x80 (Z.land (Z.shiftr c 12) 0x3f);
     Z.lor 0x80 (Z.land (Z.shiftr c 6) 0x3f); Z.lor 0x80 (Z.land c 0x3f)].

Inductive DecodedKey (KeyCode : Type) : Type :=
  | RawKey (key : KeyCode)
  | Unicode (key : Z).
Arguments RawKey {KeyCode} key.
Arguments Unicode {KeyCode} key.

Section Shell.
Context `{P : Profile}.

Definition shell_init : M Console unit :=
  with_lock WRITER (
    let! clear := wr is_current_row_clear in
    (if negb clear then wr new_line else ret tt) ;;
    let! p := sh (gets prompt) in
    wr (write_colored_string p) ;;
    modify (update INITIALIZED true)).

Definition write_colored (text : ColoredString) : M Console unit :=
  with_lock WRITER (
    for_each (cs_chars text) (fun char =>
      if raw_char char =? 10 then
        wr new_line ;;
        let! p := sh (gets prompt) in
        wr (write_colored_string p) ;;
        sh (set_count 0)
      else if printable (raw_char char) then
        wr (write_byte_colored (raw_char char) (raw_color char))
      else wr (write_byte 0xfe))).

Definition print_prompt : M Console unit :=
  let! s := sh get in
  if prompt_enabled s then wr (write_colored_string (prompt s)) else ret tt.

Definition newline : M Console unit :=
  wr new_line ;;
  print_prompt ;;
  sh (set_count 0).

Definition shell_write (text : list Z) : M Console unit :=
  with_lock WRITER (
    for_each text (fun char =>
      if char =? 10 then newline
      else if printable char then wr (write_byte char)
      else wr (write_byte 0xfe))).

(** [self.written_char_count += 1] and [-= 1]. *)
Definition incr_count : M Shell unit :=
  let! n := gets written_char_count in
  let! n' := lift (add_w 64 n 1) in
  set_count n'.
Definition decr_count : M Shell unit :=
  let! n := gets written_char_count in
  let! n' := lift (sub_w 64 n 1) in
  set_count n'.

(** [writer.set_column_position(writer.get_column_position() - 1)]. *)
Definition column_back : M Writer unit :=
  let! pos := get_column_position in
  let! pos' := lift (sub_w 64 pos 1) in
  set_column_position pos'.

Section KeyEvent.
Context {KeyCode : Type} `{EqDecision KeyCode}.
Variable Backspace : KeyCode.
(** The text [{:?}] formats a key code to. *)
Variable key_debug : KeyCode -> list Z.

Definition BACKSPACE : Z := 8.
Definition ENTER : Z := 10.

Definition key_event (key : DecodedKey KeyCode) : M Console unit :=
  match key with
  | RawKey key =>
      if decide (key = Backspace) then
        let! n := sh (gets written_char_count) in
        if 0 <? n then
          with_lock WRITER (
            let! pos := wr get_column_position in
            (if 0 <? pos then
               wr column_back ;;
               wr (write_byte 32) ;;
               wr column_back
             else ret tt) ;;
            sh decr_count)
        else ret tt
      else
        with_lock WRITER (
          without_interrupts (wr (let! r := write_fmt Writer [key_debug key] in result_unwrap r)) ;;
          sh incr_count)
  | Unicode key =>
      if key =? BACKSPACE then
        let! n := sh (gets written_char_count) in
        if 0 <? n then
          with_lock WRITER (
            let! pos := wr get_column_position in
            (if 0 <? pos then wr column_back
             else
               wr old_line ;;
               wr (set_column_position (BUFFER_WIDTH - 1))) ;;
            wr (set_byte 32) ;;
            sh decr_count)
        else ret tt
      else
        with_lock WRITER (
          if key =? ENTER then newline
          else
            wr (let! r := write_fmt Writer [utf8 key] in result_unwrap r) ;;
            sh incr_count)
  end.
End KeyEvent.

(** [impl fmt::Write for Shell]. *)
#[export] Instance Shell_write_str : FmtWrite Shell Console := fun s => shell_write s ;; ret (inr tt).

(** ** [print!] (print.rs) *)

Definition print (args : list (list Z)) : M Console unit :=
  without_interrupts (
    let! has := has_shell in
    if has : bool then with_lock SHELL (let! r := write_fmt Shell args in result_unwrap r)
    else with_lock WRITER (wr (let! r := write_fmt Writer args in result_unwrap r))).

(** [println!("{}", ...)]: the pieces of the arguments, then the newline. *)
Definition println (args : list (list Z)) : M Console unit := print (args ++ [[10]]).

End Shell.

(** The initial [SHELL] and [INITIALIZED] over a screen. *)
Definition SHELL_init : Shell := Shell_new (from_string (bytes "Test: ")).
Definition console_boot (screen : list (list ScreenChar)) (m : Machine) : Console :=
  MkConsole (mutex_new SHELL_init) false (mutex_new (WRITER_init screen)) m.

(** * Lemmas *)

(** A console with the shell lock [ls], shell [s], flag [ini], writer lock [lw], writer [w]. *)
Abbreviation con ls s ini lw w m := (MkConsole (Mutex ls s) ini (Mutex lw w) m).

#[export] Instance console_machine_laws : LensLaws (@machine Console _).
Proof. split; intros; try done. by destruct s. Qed.

Lemma wr_ok {A} (f : M Writer A) ls s ini lw w m a w' :
  f w = Ok (a, w') -> wr f (con ls s ini lw w m) = Ok (a, con ls s ini lw w' m).
Proof. intros H. unfold wr, zoom. simpl. by rewrite H. Qed.

Lemma sh_ok {A} (f : M Shell A) ls s ini lw w m a s' :
  f s = Ok (a, s') -> sh f (con ls s ini lw w m) = Ok (a, con ls s' ini lw w m).
Proof. intros H. unfold sh, zoom. simpl. by rewrite H. Qed.

Lemma with_writer_ok {A} (body : M Console A) ls s ini w m a ls' s' ini' w' m' lw' :
  body (con ls s ini true w m) = Ok (a, con ls' s' ini' lw' w' m') ->
  with_lock WRITER body (con ls s ini false w m) = Ok (a, con ls' s' ini' false w' m').
Proof. intros H. unfold with_lock. simpl. by rewrite H. Qed.

Lemma with_shell_ok {A} (body : M Console A) s ini lw w m a ls' s' ini' w' m' lw' :
  body (con true s ini lw w m) = Ok (a, con ls' s' ini' lw' w' m') ->
  with_lock SHELL body (con false s ini lw w m) = Ok (a, con false s' ini' lw' w' m').
Proof. intros H. unfold with_lock. simpl. by rewrite H. Qed.

(** Runs the next console action by one of the three lemmas above. *)
Ltac run_wr lem := rewrite (bind_Ok _ _ _ _ _ (wr_ok _ _ _ _ _ _ _ _ _ lem)).
Ltac run_sh lem := rewrite (bind_Ok _ _ _ _ _ (sh_ok _ _ _ _ _ _ _ _ _ lem)).

(** A critical section that does not touch the machine leaves RFLAGS as it was. *)
Lemma without_interrupts_con {A} (f : M Console A) ls s ini lw w m a ls' s' ini' lw' w' :
  (forall m, f (con ls s ini lw w m) = Ok (a, con ls' s' ini' lw' w' m)) ->
  without_interrupts f (con ls s ini lw w m) = Ok (a, con ls' s' ini' lw' w' m).
Proof.
  intros H. rewrite without_interrupts_run. unfold interrupts_on, set_interrupts.
  cbn [view update machine console_machine console_cpu shell initialized writer].
  rewrite !H. cbn [res_bind fst snd view update machine console_machine console_cpu shell initialized writer].
  pose proof (restore_flags m) as Hm. destruct (IF m); [|done]. do 3 f_equal. exact Hm.
Qed.

Definition reset_count (s : Shell) : Shell := MkShell (prompt s) 0 (prompt_enabled s).
Definition with_count (n : Z) (s : Shell) : Shell := MkShell (prompt s) n (prompt_enabled s).

(** The prompt cells a new line starts with. *)
Definition shown_prompt (s : Shell) : list ScreenChar :=
  if prompt_enabled s then cs_chars (prompt s) else [].

Definition newline_items (s : Shell) : list (option ScreenChar) :=
  None :: (Some <$> shown_prompt s).

(** The items a text written through the shell stands for: each newline brings the prompt. *)
Definition shell_items (s : Shell) (color : ColorCode) (text : list Z) : list (option ScreenChar) :=
  text ≫= (fun char => if char =? 10 then newline_items s else [item_of color char]).

Section ShellLemmas.
Context `{P : Profile}.

Lemma incr_count_run s :
  fits 64 (written_char_count s + 1) ->
  incr_count s = Ok (tt, with_count (written_char_count s + 1) s).
Proof.
  intros H. unfold incr_count, lift, add_w. run_pure.
  rewrite (bind_Ok _ _ _ (written_char_count s + 1) s); [done|by rewrite arith_fits].
Qed.

Lemma decr_count_run s :
  fits 64 (written_char_count s - 1) ->
  decr_count s = Ok (tt, with_count (written_char_count s - 1) s).
Proof.
  intros H. unfold decr_count, lift, sub_w. run_pure.
  rewrite (bind_Ok _ _ _ (written_char_count s - 1) s); [done|by rewrite arith_fits].
Qed.

Lemma column_back_run w :
  fits 64 (column_position w - 1) ->
  column_back w = Ok (tt, set_column (column_position w - 1) w).
Proof.
  intros H. unfold column_back, lift, sub_w, get_column_position. run_pure.
  rewrite (bind_Ok _ _ _ (column_position w - 1) w); [done|by rewrite arith_fits].
Qed.

Lemma newline_run ls s ini lw w m :
  writer_wf w ->
  newline (con ls s ini lw w m) =
  Ok (tt, con ls (reset_count s) ini lw (apply_items (newline_items s) w) m).
Proof.
  intros Hw. unfold newline, print_prompt.
  run_wr (new_line_run w Hw). rewrite bind_assoc.
  rewrite (bind_Ok _ _ _ s (con ls s ini lw (scrolled_up w) m)) by done.
  unfold newline_items, shown_prompt. destruct (prompt_enabled s).
  - by run_wr (write_colored_string_run (prompt s) _ (scrolled_up_wf w Hw)).
  - done.
Qed.

Lemma shell_write_loop text ls s ini lw w m :
  writer_wf w ->
  for_each text (fun char =>
      if char =? 10 then newline
      else if printable char then wr (write_byte char)
      else wr (write_byte 0xfe)) (con ls s ini lw w m) =
  Ok (tt, con ls (if bool_decide (10 ∈ text) then reset_count s else s) ini lw
            (apply_items (shell_items s (w_color w) text) w) m).
Proof.
  revert s w. induction text as [|char text IH]; intros s w Hw; [done|].
  rewrite for_each_cons. unfold shell_items. rewrite bind_cons, apply_items_app.
  destruct (Z.eqb_spec char 10) as [->|Hne].
  - rewrite (bind_Ok _ _ _ _ _ (newline_run ls s ini lw w m Hw)).
    rewrite IH by (by apply apply_items_wf). rewrite apply_items_color.
    rewrite (bool_decide_true (10 ∈ 10 :: text)) by apply list_elem_of_here.
    by destruct (bool_decide (10 ∈ text)).
  - assert ((if printable char then wr (write_byte char) else wr (write_byte 0xfe))
              (con ls s ini lw w m) =
            Ok (tt, con ls s ini lw (apply_items [item_of (w_color w) char] w) m)) as E.
    { unfold item_of. rewrite (proj2 (Z.eqb_neq _ _) Hne).
      destruct (printable char); apply wr_ok; rewrite write_byte_run by done; [|done].
      by rewrite (proj2 (Z.eqb_neq _ _) Hne). }
    rewrite (bind_Ok _ _ _ _ _ E), IH by (by apply apply_items_wf).
    rewrite apply_items_color.
    by rewrite (bool_decide_ext (10 ∈ char :: text) (10 ∈ text))
      by (rewrite elem_of_cons; split; [intros [?|?]; [congruence|done]|by right]).
Qed.

Lemma shell_write_run text ls s ini w m :
  writer_wf w ->
  shell_write text (con ls s ini false w m) =
  Ok (tt, con ls (if bool_decide (10 ∈ text) then reset_count s else s) ini false
            (apply_items (shell_items s (w_color w) text) w) m).
Proof. intros Hw. by eapply with_writer_ok, shell_write_loop. Qed.

#[export] Instance shell_infallible : FmtInfallible Shell Console shell_write.
Proof. by intros s. Qed.

Lemma writer_lens_laws : LensLaws (lens_comp WRITER inner_lens).
Proof. split; intros; try done. by destruct s as [? ? [] ?]. Qed.

Lemma shell_items_app s color t1 t2 :
  shell_items s color (t1 ++ t2) = shell_items s color t1 ++ shell_items s color t2.
Proof. apply bind_app. Qed.

Lemma shell_items_reset s color text :
  shell_items (reset_count s) color text = shell_items s color text.
Proof. done. Qed.

Lemma shell_write_pieces args ls s ini w m :
  writer_wf w ->
  (let! r := write_fmt Shell args in result_unwrap r) (con ls s ini false w m) =
  Ok (tt, con ls (if bool_decide (10 ∈ concat args) then reset_count s else s) ini false
            (apply_items (shell_items s (w_color w) (concat args)) w) m).
Proof.
  rewrite (write_fmt_unwrap Shell shell_write args _).
  revert s w. induction args as [|a args IH]; intros s w Hw; [done|].
  rewrite for_each_cons, (bind_Ok _ _ _ _ _ (shell_write_run a ls s ini w m Hw)).
  rewrite IH by (by apply apply_items_wf). rewrite apply_items_color. simpl concat.
  rewrite shell_items_app, apply_items_app.
  assert (bool_decide (10 ∈ a ++ concat args) =
          bool_decide (10 ∈ a) || bool_decide (10 ∈ concat args)) as ->.
  { rewrite <- bool_decide_or. apply bool_decide_ext, elem_of_app. }
  by destruct (bool_decide (10 ∈ a)), (bool_decide (10 ∈ concat args)).
Qed.

Lemma write_pieces args w :
  writer_wf w ->
  (let! r := write_fmt Writer args in result_unwrap r) w =
  Ok (tt, apply_items (item_of (w_color w) <$> concat args) w).
Proof.
  rewrite (write_fmt_unwrap Writer write_string args w).
  revert w. induction args as [|a args IH]; intros w Hw; [done|].
  rewrite for_each_cons, (bind_Ok _ _ _ _ _ (write_string_run a w Hw)).
  rewrite IH by (by apply apply_items_wf). rewrite apply_items_color. simpl concat.
  by rewrite fmap_app, apply_items_app.
Qed.

(** ** The line being edited

    The cells [xs] of one logical line, hard-wrapped: full rows [mid], then the first [col] cells
    of the bottom row, which is blank behind the cursor.  A line whose last row is exactly full has
    two such displays (cursor at 80, or at 0 of a fresh row), so this is a relation. *)
Definition line_shows (w : Writer) (xs : list ScreenChar) : Prop :=
  exists top mid bot col,
    writer_wf w /\ column_position w = Z.of_nat col /\ (col <= 80)%nat /\
    buffer w = top ++ mid ++ [bot] /\ concat mid ++ take col bot = xs /\
    drop col bot = replicate (80 - col) (blank w).

Lemma rows_concat_length (mid : list (list ScreenChar)) :
  Forall row_wf mid -> length (concat mid) = (80 * length mid)%nat.
Proof.
  induction 1 as [|r mid Hr _ IH]; [done|]. simpl. rewrite length_app, IH, Hr. lia.
Qed.

Lemma typed_blank c w : blank (typed c w) = blank w.
Proof. unfold blank. f_equal. apply (apply_item_color (Some c)). Qed.

Lemma line_shows_wf w xs : line_shows w xs -> writer_wf w.
Proof. by intros (?&?&?&?&?&_). Qed.

(** Storing into the bottom row of a writer with room. *)
Lemma stored_snoc w c rows bot col :
  length rows = 24%nat -> buffer w = rows ++ [bot] -> column_position w = Z.of_nat col ->
  (col < 80)%nat -> buffer (stored c w) = rows ++ [<[col := c]> bot].
Proof.
  intros Hl Hb Hc Hlt. unfold stored, make_room.
  rewrite (proj2 (Z.leb_gt 80 (column_position w))) by lia. simpl.
  rewrite Hb, Hc, Nat2Z.id, alter_app_r_alt, Hl by lia. done.
Qed.

Lemma line_shows_type w xs c :
  line_shows w xs -> (length xs < 2000)%nat -> line_shows (typed c w) (xs ++ [c]).
Proof.
  intros (top & mid & bot & col & Hw & Hc & H80 & Hb & Hxs & Hd) Hlen.
  pose proof (wf_height w Hw) as Hh. pose proof (wf_rows w Hw) as Hr. rewrite Hb in Hh, Hr.
  rewrite !length_app in Hh. simpl in Hh.
  apply Forall_app in Hr as [Htop [Hmid [Hbot _]%Forall_cons_1]%Forall_app]. unfold row_wf in Hbot.
  destruct (decide (col = 80%nat)) as [->|Hne].
  - (* the bottom row is full: scroll first *)
    destruct top as [|t top].
    { exfalso. simpl in Hh. rewrite <- Hxs, length_app, rows_concat_length, length_take in Hlen
        by done. lia. }
    assert (typed c w = typed c (scrolled_up w)) as ->.
    { unfold typed, stored, make_room. simpl.
      by rewrite (proj2 (Z.leb_le 80 (column_position w))) by lia. }
    exists top, (mid ++ [bot]), (<[0%nat := c]> (blank_row w)), 1%nat. split_and!.
    + by apply typed_wf, scrolled_up_wf.
    + done.
    + lia.
    + change (buffer (stored c (scrolled_up w)) = top ++ (mid ++ [bot]) ++ [<[0%nat:=c]> (blank_row w)]).
      rewrite (assoc (++)). apply (stored_snoc _ _ _ (blank_row w)); [| |done|lia].
      * rewrite !length_app. simpl in *. lia.
      * unfold scrolled_up. cbn [buffer]. by rewrite Hb.
    + rewrite concat_app. simpl. rewrite take_ge in Hxs by lia. rewrite app_nil_r, <- Hxs. done.
    + by rewrite typed_blank.
  - exists top, mid, (<[col := c]> bot), (S col). split_and!.
    + by apply typed_wf.
    + unfold typed. simpl. unfold make_room.
      rewrite (proj2 (Z.leb_gt 80 (column_position w))) by lia. lia.
    + lia.
    + unfold typed. simpl. rewrite (assoc (++)).
      apply stored_snoc; [rewrite length_app; lia|by rewrite <- (assoc (++))|done|lia].
    + rewrite <- Hxs, <- (assoc (++)). f_equal.
      rewrite (take_S_r _ _ c) by (apply list_lookup_insert_eq; lia).
      by rewrite take_insert_ge by lia.
    + rewrite typed_blank, drop_insert_lt by lia.
      replace (80 - col)%nat with (S (80 - S col)) in Hd by lia.
      destruct (lookup_lt_is_Some_2 bot col) as [x Hx]; [lia|].
      rewrite (drop_S bot x) in Hd by done. by injection Hd.
Qed.

Lemma line_shows_types w xs cs :
  line_shows w xs -> (length xs + length cs <= 2000)%nat ->
  line_shows (apply_items (Some <$> cs) w) (xs ++ cs).
Proof.
  revert w xs. induction cs as [|c cs IH]; intros w xs Hw Hlen; simpl in *.
  { by rewrite app_nil_r. }
  rewrite (cons_middle c xs cs), (assoc (++)). apply IH.
  - apply line_shows_type; [done|lia].
  - rewrite length_app. simpl. lia.
Qed.

(** Backspace: the cursor moves back over one cell (to the end of the row above at the left edge,
    scrolling the screen down) and blanks it. *)
Definition erased (w : Writer) : Writer :=
  stored (blank w)
    (if 0 <? column_position w then set_column (column_position w - 1) w
     else set_column 79 (scrolled_down w)).

Lemma set_column_wf w col : writer_wf w -> fits 64 col -> writer_wf (set_column col w).
Proof. intros [Hh Hr _] Hc. by split. Qed.

Lemma erased_base_wf w :
  writer_wf w ->
  writer_wf (if 0 <? column_position w then set_column (column_position w - 1) w
             else set_column 79 (scrolled_down w)).
Proof.
  intros Hw. pose proof (wf_column w Hw) as Hc. unfold fits in Hc.
  destruct (Z.ltb_spec 0 (column_position w)); apply set_column_wf; auto using scrolled_down_wf;
    unfold fits; lia.
Qed.

Lemma erased_color w : w_color (erased w) = w_color w.
Proof.
  unfold erased, stored, make_room. simpl. by repeat (case_match; simpl).
Qed.

Lemma erased_blank w : blank (erased w) = blank w.
Proof. unfold blank. by rewrite erased_color. Qed.

Lemma replicate_cons_app {A} (x : A) n : (0 < n)%nat -> x :: replicate (n - 1) x = replicate n x.
Proof. intros. by replace n with (S (n - 1)) at 2 by lia. Qed.

(** Blanking the last cell of the shown part of a row. *)
Lemma erase_cell (bot : list ScreenChar) col x b :
  (col < 80)%nat -> length bot = 80%nat ->
  drop (S col) bot = replicate (80 - S col) b ->
  bot !! col = Some x ->
  take col (<[col := b]> bot) = take col bot /\
  drop col (<[col := b]> bot) = replicate (80 - col) b /\
  take (S col) bot = take col bot ++ [x].
Proof.
  intros Hc Hl Hd Hx. split_and!.
  - by rewrite take_insert_ge by lia.
  - rewrite (drop_S _ b) by (apply list_lookup_insert_eq; lia).
    rewrite drop_insert_lt, Hd by lia.
    by replace (80 - S col)%nat with ((80 - col) - 1)%nat by lia; rewrite replicate_cons_app by lia.
  - by apply take_S_r.
Qed.

Lemma line_shows_erase w xs c : line_shows w (xs ++ [c]) -> line_shows (erased w) xs.
Proof.
  intros (top & mid & bot & col & Hw & Hc & H80 & Hb & Hxs & Hd).
  pose proof (wf_height w Hw) as Hh. pose proof (wf_rows w Hw) as Hr. rewrite Hb in Hh, Hr.
  rewrite !length_app in Hh. simpl in Hh.
  apply Forall_app in Hr as [Htop [Hmid [Hbot _]%Forall_cons_1]%Forall_app]. unfold row_wf in Hbot.
  pose proof (stored_wf (blank w) _ (erased_base_wf w Hw)) as Hwf. fold (erased w) in Hwf.
  destruct col as [|col].
  - (* at the left edge: the cell is the last of the row above *)
    simpl in Hxs. rewrite app_nil_r in Hxs.
    destruct (exists_last (l := mid)) as (mid' & r & ->); [by intros ->; destruct xs|].
    apply Forall_app in Hmid as [Hmid' [Hr _]%Forall_cons_1]. unfold row_wf in Hr.
    rewrite concat_app in Hxs. simpl in Hxs. rewrite app_nil_r in Hxs.
    rewrite length_app in Hh. simpl in Hh.
    destruct (lookup_lt_is_Some_2 r 79) as [x Hx]; [lia|].
    destruct (erase_cell r 79 x (blank w)) as (H1 & H2 & H3); [lia|done|by rewrite drop_ge by lia|done|].
    rewrite take_ge in H3 by lia. rewrite H3, (assoc (++)) in Hxs.
    apply app_inj_tail in Hxs as [Hxs ->].
    exists (blank_row w :: top), mid', (<[79%nat := blank w]> r), 79%nat. split_and!.
    + done.
    + unfold erased. rewrite Hc. simpl. done.
    + lia.
    + unfold erased. rewrite Hc. simpl (0 <? Z.of_nat 0).
      rewrite (assoc (++)). apply (stored_snoc _ _ _ r); [|simpl|done|lia].
      * rewrite !length_app. simpl. lia.
      * rewrite Hb, <- (assoc (++) mid'), !(assoc (++)). f_equal.
        rewrite take_app_length'; [done|]. rewrite !length_app. simpl. lia.
    + by rewrite H1.
    + by rewrite erased_blank.
  - destruct (lookup_lt_is_Some_2 bot col) as [x Hx]; [lia|].
    destruct (erase_cell bot col x (blank w)) as (H1 & H2 & H3); [lia|done|done|done|].
    rewrite H3, (assoc (++)) in Hxs. apply app_inj_tail in Hxs as [Hxs ->].
    exists top, mid, (<[col := blank w]> bot), col. split_and!.
    + done.
    + unfold erased. rewrite stored_column, Hc.
      rewrite (proj2 (Z.ltb_lt 0 (Z.of_nat (S col)))) by lia. unfold make_room. simpl.
      rewrite (proj2 (Z.leb_gt 80 _)) by lia. simpl. lia.
    + lia.
    + unfold erased. rewrite Hc. rewrite (proj2 (Z.ltb_lt 0 (Z.of_nat (S col)))) by lia.
      rewrite (assoc (++)). apply stored_snoc; [rewrite length_app; lia| |simpl; lia|lia].
      by rewrite <- (assoc (++)).
    + by rewrite H1.
    + by rewrite erased_blank.
Qed.

End ShellLemmas.

Section KeyEventLemmas.
Context `{P : Profile} {KeyCode : Type} `{EqDecision KeyCode}.
Variable Backspace : KeyCode.
Variable key_debug : KeyCode -> list Z.
Abbreviation key_event := (key_event Backspace key_debug).

Lemma key_event_backspace_run ls s ini w m :
  writer_wf w -> 0 < written_char_count s < 2 ^ 64 ->
  key_event (Unicode 8) (con ls s ini false w m) =
  Ok (tt, con ls (with_count (written_char_count s - 1) s) ini false (erased w) m).
Proof.
  intros Hw Hn. unfold Shell.key_event. change (8 =? BACKSPACE) with true. cbv iota.
  rewrite (bind_Ok _ _ _ (written_char_count s) (con ls s ini false w m)) by done.
  rewrite (proj2 (Z.ltb_lt 0 _)) by lia. eapply with_writer_ok.
  rewrite (bind_Ok _ _ _ (column_position w) (con ls s ini true w m)) by done.
  pose proof (wf_column w Hw) as Hc. unfold fits in Hc.
  assert ((if 0 <? column_position w then wr column_back
           else wr old_line ;; wr (set_column_position (BUFFER_WIDTH - 1))) (con ls s ini true w m) =
          Ok (tt, con ls s ini true (if 0 <? column_position w
            then set_column (column_position w - 1) w else set_column 79 (scrolled_down w)) m)) as E.
  { destruct (Z.ltb_spec 0 (column_position w)).
    - apply wr_ok, column_back_run. unfold fits. lia.
    - by run_wr (old_line_run w Hw). }
  rewrite (bind_Ok _ _ _ _ _ E).
  run_wr (set_byte_run 32 _ (erased_base_wf w Hw) ltac:(lia)).
  erewrite sh_ok by (apply decr_count_run; unfold fits; lia).
  do 3 f_equal. unfold erased, blank. by destruct (0 <? _).
Qed.

Lemma key_event_backspace_empty ls s ini w m :
  written_char_count s = 0 ->
  key_event (Unicode 8) (con ls s ini false w m) = Ok (tt, con ls s ini false w m).
Proof.
  intros Hn. unfold Shell.key_event. change (8 =? BACKSPACE) with true. cbv iota.
  rewrite (bind_Ok _ _ _ (written_char_count s) (con ls s ini false w m)) by done.
  by rewrite Hn.
Qed.

Lemma key_event_text_run ls s ini w m c :
  writer_wf w -> fits 64 (written_char_count s + 1) -> c <> 8 -> c <> 10 ->
  key_event (Unicode c) (con ls s ini false w m) =
  Ok (tt, con ls (with_count (written_char_count s + 1) s) ini false
            (apply_items (item_of (w_color w) <$> utf8 c) w) m).
Proof.
  intros Hw Hn H8 H10. unfold Shell.key_event.
  rewrite (proj2 (Z.eqb_neq c BACKSPACE) H8). eapply with_writer_ok.
  rewrite (proj2 (Z.eqb_neq c ENTER) H10).
  run_wr (write_pieces [utf8 c] w Hw). cbn [concat]. rewrite app_nil_r. by apply sh_ok, incr_count_run.
Qed.

Lemma key_event_enter_run ls s ini w m :
  writer_wf w ->
  key_event (Unicode 10) (con ls s ini false w m) =
  Ok (tt, con ls (reset_count s) ini false (apply_items (newline_items s) w) m).
Proof. intros Hw. unfold Shell.key_event. by eapply with_writer_ok, newline_run. Qed.

Lemma key_event_raw_run ls s ini w m k :
  writer_wf w -> fits 64 (written_char_count s + 1) -> k <> Backspace ->
  key_event (RawKey k) (con ls s ini false w m) =
  Ok (tt, con ls (with_count (written_char_count s + 1) s) ini false
            (apply_items (item_of (w_color w) <$> key_debug k) w) m).
Proof.
  intros Hw Hn Hk. unfold Shell.key_event. rewrite decide_False by done. eapply with_writer_ok.
  assert (without_interrupts (wr (let! r := write_fmt Writer [key_debug k] in result_unwrap r)) (con ls s ini true w m) =
    Ok (tt, con ls s ini true (apply_items (item_of (w_color w) <$> key_debug k) w) m)) as E.
  { apply without_interrupts_con. intros m'. apply wr_ok. rewrite write_pieces by done. cbn [concat].
    by rewrite app_nil_r. }
  rewrite (bind_Ok _ _ _ _ _ E). by apply sh_ok, incr_count_run.
Qed.

(** ** No key stops the shell *)

(** Counting a key: the counter wraps, or panics where overflow is checked. *)
Lemma incr_count_total s :
  fits 64 (written_char_count s) -> (P = true -> written_char_count s + 1 < 2 ^ 64) ->
  exists n, incr_count s = Ok (tt, with_count n s) /\ fits 64 n /\ n <= written_char_count s + 1.
Proof.
  intros Hn Hp. unfold fits in *. destruct (decide (written_char_count s + 1 < 2 ^ 64)) as [Hlt|Hge].
  - exists (written_char_count s + 1). split; [apply incr_count_run; unfold fits; lia|lia].
  - assert (P = false) as HP by (destruct P; [specialize (Hp eq_refl); lia|done]).
    exists 0. split; [|lia]. unfold incr_count, lift, add_w, arith. run_pure. rewrite decide_False by lia. rewrite HP.
    replace (written_char_count s + 1) with (2 ^ 64) by lia. reflexivity.
Qed.

(** The writer after Backspace on a raw keyboard. *)
Lemma raw_erase_run w : writer_wf w -> 0 < column_position w ->
  exists w', (column_back ;; write_byte 32 ;; column_back) w = Ok (tt, w') /\ writer_wf w'.
Proof.
  intros Hw Hc. pose proof (wf_column w Hw) as Hf. unfold fits in Hf.
  rewrite (bind_Ok _ _ _ _ _ (column_back_run w ltac:(unfold fits; lia))).
  assert (writer_wf (set_column (column_position w - 1) w)) as Hw1 by (apply set_column_wf; [done|unfold fits; lia]).
  rewrite (bind_Ok _ _ _ _ _ (write_byte_run 32 _ Hw1)). change (32 =? 10) with false. cbv iota.
  pose proof (typed_wf (MkScreenChar 32 (w_color (set_column (column_position w - 1) w))) _ Hw1) as Hw2.
  set (w2 := typed _ _) in *.
  assert (0 < column_position w2) as Hc2.
  { change (0 < column_position (make_room (set_column (column_position w - 1) w)) + 1).
    pose proof (make_room_column _ Hw1). lia. }
  pose proof (wf_column w2 Hw2) as Hf2. unfold fits in Hf2.
  eexists. split; [apply column_back_run; unfold fits; lia|]. apply set_column_wf; [done|unfold fits; lia].
Qed.

Lemma key_event_raw_backspace ls s ini w m :
  writer_wf w -> fits 64 (written_char_count s) ->
  exists n w', key_event (RawKey Backspace) (con ls s ini false w m) = Ok (tt, con ls (with_count n s) ini false w' m) /\
    writer_wf w' /\ fits 64 n /\ n <= written_char_count s.
Proof.
  intros Hw Hn. unfold fits in Hn. unfold Shell.key_event. rewrite decide_True by done.
  rewrite (bind_Ok _ _ _ (written_char_count s) (con ls s ini false w m)) by done.
  destruct (Z.ltb_spec 0 (written_char_count s)) as [Hlt|Hge].
  2:{ exists (written_char_count s), w. split; [by destruct s|]. split; [done|]. unfold fits. lia. }
  assert (exists w', (if 0 <? column_position w then wr column_back ;; wr (write_byte 32) ;; wr column_back else ret tt)
    (con ls s ini true w m) = Ok (tt, con ls s ini true w' m) /\ writer_wf w') as (w' & E & Hw').
  { destruct (Z.ltb_spec 0 (column_position w)) as [Hc|_]; [|by exists w].
    destruct (raw_erase_run w Hw Hc) as (w' & E & Hw'). exists w'. split; [|done].
    apply bind_inv in E as ([] & w1 & E1 & E). apply bind_inv in E as ([] & w2 & E2 & E3).
    run_wr E1. run_wr E2. by apply wr_ok. }
  exists (written_char_count s - 1), w'. split; [|split; [done|unfold fits; lia]]. eapply with_writer_ok.
  rewrite (bind_Ok _ _ _ (column_position w) (con ls s ini true w m)) by done.
  rewrite (bind_Ok _ _ _ _ _ E). by apply sh_ok, decr_count_run; unfold fits; lia.
Qed.

(** A key that is shown: its text, and the counter. *)
Lemma key_event_shown text ls s ini w m :
  writer_wf w -> fits 64 (written_char_count s) -> (P = true -> written_char_count s + 1 < 2 ^ 64) ->
  exists n w',
    (wr (let! r := write_fmt Writer [text] in result_unwrap r) ;; sh incr_count) (con ls s ini true w m) =
      Ok (tt, con ls (with_count n s) ini true w' m) /\
    (without_interrupts (wr (let! r := write_fmt Writer [text] in result_unwrap r)) ;; sh incr_count)
      (con ls s ini true w m) = Ok (tt, con ls (with_count n s) ini true w' m) /\
    writer_wf w' /\ fits 64 n /\ n <= written_char_count s + 1.
Proof.
  intros Hw Hn Hp. destruct (incr_count_total s Hn Hp) as (n & E & Hn' & Hle).
  exists n, (apply_items (item_of (w_color w) <$> concat [text]) w). split_and!; [| |by apply apply_items_wf|done..].
  - run_wr (write_pieces [text] w Hw). by apply sh_ok.
  - rewrite (bind_Ok _ _ _ tt (con ls s ini true (apply_items (item_of (w_color w) <$> concat [text]) w) m));
      [by apply sh_ok|].
    apply without_interrupts_con. intros m'. by apply wr_ok, write_pieces.
Qed.

Lemma key_event_total key ls s ini w m :
  writer_wf w -> fits 64 (written_char_count s) -> (P = true -> written_char_count s + 1 < 2 ^ 64) ->
  exists n w', key_event key (con ls s ini false w m) = Ok (tt, con ls (with_count n s) ini false w' m) /\
    writer_wf w' /\ fits 64 n /\ n <= written_char_count s + 1.
Proof.
  intros Hw Hn Hp. destruct key as [k|c].
  - destruct (decide (k = Backspace)) as [->|Hk].
    { destruct (key_event_raw_backspace ls s ini w m Hw Hn) as (n & w' & E & H1 & H2 & H3).
      exists n, w'. split_and!; [done..|lia]. }
    destruct (key_event_shown (key_debug k) ls s ini w m Hw Hn Hp) as (n & w' & _ & E & H1).
    exists n, w'. split; [|done]. unfold Shell.key_event. rewrite decide_False by done. by eapply with_writer_ok.
  - destruct (Z.eq_dec c 8) as [->|H8].
    { unfold fits in *. destruct (Z.eq_dec (written_char_count s) 0) as [H0|H0].
      - exists 0, w. rewrite key_event_backspace_empty by done. split; [|split; [done|lia]]. by destruct s; simpl in *; subst.
      - eexists _, _. split; [apply key_event_backspace_run; [done|lia]|]. split; [|lia].
        by apply stored_wf, erased_base_wf. }
    destruct (Z.eq_dec c 10) as [->|H10].
    { eexists 0, _. split; [by apply key_event_enter_run|]. split; [by apply apply_items_wf|]. unfold fits in *. lia. }
    destruct (key_event_shown (utf8 c) ls s ini w m Hw Hn Hp) as (n & w' & E & _ & H1).
    exists n, w'. split; [|done]. unfold Shell.key_event. rewrite (proj2 (Z.eqb_neq c BACKSPACE) H8).
    eapply with_writer_ok. rewrite (proj2 (Z.eqb_neq c ENTER) H10). exact E.
Qed.

(** ** The line editor *)

(** What a key does to the text typed since the last Enter. *)
Definition editor_step (text : list Z) (key : Z) : list Z :=
  if key =? 8 then removelast text else if key =? 10 then [] else text ++ [key].
Definition editor_text (text keys : list Z) : list Z := foldl editor_step text keys.

Definition edit_key (key : Z) : Prop := key = 8 \/ key = 10 \/ printable key = true.

Definition cells (w : Writer) (text : list Z) : list ScreenChar :=
  (fun c => MkScreenChar c (w_color w)) <$> text.

Lemma length_editor_step text key : (length (editor_step text key) <= S (length text))%nat.
Proof.
  unfold editor_step. destruct (key =? 8); [|destruct (key =? 10)]; simpl.
  - rewrite removelast_firstn_len, length_firstn. lia.
  - lia.
  - rewrite length_app. simpl. lia.
Qed.

Lemma utf8_printable c : printable c = true -> utf8 c = [c].
Proof.
  unfold printable, utf8. intros [H1 H2]%andb_true_iff. apply Z.leb_le in H2.
  by rewrite (proj2 (Z.ltb_lt c 128)) by lia.
Qed.

Lemma newline_shows w xs s :
  line_shows w xs -> (length (shown_prompt s) <= 2000)%nat ->
  line_shows (apply_items (newline_items s) w) (shown_prompt s).
Proof.
  intros H Hlen. pose proof (line_shows_wf _ _ H) as Hw.
  unfold newline_items. change (apply_items (None :: ?l) w) with (apply_items l (scrolled_up w)).
  apply (line_shows_types _ [] (shown_prompt s)); [|simpl; lia].
  exists (tail (buffer w)), [], (blank_row w), 0%nat. split_and!; try done.
  - by apply scrolled_up_wf.
  - lia.
Qed.

(** One key of the editor, with the display it leaves. *)
Lemma editor_key_run ls s ini w m text key :
  edit_key key -> written_char_count s = Z.of_nat (length text) ->
  line_shows w (shown_prompt s ++ cells w text) ->
  (length (shown_prompt s) + S (length text) <= 2000)%nat ->
  exists w', w_color w' = w_color w /\
    key_event (Unicode key) (con ls s ini false w m) =
      Ok (tt, con ls (with_count (Z.of_nat (length (editor_step text key))) s) ini false w' m) /\
    line_shows w' (shown_prompt s ++ cells w (editor_step text key)).
Proof.
  intros Hkey Hn Hshow Hlen. pose proof (line_shows_wf _ _ Hshow) as Hw. unfold editor_step.
  destruct (Z.eqb_spec key 8) as [->|H8]; [|destruct (Z.eqb_spec key 10) as [->|H10]].
  - destruct text as [|c text _] using rev_ind.
    + exists w. split_and!; [done| |done].
      rewrite key_event_backspace_empty by done. destruct s; simpl in *; by subst.
    + rewrite removelast_last. exists (erased w). rewrite length_app in *. change (length [c]) with 1%nat in *. split_and!.
      * apply erased_color.
      * rewrite key_event_backspace_run by (done || lia).
        do 4 f_equal. unfold with_count. f_equal. lia.
      * unfold cells in Hshow. rewrite fmap_app, (assoc (++)) in Hshow.
        by eapply line_shows_erase.
  - exists (apply_items (newline_items s) w). split_and!.
    + apply apply_items_color.
    + by apply key_event_enter_run.
    + rewrite app_nil_r. eapply newline_shows; [done|lia].
  - destruct Hkey as [?|[?|Hp]]; [done..|].
    exists (typed (MkScreenChar key (w_color w)) w). split_and!.
    + apply (apply_item_color (Some _)).
    + rewrite key_event_text_run by (done || (unfold fits; lia)).
      rewrite utf8_printable by done. simpl. unfold item_of.
      rewrite (proj2 (Z.eqb_neq key 10) H10), Hp. do 4 f_equal.
      unfold with_count. f_equal. rewrite length_app. simpl. lia.
    + unfold cells. rewrite fmap_app, (assoc (++)). apply line_shows_type; [done|].
      unfold cells. rewrite length_app, length_fmap. lia.
Qed.

Lemma editor_keys_run keys ls s ini w m text :
  Forall edit_key keys -> written_char_count s = Z.of_nat (length text) ->
  line_shows w (shown_prompt s ++ cells w text) ->
  (length (shown_prompt s) + length text + length keys <= 2000)%nat ->
  exists w',
    for_each keys (fun key => key_event (Unicode key)) (con ls s ini false w m) =
      Ok (tt, con ls (with_count (Z.of_nat (length (editor_text text keys))) s) ini false w' m) /\
    w_color w' = w_color w /\
    line_shows w' (shown_prompt s ++ cells w (editor_text text keys)).
Proof.
  revert s w text. induction keys as [|key keys IH]; intros s w text Hk Hn Hshow Hlen.
  { exists w. split_and!; [|done|done]. destruct s; simpl in *. by subst. }
  apply Forall_cons in Hk as [Hk Hks]. simpl in Hlen.
  destruct (editor_key_run ls s ini w m text key) as (w1 & Hcol & E & H1); [done..|lia|].
  pose proof (length_editor_step text key) as Hl.
  destruct (IH (with_count (Z.of_nat (length (editor_step text key))) s) w1 (editor_step text key))
    as (w' & E' & Hcol' & H'); [done|done| |change (shown_prompt (with_count _ s)) with (shown_prompt s); lia|].
  { unfold cells in *. by rewrite Hcol. }
  exists w'. rewrite for_each_cons, (bind_Ok _ _ _ _ _ E). split_and!.
  - exact E'.
  - congruence.
  - unfold cells in *. rewrite Hcol in H'. exact H'.
Qed.

End KeyEventLemmas.

(** ** Printing and initialisation *)

Section PrintLemmas.
Context `{P : Profile}.

(** Nothing fails: [print!] writes its pieces one after the other. *)
Lemma print_pieces args :
  print args ≈ without_interrupts (
    let! has := has_shell in
    if has : bool then with_lock SHELL (for_each args shell_write)
    else with_lock WRITER (for_each args (fun piece => wr (write_string piece)))).
Proof.
  unfold print. f_equiv. f_equiv. intros [|].
  - by rewrite (write_fmt_unwrap Shell shell_write).
  - unfold wr at 1. rewrite (write_fmt_unwrap Writer write_string). by rewrite zoom_for_each by exact writer_lens_laws.
Qed.

Lemma print_shell_run args s w m :
  writer_wf w ->
  print args (con false s true false w m) =
  Ok (tt, con false (if bool_decide (10 ∈ concat args) then reset_count s else s) true false
            (apply_items (shell_items s (w_color w) (concat args)) w) m).
Proof.
  intros Hw. apply without_interrupts_con. intros m'.
  rewrite (bind_Ok _ _ _ true (con false s true false w m')) by done.
  by eapply with_shell_ok, shell_write_pieces.
Qed.

Lemma print_writer_run args ls s w m :
  writer_wf w ->
  print args (con ls s false false w m) =
  Ok (tt, con ls s false false (apply_items (item_of (w_color w) <$> concat args) w) m).
Proof.
  intros Hw. apply without_interrupts_con. intros m'.
  rewrite (bind_Ok _ _ _ false (con ls s false false w m')) by done.
  by eapply with_writer_ok, wr_ok, write_pieces.
Qed.

Lemma without_interrupts_hang {A} (f : M Console A) c :
  (forall m, f (update machine m c) = Hang) -> without_interrupts f c = Hang.
Proof.
  intros H. rewrite without_interrupts_run. destruct (interrupts_on c).
  - unfold set_interrupts. by rewrite H.
  - rewrite <- (update_view c). apply H.
Qed.

Lemma line_shows_blank w col :
  writer_wf w -> last (buffer w) = Some (blank_row w) ->
  column_position w = Z.of_nat col -> (col <= 80)%nat ->
  line_shows w (replicate col (blank w)).
Proof.
  intros Hw Hl Hc H80. apply last_Some in Hl as [top Hb].
  exists top, [], (blank_row w), col. split_and!; try done; unfold blank_row.
  - rewrite take_replicate. simpl. f_equal. lia.
  - by rewrite drop_replicate.
Qed.

Lemma shell_init_run ls s ini w m :
  writer_wf w ->
  let w1 := if bool_decide (last (buffer w) = Some (blank_row w)) then w else scrolled_up w in
  shell_init (con ls s ini false w m) =
  Ok (tt, con ls s true false (apply_items (Some <$> cs_chars (prompt s)) w1) m).
Proof.
  intros Hw w1. eapply with_writer_ok.
  run_wr (is_current_row_clear_run w Hw).
  assert ((if negb (bool_decide (last (buffer w) = Some (blank_row w))) then wr new_line else ret tt)
            (con ls s ini true w m) = Ok (tt, con ls s ini true w1 m)) as E.
  { unfold w1. destruct (bool_decide _); [done|]. by apply wr_ok, new_line_run. }
  assert (writer_wf w1) as Hw1.
  { unfold w1. destruct (bool_decide _); auto using scrolled_up_wf. }
  rewrite (bind_Ok _ _ _ _ _ E).
  rewrite (bind_Ok _ _ _ (prompt s) (con ls s ini true w1 m)) by done.
  by run_wr (write_colored_string_run (prompt s) w1 Hw1).
Qed.
End PrintLemmas.

(** * Properties *)

(** The console of a freshly initialised shell on a clear screen, for the witnesses. *)
Definition ready_console : Console :=
  match @shell_init release_profile (console_boot spaces (MkMachine 0x202 [])) with
  | Ok (_, c) => c
  | _ => console_boot spaces (MkMachine 0x202 [])
  end.
Definition ready_writer : Writer := inner (writer ready_console).

Lemma ready_console_eq :
  ready_console = con false SHELL_init true false ready_writer (MkMachine 0x202 []).
Proof. vm_compute. reflexivity. Qed.

Lemma ready_shows : line_shows ready_writer (shown_prompt SHELL_init).
Proof.
  exists (take 24 spaces), [], (default [] (buffer ready_writer !! 24%nat)), 6%nat.
  split_and!; [|vm_compute; reflexivity|lia|vm_compute; reflexivity|vm_compute; reflexivity
    |vm_compute; reflexivity].
  split; [vm_compute; reflexivity| |split; vm_compute; congruence].
  vm_compute. repeat constructor.
Qed.

(** C9: the shell is a line editor.  From a shell that shows its prompt, any sequence of printable
    characters, backspaces and Enters (handled one key event after the other) returns with all locks
    released and the machine untouched, the count is the length of the text typed since the last
    Enter with the erased characters removed, and the display is the prompt followed by exactly
    that text, wrapped at 80 columns, also when erasing crosses a row boundary.  (The line must fit
    the screen: 2000 cells.) *)
Theorem shell_is_line_editor `{P : Profile} {KeyCode : Type} `{EqDecision KeyCode}
    (Backspace : KeyCode) (key_debug : KeyCode -> list Z)
    (keys : list Z) (s : Shell) (w : Writer) (m : Machine)
    (Hkeys : Forall edit_key keys) (Hcount : written_char_count s = 0)
    (Hshow : line_shows w (shown_prompt s))
    (Hlen : (length (shown_prompt s) + length keys <= 2000)%nat) :
  exists w',
    for_each keys (fun key => key_event Backspace key_debug (Unicode key))
      (MkConsole (Mutex true s) true (Mutex false w) m) =
    Ok (tt, MkConsole
         (Mutex true (MkShell (prompt s) (Z.of_nat (length (editor_text [] keys))) (prompt_enabled s)))
         true (Mutex false w') m) /\
    line_shows w' (shown_prompt s ++ cells w (editor_text [] keys)).
Proof.
  destruct (editor_keys_run Backspace key_debug keys true s true w m []) as (w' & E & _ & H);
    [done|done|by rewrite app_nil_r|simpl; lia|]. by exists w'.
Qed.

Lemma shell_is_line_editor_witness :
  exists w',
    for_each (bytes "ls" ++ [8; 8; 8; 104; 105])
      (fun key => @key_event release_profile bool _ true (fun _ => []) (Unicode key))
      (MkConsole (Mutex true SHELL_init) true (Mutex false ready_writer) (MkMachine 0x202 [])) =
    Ok (tt, MkConsole (Mutex true (MkShell (prompt SHELL_init) 2 true)) true (Mutex false w')
              (MkMachine 0x202 [])) /\
    line_shows w' (shown_prompt SHELL_init ++ cells ready_writer (bytes "hi")).
Proof.
  destruct (@shell_is_line_editor release_profile bool _ true (fun _ => [])
    (bytes "ls" ++ [8; 8; 8; 104; 105]) SHELL_init ready_writer (MkMachine 0x202 []))
    as (w' & E & H).
  - repeat (constructor; [unfold edit_key; vm_compute; auto|]). constructor.
  - reflexivity.
  - exact ready_shows.
  - simpl. lia.
  - exists w'. split; [exact E|exact H].
Defined.

(** [print!] on an unlocked console.  It returns, drops every lock it took and restores RFLAGS;
    before the shell exists the text goes to the writer as it is, afterwards through the shell,
    which shows the prompt after each newline and then forgets what was typed on the line. *)
Theorem print_reaches_screen `{P : Profile} (args : list (list Z)) (s : Shell) (ini : bool)
    (w : Writer) (m : Machine) (Hw : writer_wf w) :
  let text := concat args in
  print args (MkConsole (Mutex false s) ini (Mutex false w) m) =
  Ok (tt, MkConsole
       (Mutex false (if ini && bool_decide (10 ∈ text)
                     then MkShell (prompt s) 0 (prompt_enabled s) else s)) ini
       (Mutex false (apply_items (if ini then shell_items s (w_color w) text
                                  else item_of (w_color w) <$> text) w)) m).
Proof.
  intros text. destruct ini; [by rewrite print_shell_run|by rewrite print_writer_run].
Qed.

Lemma print_reaches_screen_witness :
  is_ok (@print dev_profile [bytes "pit end: "; bytes "42"; [10]]
    (MkConsole (Mutex false SHELL_init) true (Mutex false clear_writer) (MkMachine 0x202 []))) = true.
Proof.
  rewrite (@print_reaches_screen dev_profile [bytes "pit end: "; bytes "42"; [10]] SHELL_init true
    clear_writer (MkMachine 0x202 []) clear_writer_wf). reflexivity.
Defined.

(** When [print!] deadlocks.  Printing at least one piece spins for ever exactly if the writer's
    lock is held, or the shell is in use and the shell's lock is held: in particular a [println!]
    issued while a guard of the same core is alive never returns. *)
Theorem print_hangs_iff_lock_held `{P : Profile} (a : list Z) (args : list (list Z)) (s : Shell)
    (ini ls lw : bool) (w : Writer) (m : Machine) (Hw : writer_wf w) :
  print (a :: args) (MkConsole (Mutex ls s) ini (Mutex lw w) m) = Hang <->
  (lw || (ini && ls)) = true.
Proof.
  split.
  - intros H. destruct lw; [done|]. destruct ini; [destruct ls; [done|]|].
    + by rewrite print_shell_run in H.
    + by rewrite print_writer_run in H.
  - intros H. apply without_interrupts_hang. intros m'. simpl.
    destruct ini; [|by destruct lw].
    destruct ls; [done|]. destruct lw; done.
Qed.

Lemma print_hangs_iff_lock_held_witness :
  @print release_profile [[10]] (MkConsole (Mutex true SHELL_init) true (Mutex false clear_writer)
    (MkMachine 0x202 [])) = Hang.
Proof.
  apply (proj2 (@print_hangs_iff_lock_held release_profile [10] [] SHELL_init true true false
    clear_writer (MkMachine 0x202 []) clear_writer_wf)). reflexivity.
Defined.

(** [Shell::init] shows the prompt at the start of a line of its own: if the bottom row is not
    clear it starts a new row first; on a clear row the prompt follows the (blank) cells left of the
    cursor.  Afterwards [has_shell] is true and the writer is unlocked. *)
Theorem shell_init_shows_prompt `{P : Profile} (s : Shell) (ini : bool) (w : Writer) (m : Machine)
    (Hw : writer_wf w) (Hcol : column_position w <= 80)
    (Hlen : (length (cs_chars (prompt s)) <= 1920)%nat) :
  exists w' pre,
    shell_init (MkConsole (Mutex true s) ini (Mutex false w) m) =
    Ok (tt, MkConsole (Mutex true s) true (Mutex false w') m) /\
    Forall (fun c => c = blank w) pre /\
    (last (buffer w) <> Some (blank_row w) -> pre = []) /\
    line_shows w' (pre ++ cs_chars (prompt s)).
Proof.
  pose proof (wf_column w Hw) as Hc. unfold fits in Hc.
  rewrite shell_init_run by done. case_bool_decide as Hclear.
  - eexists _, (replicate (Z.to_nat (column_position w)) (blank w)).
    split_and!; [done|by apply Forall_replicate|done|].
    apply line_shows_types; [|rewrite length_replicate; lia].
    apply line_shows_blank; [done|done|lia|lia].
  - eexists _, []. split_and!; [done|constructor|done|].
    apply (line_shows_types _ []); [|simpl; lia].
    apply (line_shows_blank (scrolled_up w) 0); [by apply scrolled_up_wf| |done|lia].
    unfold scrolled_up. cbn [buffer]. by rewrite last_snoc.
Qed.

Lemma shell_init_shows_prompt_witness :
  exists w', @shell_init dev_profile
      (MkConsole (Mutex true SHELL_init) false (Mutex false clear_writer) (MkMachine 0x202 [])) =
    Ok (tt, MkConsole (Mutex true SHELL_init) true (Mutex false w') (MkMachine 0x202 [])).
Proof.
  destruct (@shell_init_shows_prompt dev_profile SHELL_init false clear_writer (MkMachine 0x202 [])
    clear_writer_wf) as (w' & pre & E & _).
  - vm_compute. congruence.
  - simpl. lia.
  - exists w'. exact E.
Defined.

(** A key without a character shows its whole debug name but counts as one character, so it
    cannot be erased: after such a key and any number (at least one) of backspaces, all but the last
    character of the name still stand behind the prompt, and the count is 0. *)
Theorem raw_key_leaves_residue `{P : Profile} {KeyCode : Type} `{EqDecision KeyCode}
    (Backspace : KeyCode) (key_debug : KeyCode -> list Z) (k : KeyCode) (name : list Z) (last_char : Z)
    (s : Shell) (w : Writer) (m : Machine) (n : nat)
    (Hk : k <> Backspace) (Hname : key_debug k = name ++ [last_char])
    (Hp : Forall (fun c => printable c = true) (name ++ [last_char]))
    (Hcount : written_char_count s = 0) (Hshow : line_shows w (shown_prompt s))
    (Hlen : (length (shown_prompt s) + S (length name) <= 2000)%nat) :
  exists w',
    for_each (RawKey k :: replicate (S n) (Unicode 8)) (key_event Backspace key_debug)
      (MkConsole (Mutex true s) true (Mutex false w) m) =
    Ok (tt, MkConsole (Mutex true s) true (Mutex false w') m) /\
    line_shows w' (shown_prompt s ++ cells w name).
Proof.
  pose proof (line_shows_wf _ _ Hshow) as Hw.
  set (w1 := apply_items (Some <$> cells w (name ++ [last_char])) w).
  assert (line_shows w1 ((shown_prompt s ++ cells w name) ++ cells w [last_char])) as H1.
  { rewrite <- (assoc (++)). unfold cells. rewrite <- fmap_app. apply line_shows_types; [done|].
    rewrite length_fmap, length_app. simpl. lia. }
  exists (erased w1). split; [|by apply (line_shows_erase _ _ _ H1)].
  rewrite for_each_cons. erewrite bind_Ok.
  2:{ apply key_event_raw_run; [done|rewrite Hcount; done|done]. }
  rewrite Hname, items_printable by done. fold (cells w (name ++ [last_char])). fold w1.
  rewrite replicate_S, for_each_cons. erewrite bind_Ok.
  2:{ apply key_event_backspace_run; [by eapply line_shows_wf|]. simpl. rewrite Hcount. done. }
  assert (with_count (written_char_count (with_count (written_char_count s + 1) s) - 1)
            (with_count (written_char_count s + 1) s) = s) as ->.
  { destruct s; simpl in *. subst. done. }
  clear H1. induction n as [|n IH]; [done|].
  rewrite replicate_S, for_each_cons. erewrite bind_Ok; [exact IH|].
  by apply key_event_backspace_empty.
Qed.

Lemma raw_key_leaves_residue_witness :
  exists w',
    for_each [RawKey false; Unicode 8; Unicode 8]
      (@key_event release_profile bool _ true (fun _ => bytes "F1"))
      (MkConsole (Mutex true SHELL_init) true (Mutex false ready_writer) (MkMachine 0x202 [])) =
    Ok (tt, MkConsole (Mutex true SHELL_init) true (Mutex false w') (MkMachine 0x202 [])) /\
    line_shows w' (shown_prompt SHELL_init ++ cells ready_writer (bytes "F")).
Proof.
  apply (@raw_key_leaves_residue release_profile bool _ true (fun _ => bytes "F1") false (bytes "F") 49
    SHELL_init ready_writer (MkMachine 0x202 []) 1).
  - congruence.
  - reflexivity.
  - repeat constructor.
  - reflexivity.
  - exact ready_shows.
  - simpl. lia.
Defined.
