(* ===== verification/Mem.v ===== *)
(** * Byte-addressed memory

    What raw pointers, boxes and the assembly of the kernel read and write: a total map from
    addresses to bytes with little-endian 64-bit accesses ([*mut usize] reads and writes, [mov],
    [push], [pop]). *)

From S2P Require Import Prelude.

(** The byte at [a] is [m a mod 256]. *)
Definition mem : Type := Z -> Z.

(** The value of the [n] bytes from [a] on. *)
Fixpoint load (n : nat) (m : mem) (a : Z) : Z :=
  match n with
  | O => 0
  | S n => m a mod 256 + 256 * load n m (a + 1)
  end.

Definition load64 (m : mem) (a : Z) : Z := load 8 m a.

Definition store64 (m : mem) (a v : Z) : mem := fun x =>
  if (a <=? x) && (x <? a + 8) then (v / 256 ^ (x - a)) mod 256 else m x.

(** [n] zero bytes from [a] on: a fresh [Box::new([0; n])]. *)
Definition fill_zero (m : mem) (a n : Z) : mem := fun x =>
  if (a <=? x) && (x <? a + n) then 0 else m x.

Arguments store64 : simpl never.
Arguments load64 : simpl never.

(** * Lemmas *)

(** Two memories agree on the [n] bytes from [a] on. *)
Definition same_bytes (m m' : mem) (a n : Z) : Prop := forall x, a <= x < a + n -> m x = m' x.

Lemma load_ext n m m' a : same_bytes m m' a (Z.of_nat n) -> load n m a = load n m' a.
Proof.
  revert a. induction n as [|n IH]; intros a H; [done|]. simpl.
  rewrite (H a) by lia. rewrite (IH (a + 1)); [done|]. intros x Hx. apply H. lia.
Qed.

Lemma load64_ext m m' a : same_bytes m m' a 8 -> load64 m a = load64 m' a.
Proof. apply (load_ext 8). Qed.

Lemma load_fits n m a : fits (8 * Z.of_nat n) (load n m a).
Proof.
  unfold fits. revert a. induction n as [|n IH]; intros a; [done|]. simpl load. specialize (IH (a + 1)).
  replace (8 * Z.of_nat (S n)) with (8 + 8 * Z.of_nat n) by lia. rewrite Z.pow_add_r by lia.
  pose proof (Z.mod_pos_bound (m a) 256 ltac:(lia)). change (2 ^ 8) with 256. nia.
Qed.

Lemma load64_fits m a : fits 64 (load64 m a).
Proof. apply (load_fits 8). Qed.

Lemma load_bytes n m a v :
  (forall i, (i < n)%nat -> m (a + Z.of_nat i) = (v / 256 ^ Z.of_nat i) mod 256) ->
  load n m a = v mod 256 ^ Z.of_nat n.
Proof.
  revert a v. induction n as [|n IH]; intros a v H; simpl load.
  { by rewrite Z.pow_0_r, Z.mod_1_r. }
  rewrite (IH (a + 1) (v / 256)).
  - specialize (H 0%nat ltac:(lia)). rewrite Z.add_0_r, Z.pow_0_r, Z.div_1_r in H. rewrite H, Z.mod_mod by lia.
    rewrite Nat2Z.inj_succ, Z.pow_succ_r by lia.
    rewrite (Z.rem_mul_r v 256 (256 ^ Z.of_nat n)); [done|lia|].
    apply Z.pow_pos_nonneg; lia.
  - intros i Hi. specialize (H (S i) ltac:(lia)).
    replace (a + 1 + Z.of_nat i) with (a + Z.of_nat (S i)) by lia. rewrite H.
    rewrite Nat2Z.inj_succ, Z.pow_succ_r by lia. by rewrite Z.div_div by lia.
Qed.

Lemma load_store_eq m a v : fits 64 v -> load64 (store64 m a v) a = v.
Proof.
  intros Hv. unfold load64. rewrite (load_bytes 8 _ a v).
  - apply Z.mod_small. exact Hv.
  - intros i Hi. unfold store64.
    rewrite (proj2 (Z.leb_le a _)), (proj2 (Z.ltb_lt _ (a + 8))) by lia. simpl.
    by replace (a + Z.of_nat i - a) with (Z.of_nat i) by lia.
Qed.

Lemma store_outside m a v x : x < a \/ a + 8 <= x -> store64 m a v x = m x.
Proof.
  intros H. unfold store64. destruct (Z.leb_spec a x), (Z.ltb_spec x (a + 8)); simpl; done || lia.
Qed.

Lemma load_store_ne m a b v : b + 8 <= a \/ a + 8 <= b -> load64 (store64 m a v) b = load64 m b.
Proof. intros H. apply load64_ext. intros x Hx. apply store_outside. lia. Qed.

Lemma same_bytes_refl m a n : same_bytes m m a n.
Proof. done. Qed.

Lemma same_bytes_trans m1 m2 m3 a n :
  same_bytes m1 m2 a n -> same_bytes m2 m3 a n -> same_bytes m1 m3 a n.
Proof. intros H1 H2 x Hx. by rewrite H1, H2. Qed.

Lemma same_bytes_store m m' p v a n :
  same_bytes m m' a n -> p + 8 <= a \/ a + n <= p -> same_bytes m (store64 m' p v) a n.
Proof. intros H Hd x Hx. rewrite store_outside by lia. by apply H. Qed.

Lemma same_bytes_sub m m' a n b k :
  same_bytes m m' a n -> a <= b -> b + k <= a + n -> same_bytes m m' b k.
Proof. intros H H1 H2 x Hx. apply H. lia. Qed.

(** A list of 64-bit words at consecutive addresses. *)
Fixpoint words_at (m : mem) (a : Z) (ws : list Z) : Prop :=
  match ws with
  | [] => True
  | v :: ws => load64 m a = v /\ words_at m (a + 8) ws
  end.

Lemma words_at_ext m m' a ws :
  same_bytes m m' a (8 * Z.of_nat (length ws)) -> words_at m a ws -> words_at m' a ws.
Proof.
  revert a. induction ws as [|v ws IH]; intros a H; [done|]. cbn [length] in H. simpl.
  intros [Hv Hws]. split.
  - rewrite <- Hv. symmetry. apply load64_ext. eapply same_bytes_sub; [done|lia|lia].
  - apply IH; [|done]. eapply same_bytes_sub; [done|lia|lia].
Qed.

(** Values stored in consecutive descending words, the first at [top + 8 * i]: a sequence of pushes,
    or a stack frame written downwards. *)
Fixpoint store_slots (m : mem) (top i : Z) (vs : list Z) : mem :=
  match vs with
  | [] => m
  | v :: vs => store_slots (store64 m (top + 8 * i) v) top (i - 1) vs
  end.

Lemma store_slots_above m top i vs x : top + 8 * i + 8 <= x -> store_slots m top i vs x = m x.
Proof.
  revert m i. induction vs as [|v vs IH]; intros m i Hx; [done|]. simpl.
  rewrite IH by lia. apply store_outside. lia.
Qed.

Lemma store_slots_below m top i vs x :
  x < top + 8 * (i + 1 - Z.of_nat (length vs)) -> store_slots m top i vs x = m x.
Proof.
  revert m i. induction vs as [|v vs IH]; intros m i Hx; [done|]. cbn [store_slots length] in *.
  rewrite IH by lia. apply store_outside. lia.
Qed.

Lemma words_at_app m a ws ws' :
  words_at m a (ws ++ ws') <->
  words_at m a ws /\ words_at m (a + 8 * Z.of_nat (length ws)) ws'.
Proof.
  revert a. induction ws as [|v ws IH]; intros a.
  { cbn [app length words_at]. replace (a + 8 * Z.of_nat 0) with a by lia. tauto. }
  cbn [words_at app length]. rewrite IH.
  replace (a + 8 + 8 * Z.of_nat (length ws)) with (a + 8 * Z.of_nat (S (length ws))) by lia. tauto.
Qed.

Lemma store_slots_words m top i vs :
  Forall (fits 64) vs ->
  words_at (store_slots m top i vs) (top + 8 * (i + 1 - Z.of_nat (length vs))) (reverse vs).
Proof.
  intros Hv. revert m i. induction Hv as [|v vs Hv _ IH]; intros m i; [done|].
  rewrite reverse_cons, words_at_app, length_reverse. cbn [store_slots length]. split.
  - specialize (IH (store64 m (top + 8 * i) v) (i - 1)).
    by replace (i + 1 - Z.of_nat (S (length vs))) with (i - 1 + 1 - Z.of_nat (length vs)) by lia.
  - split; [|done].
    replace (top + 8 * (i + 1 - Z.of_nat (S (length vs))) + 8 * Z.of_nat (length vs))
      with (top + 8 * i) by lia.
    etransitivity; [|by apply (load_store_eq m (top + 8 * i))]. apply load64_ext.
    intros x Hx. apply store_slots_above. lia.
Qed.

Lemma store_slots_app m top i vs ws :
  store_slots m top i (vs ++ ws) = store_slots (store_slots m top i vs) top (i - Z.of_nat (length vs)) ws.
Proof.
  revert m i. induction vs as [|v vs IH]; intros m i; cbn [app store_slots length].
  - f_equal. lia.
  - rewrite IH. f_equal. lia.
Qed.

Lemma store_slots_shift m top i n vs : store_slots m (top - 8 * n) i vs = store_slots m top (i - n) vs.
Proof.
  revert m i. induction vs as [|v vs IH]; intros m i; [done|]. cbn [store_slots].
  rewrite IH. f_equal; [f_equal; lia|lia].
Qed.

(** One more word pushed first. *)
Lemma store_slots_push m sp v vs :
  store_slots (store64 m (sp - 8) v) (sp - 8) (-1) vs = store_slots m sp (-1) (v :: vs).
Proof.
  change (sp - 8) with (sp - 8 * 1) at 2. rewrite store_slots_shift. cbn [store_slots].
  by replace (sp + 8 * -1) with (sp - 8) by lia.
Qed.

#[export] Hint Resolve same_bytes_refl same_bytes_store : leaf.
