(* ===== verification/Gdt.v ===== *)
(** * Segments and the task state segment (src/src/gdt.rs)

    The descriptor table itself is the x86_64 crate's: [SegmentTable] is what the kernel relies on
    of it (slot 0 is the null descriptor, entries go to the next free slot, a selector is the slot
    times 8 with the descriptor's privilege level in the low bits). *)

From S2P Require Import Prelude.

Definition DOUBLE_FAULT_IST_INDEX : Z := 0.
Definition KERNEL_STACK_INDEX : Z := 0.

Definition KERNEL_CODE_SEGMENT_IDX : Z := 1.
Definition KERNEL_DATA_SEGMENT_IDX : Z := 0.
Definition USER_CODE_SEGMENT_IDX : Z := 2.
Definition USER_DATA_SEGMENT_IDX : Z := 3.

(** ** The crate's interface *)

Inductive Descriptor : Type :=
  | kernel_code_segment
  | user_code_segment
  | user_data_segment
  | tss_segment.

(** Privilege level, and slots taken: a system descriptor is 16 bytes wide. *)
Definition dpl (d : Descriptor) : Z :=
  match d with kernel_code_segment | tss_segment => 0 | _ => 3 end.
Definition slots (d : Descriptor) : Z :=
  match d with tss_segment => 2 | _ => 1 end.

Class SegmentTable (T : Type) : Type := {
  gdt_new : T;
  add_entry : T -> Descriptor -> T * Z;
  next_free : T -> Z;
  gdt_new_free : next_free gdt_new = 1;
  add_entry_free : forall t d, next_free (add_entry t d).1 = next_free t + slots d;
  add_entry_selector : forall t d, (add_entry t d).2 = Z.lor (next_free t * 8) (dpl d);
}.

Record Selectors : Type := MkSelectors {
  kernel_code_selector : Z;
  user_code_selector : Z;
  user_data_selector : Z;
  tss_selector : Z
}.

(** The lazily built [GDT]. *)
Definition GDT {T} `{SegmentTable T} : T * Selectors :=
  let gdt := gdt_new in
  let '(gdt, kernel_code_selector) := add_entry gdt kernel_code_segment in
  let '(gdt, user_code_selector) := add_entry gdt user_code_segment in
  let '(gdt, user_data_selector) := add_entry gdt user_data_segment in
  let '(gdt, tss_selector) := add_entry gdt tss_segment in
  (gdt, MkSelectors kernel_code_selector user_code_selector user_data_selector tss_selector).

(** ** Task state segment and initialisation *)

Record TaskStateSegment : Type := MkTss {
  privilege_stack_table : list Z;
  interrupt_stack_table : list Z
}.
Definition TSS_new : TaskStateSegment := MkTss (replicate 3 0) (replicate 7 0).

(** What [gdt::init] sets up: the TSS, the table loaded by [lgdt], CS and the task register. *)
Record Segments (T : Type) : Type := MkSegments {
  tss : TaskStateSegment;
  loaded_gdt : option T;
  cs_reg : Z;
  task_reg : Z
}.
Arguments MkSegments {T} _ _ _ _.
Arguments tss {T} _.
Arguments loaded_gdt {T} _.
Arguments cs_reg {T} _.
Arguments task_reg {T} _.

Definition STACK_SIZE : Z := 4096.

(** [stack_ist] and [stack_rsp0] are the addresses of the two static stacks. *)
Definition gdt_init {T} `{SegmentTable T} (stack_ist stack_rsp0 : Z) : M (Segments T) unit :=
  modify (fun s => MkSegments
    (MkTss (privilege_stack_table (tss s))
           (<[Z.to_nat DOUBLE_FAULT_IST_INDEX := stack_ist + STACK_SIZE]>
              (interrupt_stack_table (tss s))))
    (loaded_gdt s) (cs_reg s) (task_reg s)) ;;
  modify (fun s => MkSegments
    (MkTss (<[Z.to_nat KERNEL_STACK_INDEX := stack_rsp0 + STACK_SIZE]>
              (privilege_stack_table (tss s)))
           (interrupt_stack_table (tss s)))
    (loaded_gdt s) (cs_reg s) (task_reg s)) ;;
  modify (fun s => MkSegments (tss s) (Some GDT.1) (cs_reg s) (task_reg s)) ;;
  modify (fun s => MkSegments (tss s) (loaded_gdt s) (kernel_code_selector GDT.2) (task_reg s)) ;;
  modify (fun s => MkSegments (tss s) (loaded_gdt s) (cs_reg s) (tss_selector GDT.2)).

(** * Lemmas *)

(** A table that satisfies the interface: the list of the slots in use. *)
#[export, program] Instance list_table : SegmentTable (list Descriptor) := {
  gdt_new := [tss_segment];
  add_entry t d :=
    (t ++ replicate (Z.to_nat (slots d)) d, Z.lor (Z.of_nat (length t) * 8) (dpl d));
  next_free t := Z.of_nat (length t);
}.
Next Obligation. done. Qed.
Next Obligation.
  intros t d. simpl. rewrite length_app, length_replicate. destruct d; simpl; lia.
Qed.
Next Obligation. done. Qed.

Lemma GDT_selectors {T} `{SegmentTable T} : GDT.2 = MkSelectors 8 19 27 32.
Proof.
  unfold GDT.
  pose proof gdt_new_free as F0.
  destruct (add_entry gdt_new kernel_code_segment) as [t1 s1] eqn:E1.
  pose proof (add_entry_free gdt_new kernel_code_segment) as F1.
  pose proof (add_entry_selector gdt_new kernel_code_segment) as S1.
  destruct (add_entry t1 user_code_segment) as [t2 s2] eqn:E2.
  pose proof (add_entry_free t1 user_code_segment) as F2.
  pose proof (add_entry_selector t1 user_code_segment) as S2.
  destruct (add_entry t2 user_data_segment) as [t3 s3] eqn:E3.
  pose proof (add_entry_free t2 user_data_segment) as F3.
  pose proof (add_entry_selector t2 user_data_segment) as S3.
  destruct (add_entry t3 tss_segment) as [t4 s4] eqn:E4.
  pose proof (add_entry_selector t3 tss_segment) as S4.
  rewrite E1 in F1, S1. rewrite E2 in F2, S2. rewrite E3 in F3, S3. rewrite E4 in S4.
  simpl in *. rewrite F3, F2, F1, F0 in S4. rewrite F2, F1, F0 in S3. rewrite F1, F0 in S2.
  rewrite F0 in S1. by rewrite S1, S2, S3, S4.
Qed.

(** * Properties *)

(** The selectors of the GDT are those of the segment-index constants other files use: the
    kernel code selector is [KERNEL_CODE_SEGMENT_IDX * 8], the user selectors are their index times
    8 at privilege 3, and [init] leaves CS and the task register on them, with the double-fault and
    ring-0 stacks at the ends of their 4096-byte areas. *)
Theorem gdt_init_selectors {T} `{SegmentTable T} (ist rsp0 : Z) (s : Segments T)
    (Htss : tss s = TSS_new) :
  GDT.2 = MkSelectors (KERNEL_CODE_SEGMENT_IDX * 8) (Z.lor (USER_CODE_SEGMENT_IDX * 8) 3)
            (Z.lor (USER_DATA_SEGMENT_IDX * 8) 3) 32 /\
  exists s', gdt_init ist rsp0 s = Ok (tt, s') /\
    cs_reg s' = KERNEL_CODE_SEGMENT_IDX * 8 /\ task_reg s' = 32 /\
    interrupt_stack_table (tss s') !! Z.to_nat DOUBLE_FAULT_IST_INDEX = Some (ist + 4096) /\
    privilege_stack_table (tss s') !! Z.to_nat KERNEL_STACK_INDEX = Some (rsp0 + 4096).
Proof.
  split; [apply GDT_selectors|]. eexists. split; [done|]. cbn [cs_reg task_reg tss].
  rewrite GDT_selectors, Htss. done.
Qed.

Lemma gdt_init_selectors_witness :
  exists s', gdt_init 0x1000 0x8000 (MkSegments (T := list Descriptor) TSS_new None 0 0) = Ok (tt, s') /\
    cs_reg s' = 8.
Proof.
  destruct (proj2 (gdt_init_selectors 0x1000 0x8000
    (MkSegments (T := list Descriptor) TSS_new None 0 0) eq_refl)) as (s' & E & H & _).
  exists s'. split; [exact E|exact H].
Defined.
