(* ===== verification/Sched.v ===== *)
(** * Processes and the scheduler (src/src/process.rs, src/src/scheduler.rs)

    The round-robin queue behind its mutex, the current task, the lazily created idle task and the
    pseudo task that swallows the boot context.  A [Box<ProcessState>] is an address: the struct and
    the stacks live in the byte memory of [Mem], where the context-switch assembly finds them.  The
    global allocator (the linked_list_allocator crate) and the address of [idle] are parameters. *)

From S2P Require Import Prelude Mem Gdt.

(** ** process.rs *)

Inductive State : Type := Waiting | Runnable | Running | ShuttingDown.

Record Process : Type := MkProcess { proc_id : Z; state : State }.
Definition Process_new (id : Z) (state : State) : Process := MkProcess id state.

(** ** Data of scheduler.rs *)

Definition SCHEDULER_TIMER_DELAY : Z := 1000000.

(** The [#[repr(C)]] struct, a [Box<[u8]>] being its address and length. *)
Record ProcessState : Type := MkProcessState {
  kernel_rsp : Z;
  kernel_top_rsp : Z;
  kernel_stack : Z * Z;
  user_stack : Z * Z
}.

(** [(Process, Box<ProcessState>)]. *)
Definition Task : Type := Process * Z.

Record RoundRobinScheduler : Type := MkRR { tasks : list Task; task_id : Z }.
Definition RoundRobinScheduler_new : RoundRobinScheduler := MkRR [] 0.

(** The statics of scheduler.rs, the memory and the allocator's state. *)
Record Kernel (H : Type) : Type := MkKernel {
  scheduler : mutex RoundRobinScheduler;
  task : option Task;
  idle_task : option (mutex Task);
  init_flag : bool;
  void_task : option Z;
  memory : mem;
  heap : H
}.
Arguments MkKernel {H} _ _ _ _ _ _ _.
Arguments scheduler {H} _.
Arguments task {H} _.
Arguments idle_task {H} _.
Arguments init_flag {H} _.
Arguments void_task {H} _.
Arguments memory {H} _.
Arguments heap {H} _.

Definition SCHEDULER {H} : lens (Kernel H) (mutex RoundRobinScheduler) :=
  Lens scheduler (fun x k =>
    MkKernel x (task k) (idle_task k) (init_flag k) (void_task k) (memory k) (heap k)).
Definition set_task {H} (t : option Task) (k : Kernel H) : Kernel H :=
  MkKernel (scheduler k) t (idle_task k) (init_flag k) (void_task k) (memory k) (heap k).
Definition set_idle {H} (t : option (mutex Task)) (k : Kernel H) : Kernel H :=
  MkKernel (scheduler k) (task k) t (init_flag k) (void_task k) (memory k) (heap k).
Definition set_init {H} (b : bool) (k : Kernel H) : Kernel H :=
  MkKernel (scheduler k) (task k) (idle_task k) b (void_task k) (memory k) (heap k).
Definition set_void {H} (p : option Z) (k : Kernel H) : Kernel H :=
  MkKernel (scheduler k) (task k) (idle_task k) (init_flag k) p (memory k) (heap k).
Definition set_memory {H} (m : mem) (k : Kernel H) : Kernel H :=
  MkKernel (scheduler k) (task k) (idle_task k) (init_flag k) (void_task k) m (heap k).
Definition set_heap {H} (h : H) (k : Kernel H) : Kernel H :=
  MkKernel (scheduler k) (task k) (idle_task k) (init_flag k) (void_task k) (memory k) h.

(** Code on the scheduler behind its guard. *)
Definition rr {H A} (m : M RoundRobinScheduler A) : M (Kernel H) A :=
  zoom (lens_comp SCHEDULER inner_lens) m.

(** ** [impl Scheduler for RoundRobinScheduler]: the queue operations *)

(** [self.tasks.pop()]: from the back. *)
Definition pick_next : M RoundRobinScheduler (option Task) := fun s =>
  match last (tasks s) with
  | Some t => Ok (Some t, MkRR (removelast (tasks s)) (task_id s))
  | None => Ok (None, s)
  end.

(** [self.tasks.insert(0, task)]. *)
Definition reinsert_task (t : Task) : M RoundRobinScheduler unit :=
  modify (fun s => MkRR (t :: tasks s) (task_id s)).

Section Scheduler.
Context `{P : Profile}.
Context {H : Type}.
(** The global allocator: size, alignment. *)
Variable alloc : Z -> Z -> H -> option (Z * H).
(** The address of the function [idle]. *)
Variable idle : Z.

Abbreviation Kernel := (Kernel H).

(** The [#[alloc_error_handler]] of lib.rs. *)
Definition alloc_error_handler : M Kernel Z := throw (Explicit "allocation error").

(** A heap allocation. *)
Definition box_alloc (size align : Z) : M Kernel Z := fun k =>
  match alloc size align (heap k) with
  | Some (p, h) => Ok (p, set_heap h k)
  | None => alloc_error_handler k
  end.

(** [Box::new([0; n]) as Box<[u8]>]; an empty array needs no allocation. *)
Definition box_zeroed (n : Z) : M Kernel Z :=
  if n =? 0 then ret 1
  else
    let! p := box_alloc n 1 in
    modify (fun k => set_memory (fill_zero (memory k) p n) k) ;;
    ret p.

(** [ptr.write(v)] on a [*mut usize]. *)
Definition write_usize (addr v : Z) : M Kernel unit :=
  modify (fun k => set_memory (store64 (memory k) addr v) k).

Definition DEFAULT_FLAGS : Z := Z.lor (Z.lor 0 (Z.shiftl 1 1)) (Z.shiftl 1 9).
Definition INTERRUPT_FRAME_OFFSET : Z := 4.

Definition code_selector (kernel : bool) : Z :=
  Z.lor (if kernel then KERNEL_CODE_SEGMENT_IDX * 8 else USER_CODE_SEGMENT_IDX * 8)
        (if kernel then 0 else 3).

(** [kernel_stack] and [user_stack] are the boxes' addresses and lengths, [start_fn] the address
    of the entry function. *)
Definition ProcessState_new (kernel_stack user_stack : Z * Z) (kernel : bool) (start_fn : Z)
    : M Kernel ProcessState :=
  let! kernel_addr := lift (add_w 64 kernel_stack.1 kernel_stack.2) in
  for_each
    [(* the frame iret expects: rsp, rflags, cs, rip *)
     (-0, if kernel then kernel_addr else user_stack.1);
     (-1, DEFAULT_FLAGS);
     (-2, code_selector kernel);
     (-3, start_fn);
     (* registers: rax, rbx, rcx, rdx, rsi, rdi, r8 to r15, rbp *)
     (- INTERRUPT_FRAME_OFFSET - 0, 0);
     (- INTERRUPT_FRAME_OFFSET - 1, 0);
     (- INTERRUPT_FRAME_OFFSET - 2, 0);
     (- INTERRUPT_FRAME_OFFSET - 3, 0);
     (- INTERRUPT_FRAME_OFFSET - 4, 0);
     (- INTERRUPT_FRAME_OFFSET - 5, 0);
     (- INTERRUPT_FRAME_OFFSET - 6, 0);
     (- INTERRUPT_FRAME_OFFSET - 7, 0);
     (- INTERRUPT_FRAME_OFFSET - 8, 0);
     (- INTERRUPT_FRAME_OFFSET - 9, 0);
     (- INTERRUPT_FRAME_OFFSET - 10, 0);
     (- INTERRUPT_FRAME_OFFSET - 11, 0);
     (- INTERRUPT_FRAME_OFFSET - 12, 0);
     (- INTERRUPT_FRAME_OFFSET - 13, 0);
     (- INTERRUPT_FRAME_OFFSET - 14, kernel_addr)]
    (fun '(offset, v) => write_usize (kernel_addr + 8 * offset) v) ;;
  let! rsp := lift (sub_w 64 kernel_addr (8 * (14 + INTERRUPT_FRAME_OFFSET))) in
  let! top := lift (add_w 64 kernel_addr kernel_stack.2) in
  ret (MkProcessState rsp top kernel_stack user_stack).

(** [Box::new(state)]: 48 bytes in declaration order. *)
Definition box_state (ps : ProcessState) : M Kernel Z :=
  let! p := box_alloc 48 8 in
  write_usize p (kernel_rsp ps) ;;
  write_usize (p + 8) (kernel_top_rsp ps) ;;
  write_usize (p + 16) (kernel_stack ps).1 ;;
  write_usize (p + 24) (kernel_stack ps).2 ;;
  write_usize (p + 32) (user_stack ps).1 ;;
  write_usize (p + 40) (user_stack ps).2 ;;
  ret p.

Definition new_state (kernel_len user_len : Z) (kernel : bool) (start_fn : Z) : M Kernel Z :=
  let! ks := box_zeroed kernel_len in
  let! us := box_zeroed user_len in
  let! ps := ProcessState_new (ks, kernel_len) (us, user_len) kernel start_fn in
  box_state ps.

Definition start_process (target_fn : Z) (kernel_owned : bool) : M Kernel Z :=
  let! id := rr (gets task_id) in
  let! id' := lift (add_w 64 id 1) in
  rr (modify (fun s => MkRR (tasks s) id')) ;;
  let! state := new_state 4096 4096 kernel_owned target_fn in
  let! id := rr (gets task_id) in
  rr (modify (fun s => MkRR (tasks s ++ [(Process_new id Runnable, state)]) (task_id s))) ;;
  rr (gets task_id).

Definition start_proc (target : Z) (kernel_owned : bool) : M Kernel unit :=
  with_lock SCHEDULER (start_process target kernel_owned ;; ret tt).

(** [get_idle_task().lock().1.as_mut()]: the address of the idle task's state. *)
Definition get_idle_task : M Kernel Z :=
  let! it := gets idle_task in
  (match it with
   | Some _ => ret tt
   | None =>
       let! state := new_state 4096 4096 true idle in
       modify (set_idle (Some (mutex_new (Process_new 0 Runnable, state))))
   end) ;;
  let! it := gets idle_task in
  match it with
  | Some t => if locked t then (fun _ => Hang) else ret (inner t).2
  | None => throw UnwrapNone
  end.

Definition sched_init : M Kernel unit :=
  let! state := new_state 256 0 true idle in
  modify (set_void (Some state)).

Definition replace_curr_task (t : option Task) : M Kernel unit :=
  let! old := gets task in
  modify (set_task None) ;;
  (match old with
   | Some old_task => with_lock SCHEDULER (rr (reinsert_task old_task))
   | None => ret tt
   end) ;;
  modify (set_task t).

Definition select_next_task : M Kernel Z :=
  let! next := with_lock SCHEDULER (rr pick_next) in
  match next with
  | None =>
      replace_curr_task None ;;
      get_idle_task
  | Some t =>
      replace_curr_task (Some t) ;;
      let! cur := gets task in
      let! t := lift (unwrap cur) in
      ret t.2
  end.

Definition current_task_ptr : M Kernel Z :=
  let! cur := gets task in
  match cur with
  | Some t => ret t.2
  | None =>
      let! init := gets init_flag in
      if negb init then
        modify (set_init true) ;;
        let! v := gets void_task in
        lift (unwrap v)
      else get_idle_task
  end.

End Scheduler.

(** The statics before boot. *)
Definition kernel_boot {H} (m : mem) (h : H) : Kernel H :=
  MkKernel (mutex_new RoundRobinScheduler_new) None None false None m h.

(** * Lemmas *)

(** ** The queue *)

Lemma pick_next_snoc ts t n : pick_next (MkRR (ts ++ [t]) n) = Ok (Some t, MkRR ts n).
Proof. unfold pick_next. simpl. by rewrite last_snoc, removelast_last. Qed.

Lemma pick_next_nil n : pick_next (MkRR [] n) = Ok (None, MkRR [] n).
Proof. done. Qed.

(** ** Memory-only changes *)

Record only_mem {H} (k k' : Kernel H) : Prop := {
  om_scheduler : scheduler k' = scheduler k;
  om_task : task k' = task k;
  om_idle : idle_task k' = idle_task k;
  om_init : init_flag k' = init_flag k;
  om_void : void_task k' = void_task k;
}.

#[export] Instance only_mem_preorder {H} : PreOrder (@only_mem H).
Proof. split; [by intros k; split|]. intros k1 k2 k3 [] []. split; congruence. Qed.

Lemma only_mem_heap {H} (k : Kernel H) h : only_mem k (set_heap h k).
Proof. done. Qed.
Lemma only_mem_memory {H} (k : Kernel H) m : only_mem k (set_memory m k).
Proof. done. Qed.

(** Values in consecutive descending slots, from slot [i] on. *)
Fixpoint slot_list (i : Z) (vs : list Z) : list (Z * Z) :=
  match vs with [] => [] | v :: vs => (i, v) :: slot_list (i - 1) vs end.

(** The 19 words [ProcessState::new] stores, from the stack's end downwards. *)
Definition frame_slots (kernel : bool) (kernel_addr user_base start_fn : Z) : list Z :=
  [if kernel then kernel_addr else user_base; DEFAULT_FLAGS; code_selector kernel; start_fn]
    ++ replicate 14 0 ++ [kernel_addr].

Section SchedulerLemmas.
Context `{P : Profile} {H : Type}.
Variable alloc : Z -> Z -> H -> option (Z * H).
Variable idle : Z.

Lemma write_slots top vs i (k : Kernel H) :
  for_each (slot_list i vs) (fun '(offset, v) => write_usize (top + 8 * offset) v) k =
  Ok (tt, set_memory (store_slots (memory k) top i vs) k).
Proof.
  revert i k. induction vs as [|v vs IH]; intros i k; [by destruct k|].
  cbn [slot_list store_slots]. rewrite for_each_cons. unfold write_usize at 1. rewrite bind_modify.
  by rewrite IH.
Qed.

Lemma ProcessState_new_run ks kl us ul kernel f (k : Kernel H) :
  fits 64 (ks + kl) -> 144 <= ks + kl -> fits 64 (ks + kl + kl) ->
  ProcessState_new (ks, kl) (us, ul) kernel f k =
  Ok (MkProcessState (ks + kl - 144) (ks + kl + kl) (ks, kl) (us, ul),
      set_memory (store_slots (memory k) (ks + kl) 0 (frame_slots kernel (ks + kl) us f)) k).
Proof.
  intros H1 H2 H3. unfold ProcessState_new. cbn [fst snd].
  assert (A1 : add_w 64 ks kl = Ok (ks + kl)) by (by apply arith_fits).
  assert (A2 : sub_w 64 (ks + kl) (8 * (14 + INTERRUPT_FRAME_OFFSET)) = Ok (ks + kl - 144)).
  { apply arith_fits. unfold fits, INTERRUPT_FRAME_OFFSET in *. lia. }
  assert (A3 : add_w 64 (ks + kl) kl = Ok (ks + kl + kl)) by (by apply arith_fits).
  rewrite (bind_Ok _ _ _ (ks + kl) k) by (unfold lift; by rewrite A1).
  rewrite (bind_Ok _ _ _ _ _ (write_slots (ks + kl) (frame_slots kernel (ks + kl) us f) 0 k)).
  unfold lift. rewrite A2, A3. done.
Qed.

(** What the kernel relies on of the allocator: it does not fail on the scheduler's requests (at
    most 4096 bytes), and its blocks lie in the lower half of the address space. *)
Class AllocOk : Prop := alloc_ok : forall n a h, 0 <= n <= 4096 ->
  exists p h', alloc n a h = Some (p, h') /\ 0 < p /\ p + n <= 2 ^ 47.

Context `{HA : AllocOk}.

Lemma box_zeroed_run n (k : Kernel H) :
  0 <= n <= 4096 ->
  exists p k', box_zeroed alloc n k = Ok (p, k') /\ only_mem k k' /\ 0 < p /\ p + n <= 2 ^ 47.
Proof.
  intros Hn. unfold box_zeroed. destruct (Z.eqb_spec n 0) as [->|].
  { exists 1, k. split_and!; [done|reflexivity|lia|lia]. }
  destruct (alloc_ok n 1 (heap k)) as (p & h & E & Hp & Hb); [lia|].
  exists p. eexists. split_and!; [|shelve|done|done].
  rewrite (bind_Ok _ _ _ p (set_heap h k)); [|unfold box_alloc; by rewrite E]. run_pure. done.
  Unshelve. done.
Qed.

Lemma new_state_run kl ul kernel f (k : Kernel H) :
  144 <= kl <= 4096 -> 0 <= ul <= 4096 ->
  exists p k', new_state alloc kl ul kernel f k = Ok (p, k') /\ only_mem k k'.
Proof.
  intros Hkl Hul. unfold new_state.
  destruct (box_zeroed_run kl k) as (ks & k1 & E1 & O1 & B1); [lia|].
  destruct (box_zeroed_run ul k1) as (us & k2 & E2 & O2 & B2); [lia|].
  run_bind E1. run_bind E2.
  assert (2 ^ 47 + 8192 < 2 ^ 64) by (vm_compute; reflexivity).
  rewrite (bind_Ok _ _ _ _ _ (ProcessState_new_run ks kl us ul kernel f k2
    ltac:(unfold fits; lia) ltac:(lia) ltac:(unfold fits; lia))).
  unfold box_state, box_alloc. destruct (alloc_ok 48 8 (heap k2)) as (p & h & E & _); [lia|].
  exists p. eexists. split.
  - rewrite (bind_Ok _ _ _ p
      (set_heap h (set_memory (store_slots (memory k2) (ks + kl) 0 (frame_slots kernel (ks + kl) us f)) k2)));
      [|cbn [heap set_memory]; by rewrite E]. unfold write_usize. run_pure. reflexivity.
  - etransitivity; [exact O1|]. etransitivity; [exact O2|]. done.
Qed.

(** ** Scheduling decisions *)

Definition opt_list {A} (o : option A) : list A := match o with Some a => [a] | None => [] end.

(** The abstract scheduler: a queue with the next task in front, and the running task. *)
Definition spec_select (qc : list Task * option Task) : list Task * option Task :=
  match qc.1 with
  | [] => (opt_list qc.2, None)
  | t :: q => (q ++ opt_list qc.2, Some t)
  end.

Definition rr_of (k : Kernel H) : RoundRobinScheduler := inner (scheduler k).
Definition abs (k : Kernel H) : list Task * option Task := (reverse (tasks (rr_of k)), task k).

(** No lock is held. *)
Definition unlocked (k : Kernel H) : Prop :=
  locked (scheduler k) = false /\
  match idle_task k with Some t => locked t = false | None => True end.

Lemma replace_curr_task_run t (k : Kernel H) :
  locked (scheduler k) = false ->
  replace_curr_task t k =
  Ok (tt, MkKernel (Mutex false (MkRR (opt_list (task k) ++ tasks (rr_of k)) (task_id (rr_of k)))) t
            (idle_task k) (init_flag k) (void_task k) (memory k) (heap k)).
Proof.
  intros Hl. destruct k as [[l [ts n]] cur it ini v m h]. simpl in Hl. subst l.
  unfold replace_curr_task. run_pure. cbn [task set_task]. by destruct cur.
Qed.

Lemma get_idle_task_run (k : Kernel H) :
  unlocked k ->
  exists p k' it, get_idle_task alloc idle k = Ok (p, k') /\
    scheduler k' = scheduler k /\ task k' = task k /\ init_flag k' = init_flag k /\
    void_task k' = void_task k /\ idle_task k' = Some (Mutex false it) /\ it.2 = p /\
    (forall t, idle_task k = Some t -> k' = k).
Proof.
  intros [Hl Hi]. unfold get_idle_task. run_pure. destruct (idle_task k) as [[l it]|] eqn:E.
  - simpl in Hi. subst l. run_pure. rewrite E. exists it.2, k, it. by split_and!.
  - destruct (new_state_run 4096 4096 true idle k) as (p & k' & En & []); [lia..|].
    cbv iota. run_pure. run_bind En. run_pure. cbn [idle_task set_idle mutex_new locked inner].
    eexists p, _, (Process_new 0 Runnable, p). by split_and!.
Qed.

Lemma select_some ts t (k : Kernel H) :
  locked (scheduler k) = false -> tasks (rr_of k) = ts ++ [t] ->
  select_next_task alloc idle k =
  Ok (t.2, MkKernel (Mutex false (MkRR (opt_list (task k) ++ ts) (task_id (rr_of k)))) (Some t)
             (idle_task k) (init_flag k) (void_task k) (memory k) (heap k)).
Proof.
  intros Hl Hts. destruct k as [[l [ts' n]] cur it ini v m h]. simpl in Hl, Hts. subst l ts'.
  unfold select_next_task.
  rewrite (bind_Ok _ _ _ (Some t) (MkKernel (Mutex false (MkRR ts n)) cur it ini v m h)).
  2:{ unfold with_lock, rr, zoom. simpl. by rewrite pick_next_snoc. }
  cbv iota. erewrite bind_Ok by (by apply replace_curr_task_run). done.
Qed.

Lemma select_none (k : Kernel H) :
  unlocked k -> tasks (rr_of k) = [] ->
  exists p k' it, select_next_task alloc idle k = Ok (p, k') /\
    scheduler k' = Mutex false (MkRR (opt_list (task k)) (task_id (rr_of k))) /\ task k' = None /\
    init_flag k' = init_flag k /\ void_task k' = void_task k /\
    idle_task k' = Some (Mutex false it) /\ it.2 = p.
Proof.
  intros [Hl Hi] Hts. destruct k as [[l [ts' n]] cur it ini v m h]. simpl in Hl, Hts. subst l ts'.
  set (k1 := MkKernel (Mutex false (MkRR (opt_list cur ++ []) n)) None it ini v m h).
  destruct (get_idle_task_run k1) as (p & k' & t & E & ? & ? & ? & ? & ? & ? & _); [done|].
  exists p, k', t. split_and!; try done.
  - unfold select_next_task.
    rewrite (bind_Ok _ _ _ None (MkKernel (Mutex false (MkRR [] n)) cur it ini v m h)) by done.
    cbv iota. by erewrite bind_Ok by (by apply replace_curr_task_run).
  - subst k1. simpl in *. by rewrite app_nil_r in *.
Qed.

Lemma select_run (k : Kernel H) :
  unlocked k ->
  exists p k', select_next_task alloc idle k = Ok (p, k') /\
    abs k' = spec_select (abs k) /\ unlocked k' /\ task_id (rr_of k') = task_id (rr_of k) /\
    init_flag k' = init_flag k /\ void_task k' = void_task k /\
    match task k' with
    | Some t => p = t.2
    | None => exists it, idle_task k' = Some (Mutex false it) /\ p = it.2
    end.
Proof.
  intros Hu. pose proof Hu as [Hl Hi].
  destruct (tasks (rr_of k)) as [|t ts _] eqn:E using rev_ind.
  - destruct (select_none k Hu E) as (p & k' & it & Es & Hs & Ht & Hini & Hv & Hid & Hp).
    exists p, k'. unfold abs, rr_of, unlocked in *. rewrite Hs, Ht, Hid, E. simpl.
    split_and!; try done; [|by eexists]. unfold spec_select. simpl. by destruct (task k).
  - rewrite (select_some ts t k Hl E). eexists _, _. split; [done|].
    unfold abs, spec_select, rr_of, unlocked in *. simpl. rewrite E, reverse_app. simpl.
    split_and!; try done. rewrite reverse_app. by destruct (task k).
Qed.

Lemma current_task_ptr_run (k : Kernel H) :
  unlocked k -> is_Some (void_task k) ->
  exists p k', current_task_ptr alloc idle k = Ok (p, k') /\
    scheduler k' = scheduler k /\ task k' = task k /\ void_task k' = void_task k /\ unlocked k' /\
    (task k = None -> init_flag k' = true).
Proof.
  intros Hu [v Hv]. unfold current_task_ptr. run_pure.
  destruct (task k) as [t|] eqn:Et.
  { exists t.2, k. by split_and!. }
  run_pure. destruct (init_flag k) eqn:Ei; simpl.
  - destruct (get_idle_task_run k Hu) as (p & k' & it & E & Hs & Ht & Hi & Hvo & Hid & Hp & _).
    exists p, k'. split_and!; try congruence. destruct Hu. split; [congruence|]. by rewrite Hid.
  - run_pure. cbn [void_task set_init]. rewrite Hv. eexists _, _. split; [done|]. by split_and!.
Qed.

Lemma start_proc_run f b (k : Kernel H) :
  unlocked k -> fits 64 (task_id (rr_of k) + 1) ->
  exists p k', start_proc alloc f b k = Ok (tt, k') /\
    tasks (rr_of k') =
      tasks (rr_of k) ++ [(Process_new (task_id (rr_of k) + 1) Runnable, p)] /\
    task_id (rr_of k') = task_id (rr_of k) + 1 /\ task k' = task k /\ unlocked k' /\
    init_flag k' = init_flag k /\ void_task k' = void_task k.
Proof.
  intros [Hl Hi] Hn. destruct k as [[l [ts n]] cur it ini v m h]. simpl in Hl, Hn. subst l.
  unfold start_proc, with_lock. cbn [locked view SCHEDULER scheduler inner update].
  unfold start_process. rewrite bind_assoc.
  set (k0 := MkKernel (Mutex true (MkRR ts n)) cur it ini v m h).
  rewrite (bind_Ok _ _ _ n k0) by done. rewrite bind_assoc.
  rewrite (bind_Ok _ _ _ (n + 1) k0) by (unfold lift, add_w; by rewrite arith_fits).
  set (k1 := MkKernel (Mutex true (MkRR ts (n + 1))) cur it ini v m h).
  rewrite bind_assoc, (bind_Ok _ _ _ tt k1) by done. rewrite bind_assoc.
  destruct (new_state_run 4096 4096 b f k1) as (p & k' & En & []); [lia..|].
  rewrite (bind_Ok _ _ _ _ _ En).
  destruct k' as [sch' cur' it' ini' v' m' h']. simpl in *. subst.
  eexists p, _. split; [done|]. by split_and!.
Qed.

End SchedulerLemmas.

(** ** Sequences of scheduling decisions *)

Section Traces.
Context `{P : Profile} {H : Type}.
Variable alloc : Z -> Z -> H -> option (Z * H).
Variable idle : Z.
Context `{HA : !AllocOk alloc}.

(** [n] decisions in a row, their results discarded. *)
Fixpoint selects (n : nat) : M (Kernel H) unit :=
  match n with
  | O => ret tt
  | S n => select_next_task alloc idle ;; selects n
  end.

Lemma selects_run n (k : Kernel H) :
  unlocked k ->
  exists k', selects n k = Ok (tt, k') /\ unlocked k' /\
    abs k' = Nat.iter n spec_select (abs k) /\ task_id (rr_of k') = task_id (rr_of k).
Proof.
  revert k. induction n as [|n IH]; intros k Hu; [by exists k|].
  destruct (select_run alloc idle k Hu) as (p & k1 & E & Ha & Hu1 & Hid & _).
  destruct (IH k1 Hu1) as (k' & E' & Hu' & Ha' & Hid').
  exists k'. simpl. rewrite (bind_Ok _ _ _ _ _ E). split_and!; try done; [|congruence].
  rewrite Ha', Ha. apply Nat.iter_swap.
Qed.

Lemma spec_iter q1 q2 c :
  Nat.iter (length q1) spec_select (q1 ++ q2, Some c) =
  (q2 ++ removelast (c :: q1), last (c :: q1)).
Proof.
  revert q2 c. induction q1 as [|x q1 IH]; intros q2 c; [simpl; by rewrite app_nil_r|].
  change (length (x :: q1)) with (S (length q1)).
  rewrite Nat.iter_succ_r.
  change (spec_select ((x :: q1) ++ q2, Some c)) with ((q1 ++ q2) ++ [c], Some x).
  rewrite <- app_assoc, IH, <- app_assoc. done.
Qed.

Lemma spec_reaches i q cur t :
  q !! i = Some t -> (Nat.iter (S i) spec_select (q, cur)).2 = Some t.
Proof.
  revert q cur. induction i as [|i IH]; intros q cur Hq.
  - by destruct q; simplify_eq/=.
  - destruct q as [|x q]; [done|]. rewrite Nat.iter_succ_r.
    apply IH. simpl in *. by apply lookup_app_l_Some.
Qed.

(** What drives the scheduler: a new process, or the timer interrupt. *)
Inductive op : Type :=
  | Start (target : Z) (kernel_owned : bool)
  | Tick.

Definition run_op (o : op) : M (Kernel H) unit :=
  match o with
  | Start target kernel_owned => start_proc alloc target kernel_owned
  | Tick => current_task_ptr alloc idle ;; select_next_task alloc idle ;; ret tt
  end.

(** The number of process starts among the operations. *)
Definition starts (o : op) : Z := match o with Start _ _ => 1 | Tick => 0 end.
Definition all_starts (ops : list op) : Z := foldr (fun o n => starts o + n) 0 ops.

(** Every process ever started is queued or running, exactly once, and the ids are 1, 2, 3, ... *)
Definition all_tasks (k : Kernel H) : list Task := tasks (rr_of k) ++ opt_list (task k).
Definition ids (ts : list Task) : list Z := (fun t => proc_id t.1) <$> ts.

Record kernel_inv (k : Kernel H) : Prop := {
  inv_unlocked : unlocked k;
  inv_void : is_Some (void_task k);
  inv_ids : Permutation (ids (all_tasks k)) (seqZ 1 (task_id (rr_of k)));
  inv_id_nonneg : 0 <= task_id (rr_of k);
}.

Lemma abs_all_tasks k : Permutation (all_tasks k) ((abs k).1 ++ opt_list (abs k).2).
Proof. unfold all_tasks, abs. simpl. apply Permutation_app_tail. symmetry. apply reverse_Permutation. Qed.

Lemma spec_select_all qc :
  Permutation ((spec_select qc).1 ++ opt_list (spec_select qc).2) (qc.1 ++ opt_list qc.2).
Proof.
  destruct qc as [[|t q] cur]; simpl; [by rewrite app_nil_r|].
  rewrite <- app_assoc, (Permutation_app_comm (opt_list cur) [t]).
  symmetry. apply Permutation_middle.
Qed.

Lemma run_op_inv o (k : Kernel H) :
  kernel_inv k -> fits 64 (task_id (rr_of k) + 1) ->
  exists k', run_op o k = Ok (tt, k') /\ kernel_inv k' /\
    task_id (rr_of k') = task_id (rr_of k) + starts o.
Proof.
  intros [Hu Hv Hi H0] Hf. destruct o as [f b|].
  - destruct (start_proc_run alloc f b k Hu Hf) as (p & k' & E & Ht & Hid & Hcur & Hu' & _ & Hv').
    exists k'. split_and!; [done| |done]. split; [done|congruence| |lia].
    unfold all_tasks, ids in *. rewrite Ht, Hcur, Hid, seqZ_app by lia.
    rewrite <- Hi, !fmap_app, <- !app_assoc.
    rewrite (Permutation_app_comm _ (_ <$> opt_list (task k))). simpl.
    replace (1 + task_id (rr_of k)) with (task_id (rr_of k) + 1) by lia. done.
  - destruct (current_task_ptr_run alloc idle k Hu Hv) as (p1 & k1 & E1 & Hs & Ht & Hv1 & Hu1 & _).
    destruct (select_run alloc idle k1 Hu1) as (p2 & k2 & E2 & Ha & Hu2 & Hid & _ & Hv2 & _).
    exists k2. unfold run_op. run_bind E1. run_bind E2.
    assert (task_id (rr_of k2) = task_id (rr_of k)) as Hid'.
    { rewrite Hid. unfold rr_of. by rewrite Hs. }
    split_and!; [done| |simpl; lia]. split; [done|congruence| |lia].
    rewrite Hid'. rewrite <- Hi. unfold ids. apply fmap_Permutation.
    rewrite (abs_all_tasks k2), Ha, spec_select_all, <- (abs_all_tasks k1).
    unfold all_tasks, rr_of. by rewrite Hs, Ht.
Qed.

Lemma run_ops_inv ops (k : Kernel H) :
  kernel_inv k -> task_id (rr_of k) + Z.of_nat (length ops) < 2 ^ 64 ->
  exists k', for_each ops run_op k = Ok (tt, k') /\ kernel_inv k' /\
    task_id (rr_of k') = task_id (rr_of k) + all_starts ops.
Proof.
  revert k. induction ops as [|o ops IH]; intros k Hk Hn.
  { exists k. split_and!; [done|done|simpl; lia]. }
  cbn [length] in Hn. pose proof (inv_id_nonneg k Hk).
  destruct (run_op_inv o k Hk) as (k1 & E & Hk1 & Hid); [unfold fits; lia|].
  destruct (IH k1 Hk1) as (k' & E' & Hk' & Hid'); [destruct o; simpl in *; lia|].
  exists k'. rewrite for_each_cons, (bind_Ok _ _ _ _ _ E). split_and!; [done|done|simpl; lia].
Qed.

Lemma boot_inv (m : mem) (h : H) :
  exists k, sched_init alloc idle (kernel_boot m h) = Ok (tt, k) /\ kernel_inv k /\
    task_id (rr_of k) = 0.
Proof.
  destruct (new_state_run alloc 256 0 true idle (kernel_boot m h)) as (p & k & E & []); [lia..|].
  unfold sched_init. run_bind E. eexists. split; [done|].
  unfold rr_of, set_void. simpl. rewrite om_scheduler0. simpl. split; [|done].
  split; unfold unlocked, all_tasks, rr_of; simpl;
    rewrite ?om_scheduler0, ?om_idle0, ?om_task0; simpl; done || by eexists.
Qed.

End Traces.

(** * Properties *)

(** An allocator that satisfies [AllocOk], for the witnesses: bump allocation in the heap range. *)
Definition bump (n _ h : Z) : option (Z * Z) :=
  if (0 <? h) && (h + n <=? 2 ^ 47) then Some (h, h + n)
  else Some (0x444444440000, 0x444444440000 + n).

#[export] Instance bump_ok : AllocOk bump.
Proof.
  intros n a h Hn. unfold bump. destruct (Z.ltb_spec 0 h), (Z.leb_spec (h + n) (2 ^ 47)); simpl;
    eexists _, _; (split; [reflexivity|]); lia.
Qed.

(** Two tasks, the first one running. *)
Definition two_tasks : Kernel Z :=
  MkKernel (Mutex false (MkRR [(MkProcess 2 Runnable, 0x2000)] 2)) (Some (MkProcess 1 Runnable, 0x1000))
    None true (Some 0x500) (fun _ => 0) 0x444444440000.

Lemma two_tasks_unlocked : unlocked two_tasks.
Proof. done. Qed.



(** A context is saved where it came from.  The state pointer that [select_next_task] hands to
    the timer handler for dispatching is the one that [current_task_ptr] returns at the next tick
    for saving, whatever task (or the idle task) was chosen. *)
Theorem dispatched_task_is_saved_task `{P : Profile} {H : Type}
    (alloc : Z -> Z -> H -> option (Z * H)) (idle : Z) `{HA : !AllocOk alloc} (k : Kernel H)
    (Hu : unlocked k) (Hinit : init_flag k = true) :
  exists p k' k'', select_next_task alloc idle k = Ok (p, k') /\
    current_task_ptr alloc idle k' = Ok (p, k'').
Proof.
  destruct (select_run alloc idle k Hu) as (p & k' & E & _ & Hu' & _ & Hi & _ & Hp).
  exists p, k'. unfold current_task_ptr. run_pure. destruct (task k') as [t|].
  - exists k'. subst p. by split.
  - destruct Hp as (it & Hid & ->). run_pure. rewrite Hi, Hinit. simpl.
    destruct (get_idle_task_run alloc idle k' Hu') as (q & k'' & it' & E' & _ & _ & _ & _ & Hid' & <- & Heq).
    exists k''. split; [done|]. rewrite E'. specialize (Heq _ Hid). subst k''. congruence.
Qed.

Lemma dispatched_task_is_saved_task_witness :
  exists p k' k'', @select_next_task release_profile Z bump 0x7000 two_tasks = Ok (p, k') /\
    @current_task_ptr release_profile Z bump 0x7000 k' = Ok (p, k'').
Proof.
  exact (@dispatched_task_is_saved_task release_profile Z bump 0x7000 _ two_tasks
    two_tasks_unlocked eq_refl).
Defined.

(** No task starves.  The task at position [i] of the queue is the running one after exactly
    [i + 1] scheduling decisions. *)
Theorem queued_task_runs `{P : Profile} {H : Type} (alloc : Z -> Z -> H -> option (Z * H))
    (idle : Z) `{HA : !AllocOk alloc} (k : Kernel H) (i : nat) (t : Task)
    (Hu : unlocked k) (Hi : reverse (tasks (rr_of k)) !! i = Some t) :
  exists k', selects alloc idle (S i) k = Ok (tt, k') /\ task k' = Some t.
Proof.
  destruct (selects_run alloc idle (S i) k Hu) as (k' & E & _ & Ha & _).
  exists k'. split; [done|]. change (task k') with (abs k').2. rewrite Ha.
  by apply spec_reaches.
Qed.

Lemma queued_task_runs_witness :
  exists k', @selects release_profile Z bump 0x7000 1 two_tasks = Ok (tt, k') /\
    task k' = Some (MkProcess 2 Runnable, 0x2000).
Proof.
  apply (@queued_task_runs release_profile Z bump 0x7000 _ two_tasks 0
    (MkProcess 2 Runnable, 0x2000) two_tasks_unlocked). reflexivity.
Defined.

(** The rotation is fair.  With a running task and [n >= 1] queued ones, [n + 1] decisions give
    every one of the [n + 1] tasks its turn and bring the queue and the running task back. *)
Theorem round_robin_period `{P : Profile} {H : Type} (alloc : Z -> Z -> H -> option (Z * H))
    (idle : Z) `{HA : !AllocOk alloc} (k : Kernel H) (c : Task)
    (Hu : unlocked k) (Hc : task k = Some c) (Hq : tasks (rr_of k) <> []) :
  exists k', selects alloc idle (S (length (tasks (rr_of k)))) k = Ok (tt, k') /\
    tasks (rr_of k') = tasks (rr_of k) /\ task k' = Some c.
Proof.
  destruct (selects_run alloc idle (S (length (tasks (rr_of k)))) k Hu) as (k' & E & _ & Ha & _).
  exists k'. split; [done|].
  assert (abs k' = (reverse (tasks (rr_of k)), Some c)) as Ha'.
  { rewrite Ha. unfold abs. rewrite Hc. destruct (tasks (rr_of k)) as [|x ts]; [done|].
    rewrite <- (length_reverse (x :: ts)), reverse_cons.
    pose proof (spec_iter (reverse ts ++ [x]) [] c) as Hs.
    rewrite app_nil_r in Hs. rewrite Nat.iter_succ, Hs.
    rewrite removelast_cons, removelast_last, last_cons, last_snoc by (by destruct (reverse ts)).
    done. }
  unfold abs in Ha'. injection Ha' as H1 H2. split; [|done].
  rewrite <- (reverse_involutive (tasks (rr_of k))), <- H1. by rewrite reverse_involutive.
Qed.

Lemma round_robin_period_witness :
  exists k', @selects release_profile Z bump 0x7000 2 two_tasks = Ok (tt, k') /\
    tasks (rr_of k') = tasks (rr_of two_tasks) /\ task k' = Some (MkProcess 1 Runnable, 0x1000).
Proof.
  apply (@round_robin_period release_profile Z bump 0x7000 _ two_tasks
    (MkProcess 1 Runnable, 0x1000) two_tasks_unlocked); [reflexivity|discriminate].
Defined.

(** A lone task only gets every other time slice: with an empty queue the running task is put
    back and the idle task runs, although the task is runnable; only the decision after that picks
    it again. *)
Theorem lone_task_alternates_with_idle `{P : Profile} {H : Type}
    (alloc : Z -> Z -> H -> option (Z * H)) (idle : Z) `{HA : !AllocOk alloc} (k : Kernel H)
    (c : Task) (Hu : unlocked k) (Hc : task k = Some c) (Hq : tasks (rr_of k) = []) :
  exists k1 k2, selects alloc idle 1 k = Ok (tt, k1) /\ task k1 = None /\ tasks (rr_of k1) = [c] /\
    selects alloc idle 2 k = Ok (tt, k2) /\ task k2 = Some c /\ tasks (rr_of k2) = [].
Proof.
  destruct (selects_run alloc idle 1 k Hu) as (k1 & E1 & _ & Ha1 & _).
  destruct (selects_run alloc idle 2 k Hu) as (k2 & E2 & _ & Ha2 & _).
  exists k1, k2. unfold abs in *. rewrite Hc, Hq in Ha1, Ha2. simpl in Ha1, Ha2.
  injection Ha1 as H1 ->. injection Ha2 as H2 ->.
  split_and!; try done.
  - by rewrite <- (reverse_involutive (tasks (rr_of k1))), H1.
  - by rewrite <- (reverse_involutive (tasks (rr_of k2))), H2.
Qed.

Lemma lone_task_alternates_with_idle_witness :
  exists k1, @selects release_profile Z bump 0x7000 1
      (MkKernel (Mutex false (MkRR [] 1)) (Some (MkProcess 1 Runnable, 0x1000)) None true (Some 0x500)
         (fun _ => 0) 0x444444440000) = Ok (tt, k1) /\ task k1 = None.
Proof.
  destruct (@lone_task_alternates_with_idle release_profile Z bump 0x7000 _
    (MkKernel (Mutex false (MkRR [] 1)) (Some (MkProcess 1 Runnable, 0x1000)) None true (Some 0x500)
       (fun _ => 0) 0x444444440000) (MkProcess 1 Runnable, 0x1000)) as (k1 & k2 & E & Ht & _).
  - split; reflexivity.
  - reflexivity.
  - reflexivity.
  - exists k1. split; [exact E|exact Ht].
Defined.

(** Out of memory.  When the heap has no room for a stack, [start_proc] ends in the allocation error
    handler; so does a timer tick that finds the queue empty and the idle task not yet created, both where
    the context is saved and where the next task is selected. *)
Theorem exhausted_heap_panics `{P : Profile} {H : Type} (alloc : Z -> Z -> H -> option (Z * H)) (idle f : Z) (b : bool)
    (k : Kernel H) (Hk : unlocked k) (Halloc : alloc 4096 1 (heap k) = None)
    (Hid : fits 64 (task_id (rr_of k) + 1)) :
  start_proc alloc f b k = Panic (Explicit "allocation error") /\
  (idle_task k = None -> tasks (rr_of k) = [] ->
     select_next_task alloc idle k = Panic (Explicit "allocation error") /\
     (task k = None -> init_flag k = true -> current_task_ptr alloc idle k = Panic (Explicit "allocation error"))).
Proof.
  destruct k as [[l [ts n]] cur it ini v m h]. destruct Hk as [Hl _]. unfold rr_of in *. simpl in *. subst l.
  assert (forall kernel f (k : Kernel H), heap k = h -> new_state alloc 4096 4096 kernel f k = Panic (Explicit "allocation error")) as Hnew.
  { intros kernel f' k Hh. unfold new_state, box_zeroed, box_alloc, bind. simpl. by rewrite Hh, Halloc. }
  split.
  - unfold start_proc, with_lock, start_process. simpl. unfold bind, rr, zoom, gets, lift, add_w. simpl.
    rewrite arith_fits by done. simpl. by rewrite Hnew.
  - intros -> ->. split.
    + destruct cur as [t|]; unfold select_next_task, get_idle_task, bind; simpl; by rewrite Hnew.
    + intros -> ->. unfold current_task_ptr, get_idle_task, bind. simpl. by rewrite Hnew.
Qed.

Lemma exhausted_heap_panics_witness :
  start_proc (P := dev_profile) (fun _ _ (_ : unit) => None) 0x7000 true (kernel_boot (fun _ => 0) tt) =
  Panic (Explicit "allocation error").
Proof.
  apply (@exhausted_heap_panics dev_profile unit (fun _ _ _ => None) 0x9000 0x7000 true (kernel_boot (fun _ => 0) tt)).
  - by split.
  - reflexivity.
  - split; [discriminate|reflexivity].
Defined.



(** The initial context of a process.  [ProcessState::new] leaves, from [kernel_rsp] upwards,
    the words the timer handler pops: rbp (the stack's end), fourteen zero registers, then the
    interrupt return frame rip (the entry function), cs, rflags (0x202, interrupts on) and rsp; it
    changes no memory outside these nineteen words.  The last of them lies at the end address of the
    kernel stack, one word past the allocation; the initial rsp of a user process is the lowest
    address of its stack, and [kernel_top_rsp] is a whole stack length above the stack's end. *)
Theorem process_state_initial_frame `{P : Profile} {H : Type} (ks kl us ul f : Z) (kernel : bool)
    (k : Kernel H) (Hks : 144 <= kl) (H0 : 0 <= ks) (Hend : ks + kl + kl < 2 ^ 64)
    (Hf : fits 64 f) (Hus : fits 64 us) :
  exists ps k', ProcessState_new (ks, kl) (us, ul) kernel f k = Ok (ps, k') /\
    words_at (memory k') (kernel_rsp ps)
      ((ks + kl) :: replicate 14 0 ++
       [f; code_selector kernel; 0x202; if kernel then ks + kl else us]) /\
    (forall x, x < kernel_rsp ps \/ kernel_rsp ps + 19 * 8 <= x -> memory k' x = memory k x) /\
    kernel_rsp ps + 18 * 8 = ks + kl /\ kernel_top_rsp ps = ks + kl + kl.
Proof.
  rewrite ProcessState_new_run by (unfold fits; lia).
  eexists _, _. split; [done|]. cbn [kernel_rsp kernel_top_rsp memory set_memory].
  set (vs := frame_slots kernel (ks + kl) us f).
  assert (Forall (fits 64) vs) as Hvs.
  { apply Forall_app. split; [|apply Forall_app; split].
    - apply Forall_cons. split; [unfold fits in *; by destruct kernel; lia|].
      apply Forall_cons. split; [by vm_compute|].
      apply Forall_cons. split; [by destruct kernel; vm_compute|].
      by apply Forall_singleton.
    - by apply Forall_replicate.
    - apply Forall_singleton. unfold fits. lia. }
  assert (length vs = 19%nat) as Hlen by done.
  split_and!.
  - replace (ks + kl - 144) with (ks + kl + 8 * (0 + 1 - Z.of_nat (length vs)))
      by (rewrite Hlen; lia).
    exact (store_slots_words (memory k) (ks + kl) 0 vs Hvs).
  - intros x [Hx|Hx].
    + apply store_slots_below. rewrite Hlen. lia.
    + apply store_slots_above. lia.
  - lia.
  - done.
Qed.

Lemma process_state_initial_frame_witness :
  exists ps k', @ProcessState_new release_profile Z (0x4000, 4096) (0x5000, 4096) false 0x1234 two_tasks
      = Ok (ps, k') /\ kernel_rsp ps + 18 * 8 = 0x5000 /\ kernel_top_rsp ps = 0x6000.
Proof.
  destruct (@process_state_initial_frame release_profile Z 0x4000 4096 0x5000 4096 0x1234 false two_tasks)
    as (ps & k' & E & _ & _ & H1 & H2); try (unfold fits; lia).
  exists ps, k'. split; [exact E|]. split; [exact H1|exact H2].
Defined.
