(* ===== verification/Dispatch.v ===== *)
(** * The scheduler interface (the trait [Scheduler] of src/src/scheduler.rs and the code that uses it)

    The kernel keeps its scheduler as a [Box<dyn Scheduler>]: [replace_curr_task] and [select_next_task]
    know the trait only.  [Scheduler] is that trait, [SchedulerLaws] what an implementation has to keep
    to, and the dispatch code is verified for every implementation; the round-robin scheduler of [Sched]
    is one, and with it the code here is that of [Sched]. *)

From S2P Require Import Prelude Mem Gdt Sched.

(** [trait Scheduler], for a scheduler of type [Sch] in a kernel of type [K] (starting a process
    allocates its stacks). *)
Class Scheduler (K Sch : Type) : Type := {
  dyn_pick_next : M Sch (option Task);
  dyn_reinsert_task : Task -> M Sch unit;
  dyn_start_process : Z -> bool -> M K Z;
}.

(** What the queue operations promise, [queued] being the tasks a scheduler holds: a task that is picked
    leaves the scheduler, none is picked only if there is none, and a reinserted one joins the others. *)
Class SchedulerLaws (K Sch : Type) `{SC : Scheduler K Sch} (queued : Sch -> list Task) : Prop := {
  pick_next_law : forall s, exists o s', dyn_pick_next s = Ok (o, s') /\
    (o = None -> queued s = []) /\ queued s ≡ₚ option_list o ++ queued s';
  reinsert_task_law : forall t s, exists s', dyn_reinsert_task t s = Ok (tt, s') /\ queued s' ≡ₚ t :: queued s;
}.

(** The statics the dispatch code works on, and the rest of the kernel. *)
Record DynKernel (Sch R : Type) : Type := MkDyn {
  dyn_scheduler : mutex Sch;
  dyn_task : option Task;
  dyn_rest : R
}.
Arguments MkDyn {Sch R} _ _ _.
Arguments dyn_scheduler {Sch R} _.
Arguments dyn_task {Sch R} _.
Arguments dyn_rest {Sch R} _.

Definition DYN_SCHEDULER {Sch R} : lens (DynKernel Sch R) (mutex Sch) :=
  Lens dyn_scheduler (fun x k => MkDyn x (dyn_task k) (dyn_rest k)).
Definition set_dyn_task {Sch R} (t : option Task) (k : DynKernel Sch R) : DynKernel Sch R :=
  MkDyn (dyn_scheduler k) t (dyn_rest k).

Section Dispatch.
Context {Sch R : Type} `{SC : Scheduler (DynKernel Sch R) Sch}.
(** [get_idle_task().lock().1.as_mut()]. *)
Variable idle_ptr : M (DynKernel Sch R) Z.

(** Code on [get_scheduler().lock()]. *)
Definition get_scheduler {A} (m : M Sch A) : M (DynKernel Sch R) A :=
  with_lock DYN_SCHEDULER (zoom (lens_comp DYN_SCHEDULER inner_lens) m).

Definition dyn_replace_curr_task (t : option Task) : M (DynKernel Sch R) unit :=
  let! old := gets dyn_task in
  modify (set_dyn_task None) ;;
  (match old with
   | Some old_task => get_scheduler (dyn_reinsert_task old_task)
   | None => ret tt
   end) ;;
  modify (set_dyn_task t).

Definition dyn_select_next_task : M (DynKernel Sch R) Z :=
  let! next := get_scheduler dyn_pick_next in
  match next with
  | None =>
      dyn_replace_curr_task None ;;
      idle_ptr
  | Some t =>
      dyn_replace_curr_task (Some t) ;;
      let! cur := gets dyn_task in
      let! t := lift (unwrap cur) in
      ret t.2
  end.

Definition dyn_start_proc (target : Z) (kernel_owned : bool) : M (DynKernel Sch R) unit :=
  with_lock DYN_SCHEDULER (dyn_start_process target kernel_owned ;; ret tt).

(** * Lemmas *)

Context (queued : Sch -> list Task) `{SL : !SchedulerLaws (DynKernel Sch R) Sch queued}.
(** The idle task is there, or is created without touching the scheduler. *)
Hypothesis Hidle : forall k, exists p k', idle_ptr k = Ok (p, k') /\
  dyn_scheduler k' = dyn_scheduler k /\ dyn_task k' = dyn_task k.

(** All tasks of the kernel. *)
Definition dyn_tasks (k : DynKernel Sch R) : list Task :=
  option_list (dyn_task k) ++ queued (inner (dyn_scheduler k)).

Lemma get_scheduler_run {A} (m : M Sch A) s t r a s' :
  m s = Ok (a, s') -> get_scheduler m (MkDyn (mutex_new s) t r) = Ok (a, MkDyn (mutex_new s') t r).
Proof. intros E. unfold get_scheduler, with_lock, zoom. simpl. by rewrite E. Qed.

Lemma dyn_replace_run t s cur r : exists s',
  dyn_replace_curr_task t (MkDyn (mutex_new s) cur r) = Ok (tt, MkDyn (mutex_new s') t r) /\
  queued s' ≡ₚ option_list cur ++ queued s.
Proof.
  unfold dyn_replace_curr_task. rewrite bind_gets, bind_modify.
  change (set_dyn_task None _) with (MkDyn (mutex_new s) None r). cbn [dyn_task]. destruct cur as [old|]; [|by exists s].
  destruct (reinsert_task_law old s) as (s' & E & Hq). exists s'. split; [|exact Hq].
  by rewrite (bind_Ok _ _ _ _ _ (get_scheduler_run _ _ _ _ _ _ E)).
Qed.

(** What a call dispatches, and that no task is lost or made up. *)
Lemma dyn_select_run k : locked (dyn_scheduler k) = false ->
  exists p k', dyn_select_next_task k = Ok (p, k') /\ locked (dyn_scheduler k') = false /\
    dyn_tasks k' ≡ₚ dyn_tasks k /\
    match dyn_task k' with
    | Some t => p = t.2 /\ t ∈ queued (inner (dyn_scheduler k))
    | None => queued (inner (dyn_scheduler k)) = []
    end.
Proof.
  destruct k as [[l s] cur r]. simpl. intros ->. unfold dyn_select_next_task, dyn_tasks. simpl.
  destruct (pick_next_law s) as (o & s1 & E & Hnone & Hq).
  rewrite (bind_Ok _ _ _ _ _ (get_scheduler_run _ s cur r _ _ E)).
  destruct (dyn_replace_run o s1 cur r) as (s2 & E2 & Hq2).
  destruct o as [t|]; rewrite (bind_Ok _ _ _ _ _ E2).
  - exists t.2, (MkDyn (mutex_new s2) (Some t) r). split; [done|]. split; [done|]. simpl. split; [|split; [done|]].
    + rewrite Hq2, Hq. simpl. apply Permutation_middle.
    + rewrite Hq. simpl. apply list_elem_of_here.
  - destruct (Hidle (MkDyn (mutex_new s2) None r)) as (p & k' & Ep & Hs & Ht). exists p, k'.
    split; [exact Ep|]. rewrite Hs, Ht. simpl. split; [done|]. split; [|by apply Hnone]. by rewrite Hq2, Hq.
Qed.

Lemma dyn_selects_run n k : locked (dyn_scheduler k) = false ->
  exists k', for_each (replicate n tt) (fun _ => dyn_select_next_task ;; ret tt) k = Ok (tt, k') /\
    locked (dyn_scheduler k') = false /\ dyn_tasks k' ≡ₚ dyn_tasks k.
Proof.
  revert k. induction n as [|n IH]; intros k Hl; [by exists k|].
  destruct (dyn_select_run k Hl) as (p & k1 & E1 & L1 & Q1 & _). destruct (IH k1 L1) as (k' & E' & L' & Q').
  exists k'. split; [|split; [exact L'|by rewrite Q']]. cbn [replicate]. rewrite for_each_cons.
  unfold bind in E' |- *. rewrite E1. exact E'.
Qed.
End Dispatch.

(** ** The round-robin scheduler as an implementation *)

Section RoundRobin.
Context `{P : Profile} {H : Type}.
Variable alloc : Z -> Z -> H -> option (Z * H).
Variable idle : Z.

(** The other statics. *)
Record Rest : Type := MkRest {
  rest_idle : option (mutex Task); rest_init : bool; rest_void : option Z; rest_memory : mem; rest_heap : H
}.

Definition of_kernel (k : Kernel H) : DynKernel RoundRobinScheduler Rest :=
  MkDyn (scheduler k) (task k) (MkRest (idle_task k) (init_flag k) (void_task k) (memory k) (heap k)).
Definition to_kernel (d : DynKernel RoundRobinScheduler Rest) : Kernel H :=
  let r := dyn_rest d in
  MkKernel (dyn_scheduler d) (dyn_task d) (rest_idle r) (rest_init r) (rest_void r) (rest_memory r) (rest_heap r).

(** Code of [Sched] on this state. *)
Definition dyn {A} (m : M (Kernel H) A) : M (DynKernel RoundRobinScheduler Rest) A := fun d =>
  res_bind (m (to_kernel d)) (fun p => Ok (p.1, of_kernel p.2)).

#[export] Instance RoundRobin : Scheduler (DynKernel RoundRobinScheduler Rest) RoundRobinScheduler := {|
  dyn_pick_next := pick_next;
  dyn_reinsert_task := reinsert_task;
  dyn_start_process := fun f b => dyn (start_process alloc f b);
|}.

#[export] Instance RoundRobin_laws : SchedulerLaws (DynKernel RoundRobinScheduler Rest) RoundRobinScheduler tasks.
Proof.
  split; cbn.
  - intros [ts n]. destruct ts as [|t ts _] using rev_ind.
    + by exists None, (MkRR [] n).
    + exists (Some t), (MkRR ts n). rewrite pick_next_snoc. split; [done|]. split; [done|]. simpl. by rewrite Permutation_app_comm.
  - intros t [ts n]. by exists (MkRR (t :: ts) n).
Qed.

(** At the round-robin scheduler the dispatch code is [select_next_task] and [start_proc]. *)
Lemma dyn_select_is_select (k : Kernel H) :
  dyn_select_next_task (dyn (get_idle_task alloc idle)) (of_kernel k) = dyn (select_next_task alloc idle) (of_kernel k).
Proof.
  destruct k as [[[|] [ts n]] cur it ini v m h]; [done|]. unfold dyn_select_next_task, dyn at 2.
  change (to_kernel (of_kernel ?k)) with k. unfold select_next_task.
  destruct ts as [|t ts _] using rev_ind; [by destruct cur|].
  assert (with_lock SCHEDULER (rr pick_next) (MkKernel (Mutex false (MkRR (ts ++ [t]) n)) cur it ini v m h) =
    Ok (Some t, MkKernel (Mutex false (MkRR ts n)) cur it ini v m h)) as E.
  { unfold with_lock, rr, zoom. simpl. by rewrite pick_next_snoc. }
  rewrite (bind_Ok _ _ _ _ _ E). unfold of_kernel. cbn [scheduler task idle_task init_flag void_task memory heap].
  rewrite (bind_Ok _ _ _ _ _ (get_scheduler_run _ _ _ _ _ _ (pick_next_snoc ts t n))). by destruct cur.
Qed.

Lemma dyn_start_is_start f b (k : Kernel H) :
  dyn_start_proc f b (of_kernel k) = dyn (start_proc alloc f b) (of_kernel k).
Proof.
  destruct k as [[[|] s] cur it ini v m h]; [done|]. unfold dyn_start_proc, start_proc, dyn at 1, with_lock. simpl.
  unfold bind, dyn. simpl. destruct (start_process alloc f b _) as [[id k']| |]; [|done..]. reflexivity.
Qed.
End RoundRobin.

(** * Properties *)


