(* ===== verification/Alloc.v ===== *)
(** * The fixed-size block allocator (src/src/allocators/fixed_size_block.rs, [Locked] of
    src/src/allocators/mod.rs)

    Ten free lists of power-of-two blocks in front of a fallback heap.  A free block's first word is
    its [ListNode]: the lists live in the byte memory, [Option<&'static mut ListNode>] being an
    address with 0 for [None].  The fallback heap is the linked_list_allocator crate's [Heap]: a
    typeclass of its operations, with its documented contract as a second class. *)

From S2P Require Import Prelude Mem.

(** [core::alloc::Layout]. *)
Record Layout : Type := MkLayout { size : Z; align : Z }.

(** [Layout::from_size_align]: the alignment is a power of two and the padded size fits [isize]. *)
Definition from_size_align (s a : Z) : option Layout :=
  if (0 <? a) && (a =? 2 ^ Z.log2 a) && (s <=? 2 ^ 63 - a) then Some (MkLayout s a) else None.

(** The operations of [linked_list_allocator::Heap] that the allocator uses.  The crate keeps its
    hole list inside the free memory, so they work on the memory too. *)
Class Heap (H : Type) : Type := {
  heap_empty : H;
  heap_init : Z -> Z -> H -> mem -> H * mem;
  allocate_first_fit : Layout -> H -> mem -> option (Z * H * mem);
  deallocate : Z -> Layout -> H -> mem -> H * mem
}.

Definition BLOCK_SIZES : list Z := [8; 16; 32; 64; 128; 256; 512; 1024; 2048; 4096].

(** [mem::size_of::<ListNode>()] and [mem::align_of::<ListNode>()]. *)
Definition NODE_SIZE : Z := 8.
Definition NODE_ALIGN : Z := 8.

Record FixedSizeBlockAllocator (H : Type) : Type := MkFSBA {
  list_heads : list Z;
  fallback_allocator : H
}.
Arguments MkFSBA {H} _ _.
Arguments list_heads {H} _.
Arguments fallback_allocator {H} _.

(** The allocator behind its [Locked] wrapper, and the memory. *)
Record AllocState (H : Type) : Type := MkAS {
  allocator : mutex (FixedSizeBlockAllocator H);
  amem : mem
}.
Arguments MkAS {H} _ _.
Arguments allocator {H} _.
Arguments amem {H} _.

Definition allocator_lens {H} : lens (AllocState H) (mutex (FixedSizeBlockAllocator H)) :=
  Lens allocator (fun a s => MkAS a (amem s)).

(** The first index of [sizes] whose size is at least [n]: [iter().position(|&s| s >= n)]. *)
Fixpoint position_ge (sizes : list Z) (n : Z) : option nat :=
  match sizes with
  | [] => None
  | s :: sizes => if s >=? n then Some 0%nat else S <$> position_ge sizes n
  end.

Definition list_index (layout : Layout) : option nat :=
  position_ge BLOCK_SIZES (Z.max (size layout) (align layout)).

Section Allocator.
Context {H : Type} `{HH : Heap H}.

Abbreviation AllocState := (AllocState H).

Definition FixedSizeBlockAllocator_new : FixedSizeBlockAllocator H :=
  MkFSBA (replicate (length BLOCK_SIZES) 0) heap_empty.

Definition Locked_new (a : FixedSizeBlockAllocator H) (m : mem) : AllocState := MkAS (mutex_new a) m.

(** The allocator behind the guard. *)
Definition fsba (s : AllocState) : FixedSizeBlockAllocator H := inner (allocator s).
Definition set_fsba (a : FixedSizeBlockAllocator H) (m : mem) (s : AllocState) : AllocState :=
  MkAS (Mutex (locked (allocator s)) a) m.

Definition fsba_init (heap_start heap_size : Z) : M AllocState unit :=
  modify (fun s =>
    let '(h, m) := heap_init heap_start heap_size (fallback_allocator (fsba s)) (amem s) in
    set_fsba (MkFSBA (list_heads (fsba s)) h) m s).

Definition fallback_alloc (layout : Layout) : M AllocState Z := fun s =>
  match allocate_first_fit layout (fallback_allocator (fsba s)) (amem s) with
  | Some (p, h, m) => Ok (p, set_fsba (MkFSBA (list_heads (fsba s)) h) m s)
  | None => Ok (0, s)
  end.

(** [BLOCK_SIZES[index]]. *)
Definition block_size_at (index : nat) : M AllocState Z :=
  match BLOCK_SIZES !! index with
  | Some b => ret b
  | None => throw IndexOutOfBounds
  end.

(** [self.list_heads[index].take()]. *)
Definition take_head (index : nat) : M AllocState Z := fun s =>
  match list_heads (fsba s) !! index with
  | Some p =>
      Ok (p, set_fsba (MkFSBA (<[index := 0]> (list_heads (fsba s))) (fallback_allocator (fsba s)))
               (amem s) s)
  | None => Panic IndexOutOfBounds
  end.

(** [self.list_heads[index] = p]. *)
Definition set_head (index : nat) (p : Z) : M AllocState unit := fun s =>
  if decide (index < length (list_heads (fsba s)))%nat then
    Ok (tt, set_fsba (MkFSBA (<[index := p]> (list_heads (fsba s))) (fallback_allocator (fsba s)))
              (amem s) s)
  else Panic IndexOutOfBounds.

(** [node.next.take()]. *)
Definition take_next (node : Z) : M AllocState Z := fun s =>
  Ok (load64 (amem s) node, set_fsba (fsba s) (store64 (amem s) node 0) s).

(** [node_ptr.write(ListNode { next })]. *)
Definition write_node (node next : Z) : M AllocState unit :=
  modify (fun s => set_fsba (fsba s) (store64 (amem s) node next) s).

Definition assert (b : bool) : M AllocState unit :=
  if b then ret tt else throw AssertFailed.

Definition alloc (layout : Layout) : M AllocState Z :=
  with_lock allocator_lens
    (match list_index layout with
     | Some index =>
         let! node := take_head index in
         if node =? 0 then
           let! block_size := block_size_at index in
           let block_align := block_size in
           let! layout := lift (unwrap (from_size_align block_size block_align)) in
           fallback_alloc layout
         else
           let! next := take_next node in
           set_head index next ;;
           ret node
     | None => fallback_alloc layout
     end).

Definition dealloc (ptr : Z) (layout : Layout) : M AllocState unit :=
  with_lock allocator_lens
    (match list_index layout with
     | Some index =>
         let! next := take_head index in
         let! block_size := block_size_at index in
         assert (NODE_SIZE <=? block_size) ;;
         assert (NODE_ALIGN <=? block_size) ;;
         write_node ptr next ;;
         set_head index ptr
     | None =>
         if ptr =? 0 then throw UnwrapNone
         else
           modify (fun s =>
             let '(h, m) := deallocate ptr layout (fallback_allocator (fsba s)) (amem s) in
             set_fsba (MkFSBA (list_heads (fsba s)) h) m s)
     end).

End Allocator.

(** * Lemmas *)

(** ** Chunks of memory *)

Abbreviation chunk := (Z * Layout)%type.

Definition valid_layout (l : Layout) : Prop :=
  0 < size l /\ exists k, 0 <= k /\ align l = 2 ^ k.

Definition chunks_disjoint (c d : chunk) : Prop :=
  c.1 + size c.2 <= d.1 \/ d.1 + size d.2 <= c.1.

Definition chunk_ok (c : chunk) : Prop :=
  0 < c.1 /\ c.1 + size c.2 <= 2 ^ 64 /\ c.1 mod align c.2 = 0 /\ 0 < size c.2.

Definition unchanged (m m' : mem) (c : chunk) : Prop := same_bytes m m' c.1 (size c.2).

#[export] Instance chunks_disjoint_sym : Symmetric chunks_disjoint.
Proof. intros c d [H|H]; [by right|by left]. Qed.

(** The contract of the fallback heap: a relation between its state, the memory and the chunks it
    has handed out, which it keeps; a new chunk is aligned, not null and apart from the others; the
    memory of handed-out chunks is the clients': the heap does not write there and does not depend
    on it. *)
Class HeapLaws (H : Type) `{HH : Heap H} : Type := {
  heap_inv : H -> mem -> list chunk -> Prop;
  heap_inv_perm : forall h m cs cs', cs ≡ₚ cs' -> heap_inv h m cs -> heap_inv h m cs';
  heap_inv_write : forall h m m' cs,
    (forall x, (forall c, c ∈ cs -> ~ (c.1 <= x < c.1 + size c.2)) -> m' x = m x) ->
    heap_inv h m cs -> heap_inv h m' cs;
  heap_init_inv : forall start len m h m',
    0 < start -> 4096 <= len -> start + len <= 2 ^ 64 -> start mod 4096 = 0 ->
    heap_init start len heap_empty m = (h, m') -> heap_inv h m' [];
  heap_alloc_inv : forall l h m cs p h' m',
    valid_layout l -> heap_inv h m cs -> allocate_first_fit l h m = Some (p, h', m') ->
    heap_inv h' m' ((p, l) :: cs) /\ chunk_ok (p, l) /\
    Forall (chunks_disjoint (p, l)) cs /\ Forall (unchanged m m') cs;
  heap_dealloc_inv : forall p l h m cs h' m',
    heap_inv h m ((p, l) :: cs) -> deallocate p l h m = (h', m') ->
    heap_inv h' m' cs /\ Forall (unchanged m m') cs
}.

(** ** Size classes *)

Lemma position_ge_spec sizes n i :
  position_ge sizes n = Some i <->
  exists b, sizes !! i = Some b /\ n <= b /\
    forall j c, (j < i)%nat -> sizes !! j = Some c -> c < n.
Proof.
  revert i. induction sizes as [|s sizes IH]; intros i; cbn [position_ge].
  { split; [done|]. by intros (b & Hb & _). }
  destruct (Z.geb_spec s n) as [Hs|Hs].
  - split.
    + intros [= <-]. exists s. split_and!; [done|lia|]. intros j c Hj. lia.
    + intros (b & Hb & Hn & Hj). destruct i as [|i]; [done|].
      specialize (Hj 0%nat s ltac:(lia) eq_refl). lia.
  - rewrite fmap_Some. setoid_rewrite IH. split.
    + intros (i' & (b & Hb & Hn & Hj) & ->). exists b. split_and!; [done|done|].
      intros [|j] c Hlt; simpl; [intros [= <-]; lia|apply Hj; lia].
    + intros (b & Hb & Hn & Hj). destruct i as [|i]; [injection Hb; lia|].
      exists i. split; [|done]. exists b. split_and!; [done|done|].
      intros j c Hlt Hc. apply (Hj (S j) c); [lia|done].
Qed.

Lemma position_ge_None sizes n : position_ge sizes n = None <-> Forall (fun b => b < n) sizes.
Proof.
  induction sizes as [|s sizes IH]; cbn [position_ge]; [by split; [constructor|]|].
  rewrite Forall_cons. destruct (Z.geb_spec s n).
  - split; [done|]. intros [? _]. lia.
  - rewrite fmap_None, IH. intuition lia.
Qed.

Lemma block_sizes_pow i b :
  BLOCK_SIZES !! i = Some b -> (i < 10)%nat /\ b = 2 ^ (Z.of_nat i + 3) /\ 8 <= b <= 4096.
Proof. do 10 (destruct i as [|i]; [intros [= <-]; split; [lia|done]|]). done. Qed.

Lemma from_size_align_block i b :
  BLOCK_SIZES !! i = Some b -> from_size_align b b = Some (MkLayout b b).
Proof. do 10 (destruct i as [|i]; [by intros [= <-]|]). done. Qed.

Lemma block_valid i b : BLOCK_SIZES !! i = Some b -> valid_layout (MkLayout b b).
Proof.
  intros Hb. apply block_sizes_pow in Hb as (_ & Hp & Hb). split; simpl; [lia|].
  exists (Z.of_nat i + 3). lia.
Qed.

(** A multiple of a larger power of two is a multiple of a smaller one. *)
Lemma aligned_weaken p j k : 0 <= j -> 0 <= k -> 2 ^ j <= 2 ^ k -> p mod 2 ^ k = 0 -> p mod 2 ^ j = 0.
Proof.
  intros Hj Hk Hle Hp.
  assert (j <= k) by (apply (Z.pow_le_mono_r_iff 2); lia).
  apply Z.mod_divide in Hp; [|lia]. apply Z.mod_divide; [lia|].
  transitivity (2 ^ k); [|done]. exists (2 ^ (k - j)).
  rewrite <- Z.pow_add_r by lia. f_equal. lia.
Qed.

(** ** Free lists in memory *)

(** The list of nodes that starts at [head]. *)
Fixpoint chain (m : mem) (head : Z) (addrs : list Z) : Prop :=
  match addrs with
  | [] => head = 0
  | a :: addrs => head = a /\ chain m (load64 m a) addrs
  end.

Lemma chain_ext m m' head addrs :
  Forall (fun a => same_bytes m m' a 8) addrs -> chain m head addrs -> chain m' head addrs.
Proof.
  intros Hs. revert head. induction Hs as [|a addrs Ha _ IH]; intros head; [done|].
  simpl. intros [-> Hc]. split; [done|]. rewrite <- (load64_ext m m'); auto.
Qed.

(** The blocks of the free lists [fl], the [i]-th list holding blocks of the [i]-th size. *)
Fixpoint free_chunks (sizes : list Z) (fl : list (list Z)) : list chunk :=
  match sizes, fl with
  | b :: sizes, l :: fl => ((fun a => (a, MkLayout b b)) <$> l) ++ free_chunks sizes fl
  | _, _ => []
  end.

Lemma free_chunks_push sizes fl i b l a :
  sizes !! i = Some b -> fl !! i = Some l ->
  free_chunks sizes (<[i := a :: l]> fl) ≡ₚ (a, MkLayout b b) :: free_chunks sizes fl.
Proof.
  revert fl i. induction sizes as [|b' sizes IH]; intros [|l' fl] [|i] Hb Hl; simplify_eq/=; [done|].
  rewrite IH by done. symmetry. apply Permutation_middle.
Qed.

Lemma free_chunks_pop sizes fl i b l a :
  sizes !! i = Some b -> fl !! i = Some (a :: l) ->
  free_chunks sizes fl ≡ₚ (a, MkLayout b b) :: free_chunks sizes (<[i := l]> fl).
Proof.
  intros Hb Hl. rewrite <- (free_chunks_push sizes (<[i:=l]> fl) i b l a); [|done|].
  - by rewrite list_insert_insert_eq, list_insert_id.
  - apply list_lookup_insert_eq. by eapply lookup_lt_Some.
Qed.

Lemma elem_of_free_chunks sizes fl i b l a :
  sizes !! i = Some b -> fl !! i = Some l -> a ∈ l -> (a, MkLayout b b) ∈ free_chunks sizes fl.
Proof.
  revert fl i. induction sizes as [|b' sizes IH]; intros [|l' fl] [|i] Hb Hl Ha; simplify_eq/=.
  - apply elem_of_app. left. apply list_elem_of_fmap. by exists a.
  - apply elem_of_app. right. by eapply IH.
Qed.

(** Memory that agrees on the free blocks holds the same lists. *)
Lemma chains_ext m m' heads fl :
  length fl = length BLOCK_SIZES ->
  Forall (unchanged m m') (free_chunks BLOCK_SIZES fl) ->
  Forall2 (chain m) heads fl -> Forall2 (chain m') heads fl.
Proof.
  intros Hlen Hu Hc. apply Forall2_same_length_lookup_2; [by eapply Forall2_length|].
  intros i head l Hh Hl. apply (chain_ext m).
  - assert (is_Some (BLOCK_SIZES !! i)) as [b Hb].
    { apply lookup_lt_is_Some. rewrite <- Hlen. by eapply lookup_lt_Some. }
    apply Forall_forall. intros a Ha. rewrite Forall_forall in Hu.
    pose proof (elem_of_free_chunks _ _ _ _ _ _ Hb Hl Ha) as He. apply Hu in He.
    apply block_sizes_pow in Hb as (_ & _ & ?). eapply same_bytes_sub; [exact He| |]; simpl; lia.
  - by eapply Forall2_lookup_lr.
Qed.

(** A word stored in one chunk leaves the disjoint ones alone. *)
Lemma store_in_chunk m c v cs :
  8 <= size c.2 -> Forall (chunks_disjoint c) cs -> Forall (unchanged m (store64 m c.1 v)) cs.
Proof.
  intros Hs Hd. eapply Forall_impl; [exact Hd|]. intros d [H|H]; apply same_bytes_store; auto with leaf; lia.
Qed.

(** ** The allocator's invariant *)

(** The chunk of the fallback heap behind an allocation. *)
Definition chunk_of (c : chunk) : chunk :=
  match list_index c.2 with
  | Some i => match BLOCK_SIZES !! i with Some b => (c.1, MkLayout b b) | None => c end
  | None => c
  end.

Section Invariant.
Context {H : Type} `{HH : Heap H} {HL : HeapLaws H}.

(** [live] are the allocations in use. The free lists are well-formed lists in memory; their blocks
    and the live allocations are chunks of the fallback heap, pairwise disjoint. *)
Record alloc_inv (s : AllocState H) (live : list chunk) : Prop := {
  ai_unlocked : locked (allocator s) = false;
  ai_lists : exists fl,
    length fl = length BLOCK_SIZES /\
    Forall2 (chain (amem s)) (list_heads (fsba s)) fl /\
    let cs := free_chunks BLOCK_SIZES fl ++ (chunk_of <$> live) in
    heap_inv (fallback_allocator (fsba s)) (amem s) cs /\
    pairwise chunks_disjoint cs /\ Forall chunk_ok cs
}.

Lemma heap_inv_store h m cs c v :
  c ∈ cs -> 8 <= size c.2 -> heap_inv h m cs -> heap_inv h (store64 m c.1 v) cs.
Proof.
  intros Hc Hs. apply heap_inv_write. intros x Hx. apply store_outside.
  specialize (Hx c Hc). lia.
Qed.

Lemma list_index_block l i :
  list_index l = Some i -> exists b, BLOCK_SIZES !! i = Some b /\ size l <= b /\ align l <= b.
Proof. intros Hi. apply position_ge_spec in Hi as (b & Hb & Hn & _). exists b. split; [done|lia]. Qed.

Lemma chunk_of_block p l i b :
  list_index l = Some i -> BLOCK_SIZES !! i = Some b -> chunk_of (p, l) = (p, MkLayout b b).
Proof. intros Hi Hb. unfold chunk_of. simpl. by rewrite Hi, Hb. Qed.

Lemma chunk_of_large p l : list_index l = None -> chunk_of (p, l) = (p, l).
Proof. intros Hi. unfold chunk_of. simpl. by rewrite Hi. Qed.

(** *** Runs of the two operations *)

Lemma alloc_pop l i a (s : AllocState H) :
  locked (allocator s) = false -> list_index l = Some i -> list_heads (fsba s) !! i = Some a ->
  a <> 0 ->
  alloc l s = Ok (a, MkAS (Mutex false (MkFSBA (<[i := load64 (amem s) a]> (list_heads (fsba s)))
                                               (fallback_allocator (fsba s))))
                          (store64 (amem s) a 0)).
Proof.
  intros Hl Hi Ha H0. destruct s as [[lk [hs fb]] m]. simpl in *. subst lk.
  unfold alloc, with_lock. rewrite Hi. cbn [allocator_lens view update allocator locked inner amem].
  rewrite (bind_Ok _ _ _ a (MkAS (Mutex true (MkFSBA (<[i:=0]> hs) fb)) m)).
  2:{ unfold take_head. simpl. by rewrite Ha. }
  rewrite (proj2 (Z.eqb_neq a 0)) by done. unfold bind at 1. simpl.
  unfold bind, set_head. simpl. rewrite decide_True.
  - simpl. by rewrite list_insert_insert_eq.
  - rewrite length_insert. by eapply lookup_lt_Some.
Qed.

(** What [fallback_alloc] makes of an allocator state. *)
Definition after_fallback (l : Layout) (s : AllocState H) : Z * AllocState H :=
  match allocate_first_fit l (fallback_allocator (fsba s)) (amem s) with
  | Some (p, h, m) => (p, MkAS (Mutex false (MkFSBA (list_heads (fsba s)) h)) m)
  | None => (0, s)
  end.

Lemma alloc_block l i b (s : AllocState H) :
  locked (allocator s) = false -> list_index l = Some i -> BLOCK_SIZES !! i = Some b ->
  list_heads (fsba s) !! i = Some 0 ->
  alloc l s = Ok (after_fallback (MkLayout b b) s).
Proof.
  intros Hl Hi Hb Ha. destruct s as [[lk [hs fb]] m]. simpl in *. subst lk.
  unfold alloc, with_lock. rewrite Hi. cbn [allocator_lens view update allocator locked inner amem].
  rewrite (bind_Ok _ _ _ 0 (MkAS (Mutex true (MkFSBA hs fb)) m)).
  2:{ unfold take_head. simpl. rewrite Ha. by rewrite list_insert_id. }
  rewrite Z.eqb_refl. rewrite (bind_Ok _ _ _ b (MkAS (Mutex true (MkFSBA hs fb)) m)).
  2:{ unfold block_size_at. by rewrite Hb. }
  cbv zeta. rewrite (from_size_align_block i b Hb).
  unfold after_fallback, fallback_alloc, bind, lift. simpl.
  by destruct (allocate_first_fit _ _ _) as [[[p h'] m']|].
Qed.

Lemma alloc_large l (s : AllocState H) :
  locked (allocator s) = false -> list_index l = None -> alloc l s = Ok (after_fallback l s).
Proof.
  intros Hl Hi. destruct s as [[lk [hs fb]] m]. simpl in *. subst lk.
  unfold alloc, with_lock. rewrite Hi. unfold after_fallback, fallback_alloc. simpl.
  by destruct (allocate_first_fit _ _ _) as [[[p h'] m']|].
Qed.

Lemma dealloc_block l i b p a (s : AllocState H) :
  locked (allocator s) = false -> list_index l = Some i -> BLOCK_SIZES !! i = Some b ->
  list_heads (fsba s) !! i = Some a ->
  dealloc p l s = Ok (tt, MkAS (Mutex false (MkFSBA (<[i := p]> (list_heads (fsba s)))
                                                    (fallback_allocator (fsba s))))
                               (store64 (amem s) p a)).
Proof.
  intros Hl Hi Hb Ha. destruct s as [[lk [hs fb]] m]. simpl in *. subst lk.
  unfold dealloc, with_lock. rewrite Hi. cbn [allocator_lens view update allocator locked inner amem].
  set (s0 := MkAS (Mutex true (MkFSBA (<[i:=0]> hs) fb)) m).
  rewrite (bind_Ok _ _ _ a s0).
  2:{ unfold take_head. simpl. by rewrite Ha. }
  rewrite (bind_Ok _ _ _ b s0).
  2:{ unfold block_size_at. by rewrite Hb. }
  apply block_sizes_pow in Hb as (_ & _ & Hb).
  assert (forall c, c = 8 -> assert (c <=? b) s0 = Ok (tt, s0)) as HA.
  { intros c ->. unfold assert. by rewrite (proj2 (Z.leb_le 8 b)) by lia. }
  rewrite (bind_Ok _ _ _ _ _ (HA NODE_SIZE eq_refl)), (bind_Ok _ _ _ _ _ (HA NODE_ALIGN eq_refl)).
  unfold write_node. rewrite bind_modify. unfold set_head. simpl. rewrite decide_True.
  - simpl. by rewrite list_insert_insert_eq.
  - rewrite length_insert. by eapply lookup_lt_Some.
Qed.

Lemma dealloc_large l p (s : AllocState H) :
  locked (allocator s) = false -> list_index l = None -> p <> 0 ->
  dealloc p l s =
  Ok (tt, let '(h, m) := deallocate p l (fallback_allocator (fsba s)) (amem s) in
          MkAS (Mutex false (MkFSBA (list_heads (fsba s)) h)) m).
Proof.
  intros Hl Hi Hp. destruct s as [[lk [hs fb]] m]. simpl in *. subst lk.
  unfold dealloc, with_lock. rewrite Hi. rewrite (proj2 (Z.eqb_neq p 0)) by done. simpl.
  by destruct (deallocate _ _ _ _) as [h' m'].
Qed.

(** *** Preservation *)

Definition alloc_post (s : AllocState H) (live : list chunk) (l : Layout) (p : Z)
    (s' : AllocState H) : Prop :=
  (p = 0 /\ s' = s) \/
  (p <> 0 /\ alloc_inv s' ((p, l) :: live) /\
   Forall (unchanged (amem s) (amem s')) (chunk_of <$> live)).

Lemma after_fallback_post l l' (s : AllocState H) live :
  alloc_inv s live -> valid_layout l' -> (forall p, chunk_of (p, l) = (p, l')) ->
  alloc_post s live l (after_fallback l' s).1 (after_fallback l' s).2.
Proof.
  intros [Hl (fl & Hlen & Hch & Hinv & Hpw & Hok)] Hv Hc. unfold after_fallback.
  destruct (allocate_first_fit l' _ _) as [[[p h'] m']|] eqn:E; [|by left].
  right. destruct (heap_alloc_inv _ _ _ _ _ _ _ Hv Hinv E) as (Hinv' & Hok' & Hd & Hu).
  pose proof (proj1 Hok') as Hp. simpl in Hp.
  apply Forall_app in Hu as Hu'. destruct Hu' as [Huf Hul].
  split_and!; [simpl; lia| |done]. split; [done|]. exists fl.
  assert ((p, l') :: free_chunks BLOCK_SIZES fl ++ (chunk_of <$> live)
          ≡ₚ free_chunks BLOCK_SIZES fl ++ (chunk_of <$> (p, l) :: live)) as Hperm.
  { rewrite fmap_cons, Hc. apply Permutation_middle. }
  cbn [fst snd]. cbv zeta. split_and!; [done| |by eapply heap_inv_perm| |].
  - by apply (chains_ext (amem s)).
  - by apply (pairwise_perm _ _ _ Hperm).
  - rewrite <- Hperm. by constructor.
Qed.

Lemma chunk_ok_head (c : chunk) : chunk_ok c -> fits 64 c.1 /\ c.1 <> 0.
Proof. intros (H1 & H2 & _ & H4). unfold fits. lia. Qed.

Lemma alloc_pop_post l i a (s : AllocState H) live :
  alloc_inv s live -> list_index l = Some i -> list_heads (fsba s) !! i = Some a -> a <> 0 ->
  alloc_post s live l a
    (MkAS (Mutex false (MkFSBA (<[i := load64 (amem s) a]> (list_heads (fsba s)))
                               (fallback_allocator (fsba s)))) (store64 (amem s) a 0)).
Proof.
  intros [Hl (fl & Hlen & Hch & Hinv & Hpw & Hok)] Hi Ha H0.
  destruct (list_index_block l i Hi) as (b & Hb & _).
  destruct (Forall2_lookup_l _ _ _ _ _ Hch Ha) as ([|a' r] & Hfl & Hca); [done|].
  simpl in Hca. destruct Hca as [<- Hca].
  assert (free_chunks BLOCK_SIZES fl ++ (chunk_of <$> live)
          ≡ₚ (a, MkLayout b b) :: free_chunks BLOCK_SIZES (<[i:=r]> fl) ++ (chunk_of <$> live)) as Hp1.
  { by rewrite (free_chunks_pop _ _ _ _ _ _ Hb Hfl). }
  assert ((a, MkLayout b b) :: free_chunks BLOCK_SIZES (<[i:=r]> fl) ++ (chunk_of <$> live)
          ≡ₚ free_chunks BLOCK_SIZES (<[i:=r]> fl) ++ (chunk_of <$> (a, l) :: live)) as Hp2.
  { rewrite fmap_cons, (chunk_of_block a l i b Hi Hb). apply Permutation_middle. }
  pose proof (pairwise_perm _ _ _ Hp1 Hpw) as [Hd Hpw'].
  destruct (block_sizes_pow i b Hb) as (_ & _ & Hb8).
  pose proof (store_in_chunk (amem s) (a, MkLayout b b) 0 _ (proj1 Hb8) Hd) as Hu.
  pose proof Hu as [Huf Hul]%Forall_app.
  right. split_and!; [done| |done]. split; [done|].
  exists (<[i:=r]> fl). cbn [amem fsba allocator inner list_heads fallback_allocator].
  cbv zeta. split_and!.
  - by rewrite length_insert.
  - apply (chains_ext (amem s)); [by rewrite length_insert|done|]. by apply Forall2_insert.
  - apply (heap_inv_perm _ _ _ _ Hp2). apply (heap_inv_store _ _ _ (a, MkLayout b b));
      [by apply list_elem_of_here|simpl; lia|]. by apply (heap_inv_perm _ _ _ _ Hp1).
  - by apply (pairwise_perm _ _ _ Hp2).
  - by rewrite <- Hp2, <- Hp1.
Qed.

Lemma alloc_run l (s : AllocState H) live :
  alloc_inv s live -> valid_layout l ->
  exists p s', alloc l s = Ok (p, s') /\ alloc_post s live l p s'.
Proof.
  intros Hs Hv. pose proof (ai_unlocked _ _ Hs) as Hl. destruct (list_index l) as [i|] eqn:Hi.
  - destruct (list_index_block l i Hi) as (b & Hb & _).
    assert (is_Some (list_heads (fsba s) !! i)) as [a Ha].
    { destruct (ai_lists _ _ Hs) as (fl & Hlen & Hch & _). apply lookup_lt_is_Some.
      rewrite (Forall2_length _ _ _ Hch), Hlen. by eapply lookup_lt_Some. }
    destruct (decide (a = 0)) as [->|Hne].
    + rewrite (alloc_block l i b s Hl Hi Hb Ha).
      pose proof (after_fallback_post l (MkLayout b b) s live Hs (block_valid i b Hb)
        (fun p => chunk_of_block p l i b Hi Hb)) as Hpost.
      destruct (after_fallback _ s) as [p s']. by exists p, s'.
    + rewrite (alloc_pop l i a s Hl Hi Ha Hne). eexists _, _. split; [done|].
      by apply alloc_pop_post.
  - rewrite (alloc_large l s Hl Hi).
    pose proof (after_fallback_post l l s live Hs Hv (fun p => chunk_of_large p l Hi)) as Hpost.
    destruct (after_fallback _ s) as [p s']. by exists p, s'.
Qed.

Lemma alloc_inv_perm (s : AllocState H) live live' :
  live ≡ₚ live' -> alloc_inv s live -> alloc_inv s live'.
Proof.
  intros Hp [Hl (fl & Hlen & Hch & Hinv & Hpw & Hok)]. split; [done|]. exists fl.
  assert (free_chunks BLOCK_SIZES fl ++ (chunk_of <$> live)
          ≡ₚ free_chunks BLOCK_SIZES fl ++ (chunk_of <$> live')) as Hp' by (by rewrite Hp).
  cbv zeta. split_and!; [done|done|by eapply heap_inv_perm| |].
  - by apply (pairwise_perm _ _ _ Hp').
  - by rewrite <- Hp'.
Qed.

(** The first live chunk, set apart. *)
Lemma live_head_perm fl (c : chunk) live :
  free_chunks BLOCK_SIZES fl ++ (chunk_of <$> c :: live)
  ≡ₚ chunk_of c :: free_chunks BLOCK_SIZES fl ++ (chunk_of <$> live).
Proof. rewrite fmap_cons. symmetry. apply Permutation_middle. Qed.

Lemma dealloc_block_inv p l i a (s : AllocState H) live :
  alloc_inv s ((p, l) :: live) -> list_index l = Some i -> list_heads (fsba s) !! i = Some a ->
  let s' := MkAS (Mutex false (MkFSBA (<[i := p]> (list_heads (fsba s)))
                                      (fallback_allocator (fsba s)))) (store64 (amem s) p a) in
  alloc_inv s' live /\ Forall (unchanged (amem s) (amem s')) (chunk_of <$> live) /\
  p <> 0 /\ load64 (amem s') p = a.
Proof.
  intros [Hl (fl & Hlen & Hch & Hinv & Hpw & Hok)] Hi Ha s'.
  destruct (list_index_block l i Hi) as (b & Hb & _).
  destruct (Forall2_lookup_l _ _ _ _ _ Hch Ha) as (r & Hfl & Hca).
  pose proof (live_head_perm fl (p, l) live) as Hp1. rewrite (chunk_of_block p l i b Hi Hb) in Hp1.
  assert ((p, MkLayout b b) :: free_chunks BLOCK_SIZES fl ++ (chunk_of <$> live)
          ≡ₚ free_chunks BLOCK_SIZES (<[i:=p :: r]> fl) ++ (chunk_of <$> live)) as Hp2.
  { by rewrite (free_chunks_push _ _ _ _ _ _ Hb Hfl). }
  pose proof (pairwise_perm _ _ _ Hp1 Hpw) as Hpw'. pose proof (proj1 Hpw') as Hd.
  rewrite Hp1 in Hok. destruct (block_sizes_pow i b Hb) as (_ & _ & Hb8).
  pose proof (store_in_chunk (amem s) (p, MkLayout b b) a _ (proj1 Hb8) Hd) as Hu.
  pose proof Hu as [Huf Hul]%Forall_app. simpl in Huf, Hul.
  apply Forall_cons_1 in Hok as Hok'. destruct Hok' as [[Hfit Hp0]%chunk_ok_head Hok']. simpl in Hfit, Hp0.
  assert (load64 (store64 (amem s) p a) p = a) as Hload.
  { apply load_store_eq. destruct r as [|a' r]; simpl in Hca; [by subst a|]. destruct Hca as [-> _].
    pose proof (elem_of_free_chunks _ _ _ _ _ a' Hb Hfl (list_elem_of_here _ _)) as He.
    rewrite Forall_app, !Forall_forall in Hok'. by apply Hok', chunk_ok_head in He as [? _]. }
  split_and!; [|done..]. split; [done|]. exists (<[i:=p :: r]> fl).
  cbn [s' amem fsba allocator inner list_heads fallback_allocator]. cbv zeta. split_and!.
  - by rewrite length_insert.
  - apply Forall2_insert; [by apply (chains_ext (amem s))|]. split; [done|]. rewrite Hload.
    pose proof (chains_ext _ _ _ _ Hlen Huf Hch) as Hch'.
    by apply (Forall2_lookup_lr _ _ _ _ _ _ Hch' Ha Hfl).
  - apply (heap_inv_perm _ _ _ _ Hp2). apply (heap_inv_store _ _ _ (p, MkLayout b b));
      [by apply list_elem_of_here|simpl; lia|]. by apply (heap_inv_perm _ _ _ _ Hp1).
  - by apply (pairwise_perm _ _ _ Hp2).
  - by rewrite <- Hp2.
Qed.

Lemma dealloc_large_inv p l (s : AllocState H) live h m :
  alloc_inv s ((p, l) :: live) -> list_index l = None ->
  deallocate p l (fallback_allocator (fsba s)) (amem s) = (h, m) ->
  p <> 0 /\ alloc_inv (MkAS (Mutex false (MkFSBA (list_heads (fsba s)) h)) m) live /\
  Forall (unchanged (amem s) m) (chunk_of <$> live).
Proof.
  intros [Hl (fl & Hlen & Hch & Hinv & Hpw & Hok)] Hi E.
  pose proof (live_head_perm fl (p, l) live) as Hp. rewrite (chunk_of_large p l Hi) in Hp.
  apply (heap_inv_perm _ _ _ _ Hp) in Hinv.
  destruct (heap_dealloc_inv _ _ _ _ _ _ _ Hinv E) as [Hinv' Hu].
  pose proof Hu as [Huf Hul]%Forall_app. rewrite Hp in Hok. apply Forall_cons_1 in Hok as [Hc Hok].
  pose proof (proj2 (chunk_ok_head _ Hc)) as Hp0.
  apply (pairwise_perm _ _ _ Hp) in Hpw as [_ Hpw].
  split_and!; [done| |done]. split; [done|]. exists fl. cbv zeta. split_and!; [done| |done|done|done].
  by apply (chains_ext (amem s)).
Qed.

Lemma head_lookup (s : AllocState H) live l i :
  alloc_inv s live -> list_index l = Some i -> is_Some (list_heads (fsba s) !! i).
Proof.
  intros [_ (fl & Hlen & Hch & _)] Hi. destruct (list_index_block l i Hi) as (b & Hb & _).
  apply lookup_lt_is_Some. rewrite (Forall2_length _ _ _ Hch), Hlen. by eapply lookup_lt_Some.
Qed.

Lemma dealloc_run p l (s : AllocState H) live :
  alloc_inv s ((p, l) :: live) ->
  exists s', dealloc p l s = Ok (tt, s') /\ alloc_inv s' live /\
    Forall (unchanged (amem s) (amem s')) (chunk_of <$> live).
Proof.
  intros Hs. pose proof (ai_unlocked _ _ Hs) as Hl. destruct (list_index l) as [i|] eqn:Hi.
  - destruct (list_index_block l i Hi) as (b & Hb & _). destruct (head_lookup s _ l i Hs Hi) as [a Ha].
    destruct (dealloc_block_inv p l i a s live Hs Hi Ha) as (Hs' & Hu & _).
    rewrite (dealloc_block l i b p a s Hl Hi Hb Ha). by eexists.
  - destruct (deallocate p l (fallback_allocator (fsba s)) (amem s)) as [h m] eqn:E.
    destruct (dealloc_large_inv p l s live h m Hs Hi E) as (Hp & Hs' & Hu).
    rewrite (dealloc_large l p s Hl Hi Hp), E. by eexists.
Qed.

(** [x] is one of the bytes of a live allocation, as its client asked for them. *)
Definition client_byte (live : list chunk) (x : Z) : Prop :=
  exists c, c ∈ live /\ c.1 <= x < c.1 + size c.2.

Lemma chunk_of_covers (c : chunk) : (chunk_of c).1 = c.1 /\ size c.2 <= size (chunk_of c).2.
Proof.
  unfold chunk_of. destruct (list_index c.2) as [i|] eqn:Hi; [|done].
  destruct (list_index_block c.2 i Hi) as (b & -> & Hs & _). done.
Qed.

(** The clients may write to the bytes they own. *)
Lemma client_write_inv (s : AllocState H) live m' :
  alloc_inv s live -> (forall x, ~ client_byte live x -> m' x = amem s x) ->
  alloc_inv (MkAS (allocator s) m') live.
Proof.
  intros [Hl (fl & Hlen & Hch & Hinv & Hpw & Hok)] Hm. split; [done|]. exists fl. cbv zeta.
  split_and!; [done| | |done|done].
  - apply (chains_ext (amem s)); [done| |done]. apply Forall_forall. intros c Hc x Hx.
    symmetry. apply Hm. intros (d & Hd & Hxd). destruct (chunk_of_covers d) as [Hd1 Hd2].
    assert (chunks_disjoint c (chunk_of d)) as Hdis; [|unfold chunks_disjoint in Hdis; lia].
    clear -Hpw Hc Hd. induction (free_chunks BLOCK_SIZES fl) as [|c' cs IH]; [by apply elem_of_nil in Hc|].
    simpl in Hpw. destruct Hpw as [Hf Hpw]. apply elem_of_cons in Hc as [->|Hc]; [|by apply IH].
    rewrite Forall_app, !Forall_forall in Hf. apply Hf, list_elem_of_fmap. by exists d.
  - apply (heap_inv_write _ (amem s)); [|done]. intros x Hx. apply Hm. intros (d & Hd & Hxd).
    destruct (chunk_of_covers d) as [Hd1 Hd2]. apply (Hx (chunk_of d)); [|lia].
    apply elem_of_app. right. apply list_elem_of_fmap. by exists d.
Qed.

Lemma free_chunks_empty sizes n : free_chunks sizes (replicate n []) = [].
Proof. revert n. induction sizes as [|b sizes IH]; intros [|n]; simpl; auto. Qed.

Lemma init_inv start len m :
  0 < start -> 4096 <= len -> start + len <= 2 ^ 64 -> start mod 4096 = 0 ->
  exists s, fsba_init start len (Locked_new FixedSizeBlockAllocator_new m) = Ok (tt, s) /\
    alloc_inv s [].
Proof.
  intros H1 H2 H3 H4. unfold fsba_init, modify. simpl.
  destruct (heap_init start len heap_empty m) as [h m'] eqn:E. eexists. split; [done|].
  split; [done|]. exists (replicate (length BLOCK_SIZES) []).
  rewrite free_chunks_empty. cbv zeta. split_and!; [done| |by eapply heap_init_inv|done|constructor].
  by apply (Forall2_replicate (chain m') 10 0 []).
Qed.

(** The states of an allocator in use, with the allocations its clients hold: they allocate, free
    what they hold, and write to the bytes they asked for. *)
Inductive reachable (start len : Z) : AllocState H -> list chunk -> Prop :=
  | R_init m s :
      fsba_init start len (Locked_new FixedSizeBlockAllocator_new m) = Ok (tt, s) ->
      reachable start len s []
  | R_alloc s live l p s' :
      reachable start len s live -> valid_layout l -> alloc l s = Ok (p, s') -> p <> 0 ->
      reachable start len s' ((p, l) :: live)
  | R_out_of_memory s live l s' :
      reachable start len s live -> valid_layout l -> alloc l s = Ok (0, s') ->
      reachable start len s' live
  | R_dealloc s live p l rest s' :
      reachable start len s live -> live ≡ₚ (p, l) :: rest -> dealloc p l s = Ok (tt, s') ->
      reachable start len s' rest
  | R_write s live m' :
      reachable start len s live -> (forall x, ~ client_byte live x -> m' x = amem s x) ->
      reachable start len (MkAS (allocator s) m') live.

Lemma reachable_inv start len s live :
  0 < start -> 4096 <= len -> start + len <= 2 ^ 64 -> start mod 4096 = 0 ->
  reachable start len s live -> alloc_inv s live.
Proof.
  intros H1 H2 H3 H4. induction 1 as [m s E|s live l p s' _ IH Hv E Hp|s live l s' _ IH Hv E|
    s live p l rest s' _ IH Hperm E|s live m' _ IH Hm].
  - destruct (init_inv start len m H1 H2 H3 H4) as (s' & E' & Hs). congruence.
  - destruct (alloc_run l s live IH Hv) as (p' & s'' & E' & [[]|(_ & Hs & _)]); congruence.
  - destruct (alloc_run l s live IH Hv) as (p' & s'' & E' & [[]|[]]); congruence.
  - destruct (dealloc_run p l s rest) as (s'' & E' & Hs & _); [by apply (alloc_inv_perm s live)|].
    congruence.
  - by apply client_write_inv.
Qed.

(** What the invariant says of the bytes the clients asked for. *)
Lemma chunk_of_aligned (c : chunk) :
  valid_layout c.2 -> chunk_ok (chunk_of c) -> c.1 mod align c.2 = 0.
Proof.
  destruct c as [p l]. intros (_ & k & Hk & Ha) (_ & _ & Hok & _). simpl in *.
  destruct (list_index l) as [i|] eqn:Hi; [|by rewrite chunk_of_large in Hok].
  destruct (list_index_block l i Hi) as (b & Hb & _ & Hle). rewrite (chunk_of_block p l i b Hi Hb) in Hok.
  destruct (block_sizes_pow i b Hb) as (_ & Hp & _). simpl in Hok. rewrite Ha.
  apply (aligned_weaken p k (Z.of_nat i + 3)); [lia|lia|lia|]. by rewrite <- Hp.
Qed.

Lemma client_disjoint (c d : chunk) : chunks_disjoint (chunk_of c) (chunk_of d) -> chunks_disjoint c d.
Proof.
  unfold chunks_disjoint. destruct (chunk_of_covers c), (chunk_of_covers d). lia.
Qed.

Lemma client_unchanged m m' (c : chunk) : unchanged m m' (chunk_of c) -> unchanged m m' c.
Proof.
  unfold unchanged. destruct (chunk_of_covers c) as [H1 H2]. intros Hs.
  eapply same_bytes_sub; [exact Hs|lia|lia].
Qed.

Lemma reachable_valid start len s live :
  reachable start len s live -> Forall (fun c => valid_layout c.2) live.
Proof.
  induction 1 as [| |  |s live p l rest s' _ IH Hperm _|]; auto.
  rewrite Hperm in IH. by apply Forall_cons_1 in IH as [_ ?].
Qed.

Lemma inv_live_ok (s : AllocState H) live :
  alloc_inv s live -> pairwise chunks_disjoint live /\ Forall (fun c => chunk_ok (chunk_of c)) live.
Proof.
  intros [_ (fl & _ & _ & _ & Hpw & Hok)]. split.
  - apply (pairwise_fmap chunk_of chunks_disjoint); [exact client_disjoint|].
    by apply pairwise_app_r in Hpw.
  - apply Forall_app in Hok as [_ Hok]. by rewrite Forall_fmap in Hok.
Qed.

Lemma dealloc_alloc p l l' (s : AllocState H) live :
  alloc_inv s ((p, l) :: live) -> list_index l' = list_index l -> is_Some (list_index l) ->
  exists s1 s2, dealloc p l s = Ok (tt, s1) /\ alloc l' s1 = Ok (p, s2) /\ fsba s2 = fsba s.
Proof.
  intros Hs Hl' [i Hi]. rewrite Hi in Hl'. pose proof (ai_unlocked _ _ Hs) as Hl.
  destruct (list_index_block l i Hi) as (b & Hb & _). destruct (head_lookup s _ l i Hs Hi) as [a Ha].
  destruct (dealloc_block_inv p l i a s live Hs Hi Ha) as (Hs' & _ & Hp & Hld).
  rewrite (dealloc_block l i b p a s Hl Hi Hb Ha). eexists _, _. split; [done|].
  assert (i < length (list_heads (fsba s)))%nat as Hlt by (by eapply lookup_lt_Some).
  rewrite (alloc_pop l' i p); [|done|done|simpl; by apply list_lookup_insert_eq|done].
  split; [done|]. cbn [amem] in Hld. cbn [fsba allocator inner amem list_heads fallback_allocator].
  rewrite Hld, list_insert_insert_eq, list_insert_id by done. by destruct (fsba s).
Qed.

End Invariant.

(** * Properties *)

(** A heap for the witnesses: it hands out addresses in ascending order and takes none back. *)
Record bump_heap : Type := MkBump { bump_next : Z; bump_end : Z }.

Definition align_up (x a : Z) : Z := (x + a - 1) / a * a.

#[export] Instance bump_heap_ops : Heap bump_heap := {|
  heap_empty := MkBump 1 1;
  heap_init start len _ m := (MkBump start (start + len), m);
  allocate_first_fit l h m :=
    let p := align_up (bump_next h) (align l) in
    if p + size l <=? bump_end h then Some (p, MkBump (p + size l) (bump_end h), m) else None;
  deallocate _ _ h m := (h, m)
|}.

Definition bump_inv (h : bump_heap) (_ : mem) (cs : list chunk) : Prop :=
  0 < bump_next h /\ bump_end h <= 2 ^ 64 /\ Forall (fun c => c.1 + size c.2 <= bump_next h) cs.

Lemma align_up_spec x a : 0 < a -> x <= align_up x a /\ align_up x a mod a = 0.
Proof.
  intros Ha. unfold align_up. split; [|apply Z_mod_mult].
  pose proof (Z.div_mod (x + a - 1) a ltac:(lia)). pose proof (Z.mod_pos_bound (x + a - 1) a Ha). lia.
Qed.

#[export] Instance bump_heap_laws : HeapLaws bump_heap.
Proof.
  refine {| heap_inv := bump_inv |}.
  - intros h m cs cs' Hp (H1 & H2 & H3). split_and!; [done|done|by rewrite <- Hp].
  - done.
  - intros start len m h m' H1 _ H2 _ [= <- <-]. split_and!; [done|done|constructor].
  - intros l h m cs p h' m' (Hs & k & Hk & Hal) (H1 & H2 & H3). simpl.
    destruct (align_up_spec (bump_next h) (align l)) as [Hup Hmod].
    { rewrite Hal. by apply Z.pow_pos_nonneg. }
    destruct (Z.leb_spec (align_up (bump_next h) (align l) + size l) (bump_end h)); [|done].
    intros [= <- <- <-]. split_and!.
    + split_and!; simpl; [lia|lia|]. constructor; [simpl; lia|].
      eapply Forall_impl; [exact H3|]. simpl. intros c Hc. lia.
    + split_and!; simpl; [lia|lia|done|lia].
    + eapply Forall_impl; [exact H3|]. intros c Hc. right. simpl in *. lia.
    + apply Forall_true. done.
  - intros p l h m cs h' m' (H1 & H2 & H3) [= <- <-]. apply Forall_cons_1 in H3 as [_ H3].
    split; [done|]. by apply Forall_true.
Defined.


(** An allocator on the kernel's heap range with empty free lists, [n] bytes being in use. *)
Definition bump_state (n : Z) : AllocState bump_heap :=
  MkAS (mutex_new (MkFSBA (replicate 10 0)
                          (MkBump (0x444444440000 + n) (0x444444440000 + 1024000)))) (fun _ => 0).
Definition fresh_state : AllocState bump_heap := bump_state 0.

Definition box_layout : Layout := MkLayout 48 8.

Lemma box_layout_valid : valid_layout box_layout.
Proof. split; [done|]. by exists 3. Qed.



Lemma reach_two :
  reachable 0x444444440000 1024000 (bump_state 128)
    [(0x444444440040, box_layout); (0x444444440000, box_layout)].
Proof.
  apply (R_alloc _ _ (bump_state 64)); [|exact box_layout_valid|vm_compute; reflexivity|discriminate].
  apply (R_alloc _ _ (bump_state 0)); [|exact box_layout_valid|vm_compute; reflexivity|discriminate].
  apply (R_init _ _ (fun _ => 0)). reflexivity.
Qed.


(** C19: freeing works and is undone by the next allocation of the size class.  In every reachable
    state a client can free an allocation it holds: [dealloc] returns (no assertion fails) and leaves
    the other clients' bytes alone; and if the block was one of the fixed sizes, the next [alloc] of
    that size class returns the same block without asking the fallback heap, and brings the free
    lists back to what they were. *)
Theorem dealloc_then_alloc_reuses {H : Type} `{HH : Heap H} {HL : HeapLaws H} (start len : Z)
    (s : AllocState H) (p : Z) (l : Layout) (live : list chunk)
    (Hstart : 0 < start) (Hmod : start mod 4096 = 0) (Hlen : 4096 <= len)
    (Hend : start + len <= 2 ^ 64) (Hr : reachable start len s ((p, l) :: live)) :
  exists s1, dealloc p l s = Ok (tt, s1) /\ Forall (unchanged (amem s) (amem s1)) live /\
    (is_Some (list_index l) -> forall l', list_index l' = list_index l ->
     exists s2, alloc l' s1 = Ok (p, s2) /\ fsba s2 = fsba s).
Proof.
  pose proof (reachable_inv start len s _ Hstart Hlen Hend Hmod Hr) as Hs.
  destruct (dealloc_run p l s live Hs) as (s1 & E & _ & Hu). exists s1. split_and!; [done| |].
  - rewrite Forall_fmap in Hu. eapply Forall_impl; [exact Hu|]. intros c. apply client_unchanged.
  - intros Hi l' Hl'. destruct (dealloc_alloc p l l' s live Hs Hl' Hi) as (s1' & s2 & E' & Ea & Hf).
    exists s2. split; [|done]. congruence.
Qed.

Lemma dealloc_then_alloc_reuses_witness :
  exists s1 s2, dealloc 0x444444440040 box_layout (bump_state 128) = Ok (tt, s1) /\
    @alloc bump_heap _ (MkLayout 33 1) s1 = Ok (0x444444440040, s2).
Proof.
  destruct (dealloc_then_alloc_reuses 0x444444440000 1024000 (bump_state 128) 0x444444440040 box_layout
    [(0x444444440000, box_layout)]) as (s1 & E & _ & Hre);
    [reflexivity|reflexivity|discriminate|discriminate|exact reach_two|].
  destruct (Hre ltac:(by eexists) (MkLayout 33 1) eq_refl) as (s2 & E2 & _).
  exists s1, s2. split; [exact E|exact E2].
Defined.

(** The size class is the best fit.  [list_index] gives the smallest block size that holds both
    the size and the alignment of the layout, and no class exactly when one of them exceeds 4096. *)
Theorem list_index_best_fit (l : Layout) :
  match list_index l with
  | Some i => exists b, BLOCK_SIZES !! i = Some b /\ size l <= b /\ align l <= b /\
      forall j c, BLOCK_SIZES !! j = Some c -> size l <= c -> align l <= c -> b <= c
  | None => 4096 < size l \/ 4096 < align l
  end.
Proof.
  destruct (list_index l) as [i|] eqn:Hi.
  - apply position_ge_spec in Hi as (b & Hb & Hn & Hmin). exists b. split_and!; [done|lia|lia|].
    intros j c Hc H1 H2. destruct (decide (j < i)%nat) as [Hj|Hj].
    { specialize (Hmin j c Hj Hc). lia. }
    apply block_sizes_pow in Hb as (_ & -> & _). apply block_sizes_pow in Hc as (_ & -> & _).
    apply Z.pow_le_mono_r; lia.
  - apply position_ge_None in Hi. rewrite Forall_forall in Hi.
    specialize (Hi 4096 ltac:(unfold BLOCK_SIZES; repeat constructor)). lia.
Qed.
