(* ===== verification/Frames.v ===== *)
(** * Physical frames and the kernel heap (src/src/memory.rs, [init_heap] of
    src/src/allocators/mod.rs)

    The frame allocator over the bootloader's memory map, and the mapping of the heap's pages.
    Addresses, pages, frames and page tables are types of the x86_64 crate, the memory map of the
    bootloader crate and the heap of the linked_list_allocator crate: typeclasses of operations, with
    the documented behaviour as classes of laws. *)

From S2P Require Import Prelude Mem Alloc.

(** ** The x86_64 crate's addresses *)

(** Addresses, pages and frames are their (start) addresses. *)
Class AddrOps : Type := {
  phys_new : Z -> res Z;                  (* [PhysAddr::new] *)
  virt_new : Z -> res Z;                  (* [VirtAddr::new] *)
  virt_add : Z -> Z -> res Z;             (* [VirtAddr + u64], [VirtAddr + usize] *)
  virt_sub : Z -> Z -> res Z;             (* [VirtAddr - u64] *)
  containing_address : Z -> Z;            (* [Page::] and [PhysFrame::containing_address] *)
  range_inclusive : Z -> Z -> list Z;     (* [Page::range_inclusive] *)
  PRESENT : Z;
  WRITABLE : Z
}.

(** ** The bootloader crate's memory map *)

Record MemoryRegion (RT : Type) : Type := MkRegion {
  start_addr : Z;
  end_addr : Z;
  region_type : RT
}.
Arguments MkRegion {RT} _ _ _.
Arguments start_addr {RT} _.
Arguments end_addr {RT} _.
Arguments region_type {RT} _.

(** ** [x86_64::structures::paging::{FrameAllocator, Mapper}] *)

Class FrameAllocator (F : Type) : Type := allocate_frame : M F (option Z).

(** [map_to page frame flags], on the page tables and the allocator it takes table frames from; the
    returned [MapperFlush] only flushes the TLB. *)
Class Mapper (X F E : Type) : Type := {
  map_to : Z -> Z -> Z -> M (X * F) (E + unit);
  FrameAllocationFailed : E
}.

(** ** memory.rs *)

(** [(lo..hi).step_by(step)]. *)
Definition step_by (lo hi step : Z) : list Z :=
  (fun i => lo + step * i) <$> seqZ 0 ((hi - lo + step - 1) / step).

(** [xs.map(f).nth(n)]: the closure runs on every element up to the [n]-th. *)
Fixpoint map_nth {A B} (f : A -> res B) (xs : list A) (n : nat) : res (option B) :=
  match xs with
  | [] => Ok None
  | x :: xs =>
      res_bind (f x) (fun y => match n with O => Ok (Some y) | S n => map_nth f xs n end)
  end.

Inductive EmptyFrameAllocator : Type := Empty.

#[export] Instance empty_allocate_frame : FrameAllocator EmptyFrameAllocator := ret None.

Record BootInfoFrameAllocator (RT : Type) : Type := MkBootFA {
  memory_map : list (MemoryRegion RT);
  next : Z
}.
Arguments MkBootFA {RT} _ _.
Arguments memory_map {RT} _.
Arguments next {RT} _.

Definition BootInfoFrameAllocator_init {RT} (m : list (MemoryRegion RT)) : BootInfoFrameAllocator RT :=
  MkBootFA m 0.

Section Memory.
Context `{P : Profile} `{A : AddrOps}.
Context {RT : Type} `{RD : EqDecision RT}.
(** [MemoryRegionType::Usable]. *)
Variable Usable : RT.

(** The frame start addresses of [usable_frames], before the final [map]. *)
Definition frame_addresses (m : list (MemoryRegion RT)) : list Z :=
  let usable_regions := filter (fun r => region_type r = Usable) m in
  flat_map (fun r => step_by (start_addr r) (end_addr r) 4096) usable_regions.

(** The final [map]: [PhysFrame::containing_address(PhysAddr::new(addr))]. *)
Definition frame_at (addr : Z) : res Z :=
  res_bind (phys_new addr) (fun a => Ok (containing_address a)).

Definition boot_allocate_frame : M (BootInfoFrameAllocator RT) (option Z) :=
  let! f := get in
  let! frame := lift (map_nth frame_at (frame_addresses (memory_map f)) (Z.to_nat (next f))) in
  let! n := lift (add_w 64 (next f) 1) in
  modify (fun f => MkBootFA (memory_map f) n) ;;
  ret frame.

#[export] Instance boot_frame_allocator : FrameAllocator (BootInfoFrameAllocator RT) :=
  boot_allocate_frame.

End Memory.

(** ** allocators/mod.rs *)

Definition HEAP_START : Z := 0x444444440000.
Definition HEAP_SIZE : Z := 1000 * 1024.

(** What [init_heap] works on: the page tables, the frame allocator, the static [ALLOCATOR]
    ([LockedHeap]) and the memory. *)
Record HeapSetup (X F H : Type) : Type := MkHeapSetup {
  mapper : X;
  frame_allocator : F;
  ALLOCATOR : mutex H;
  hs_mem : mem
}.
Arguments MkHeapSetup {X F H} _ _ _ _.
Arguments mapper {X F H} _.
Arguments frame_allocator {X F H} _.
Arguments ALLOCATOR {X F H} _.
Arguments hs_mem {X F H} _.

Section InitHeap.
Context `{A : AddrOps}.
Context {X F E H : Type} `{FA : FrameAllocator F} `{MP : Mapper X F E} `{HH : Heap H}.

Abbreviation HeapSetup := (HeapSetup X F H).

Definition frames_lens : lens HeapSetup F :=
  Lens frame_allocator (fun f s => MkHeapSetup (mapper s) f (ALLOCATOR s) (hs_mem s)).
Definition paging_lens : lens HeapSetup (X * F) :=
  Lens (fun s => (mapper s, frame_allocator s))
       (fun xf s => MkHeapSetup xf.1 xf.2 (ALLOCATOR s) (hs_mem s)).
Definition ALLOCATOR_lens : lens HeapSetup (mutex H) :=
  Lens ALLOCATOR (fun h s => MkHeapSetup (mapper s) (frame_allocator s) h (hs_mem s)).

Definition heap_page_range : M HeapSetup (list Z) :=
  let! heap_start := lift (virt_new HEAP_START) in
  let! heap_end := lift (virt_add heap_start HEAP_SIZE) in
  let! heap_end := lift (virt_sub heap_end 1) in
  let heap_start_page := containing_address heap_start in
  let heap_end_page := containing_address heap_end in
  ret (range_inclusive heap_start_page heap_end_page).

(** The loop over the pages; [?] leaves it with the error. *)
Fixpoint map_pages (pages : list Z) : M HeapSetup (E + unit) :=
  match pages with
  | [] => ret (inr tt)
  | page :: pages =>
      let! frame := zoom frames_lens allocate_frame in
      match frame with
      | None => ret (inl FrameAllocationFailed)
      | Some frame =>
          let flags := Z.lor PRESENT WRITABLE in
          let! r := zoom paging_lens (map_to page frame flags) in
          match r with
          | inl e => ret (inl e)
          | inr _ => map_pages pages
          end
      end
  end.

Definition init_heap : M HeapSetup (E + unit) :=
  let! page_range := heap_page_range in
  let! r := map_pages page_range in
  match r with
  | inl e => ret (inl e)
  | inr _ =>
      with_lock ALLOCATOR_lens
        (modify (fun s =>
           let '(h, m) := heap_init HEAP_START HEAP_SIZE (inner (ALLOCATOR s)) (hs_mem s) in
           MkHeapSetup (mapper s) (frame_allocator s) (Mutex (locked (ALLOCATOR s)) h) m)) ;;
      ret (inr tt)
  end.

End InitHeap.

(** ** [memory::init] and [memory::setup] *)

Section Setup.
Context `{P : Profile} `{A : AddrOps}.
Context {RT : Type} `{RD : EqDecision RT}.
Variable Usable : RT.
Context {X E H : Type} `{MP : Mapper X (BootInfoFrameAllocator RT) E} `{HH : Heap H}.
(** [Cr3::read().0.start_address()], and [OffsetPageTable::new(table, offset)]. *)
Variable cr3_frame : Z.
Variable offset_page_table_new : Z -> Z -> X.

Definition active_level_4_table (physical_memory_offset : Z) : res Z :=
  let phys := cr3_frame in
  virt_add physical_memory_offset phys.

Definition memory_init (physical_memory_offset : Z) : res X :=
  res_bind (active_level_4_table physical_memory_offset) (fun level_4_table =>
  Ok (offset_page_table_new level_4_table physical_memory_offset)).

(** The static [ALLOCATOR] and the memory are passed in and out. *)
Definition setup (memory_map : list (MemoryRegion RT)) (physical_memory_offset : Z)
    (allocator : mutex H) (m : mem) : res (HeapSetup X (BootInfoFrameAllocator RT) H) :=
  res_bind (virt_new physical_memory_offset) (fun phys_mem_offset =>
  res_bind (memory_init phys_mem_offset) (fun mapper =>
  let frame_allocator := BootInfoFrameAllocator_init memory_map in
  res_bind (init_heap (FA := boot_frame_allocator Usable)
              (MkHeapSetup mapper frame_allocator allocator m)) (fun p =>
  match p.1 with
  | inl _ => Panic ExpectFailed
  | inr _ => Ok p.2
  end))).

End Setup.

(** * Lemmas *)

(** ** What the code relies on of the crates *)

(** The addresses and pages of the x86_64 crate: no panic on canonical addresses, pages and frames of
    4 KiB. *)
Class AddrLaws `{A : AddrOps} : Prop := {
  phys_new_ok : forall a, 0 <= a < 2 ^ 52 -> phys_new a = Ok a;
  virt_new_ok : forall a, 0 <= a < 2 ^ 47 -> virt_new a = Ok a;
  virt_add_ok : forall a n, 0 <= a < 2 ^ 47 -> 0 <= n -> a + n < 2 ^ 47 -> virt_add a n = Ok (a + n);
  virt_sub_ok : forall a n, 0 <= n <= a -> a < 2 ^ 47 -> virt_sub a n = Ok (a - n);
  containing_address_ok : forall a, 0 <= a -> containing_address a = a - a mod 4096;
  range_inclusive_ok : forall p q, 0 <= p <= q -> p mod 4096 = 0 -> q mod 4096 = 0 ->
    range_inclusive p q = step_by p (q + 1) 4096
}.

(** [n] allocations in a row. *)
Fixpoint allocs {F} `{FA : FrameAllocator F} (n : nat) : M F (list (option Z)) :=
  match n with
  | O => ret []
  | S n => let! r := allocate_frame in let! rs := allocs n in ret (r :: rs)
  end.

(** ** Lists *)

Lemma seqZ_elem lo hi step x :
  0 < step -> x ∈ step_by lo hi step <-> exists i, 0 <= i /\ x = lo + step * i /\ x < hi.
Proof.
  intros Hs. unfold step_by. rewrite list_elem_of_fmap. setoid_rewrite elem_of_seqZ.
  pose proof (Z.div_mod (hi - lo + step - 1) step ltac:(lia)).
  pose proof (Z.mod_pos_bound (hi - lo + step - 1) step Hs).
  set (q := (hi - lo + step - 1) / step) in *. split.
  - intros (i & -> & Hi). exists i. split_and!; [lia|done|]. nia.
  - intros (i & Hi & -> & Hx). exists i. split; [done|]. nia.
Qed.

Lemma NoDup_step_by lo hi step : 0 < step -> NoDup (step_by lo hi step).
Proof.
  intros Hs. unfold step_by. apply NoDup_fmap_2_strong; [|apply NoDup_seqZ]. intros i j _ _. nia.
Qed.

Lemma map_nth_id (f : Z -> res Z) xs n :
  Forall (fun x => f x = Ok x) xs -> map_nth f xs n = Ok (xs !! n).
Proof.
  intros Hf. revert n. induction Hf as [|x xs Hx _ IH]; intros n; [done|].
  simpl. rewrite Hx. simpl. destruct n; [done|apply IH].
Qed.

Section BootFrames.
Context `{P : Profile} `{A : AddrOps} `{AL : !AddrLaws}.
Context {RT : Type} `{RD : EqDecision RT}.
Variable Usable : RT.

(** What the bootloader promises of its memory map: regions are made of whole frames of physical
    memory. *)
Definition region_ok (r : MemoryRegion RT) : Prop :=
  0 <= start_addr r <= end_addr r /\ end_addr r <= 2 ^ 52 /\
  start_addr r mod 4096 = 0 /\ end_addr r mod 4096 = 0.

Definition regions_disjoint (r1 r2 : MemoryRegion RT) : Prop :=
  end_addr r1 <= start_addr r2 \/ end_addr r2 <= start_addr r1.

(** A frame of a usable region. *)
Definition usable_frame (m : list (MemoryRegion RT)) (f : Z) : Prop :=
  exists r, r ∈ m /\ region_type r = Usable /\ start_addr r <= f /\ f + 4096 <= end_addr r /\
    f mod 4096 = 0.

Lemma region_frames r f :
  region_ok r ->
  f ∈ step_by (start_addr r) (end_addr r) 4096 <->
  start_addr r <= f /\ f + 4096 <= end_addr r /\ f mod 4096 = 0.
Proof.
  intros (H1 & H2 & H3 & H4). rewrite seqZ_elem by lia.
  apply Z.mod_divide in H3 as [a Ha]; [|lia]. apply Z.mod_divide in H4 as [b Hb]; [|lia]. split.
  - intros (i & Hi & -> & Hx). split_and!; [lia|lia|]. apply Z.mod_divide; [lia|]. exists (a + i). lia.
  - intros (Hs & He & [k Hk]%Z.mod_divide); [|lia]. exists (k - a). lia.
Qed.

Lemma elem_of_frame_addresses m f :
  Forall region_ok m -> f ∈ frame_addresses Usable m <-> usable_frame m f.
Proof.
  intros Hm. unfold frame_addresses, usable_frame. rewrite Forall_forall in Hm.
  rewrite list_elem_of_In, in_flat_map. setoid_rewrite <- list_elem_of_In.
  setoid_rewrite list_elem_of_filter. split.
  - intros (r & [Hu Hr] & Hf). exists r. by apply region_frames in Hf; auto.
  - intros (r & Hr & Hu & Hf). exists r. split; [done|]. apply region_frames; auto.
Qed.

Lemma NoDup_frame_addresses m :
  Forall region_ok m -> pairwise regions_disjoint m -> NoDup (frame_addresses Usable m).
Proof.
  unfold frame_addresses. induction m as [|r m IH]; [constructor|].
  intros [Hr Hm]%Forall_cons_1 [Hd Hp]. rewrite filter_cons. case_decide; [|by apply IH].
  simpl. apply NoDup_app. split_and!; [by apply NoDup_step_by| |by apply IH].
  intros f Hf. rewrite list_elem_of_In, in_flat_map. setoid_rewrite <- list_elem_of_In.
  intros (r' & [_ Hr']%list_elem_of_filter & Hf').
  rewrite Forall_forall in Hd, Hm. specialize (Hd r' Hr').
  apply region_frames in Hf, Hf'; auto. unfold regions_disjoint in Hd. lia.
Qed.

Lemma frame_at_ok f : 0 <= f < 2 ^ 52 -> f mod 4096 = 0 -> frame_at f = Ok f.
Proof.
  intros Hf Hm. unfold frame_at. rewrite phys_new_ok by done. simpl.
  rewrite containing_address_ok by lia. f_equal. lia.
Qed.

Lemma boot_allocate_frame_run (f : BootInfoFrameAllocator RT) :
  Forall region_ok (memory_map f) -> 0 <= next f -> next f + 1 < 2 ^ 64 ->
  allocate_frame (FrameAllocator := boot_frame_allocator Usable) f =
  Ok (frame_addresses Usable (memory_map f) !! Z.to_nat (next f), MkBootFA (memory_map f) (next f + 1)).
Proof.
  intros Hm H0 Hn. unfold allocate_frame, boot_frame_allocator, boot_allocate_frame.
  rewrite (bind_Ok _ _ _ f f) by done.
  erewrite bind_Ok; [|unfold lift; rewrite map_nth_id; [done|]].
  - erewrite bind_Ok; [|unfold lift, add_w; rewrite arith_fits; [done|unfold fits; lia]]. done.
  - apply Forall_forall. intros a Ha. apply elem_of_frame_addresses in Ha as (r & Hr & _ & Ha); [|done].
    rewrite Forall_forall in Hm. apply Hm in Hr as (? & ? & _). apply frame_at_ok; [lia|apply Ha].
Qed.

Lemma boot_allocs_run n (f : BootInfoFrameAllocator RT) :
  Forall region_ok (memory_map f) -> 0 <= next f -> next f + Z.of_nat n < 2 ^ 64 ->
  allocs (FA := boot_frame_allocator Usable) n f =
  Ok ((fun i => frame_addresses Usable (memory_map f) !! i) <$> seq (Z.to_nat (next f)) n,
      MkBootFA (memory_map f) (next f + Z.of_nat n)).
Proof.
  revert f. induction n as [|n IH]; intros f Hm H0 Hn; simpl.
  { destruct f as [m k]. simpl. by rewrite Z.add_0_r. }
  rewrite (bind_Ok _ _ _ _ _ (boot_allocate_frame_run f Hm H0 ltac:(lia))).
  erewrite bind_Ok by (apply IH; simpl; [done|lia|lia]). simpl. unfold ret. do 3 f_equal; [|lia].
  do 2 f_equal. lia.
Qed.

(** The results of [n] allocations, the failed ones dropped. *)
Lemma omap_lookup_seq {B} (l : list B) n :
  omap id ((fun i => l !! i) <$> seq 0 n) = take n l.
Proof.
  revert l. induction n as [|n IH]; intros l; [by rewrite take_0|].
  cbn [seq fmap list_fmap]. rewrite <- fmap_S_seq, <- list_fmap_compose.
  destruct l as [|x l]; simpl.
  - by specialize (IH []); rewrite take_nil in IH.
  - f_equal. apply IH.
Qed.

(** ** Mapping the heap *)

Context {X E H : Type} `{MP : Mapper X (BootInfoFrameAllocator RT) E} `{HH : Heap H}.

(** What the kernel relies on of [Mapper::map_to]: it returns; it takes at most three frames, one
    per missing level of tables, from the allocator; on success the page, and no other, has the new
    mapping; and it does succeed on an unmapped page when three frames are left.  [translate] is the
    mapping the page tables hold. *)
Class MapperLaws (translate : X -> Z -> option (Z * Z)) : Prop := map_to_spec :
  forall page frame flags x f, Forall region_ok (memory_map f) -> 0 <= next f ->
    next f + 3 < 2 ^ 64 ->
  exists r x' n, map_to page frame flags (x, f) = Ok (r, (x', MkBootFA (memory_map f) (next f + n))) /\
    0 <= n <= 3 /\
    (r = inr tt -> forall q, translate x' q = if decide (q = page) then Some (frame, flags)
                                              else translate x q) /\
    (translate x page = None ->
     next f + 3 <= Z.of_nat (length (frame_addresses Usable (memory_map f))) -> r = inr tt).

Variable translate : X -> Z -> option (Z * Z).
Context `{ML : !MapperLaws translate}.

Abbreviation heap_flags := (Z.lor PRESENT WRITABLE).

(** The frames [fs] went to [pages], in order, and came from the positions of the frame list between
    the two values of [next]. *)
Record pages_mapped (m : list (MemoryRegion RT)) (lo hi : Z) (x x' : X) (pages fs : list Z) : Prop := {
  pm_frames : Forall2 (fun page fr => translate x' page = Some (fr, heap_flags)) pages fs;
  pm_others : forall q, q ∉ pages -> translate x' q = translate x q;
  pm_source : Forall (fun fr => exists j, lo <= j < hi /\
                frame_addresses Usable m !! Z.to_nat j = Some fr) fs;
  pm_distinct : NoDup (frame_addresses Usable m) -> NoDup fs;
}.

Lemma pages_mapped_cons m lo n hi x x1 x' page pages fr fs :
  0 <= lo -> 0 <= n -> lo + 1 + n <= hi ->
  frame_addresses Usable m !! Z.to_nat lo = Some fr ->
  (forall q, translate x1 q = if decide (q = page) then Some (fr, heap_flags) else translate x q) ->
  page ∉ pages ->
  pages_mapped m (lo + 1 + n) hi x1 x' pages fs ->
  pages_mapped m lo hi x x' (page :: pages) (fr :: fs).
Proof.
  intros H0 Hn Hhi Hfr Ht Hp [Hf Ho Hs Hd]. split.
  - constructor; [|done]. rewrite Ho, Ht by done. by rewrite decide_True.
  - intros q Hq. apply not_elem_of_cons in Hq as [Hne Hq]. rewrite Ho, Ht by done.
    by rewrite decide_False.
  - constructor.
    + exists lo. split; [lia|done].
    + eapply Forall_impl; [exact Hs|]. intros fr' (j & Hj & Hl). exists j. split; [lia|done].
  - intros Hnd. apply NoDup_cons. split; [|auto]. intros Hin. rewrite Forall_forall in Hs.
    destruct (Hs fr Hin) as (j & Hj & Hl).
    pose proof (proj1 (NoDup_alt _) Hnd _ _ _ Hfr Hl). lia.
Qed.

Lemma map_pages_run pages x f (al : mutex H) m :
  Forall region_ok (memory_map f) -> 0 <= next f ->
  next f + 4 * Z.of_nat (length pages) <= Z.of_nat (length (frame_addresses Usable (memory_map f))) ->
  Z.of_nat (length (frame_addresses Usable (memory_map f))) < 2 ^ 64 ->
  NoDup pages -> Forall (fun p => translate x p = None) pages ->
  exists x' hi fs, map_pages (FA := boot_frame_allocator Usable) pages (MkHeapSetup x f al m) =
      Ok (inr tt, MkHeapSetup x' (MkBootFA (memory_map f) hi) al m) /\
    next f <= hi /\ pages_mapped (memory_map f) (next f) hi x x' pages fs.
Proof.
  intros Hm. revert x f Hm. induction pages as [|page pages IH]; intros x f Hm H0 Hn H64 Hnd Hnone.
  { exists x, (next f), []. destruct f. simpl. split_and!; [done|lia|].
    split; [constructor|done|constructor|constructor]. }
  cbn [length] in Hn. apply NoDup_cons in Hnd as [Hp Hnd]. apply Forall_cons_1 in Hnone as [Hnp Hnone].
  destruct (lookup_lt_is_Some_2 (frame_addresses Usable (memory_map f)) (Z.to_nat (next f)))
    as [fr Hfr]; [lia|].
  set (f1 := MkBootFA (memory_map f) (next f + 1)).
  destruct (map_to_spec page fr heap_flags x f1) as (r & x1 & n & Em & Hn3 & Ht & Hok);
    [done|simpl; lia|simpl; lia|].
  specialize (Hok Hnp ltac:(simpl; lia)). subst r. specialize (Ht eq_refl).
  destruct (IH x1 (MkBootFA (memory_map f1) (next f1 + n))) as (x' & hi & fs & E' & Hhi & Hpm);
    try (simpl; done || lia).
  { rewrite Forall_forall in *. intros q Hq. rewrite Ht, decide_False; [by apply Hnone|].
    by intros ->. }
  exists x', hi, (fr :: fs). split_and!.
  - cbn [map_pages]. erewrite bind_Ok.
    2:{ unfold zoom. cbn [view frames_lens frame_allocator].
        by rewrite boot_allocate_frame_run, Hfr by (done || lia). }
    cbn [update frames_lens mapper ALLOCATOR hs_mem fst snd]. fold f1. erewrite bind_Ok.
    2:{ unfold zoom. cbn [view paging_lens mapper frame_allocator]. by rewrite Em. }
    exact E'.
  - simpl in Hhi. lia.
  - apply (pages_mapped_cons _ _ n hi x x1); simpl in *; done || lia.
Qed.

(** The pages of the heap. *)
Definition heap_pages : list Z := step_by HEAP_START (HEAP_START + HEAP_SIZE) 4096.

Lemma heap_page_range_run {F} (s : HeapSetup X F H) : heap_page_range s = Ok (heap_pages, s).
Proof.
  unfold heap_page_range. unfold lift.
  rewrite (bind_Ok _ _ _ HEAP_START s) by (by rewrite virt_new_ok).
  rewrite (bind_Ok _ _ _ (HEAP_START + HEAP_SIZE) s) by (by rewrite virt_add_ok).
  rewrite (bind_Ok _ _ _ (HEAP_START + HEAP_SIZE - 1) s) by (by rewrite virt_sub_ok).
  cbv zeta. rewrite !containing_address_ok by done.
  by rewrite range_inclusive_ok by done.
Qed.

Lemma init_heap_run x f (al : mutex H) m h m' :
  Forall region_ok (memory_map f) -> 0 <= next f -> locked al = false ->
  next f + 1000 <= Z.of_nat (length (frame_addresses Usable (memory_map f))) ->
  Z.of_nat (length (frame_addresses Usable (memory_map f))) < 2 ^ 64 ->
  Forall (fun p => translate x p = None) heap_pages ->
  heap_init HEAP_START HEAP_SIZE (inner al) m = (h, m') ->
  exists x' hi fs, init_heap (FA := boot_frame_allocator Usable) (MkHeapSetup x f al m) =
      Ok (inr tt, MkHeapSetup x' (MkBootFA (memory_map f) hi) (Mutex false h) m') /\
    next f <= hi /\ pages_mapped (memory_map f) (next f) hi x x' heap_pages fs.
Proof.
  intros Hm H0 Hl Hn H64 Hnone Eh.
  destruct (map_pages_run heap_pages x f al m) as (x' & hi & fs & E1 & Hhi & Hpm); try done.
  { by apply NoDup_step_by. }
  exists x', hi, fs. split; [|done]. unfold init_heap.
  rewrite (bind_Ok _ _ _ _ _ (heap_page_range_run _)), (bind_Ok _ _ _ _ _ E1).
  destruct al as [lk h0]. simpl in Hl, Eh. subst lk. unfold bind, with_lock, modify. simpl.
  by rewrite Eh.
Qed.

Lemma init_heap_exhausted x f (al : mutex H) m :
  Forall region_ok (memory_map f) -> 0 <= next f -> next f + 1 < 2 ^ 64 ->
  Z.of_nat (length (frame_addresses Usable (memory_map f))) <= next f ->
  init_heap (FA := boot_frame_allocator Usable) (MkHeapSetup x f al m) =
  Ok (inl FrameAllocationFailed, MkHeapSetup x (MkBootFA (memory_map f) (next f + 1)) al m).
Proof.
  intros Hm H0 H64 Hn. unfold init_heap. rewrite (bind_Ok _ _ _ _ _ (heap_page_range_run _)).
  assert (exists page pages, heap_pages = page :: pages) as (page & pages & ->).
  { eexists _, _. unfold heap_pages, step_by. rewrite seqZ_cons by done. done. }
  cbn [map_pages]. rewrite bind_assoc. erewrite bind_Ok.
  2:{ unfold zoom. cbn [view frames_lens frame_allocator].
      by rewrite boot_allocate_frame_run, lookup_ge_None_2 by (done || lia). }
  done.
Qed.

(** [setup] on a memory map with frames enough for the heap and its page tables. *)
Lemma setup_run cr3 (opt_new : Z -> Z -> X) map offset (h0 : H) m :
  Forall region_ok map -> pairwise regions_disjoint map ->
  0 <= offset -> 0 <= cr3 -> offset + cr3 < 2 ^ 47 ->
  1000 <= Z.of_nat (length (frame_addresses Usable map)) < 2 ^ 64 ->
  Forall (fun p => translate (opt_new (offset + cr3) offset) p = None) heap_pages ->
  exists x hi fs, setup Usable cr3 opt_new map offset (mutex_new h0) m =
      Ok (MkHeapSetup x (MkBootFA map hi) (Mutex false (heap_init HEAP_START HEAP_SIZE h0 m).1)
            (heap_init HEAP_START HEAP_SIZE h0 m).2) /\
    Forall2 (fun page fr => translate x page = Some (fr, Z.lor PRESENT WRITABLE)) heap_pages fs /\
    NoDup fs /\ Forall (usable_frame map) fs /\
    (forall q, q ∉ heap_pages -> translate x q = translate (opt_new (offset + cr3) offset) q).
Proof.
  intros Hm Hd Hoff Hcr3 Hvirt Hn Hfree.
  destruct (heap_init HEAP_START HEAP_SIZE h0 m) as [h m'] eqn:Eh.
  destruct (init_heap_run (opt_new (offset + cr3) offset)
    (BootInfoFrameAllocator_init map) (mutex_new h0) m h m')
    as (x' & hi & fs & E1 & _ & [Hf Ho Hs Hnd]); try (done || simpl; lia).
  unfold setup, memory_init, active_level_4_table.
  rewrite virt_new_ok by lia. cbn [res_bind]. rewrite virt_add_ok by lia. cbn [res_bind].
  rewrite E1. cbn [res_bind fst snd]. exists x', hi, fs. split; [done|].
  split_and!; [done|by apply Hnd, NoDup_frame_addresses| |done].
  eapply Forall_impl; [exact Hs|]. intros fr (j & _ & Hl). apply elem_of_frame_addresses; [done|].
  by eapply list_elem_of_lookup_2.
Qed.

End BootFrames.

(** * Properties *)

(** Addresses as numbers, a mapper that is a function and takes one table frame per call, and a
    memory map with 16 MiB of usable memory, for the witnesses. *)
#[export] Instance plain_addr : AddrOps := {|
  phys_new a := Ok a;
  virt_new a := Ok a;
  virt_add a n := Ok (a + n);
  virt_sub a n := Ok (a - n);
  containing_address a := a - a mod 4096;
  range_inclusive p q := step_by p (q + 1) 4096;
  PRESENT := 1;
  WRITABLE := 2
|}.

#[export] Instance plain_addr_laws : AddrLaws.
Proof. by split. Qed.

Definition tables : Type := Z -> option (Z * Z).

#[export] Instance plain_mapper : Mapper tables (BootInfoFrameAllocator bool) string := {|
  map_to page frame flags '(x, f) :=
    match x page with
    | Some _ => Ok (inl "PageAlreadyMapped"%string, (x, MkBootFA (memory_map f) (next f + 0)))
    | None => Ok (inr tt, (fun q => if decide (q = page) then Some (frame, flags) else x q,
                           MkBootFA (memory_map f) (next f + 1)))
    end;
  FrameAllocationFailed := "FrameAllocationFailed"%string
|}.

#[export] Instance plain_mapper_laws : MapperLaws true (fun x : tables => x).
Proof.
  intros page frame flags x f _ _ _. simpl. destruct (x page) as [t|] eqn:E.
  - eexists _, _, 0. split_and!; [done|lia|lia|done|done].
  - eexists _, _, 1. split_and!; [done|lia|lia|done|done].
Qed.

Definition small_map : list (MemoryRegion bool) :=
  [MkRegion 0 0x100000 false; MkRegion 0x100000 0x1100000 true].

Lemma small_map_ok : Forall region_ok small_map.
Proof. repeat constructor; by vm_compute. Qed.

Lemma small_map_disjoint : pairwise regions_disjoint small_map.
Proof. split; [|split; constructor]. constructor; [left; by vm_compute|constructor]. Qed.

(** C21: every usable frame is handed out exactly once.  On a memory map of whole, disjoint regions
    the first [n] calls of [allocate_frame] succeed on the first [n] frames of the usable regions;
    the frames handed out are distinct and lie in usable regions; and once [n] reaches their number
    all usable frames have been handed out, every further call returning [None]. *)
Theorem frames_handed_out_once `{P : Profile} `{A : AddrOps} `{AL : !AddrLaws} {RT : Type}
    `{RD : EqDecision RT} (Usable : RT) (m : list (MemoryRegion RT)) (n : nat)
    (Hm : Forall region_ok m) (Hd : pairwise regions_disjoint m) (Hn : Z.of_nat n < 2 ^ 64) :
  exists rs f', allocs (FA := boot_frame_allocator Usable) n (BootInfoFrameAllocator_init m) =
      Ok (rs, f') /\
    omap id rs = take n (frame_addresses Usable m) /\ NoDup (omap id rs) /\
    Forall (usable_frame Usable m) (omap id rs) /\
    (forall f, (length (omap id rs) < n)%nat -> usable_frame Usable m f -> f ∈ omap id rs).
Proof.
  rewrite boot_allocs_run by (done || simpl; lia). eexists _, _. split; [done|].
  cbn [BootInfoFrameAllocator_init memory_map next]. change (Z.to_nat 0) with 0%nat.
  rewrite omap_lookup_seq. pose proof (NoDup_frame_addresses Usable m Hm Hd) as Hnd. split_and!.
  - done.
  - by eapply sublist_NoDup, sublist_take.
  - apply Forall_forall. intros f Hf. apply elem_of_frame_addresses; [done|].
    by apply elem_of_take in Hf as (i & Hi & _); eapply list_elem_of_lookup_2.
  - intros f Hlt Hf. rewrite length_take in Hlt. rewrite take_ge by lia.
    by apply elem_of_frame_addresses.
Qed.

Lemma frames_handed_out_once_witness :
  exists rs f', allocs (FA := @boot_frame_allocator dev_profile _ bool _ true) 3
      (BootInfoFrameAllocator_init small_map) = Ok (rs, f') /\
    omap id rs = take 3 (frame_addresses true small_map).
Proof.
  destruct (@frames_handed_out_once dev_profile _ _ bool _ true small_map 3 small_map_ok small_map_disjoint)
    as (rs & f' & E & Ht & _); [reflexivity|].
  exists rs, f'. split; [exact E|exact Ht].
Defined.

(** C11: [memory::setup] gives the kernel its heap.  With at least 1000 usable frames (four for each
    of the 250 pages) and the heap range still unmapped, it returns without a panic; then every page
    of [HEAP_START .. HEAP_START + HEAP_SIZE] is mapped present and writable, each to a usable frame
    of its own, every other page is mapped as before, and the heap has been initialised with exactly
    that range. *)
Theorem setup_maps_heap `{P : Profile} `{A : AddrOps} `{AL : !AddrLaws} {RT : Type}
    `{RD : EqDecision RT} (Usable : RT) {X E H : Type} `{MP : !Mapper X (BootInfoFrameAllocator RT) E}
    `{HH : Heap H} (translate : X -> Z -> option (Z * Z)) `{ML : !MapperLaws Usable translate}
    (cr3 : Z) (opt_new : Z -> Z -> X) (map : list (MemoryRegion RT)) (offset : Z) (h0 : H) (m : mem)
    (Hm : Forall region_ok map) (Hd : pairwise regions_disjoint map)
    (Hoff : 0 <= offset) (Hcr3 : 0 <= cr3) (Hvirt : offset + cr3 < 2 ^ 47)
    (Hn : 1000 <= Z.of_nat (length (frame_addresses Usable map)) < 2 ^ 64)
    (Hfree : Forall (fun p => translate (opt_new (offset + cr3) offset) p = None) heap_pages) :
  exists s fs, setup Usable cr3 opt_new map offset (mutex_new h0) m = Ok s /\
    Forall2 (fun page fr => translate (mapper s) page = Some (fr, Z.lor PRESENT WRITABLE)) heap_pages fs /\
    NoDup fs /\ Forall (usable_frame Usable map) fs /\
    (forall q, q ∉ heap_pages ->
       translate (mapper s) q = translate (opt_new (offset + cr3) offset) q) /\
    ALLOCATOR s = Mutex false (heap_init HEAP_START HEAP_SIZE h0 m).1.
Proof.
  destruct (setup_run (E := E) Usable translate cr3 opt_new map offset h0 m) as (x & hi & fs & E1 & Hf & Ho & Hu & Hnd);
    [done..|]. by exists (MkHeapSetup x (MkBootFA map hi) (Mutex false (heap_init HEAP_START HEAP_SIZE h0 m).1)
    (heap_init HEAP_START HEAP_SIZE h0 m).2), fs.
Qed.

Lemma setup_maps_heap_witness :
  exists s fs, @setup dev_profile _ bool _ true tables string bump_heap _ _ 0x1000 (fun _ _ _ => None)
      small_map 0x200000000000 (mutex_new heap_empty) (fun _ => 0) = Ok s /\
    Forall2 (fun page fr => mapper s page = Some (fr, 3)) heap_pages fs /\ NoDup fs.
Proof.
  destruct (@setup_maps_heap dev_profile _ _ bool _ true tables string bump_heap _ _ (fun x => x) _
    0x1000 (fun _ _ _ => None) small_map 0x200000000000 heap_empty (fun _ => 0))
    as (s & fs & E & Hf & Hn & _).
  - exact small_map_ok.
  - exact small_map_disjoint.
  - discriminate.
  - discriminate.
  - reflexivity.
  - vm_compute. split; [discriminate|reflexivity].
  - apply Forall_forall. reflexivity.
  - exists s, fs. split; [exact E|]. split; [exact Hf|exact Hn].
Defined.

(** C35: running out of frames is reported, not ignored.  When the frame allocator has no usable frame
    left, [init_heap] returns [FrameAllocationFailed] with the page tables and the heap untouched,
    and [memory::setup] on a map without usable frames panics. *)
Theorem init_heap_reports_exhaustion `{P : Profile} `{A : AddrOps} `{AL : !AddrLaws} {RT : Type}
    `{RD : EqDecision RT} (Usable : RT) {X E H : Type} `{MP : !Mapper X (BootInfoFrameAllocator RT) E}
    `{HH : Heap H} (cr3 : Z) (opt_new : Z -> Z -> X) (x : X) (f : BootInfoFrameAllocator RT)
    (offset : Z) (al : mutex H) (m : mem)
    (Hm : Forall region_ok (memory_map f)) (Hf : 0 <= next f) (H64 : next f + 1 < 2 ^ 64)
    (Hn : Z.of_nat (length (frame_addresses Usable (memory_map f))) <= next f) :
  (exists f', init_heap (FA := boot_frame_allocator Usable) (MkHeapSetup x f al m) =
     Ok (inl FrameAllocationFailed, MkHeapSetup x f' al m)) /\
  (next f = 0 -> 0 <= offset -> 0 <= cr3 -> offset + cr3 < 2 ^ 47 ->
   setup Usable cr3 opt_new (memory_map f) offset al m = Panic ExpectFailed).
Proof.
  split; [by rewrite init_heap_exhausted; eauto|]. intros H0 Ho Hc Hv.
  unfold setup, memory_init, active_level_4_table.
  rewrite virt_new_ok by lia. cbn [res_bind]. rewrite virt_add_ok by lia. cbn [res_bind].
  rewrite init_heap_exhausted; [done|done|simpl; lia|simpl; lia|simpl; lia].
Qed.

Lemma init_heap_reports_exhaustion_witness :
  @setup dev_profile _ bool _ true tables string bump_heap _ _ 0x1000 (fun _ _ _ => None)
    [MkRegion 0 0x100000 false] 0x200000000000 (mutex_new heap_empty) (fun _ => 0) = Panic ExpectFailed.
Proof.
  apply (@init_heap_reports_exhaustion dev_profile _ _ bool _ true tables string bump_heap _ _ 0x1000
    (fun _ _ _ => None) (fun _ => None) (MkBootFA [MkRegion 0 0x100000 false] 0)); try reflexivity; try discriminate.
  repeat constructor; by vm_compute.
Defined.
