(* ===== verification/Events.v ===== *)
(** * Keyboard events (src/src/events.rs, [init_kb_handler] of src/src/lib.rs)

    The registry of keyboard handlers behind its mutex.  A handler is a closure on the state [S] it
    can reach; the one the kernel registers passes the key on to the shell. *)

From S2P Require Import Prelude Arch Vga Shell.

Record KeyboardEvent (KeyCode : Type) : Type := MkKeyboardEvent { key : DecodedKey KeyCode }.
Arguments MkKeyboardEvent {KeyCode} _.
Arguments key {KeyCode} _.

Definition KeyboardHandler (S KeyCode : Type) : Type := KeyboardEvent KeyCode -> M S unit.

Record EventHandlers (S KeyCode : Type) : Type := MkHandlers {
  keyboard : list (KeyboardHandler S KeyCode)
}.
Arguments MkHandlers {S KeyCode} _.
Arguments keyboard {S KeyCode} _.

Definition EventHandlers_new {S KeyCode} : EventHandlers S KeyCode := MkHandlers [].

Definition register_keyboard_handler {S KeyCode} (handler : KeyboardHandler S KeyCode)
    : M (EventHandlers S KeyCode) unit :=
  modify (fun e => MkHandlers (keyboard e ++ [handler])).

Definition call_keyboard_event {S KeyCode} (e : EventHandlers S KeyCode) (event : KeyboardEvent KeyCode)
    : M S unit :=
  for_each (keyboard e) (fun handler => handler event).

Section KbHandler.
Context `{P : Profile} {KeyCode : Type} `{KD : EqDecision KeyCode}.
Variable Backspace : KeyCode.
Variable key_debug : KeyCode -> list Z.

(** The closure that [init_kb_handler] registers. *)
Definition kb_handler : KeyboardHandler Console KeyCode := fun event =>
  let! has := has_shell in
  if has : bool then with_lock SHELL (key_event Backspace key_debug (key event)) else ret tt.

Context {S : Type}.
Variable EVENT_HANDLERS : lens S (mutex (EventHandlers Console KeyCode)).

Definition init_kb_handler : M S unit :=
  with_lock EVENT_HANDLERS
    (zoom (lens_comp EVENT_HANDLERS inner_lens) (register_keyboard_handler kb_handler)).

End KbHandler.

(** * Properties *)

(** Handlers are called in the order of their registration, each once per event: registering the
    handlers [hs] one after the other and then raising an event runs them as one sequence, which stops
    at the first that panics or hangs. *)
Theorem handlers_called_in_order {S KeyCode : Type} (hs : list (KeyboardHandler S KeyCode))
    (event : KeyboardEvent KeyCode) (s : S) :
  exists e, for_each hs register_keyboard_handler EventHandlers_new = Ok (tt, e) /\
    call_keyboard_event e event s = for_each hs (fun h => h event) s.
Proof.
  exists (MkHandlers hs). split; [|done].
  change (MkHandlers hs) with (MkHandlers (keyboard (@EventHandlers_new S KeyCode) ++ hs)).
  generalize (@EventHandlers_new S KeyCode) as e. induction hs as [|h hs IH]; intros e.
  - rewrite app_nil_r. by destruct e.
  - rewrite for_each_cons. unfold register_keyboard_handler at 1. rewrite bind_modify, IH. simpl.
    by rewrite <- app_assoc.
Qed.
