(* ===== verification/Interrupts.v ===== *)
(** * Interrupts (src/src/interrupts.rs, [init] of src/src/lib.rs)

    The interrupt descriptor table, the handlers, the end-of-interrupt protocol of the two interrupt
    controllers and the calibration of the APIC timer.  The controllers (x2apic and pic8259 crates)
    are logs of the commands they receive; the keyboard decoder (pc_keyboard crate) and the values
    the ports deliver are parameters; the interrupts that arrive at a [hlt] are a list.  The two
    handlers in assembly (the context switch and the system call) are parameters here. *)

From stdpp Require Import pretty.
From S2P Require Import Prelude Arch Pit Vga Shell Events Gdt.

(** ** Vectors *)

Definition PIC_1_OFFSET : Z := 32.
Definition PIC_2_OFFSET : Z := PIC_1_OFFSET + 8.

Inductive InterruptIndex : Type :=
  | Timer | ApicTimer | ApicError | ApicSpurious | Keyboard | Syscall | Invalid.

(** [as_u8], [as_usize]: [Keyboard] has no discriminant of its own, so it follows [ApicSpurious]. *)
Definition as_u8 (i : InterruptIndex) : Z :=
  match i with
  | Timer => PIC_1_OFFSET
  | ApicTimer => 33
  | ApicError => 34
  | ApicSpurious => 35
  | Keyboard => 35 + 1
  | Syscall => 128
  | Invalid => 255
  end.
Definition as_usize (i : InterruptIndex) : Z := as_u8 i.

Inductive handler : Type :=
  | breakpoint_handler | divide_error_handler | debug_handler | non_maskable_interrupt_handler
  | overflow_handler | bound_range_exceeded_handler | invalid_opcode_handler
  | device_unavailable_handler | invalid_tss_handler | alignment_check_handler
  | segment_not_present_handler | x87_floating_point_handler | simd_floating_point_handler
  | virtualization_handler | vmm_communication_handler | security_handler
  | stack_segmentation_fault_handler | general_protection_fault_handler | double_fault_handler
  | page_fault_handler | apic_timer_config_handler | apic_timer_handler | apic_error_handler
  | apic_spurious_handler | syscall_handler | timer_interrupt_handler | keyboard_interrupt_handler.

#[export] Instance handler_eq_dec : EqDecision handler.
Proof. solve_decision. Defined.

Record Gate : Type := MkGate { gate_handler : handler; ist_index : option Z }.

Abbreviation IDT := (gmap Z Gate).

(** [entry.set_handler_fn(h)] and [.set_stack_index(i)]. *)
Definition set_handler_fn (vector : Z) (h : handler) : M IDT unit :=
  modify (fun t => <[vector := MkGate h (t !! vector ≫= ist_index)]> t).
Definition set_stack_index (vector index : Z) : M IDT unit :=
  modify (fun t => match t !! vector with
                   | Some g => <[vector := MkGate (gate_handler g) (Some index)]> t
                   | None => t
                   end).

(** The exceptions' fields of the table are at the vectors the architecture gives them. *)
Definition idt_init : M IDT unit :=
  set_handler_fn 3 breakpoint_handler ;;
  set_handler_fn 4 overflow_handler ;;
  set_handler_fn 5 bound_range_exceeded_handler ;;
  set_handler_fn 13 general_protection_fault_handler ;;
  set_handler_fn 17 alignment_check_handler ;;
  set_handler_fn 0 divide_error_handler ;;
  set_handler_fn 2 non_maskable_interrupt_handler ;;
  set_handler_fn 6 invalid_opcode_handler ;;
  set_handler_fn 7 device_unavailable_handler ;;
  set_handler_fn 11 segment_not_present_handler ;;
  set_handler_fn 12 stack_segmentation_fault_handler ;;
  set_handler_fn 30 security_handler ;;
  set_handler_fn 19 simd_floating_point_handler ;;
  set_handler_fn 16 x87_floating_point_handler ;;
  set_handler_fn 29 vmm_communication_handler ;;
  set_handler_fn 20 virtualization_handler ;;
  set_handler_fn 1 debug_handler ;;
  set_handler_fn 10 invalid_tss_handler ;;
  set_handler_fn 14 page_fault_handler ;;
  set_handler_fn 8 double_fault_handler ;;
  set_stack_index 8 DOUBLE_FAULT_IST_INDEX ;;
  set_handler_fn (as_usize Timer) timer_interrupt_handler ;;
  set_handler_fn (as_usize Keyboard) keyboard_interrupt_handler ;;
  set_handler_fn (as_usize ApicTimer) apic_timer_config_handler ;;
  set_handler_fn (as_usize ApicError) apic_error_handler ;;
  set_handler_fn (as_usize ApicSpurious) apic_spurious_handler ;;
  set_handler_fn (as_usize Syscall) syscall_handler.

(** ** The state the handlers work on *)

(** Commands to the local APIC and to the chained PICs. *)
Inductive lapic_event : Type :=
  | LapicBuild (timer_vector error_vector spurious_vector base : Z)
  | TimerDivideDiv64
  | TimerModeOneShot
  | TimerInitial (count : Z)
  | LapicEnable
  | LapicEndOfInterrupt.

Inductive pic_event : Type :=
  | PicInitialize
  | PicEndOfInterrupt (vector : Z).

Record OS (KeyCode KB : Type) : Type := MkOS {
  console : Console;
  event_handlers : mutex (EventHandlers Console KeyCode);
  kb_decoder : mutex KB;
  LAPIC : option (list lapic_event);
  PICS : mutex (list pic_event);
  idt : IDT;
  TRIGGERED_ONCE : bool;
  APIC_TIMER_FREQUENCY : Z;
  arriving : list Z
}.
Arguments MkOS {KeyCode KB} _ _ _ _ _ _ _ _ _.
Arguments console {KeyCode KB} _.
Arguments event_handlers {KeyCode KB} _.
Arguments kb_decoder {KeyCode KB} _.
Arguments LAPIC {KeyCode KB} _.
Arguments PICS {KeyCode KB} _.
Arguments idt {KeyCode KB} _.
Arguments TRIGGERED_ONCE {KeyCode KB} _.
Arguments APIC_TIMER_FREQUENCY {KeyCode KB} _.
Arguments arriving {KeyCode KB} _.

Section Lenses.
Context {KeyCode KB : Type}.
Abbreviation OS := (OS KeyCode KB).

Definition CONSOLE : lens OS Console := Lens console (fun x s =>
  MkOS x (event_handlers s) (kb_decoder s) (LAPIC s) (PICS s) (idt s) (TRIGGERED_ONCE s)
    (APIC_TIMER_FREQUENCY s) (arriving s)).
Definition EVENT_HANDLERS : lens OS (mutex (EventHandlers Console KeyCode)) :=
  Lens event_handlers (fun x s =>
    MkOS (console s) x (kb_decoder s) (LAPIC s) (PICS s) (idt s) (TRIGGERED_ONCE s)
      (APIC_TIMER_FREQUENCY s) (arriving s)).
Definition KEYBOARD : lens OS (mutex KB) := Lens kb_decoder (fun x s =>
  MkOS (console s) (event_handlers s) x (LAPIC s) (PICS s) (idt s) (TRIGGERED_ONCE s)
    (APIC_TIMER_FREQUENCY s) (arriving s)).
Definition LAPIC_lens : lens OS (option (list lapic_event)) := Lens LAPIC (fun x s =>
  MkOS (console s) (event_handlers s) (kb_decoder s) x (PICS s) (idt s) (TRIGGERED_ONCE s)
    (APIC_TIMER_FREQUENCY s) (arriving s)).
Definition PICS_lens : lens OS (mutex (list pic_event)) := Lens PICS (fun x s =>
  MkOS (console s) (event_handlers s) (kb_decoder s) (LAPIC s) x (idt s) (TRIGGERED_ONCE s)
    (APIC_TIMER_FREQUENCY s) (arriving s)).
Definition IDT_lens : lens OS IDT := Lens idt (fun x s =>
  MkOS (console s) (event_handlers s) (kb_decoder s) (LAPIC s) (PICS s) x (TRIGGERED_ONCE s)
    (APIC_TIMER_FREQUENCY s) (arriving s)).
Definition set_triggered (x : bool) (s : OS) : OS :=
  MkOS (console s) (event_handlers s) (kb_decoder s) (LAPIC s) (PICS s) (idt s) x
    (APIC_TIMER_FREQUENCY s) (arriving s).
Definition set_frequency_static (x : Z) (s : OS) : OS :=
  MkOS (console s) (event_handlers s) (kb_decoder s) (LAPIC s) (PICS s) (idt s) (TRIGGERED_ONCE s)
    x (arriving s).
Definition set_arriving (x : list Z) (s : OS) : OS :=
  MkOS (console s) (event_handlers s) (kb_decoder s) (LAPIC s) (PICS s) (idt s) (TRIGGERED_ONCE s)
    (APIC_TIMER_FREQUENCY s) x.

#[export] Instance os_machine : HasMachine OS := lens_comp CONSOLE machine.

End Lenses.

(** ** Handlers *)

(** What an exception handler panics with (the formatted stack frame and error code are left out). *)
Definition exception_message (h : handler) : option string :=
  match h with
  | breakpoint_handler => Some "EXCEPTION: BREAKPOINT"%string
  | divide_error_handler => Some "EXCEPTION: DIVIDE ERROR"%string
  | debug_handler => Some "EXCEPTION: DEBUG"%string
  | non_maskable_interrupt_handler => Some "EXCEPTION: NON MASKABLE INTERRUPT"%string
  | overflow_handler => Some "EXCEPTION: OVERFLOW"%string
  | bound_range_exceeded_handler => Some "EXCEPTION: OOB"%string
  | invalid_opcode_handler => Some "EXCEPTION: INVALID OP CODE"%string
  | device_unavailable_handler => Some "EXCEPTION: DEVICE UNAVAILABLE"%string
  | invalid_tss_handler => Some "EXCEPTION: INVALID TSS"%string
  | alignment_check_handler => Some "EXCEPTION: ALIGNMENT ERROR"%string
  | segment_not_present_handler => Some "EXCEPTION: SEGMENT NOT PRESENT"%string
  | x87_floating_point_handler => Some "EXCEPTION: X87 FLOATING POINT ERROR"%string
  | simd_floating_point_handler => Some "EXCEPTION: SIMD FLOATING POINT ERROR"%string
  | virtualization_handler => Some "EXCEPTION: VIRTUALIZATION ERROR"%string
  | vmm_communication_handler => Some "EXCEPTION: VMM COMMUNICATION ERROR"%string
  | security_handler => Some "EXCEPTION: SECURITY ERROR"%string
  | stack_segmentation_fault_handler => Some "EXCEPTION: STACK SEGMENTATION FAULT"%string
  | general_protection_fault_handler => Some "EXCEPTION: GENERAL PROTECTION FAULT"%string
  | double_fault_handler => Some "EXCEPTION: DOUBLE FAULT"%string
  | _ => None
  end.

(** [hlt_loop]: does not return. *)
Definition hlt_loop {S A} : M S A := fun _ => Hang.

Section Handlers.
Context `{P : Profile} {KeyCode KB KeyEvent : Type}.
(** [Keyboard::add_byte] and [Keyboard::process_keyevent]; [None] is the error of the former. *)
Variable add_byte : KB -> Z -> KB * option (option KeyEvent).
Variable process_keyevent : KB -> KeyEvent -> KB * option (DecodedKey KeyCode).
(** What the ports deliver. *)
Variable device : list io_event -> Z -> Z.
(** The texts of CR2, of the error code and of the stack frame in a page fault's report. *)
Variables cr2_text code_text frame_text : list Z.

Abbreviation OS := (OS KeyCode KB).

(** [LAPIC.as_mut().unwrap().<command>]. *)
Definition lapic_command (e : lapic_event) : M OS unit :=
  let! l := gets LAPIC in
  let! log := lift (unwrap l) in
  modify (update LAPIC_lens (Some (log ++ [e]))).

Definition has_lapic : M OS bool := gets (fun s => match LAPIC s with Some _ => true | None => false end).

Definition pics_command (e : pic_event) : M OS unit :=
  with_lock PICS_lens
    (zoom (lens_comp PICS_lens inner_lens) (modify (fun log => log ++ [e]))).

Definition end_of_interrupt (interrupt_id : Z) : M OS unit :=
  let! has := has_lapic in
  if has : bool then lapic_command LapicEndOfInterrupt
  else pics_command (PicEndOfInterrupt interrupt_id).

Definition os_println (args : list (list Z)) : M OS unit := zoom CONSOLE (println args).

Definition run_page_fault_handler : M OS unit :=
  os_println [bytes "EXCEPTION: PAGE FAULT"] ;;
  os_println [bytes "Accessed Address: "; cr2_text] ;;
  os_println [bytes "Error Code: "; code_text] ;;
  os_println [frame_text] ;;
  hlt_loop.

Definition run_apic_timer_config_handler : M OS unit :=
  modify (set_triggered true) ;;
  lapic_command LapicEndOfInterrupt.

Definition run_apic_error_handler : M OS unit :=
  os_println [bytes "apic error handler!"] ;;
  lapic_command LapicEndOfInterrupt.

Definition run_apic_spurious_handler : M OS unit :=
  os_println [bytes "apic spurious handler!"] ;;
  lapic_command LapicEndOfInterrupt.

Definition run_timer_interrupt_handler : M OS unit := end_of_interrupt (as_u8 Timer).

(** [EVENT_HANDLERS.lock().call_keyboard_event(event)]. *)
Definition raise_keyboard_event (event : KeyboardEvent KeyCode) : M OS unit :=
  with_lock EVENT_HANDLERS
    (let! handlers := gets (fun s => inner (event_handlers s)) in
     zoom CONSOLE (call_keyboard_event handlers event)).

Definition run_keyboard_interrupt_handler : M OS unit :=
  with_lock KEYBOARD
    (let! scancode := zoom machine (inp device 0x60 8) in
     let! r := zoom (lens_comp KEYBOARD inner_lens) (fun kb => let '(kb', r) := add_byte kb scancode in Ok (r, kb')) in
     (match r with
      | Some (Some key_event) =>
          let! k := zoom (lens_comp KEYBOARD inner_lens)
                      (fun kb => let '(kb', k) := process_keyevent kb key_event in Ok (k, kb')) in
          match k with
          | Some key => raise_keyboard_event (MkKeyboardEvent key)
          | None => ret tt
          end
      | _ => ret tt
      end) ;;
     end_of_interrupt (as_u8 Keyboard)).

(** The handlers written in assembly. *)
Variables run_apic_timer_handler run_syscall_handler : M OS unit.

Definition run_handler (h : handler) : M OS unit :=
  match exception_message h with
  | Some msg => throw (Explicit msg)
  | None =>
      match h with
      | page_fault_handler => run_page_fault_handler
      | apic_timer_config_handler => run_apic_timer_config_handler
      | apic_timer_handler => run_apic_timer_handler
      | apic_error_handler => run_apic_error_handler
      | apic_spurious_handler => run_apic_spurious_handler
      | syscall_handler => run_syscall_handler
      | timer_interrupt_handler => run_timer_interrupt_handler
      | keyboard_interrupt_handler => run_keyboard_interrupt_handler
      | _ => ret tt
      end
  end.

(** The processor takes interrupt [v]: through its gate, with the interrupt flag clear while the
    handler runs.  A vector without a gate ends in the double fault handler. *)
Definition deliver (v : Z) : M OS unit :=
  let! f := gets (fun s => rflags (view machine s)) in
  let! t := gets idt in
  zoom machine hal_disable_interrupts ;;
  run_handler (match t !! v with Some g => gate_handler g | None => double_fault_handler end) ;;
  zoom machine (modify (set_rflags f)).

(** [hlt]: waits for the next interrupt that arrives; with interrupts off, for ever. *)
Definition wait_for_interrupt : M OS unit :=
  let! enabled := is_interrupts_enabled in
  if enabled : bool then
    let! vs := gets arriving in
    match vs with
    | [] => fun _ => Hang
    | v :: vs => modify (set_arriving vs) ;; deliver v
    end
  else fun _ => Hang.

(** ** The APIC timer *)

Section Apic.
(** [xapic_base()], and the error message of [LocalApicBuilder::build], if any. *)
Variable xapic_base : Z.
Variable build_error : option string.

Definition TIMER_DELAY : Z := 65535.

(** [while !TRIGGERED_ONCE.load() { wait_for_interrupt() }]. *)
Fixpoint wait_loop (fuel : nat) : M OS unit :=
  let! t := gets TRIGGERED_ONCE in
  if t : bool then ret tt
  else
    match fuel with
    | O => fun _ => Hang
    | S fuel => wait_for_interrupt ;; wait_loop fuel
    end.

(** [(TIMER_DELAY as usize) / ((TIMER_DELAY as usize) - end) * PIT_DIVIDEND]. *)
Definition timer_frequency (pit_end : Z) : res Z :=
  res_bind (sub_w 64 TIMER_DELAY pit_end) (fun d =>
  res_bind (div_w TIMER_DELAY d) (fun q => mul_w 64 q PIT_DIVIDEND)).

Definition init_apic (physical_memory_offset : Z) : M OS unit :=
  let apic_physical_address := xapic_base in
  let! apic_virtual_address := lift (add_w 64 physical_memory_offset apic_physical_address) in
  (match build_error with Some err => throw (Explicit err) | None => ret tt end) ;;
  modify (update LAPIC_lens
    (Some [LapicBuild (as_u8 ApicTimer) (as_u8 ApicError) (as_u8 ApicSpurious) apic_virtual_address])) ;;
  lapic_command TimerDivideDiv64 ;;
  lapic_command (TimerInitial TIMER_DELAY) ;;
  lapic_command TimerModeOneShot ;;
  zoom machine (write_channel0_count TIMER_DELAY) ;;
  lapic_command LapicEnable ;;
  zoom machine pic_disable ;;
  let! n := gets (fun s => length (arriving s)) in
  wait_loop (S n) ;;
  let! pit_end := zoom machine (read_pit_count device) in
  os_println [bytes "pit end: "; bytes (pretty pit_end)] ;;
  let! frequency := lift (timer_frequency pit_end) in
  modify (set_frequency_static frequency) ;;
  zoom IDT_lens (set_handler_fn (as_usize ApicTimer) apic_timer_handler).

End Apic.

(** [(us * (frequency / 1000000)) as u32]. *)
Definition timer_count (us frequency : Z) : res Z :=
  res_bind (div_w frequency 1000000) (fun mhz =>
  res_bind (mul_w 64 us mhz) (fun n => Ok (wrap 32 n))).

Definition start_timer_one_shot (us : Z) : M OS unit :=
  lapic_command TimerDivideDiv64 ;;
  lapic_command TimerModeOneShot ;;
  let! f := gets APIC_TIMER_FREQUENCY in
  let! count := lift (timer_count us f) in
  lapic_command (TimerInitial count).

End Handlers.

(** * Lemmas *)

#[export] Instance console_lens_laws {KeyCode KB} : LensLaws (@CONSOLE KeyCode KB).
Proof. by split; intros; try destruct s. Qed.

#[export] Instance os_machine_laws {KeyCode KB} : LensLaws (@machine (OS KeyCode KB) _).
Proof. split; intros; try done. by destruct s as [[] ? ? ? ? ? ? ? ?]. Qed.

(** The table after [init]. *)
Definition idt_table : IDT := match idt_init ∅ with Ok (_, t) => t | _ => ∅ end.

Lemma idt_init_run : idt_init ∅ = Ok (tt, idt_table).
Proof. by vm_compute. Qed.

Definition exception_vectors : list (Z * handler) :=
  [(0, divide_error_handler); (1, debug_handler); (2, non_maskable_interrupt_handler);
   (3, breakpoint_handler); (4, overflow_handler); (5, bound_range_exceeded_handler);
   (6, invalid_opcode_handler); (7, device_unavailable_handler); (8, double_fault_handler);
   (10, invalid_tss_handler); (11, segment_not_present_handler);
   (12, stack_segmentation_fault_handler); (13, general_protection_fault_handler);
   (14, page_fault_handler); (16, x87_floating_point_handler); (17, alignment_check_handler);
   (19, simd_floating_point_handler); (20, virtualization_handler); (29, vmm_communication_handler);
   (30, security_handler)].

Definition external_vectors : list (Z * handler) :=
  [(as_u8 Timer, timer_interrupt_handler); (as_u8 ApicTimer, apic_timer_config_handler);
   (as_u8 ApicError, apic_error_handler); (as_u8 ApicSpurious, apic_spurious_handler);
   (as_u8 Keyboard, keyboard_interrupt_handler); (as_u8 Syscall, syscall_handler)].

Lemma idt_table_eq :
  idt_table = list_to_map ((fun vh => (vh.1, MkGate vh.2 (if decide (vh.1 = 8) then Some 0 else None)))
                             <$> exception_vectors ++ external_vectors).
Proof. by vm_compute. Qed.

Lemma idt_table_lookup v g :
  idt_table !! v = Some g <->
  (v, gate_handler g) ∈ exception_vectors ++ external_vectors /\
  ist_index g = if decide (v = 8) then Some 0 else None.
Proof.
  rewrite idt_table_eq, <- elem_of_list_to_map.
  - rewrite list_elem_of_fmap. split.
    + intros ([v' h] & [= -> ->] & H). done.
    + intros [H1 H2]. exists (v, gate_handler g). split; [|done]. simpl. rewrite <- H2. by destruct g.
  - apply (bool_decide_unpack (NoDup _)). by vm_compute.
Qed.

#[global] Opaque idt_table.

Section HandlerLemmas.
Context `{P : Profile} {KeyCode KB KeyEvent : Type}.
Variable add_byte : KB -> Z -> KB * option (option KeyEvent).
Variable process_keyevent : KB -> KeyEvent -> KB * option (DecodedKey KeyCode).
Variable device : list io_event -> Z -> Z.
Variables cr2_text code_text frame_text : list Z.
Variables run_apic run_syscall : M (OS KeyCode KB) unit.

Abbreviation OS := (OS KeyCode KB).
Abbreviation run_h :=
  (run_handler add_byte process_keyevent device cr2_text code_text frame_text run_apic run_syscall).
Abbreviation deliver :=
  (deliver add_byte process_keyevent device cr2_text code_text frame_text run_apic run_syscall).

Lemma lapic_command_run e log (s : OS) :
  LAPIC s = Some log -> lapic_command e s = Ok (tt, update LAPIC_lens (Some (log ++ [e])) s).
Proof. intros H. unfold lapic_command, lift. run_pure. rewrite H. done. Qed.

Lemma lapic_command_none e (s : OS) : LAPIC s = None -> lapic_command e s = Panic UnwrapNone.
Proof. intros H. unfold lapic_command, lift. run_pure. by rewrite H. Qed.

(** The end-of-interrupt commands sent so far. *)
Definition is_lapic_eoi (e : lapic_event) : bool :=
  match e with LapicEndOfInterrupt => true | _ => false end.
Definition is_pic_eoi (e : pic_event) : bool :=
  match e with PicEndOfInterrupt _ => true | _ => false end.
Definition lapic_eois (s : OS) : nat := length (filter (fun e => is_lapic_eoi e) (default [] (LAPIC s))).
Definition pic_eois (s : OS) : nat := length (filter (fun e => is_pic_eoi e) (inner (PICS s))).

(** One end of interrupt, sent to the local APIC if there is one and else to the PICs. *)
Definition one_eoi (s s' : OS) : Prop :=
  match LAPIC s with
  | Some _ => lapic_eois s' = S (lapic_eois s) /\ PICS s' = PICS s
  | None => pic_eois s' = S (pic_eois s) /\ LAPIC s' = None
  end.

Lemma lapic_eoi_one log (s : OS) :
  LAPIC s = Some log -> one_eoi s (update LAPIC_lens (Some (log ++ [LapicEndOfInterrupt])) s).
Proof.
  intros E. unfold one_eoi, lapic_eois. rewrite E. simpl. split; [|done].
  rewrite filter_app, length_app. simpl. lia.
Qed.

Lemma one_eoi_console (s s' : OS) c : one_eoi (update CONSOLE c s) s' -> one_eoi s s'.
Proof. done. Qed.

Lemma one_eoi_triggered (s s' : OS) b : one_eoi (set_triggered b s) s' -> one_eoi s s'.
Proof. done. Qed.

(** A console no lock of which is held. *)
Definition console_free (c : Console) : Prop :=
  locked (shell c) = false /\ locked (writer c) = false /\ writer_wf (inner (writer c)).

Lemma println_free args c :
  console_free c -> exists c', println args c = Ok (tt, c') /\ console_free c' /\
    console_cpu c' = console_cpu c /\ initialized c' = initialized c.
Proof.
  destruct c as [[ls s] ini [lw w] m]. intros (H1 & H2 & Hw). simpl in *. subst ls lw.
  unfold println. destruct ini.
  - rewrite print_shell_run by done. eexists. split; [done|]. split_and!; [|done..].
    split_and!; [done|done|]. by apply apply_items_wf.
  - rewrite print_writer_run by done. eexists. split; [done|]. split_and!; [|done..].
    split_and!; [done|done|]. by apply apply_items_wf.
Qed.

(** [println!] does not look at the processor: the interrupt flag it restores is the one it found. *)
Lemma println_any_cpu args s ini w m :
  console_free (MkConsole s ini w m) -> exists s' w', forall m',
    println args (MkConsole s ini w m') = Ok (tt, MkConsole s' ini w' m').
Proof.
  destruct s as [ls s], w as [lw w]. intros (H1 & H2 & Hw). simpl in *. subst ls lw. unfold println.
  destruct ini; eexists _, _; intros m'; [by apply print_shell_run|by apply print_writer_run].
Qed.

Lemma os_println_run args (s : OS) :
  console_free (console s) -> exists c, os_println args s = Ok (tt, update CONSOLE c s) /\
    console_free c /\ console_cpu c = console_cpu (console s) /\
    initialized c = initialized (console s).
Proof.
  intros Hc. destruct (println_free args _ Hc) as (c & E & Hc'). exists c. split; [|done].
  unfold os_println, zoom. simpl. by rewrite E.
Qed.

(** *** The keyboard *)

(** What one keyboard interrupt reads and decodes. *)
Definition kb_step (kb : KB) (tr : list io_event) : KB * list io_event * option (DecodedKey KeyCode) :=
  let scancode := wrap 8 (device tr 0x60) in
  let tr' := tr ++ [PortIn 0x60 8 scancode] in
  let '(kb1, r) := add_byte kb scancode in
  match r with
  | Some (Some ev) => let '(kb2, k) := process_keyevent kb1 ev in (kb2, tr', k)
  | _ => (kb1, tr', None)
  end.

(** The keys of [n] keyboard interrupts in a row. *)
Fixpoint kb_keys (n : nat) (kb : KB) (tr : list io_event) : list (DecodedKey KeyCode) :=
  match n with
  | O => []
  | S n => let '(kb', tr', k) := kb_step kb tr in
           (match k with Some k => [k] | None => [] end) ++ kb_keys n kb' tr'
  end.

(** The handlers' reaction to a key, if there is one. *)
Definition key_reaction (e : EventHandlers Console KeyCode) (k : option (DecodedKey KeyCode)) : M Console unit :=
  match k with Some k => call_keyboard_event e (MkKeyboardEvent k) | None => ret tt end.

Lemma deliver_keyboard_run c e kb log pics t b f arr c' kb' tr' k :
  t !! as_u8 Keyboard = Some (MkGate keyboard_interrupt_handler None) ->
  kb_step kb (io (console_cpu c)) = (kb', tr', k) ->
  key_reaction e k (update machine (MkMachine (Z.clearbit (rflags (console_cpu c)) 9) tr') c) =
    Ok (tt, c') ->
  deliver (as_u8 Keyboard) (MkOS c (Mutex false e) (Mutex false kb) (Some log) pics t b f arr) =
  Ok (tt, MkOS (update machine (MkMachine (rflags (console_cpu c)) (io (console_cpu c'))) c')
            (Mutex false e) (Mutex false kb') (Some (log ++ [LapicEndOfInterrupt])) pics t b f arr).
Proof.
  intros Ht Hk Hr. unfold Interrupts.deliver. rewrite bind_gets, bind_gets. cbn [idt]. rewrite Ht.
  unfold bind at 1. simpl. unfold run_handler. simpl. unfold run_keyboard_interrupt_handler.
  unfold kb_step in Hk. destruct c as [sh ini wr m]. simpl in *.
  unfold bind, with_lock, zoom, inp. simpl.
  destruct (add_byte kb _) as [kb1 [[ev|]|]]; simpl.
  - unfold bind, zoom. simpl. destruct (process_keyevent kb1 ev) as [kb2 [k'|]]; simplify_eq/=.
    + unfold raise_keyboard_event, with_lock, bind, zoom. simpl.
      unfold set_rflags in Hr |- *. simpl in *. unfold add_io. simpl. rewrite Hr. done.
    + unfold ret in Hr. simplify_eq/=. done.
  - simplify_eq/=. unfold ret in Hr. simplify_eq/=. done.
  - simplify_eq/=. unfold ret in Hr. simplify_eq/=. done.
Qed.

(** *** Calibration *)

Lemma restore_rflags (c : Console) :
  update machine (set_rflags (rflags (console_cpu c))
    (set_rflags (Z.clearbit (rflags (console_cpu c)) 9) (console_cpu c))) c = c.
Proof. destruct c as [? ? ? []]. done. Qed.

Lemma deliver_timer_run c e kb log pics t b f arr :
  t !! as_u8 Timer = Some (MkGate timer_interrupt_handler None) ->
  deliver (as_u8 Timer) (MkOS c e kb (Some log) pics t b f arr) =
  Ok (tt, MkOS c e kb (Some (log ++ [LapicEndOfInterrupt])) pics t b f arr).
Proof.
  intros Ht. unfold Interrupts.deliver. rewrite bind_gets, bind_gets. cbn [idt]. rewrite Ht.
  unfold bind, zoom. simpl. do 3 f_equal. apply restore_rflags.
Qed.

Lemma deliver_config_run c e kb log pics t b f arr :
  t !! as_u8 ApicTimer = Some (MkGate apic_timer_config_handler None) ->
  deliver (as_u8 ApicTimer) (MkOS c e kb (Some log) pics t b f arr) =
  Ok (tt, MkOS c e kb (Some (log ++ [LapicEndOfInterrupt])) pics t true f arr).
Proof.
  intros Ht. unfold Interrupts.deliver. rewrite bind_gets, bind_gets. cbn [idt]. rewrite Ht.
  unfold bind, zoom. simpl. do 3 f_equal. apply restore_rflags.
Qed.

Abbreviation wait_for_interrupt :=
  (wait_for_interrupt add_byte process_keyevent device cr2_text code_text frame_text run_apic run_syscall).
Abbreviation wait_loop :=
  (wait_loop add_byte process_keyevent device cr2_text code_text frame_text run_apic run_syscall).

Lemma wait_for_interrupt_run c e kb l pics t b f v arr :
  IF (console_cpu c) = true ->
  wait_for_interrupt (MkOS c e kb l pics t b f (v :: arr)) = deliver v (MkOS c e kb l pics t b f arr).
Proof.
  intros HIF. unfold Interrupts.wait_for_interrupt. rewrite (bind_Ok _ _ _ true (MkOS c e kb l pics t b f (v :: arr))).
  - run_pure. done.
  - unfold is_interrupts_enabled, zoom. simpl. unfold hal_is_interrupts_enabled, flags, bind. simpl.
    rewrite interrupt_flag_bit. unfold IF in HIF. rewrite HIF. by destruct c.
Qed.

(** The loop ends at the first interrupt of the APIC timer. *)
Lemma wait_loop_run n c e kb log pics t f arr fuel :
  IF (console_cpu c) = true ->
  t !! as_u8 Timer = Some (MkGate timer_interrupt_handler None) ->
  t !! as_u8 ApicTimer = Some (MkGate apic_timer_config_handler None) ->
  (n < fuel)%nat ->
  wait_loop fuel (MkOS c e kb (Some log) pics t false f (replicate n (as_u8 Timer) ++ as_u8 ApicTimer :: arr)) =
  Ok (tt, MkOS c e kb (Some (log ++ replicate (S n) LapicEndOfInterrupt)) pics t true f arr).
Proof.
  intros HIF Ht Ha. revert log fuel. induction n as [|n IH]; intros log [|fuel] Hf; try lia;
    cbn [Interrupts.wait_loop replicate app]; rewrite bind_gets; cbn [TRIGGERED_ONCE].
  - rewrite (bind_Ok _ _ _ tt (MkOS c e kb (Some (log ++ [LapicEndOfInterrupt])) pics t true f arr)).
    + by destruct fuel.
    + rewrite wait_for_interrupt_run by done. by apply deliver_config_run.
  - rewrite (bind_Ok _ _ _ tt (MkOS c e kb (Some (log ++ [LapicEndOfInterrupt])) pics t false f
      (replicate n (as_u8 Timer) ++ as_u8 ApicTimer :: arr))).
    + rewrite IH by lia. by rewrite <- app_assoc.
    + rewrite wait_for_interrupt_run by done. by apply deliver_timer_run.
Qed.

Lemma timer_frequency_run pit_end :
  0 <= pit_end < 65535 ->
  timer_frequency pit_end = Ok (65535 / (65535 - pit_end) * PIT_DIVIDEND).
Proof.
  intros H. unfold timer_frequency, sub_w, mul_w, div_w, TIMER_DELAY.
  rewrite arith_fits by (unfold fits; lia). simpl.
  rewrite (proj2 (Z.eqb_neq _ _)) by lia. simpl.
  pose proof (Z.div_le_upper_bound 65535 (65535 - pit_end) 65535 ltac:(lia) ltac:(nia)).
  pose proof (Z.div_pos 65535 (65535 - pit_end) ltac:(lia) ltac:(lia)).
  apply arith_fits. unfold fits, PIT_DIVIDEND. lia.
Qed.

(** The port writes of [init_apic]: the timer's command and count, and the masks of the PICs. *)
Definition calibration_io : list io_event :=
  [PortOut COMMAND_REG 8 0x34; PortOut CHANNEL0 8 255; PortOut CHANNEL0 8 255;
   PortOut 0xa1 8 0xff; PortOut 0x21 8 0xff].

(** What [init_apic] has set up when the wait begins. *)
Definition calibrating (c : Console) : Console :=
  update machine (push_io calibration_io (console_cpu c)) c.

Abbreviation init_apic :=
  (init_apic add_byte process_keyevent device cr2_text code_text frame_text run_apic run_syscall).

Lemma init_apic_run base offset n c e kb l pics t f arr :
  fits 64 (offset + base) -> console_free c -> IF (console_cpu c) = true ->
  t !! as_u8 Timer = Some (MkGate timer_interrupt_handler None) ->
  t !! as_u8 ApicTimer = Some (MkGate apic_timer_config_handler None) ->
  let pit_end := pit_reading device (io (console_cpu c) ++ calibration_io) in
  let s := MkOS c e kb l pics t false f (replicate n (as_u8 Timer) ++ as_u8 ApicTimer :: arr) in
  exists c' log m, console_free c' /\ rflags (console_cpu c') = rflags (console_cpu c) /\
    println [bytes "pit end: "; bytes (pretty pit_end)] (update machine m c) = Ok (tt, c') /\
    init_apic base None offset s =
    if decide (pit_end = 65535) then Panic DivideByZero
    else Ok (tt, MkOS c' e kb (Some log) pics
                   (<[as_u8 ApicTimer := MkGate apic_timer_handler None]> t) true
                   (65535 / (65535 - pit_end) * PIT_DIVIDEND) arr).
Proof.
  intros Hoff Hc HIF Ht Ha pit_end s.
  set (log0 := [LapicBuild (as_u8 ApicTimer) (as_u8 ApicError) (as_u8 ApicSpurious) (offset + base);
                TimerDivideDiv64; TimerInitial TIMER_DELAY; TimerModeOneShot; LapicEnable]).
  set (c1 := calibrating c).
  set (c2 := update machine (push_io [PortOut COMMAND_REG 8 0;
    PortIn CHANNEL0 8 (latched device (io (console_cpu c1))).1;
    PortIn CHANNEL0 8 (latched device (io (console_cpu c1))).2] (console_cpu c1)) c1).
  destruct (println_free [bytes "pit end: "; bytes (pretty pit_end)] c2) as (c3 & Ep & Hc3 & Hm & _).
  { destruct c as [? ? ? m]. exact Hc. }
  exists c3, (log0 ++ replicate (S n) LapicEndOfInterrupt), (console_cpu c2). split; [done|].
  split; [by rewrite Hm|]. split; [exact Ep|].
  unfold Interrupts.init_apic. cbv zeta.
  rewrite (bind_Ok _ _ _ (offset + base) s) by (unfold lift, add_w; by rewrite arith_fits).
  rewrite bind_ret, bind_modify.
  set (arr0 := replicate n (as_u8 Timer) ++ as_u8 ApicTimer :: arr) in *.
  erewrite bind_Ok by (apply lapic_command_run; reflexivity).
  erewrite bind_Ok by (apply lapic_command_run; reflexivity).
  erewrite bind_Ok by (apply lapic_command_run; reflexivity).
  erewrite bind_Ok.
  2:{ unfold zoom. rewrite write_channel0_count_run by (split; [done|reflexivity]). reflexivity. }
  erewrite bind_Ok by (apply lapic_command_run; reflexivity).
  rewrite (bind_Ok _ _ _ tt (MkOS c1 e kb (Some log0) pics t false f arr0)).
  2:{ unfold zoom, bind, pic_disable. simpl. unfold c1, calibrating, push_io, add_io. simpl.
      by rewrite <- !app_assoc. }
  rewrite bind_gets. cbn [arriving].
  rewrite (bind_Ok _ _ _ _ _ (wait_loop_run n c1 e kb log0 pics t f arr (S (length arr0)) HIF Ht Ha
    ltac:(unfold arr0; rewrite length_app, length_replicate; simpl; lia))).
  rewrite (bind_Ok _ _ _ pit_end (MkOS c2 e kb (Some (log0 ++ replicate (S n) LapicEndOfInterrupt)) pics t
    true f arr)).
  2:{ unfold zoom. rewrite read_pit_count_run. reflexivity. }
  rewrite (bind_Ok _ _ _ tt (MkOS c3 e kb (Some (log0 ++ replicate (S n) LapicEndOfInterrupt)) pics t
    true f arr)).
  2:{ unfold os_println, zoom. cbn [view CONSOLE console]. by rewrite Ep. }
  pose proof (pit_reading_fits device (io (console_cpu c) ++ calibration_io)) as Hfit. fold pit_end in Hfit.
  unfold fits in Hfit. change (2 ^ 16) with 65536 in Hfit.
  destruct (decide (pit_end = 65535)) as [->|Hne].
  - done.
  - erewrite bind_Ok by (unfold lift; rewrite timer_frequency_run by lia; reflexivity).
    rewrite bind_modify. unfold zoom, set_handler_fn, as_usize. simpl in Ha |- *. by rewrite Ha.
Qed.

Lemma start_timer_one_shot_run us log (s : OS) :
  let n := us * (APIC_TIMER_FREQUENCY s / 1000000) in
  LAPIC s = Some log -> 0 <= n -> (P = true -> n < 2 ^ 64) ->
  start_timer_one_shot us s =
  Ok (tt, update LAPIC_lens (Some (log ++ [TimerDivideDiv64; TimerModeOneShot; TimerInitial (n mod 2 ^ 32)])) s).
Proof.
  intros n E Hn HP. unfold start_timer_one_shot.
  erewrite bind_Ok by (by apply lapic_command_run).
  erewrite bind_Ok by (by apply lapic_command_run). rewrite bind_gets.
  cbn [APIC_TIMER_FREQUENCY update LAPIC_lens].
  assert (mul_w 64 us (APIC_TIMER_FREQUENCY s / 1000000) = Ok (wrap 64 n)) as Hm.
  { unfold mul_w, arith. fold n. destruct (decide (0 <= n < 2 ^ 64)) as [Hlt|Hge].
    - by rewrite wrap_small.
    - unfold overflow_checks in *. destruct P; [|done]. specialize (HP eq_refl). lia. }
  assert (timer_count us (APIC_TIMER_FREQUENCY s) = Ok (n mod 2 ^ 32)) as Ht.
  { unfold timer_count, div_w. simpl. rewrite Hm. simpl. unfold wrap. f_equal.
    change (2 ^ 64) with (2 ^ 32 * 2 ^ 32). rewrite Z.rem_mul_r by lia.
    rewrite Z.mul_comm, Z_mod_plus_full. by rewrite Z.mod_mod. }
  erewrite bind_Ok by (unfold lift; rewrite Ht; reflexivity).
  erewrite lapic_command_run by reflexivity. simpl. by rewrite <- !app_assoc.
Qed.

End HandlerLemmas.

(** *** From the keyboard to the screen *)

Section Typing.
Context `{P : Profile} {KeyCode KB KeyEvent : Type} `{KD : EqDecision KeyCode}.
Variable add_byte : KB -> Z -> KB * option (option KeyEvent).
Variable process_keyevent : KB -> KeyEvent -> KB * option (DecodedKey KeyCode).
Variable device : list io_event -> Z -> Z.
Variables cr2_text code_text frame_text : list Z.
Variables run_apic run_syscall : M (OS KeyCode KB) unit.
Variable Backspace : KeyCode.
Variable key_debug : KeyCode -> list Z.

Abbreviation deliver :=
  (deliver add_byte process_keyevent device cr2_text code_text frame_text run_apic run_syscall).
Abbreviation kb_step := (kb_step add_byte process_keyevent device).
Abbreviation kb_keys := (kb_keys add_byte process_keyevent device).

(** The registry after [init_kb_handler]. *)
Definition shell_handlers : EventHandlers Console KeyCode :=
  MkHandlers [kb_handler Backspace key_debug].

Lemma kb_step_io kb tr kb' tr' k :
  kb_step kb tr = (kb', tr', k) -> exists sc, tr' = tr ++ [PortIn 0x60 8 sc].
Proof.
  unfold Interrupts.kb_step. destruct (add_byte kb _) as [kb1 [[ev|]|]].
  - destruct (process_keyevent kb1 ev) as [kb2 k2]. intros [= _ <- _]. by eexists.
  - intros [= _ <- _]. by eexists.
  - intros [= _ <- _]. by eexists.
Qed.

(** One keyboard interrupt with the shell showing [text]. *)
Lemma type_interrupt s w m kb log pics t b f arr text kb' tr' (k : option Z) :
  t !! as_u8 Keyboard = Some (MkGate keyboard_interrupt_handler None) ->
  kb_step kb (io m) = (kb', tr', Unicode <$> k) ->
  Forall edit_key (option_list k) -> written_char_count s = Z.of_nat (length text) ->
  line_shows w (shown_prompt s ++ cells w text) ->
  (length (shown_prompt s) + S (length text) <= 2000)%nat ->
  let text' := editor_text text (option_list k) in
  exists w',
    deliver (as_u8 Keyboard)
      (MkOS (MkConsole (Mutex false s) true (Mutex false w) m) (Mutex false shell_handlers)
         (Mutex false kb) (Some log) pics t b f arr) =
    Ok (tt, MkOS (MkConsole (Mutex false (with_count (Z.of_nat (length text')) s)) true (Mutex false w')
                    (MkMachine (rflags m) tr'))
              (Mutex false shell_handlers) (Mutex false kb')
              (Some (log ++ [LapicEndOfInterrupt])) pics t b f arr) /\
    w_color w' = w_color w /\ line_shows w' (shown_prompt s ++ cells w text').
Proof.
  intros Ht Hk Hed Hn Hshow Hlen text'.
  set (m1 := MkMachine (Z.clearbit (rflags m) 9) tr').
  assert (exists w', key_reaction shell_handlers (Unicode <$> k)
      (MkConsole (Mutex false s) true (Mutex false w) m1) =
      Ok (tt, MkConsole (Mutex false (with_count (Z.of_nat (length text')) s)) true (Mutex false w') m1) /\
    w_color w' = w_color w /\ line_shows w' (shown_prompt s ++ cells w text')) as (w' & E & Hw').
  { destruct k as [key|]; simpl in *.
    - apply Forall_cons_1 in Hed as [Hed _].
      destruct (editor_key_run Backspace key_debug true s true w m1 text key) as (w' & Hcol & E & Hs);
        [done..|]. exists w'. split; [|done]. unfold call_keyboard_event. cbn [shell_handlers keyboard].
      rewrite for_each_cons. unfold kb_handler at 1. rewrite bind_assoc.
      rewrite (bind_Ok _ _ _ true (MkConsole (Mutex false s) true (Mutex false w) m1)) by done.
      rewrite (bind_Ok _ _ _ _ _ (with_shell_ok _ _ _ _ _ _ _ _ _ _ _ _ _ E)). done.
    - exists w. split; [|done]. unfold ret. do 4 f_equal. destruct s. simpl in *. by subst. }
  exists w'. split; [|done].
  rewrite (deliver_keyboard_run add_byte process_keyevent device cr2_text code_text frame_text run_apic
    run_syscall (MkConsole (Mutex false s) true (Mutex false w) m) _ _ _ _ _ _ _ _ _ _ _ _ Ht Hk E). done.
Qed.

Lemma type_interrupts n keys s w m kb log pics t b f arr text :
  t !! as_u8 Keyboard = Some (MkGate keyboard_interrupt_handler None) ->
  kb_keys n kb (io m) = Unicode <$> keys ->
  Forall edit_key keys -> written_char_count s = Z.of_nat (length text) ->
  line_shows w (shown_prompt s ++ cells w text) ->
  (length (shown_prompt s) + length text + n <= 2000)%nat ->
  exists w' kb' tr',
    for_each (replicate n (as_u8 Keyboard)) deliver
      (MkOS (MkConsole (Mutex false s) true (Mutex false w) m) (Mutex false shell_handlers)
         (Mutex false kb) (Some log) pics t b f arr) =
    Ok (tt, MkOS (MkConsole (Mutex false (with_count (Z.of_nat (length (editor_text text keys))) s)) true
                    (Mutex false w') (MkMachine (rflags m) tr'))
              (Mutex false shell_handlers) (Mutex false kb')
              (Some (log ++ replicate n LapicEndOfInterrupt)) pics t b f arr) /\
    line_shows w' (shown_prompt s ++ cells w (editor_text text keys)).
Proof.
  intros Ht. revert keys s w m kb log text. induction n as [|n IH];
    intros keys s w m kb log text Hk Hed Hn Hshow Hlen.
  { destruct keys; [|done]. exists w, kb, (io m). rewrite app_nil_r. simpl. split; [|done].
    unfold for_each, ret. destruct s, m. simpl in *. by subst. }
  cbn [Interrupts.kb_keys] in Hk. destruct (kb_step kb (io m)) as [[kb1 tr1] k] eqn:Es.
  assert (exists ko ks, k = Unicode <$> ko /\ keys = option_list ko ++ ks /\
            kb_keys n kb1 tr1 = Unicode <$> ks) as (ko & ks & -> & -> & Hk').
  { destruct k as [k|]; simpl in Hk; [|by exists None, keys].
    destruct keys as [|key keys]; [done|]. injection Hk as -> Hk. by exists (Some key), keys. }
  apply Forall_app in Hed as [Hed1 Hed2].
  destruct (type_interrupt s w m kb log pics t b f arr text kb1 tr1 ko) as (w1 & E1 & Hcol & Hs1);
    [done..|lia|].
  assert (length (editor_text text (option_list ko)) <= S (length text))%nat as Hl1.
  { destruct ko; simpl; [apply length_editor_step|lia]. }
  destruct (IH ks (with_count (Z.of_nat (length (editor_text text (option_list ko)))) s) w1
    (MkMachine (rflags m) tr1) kb1 (log ++ [LapicEndOfInterrupt]) (editor_text text (option_list ko)))
    as (w' & kb' & tr' & E & Hs'); [done|done|done| | |].
  { unfold cells in *. by rewrite Hcol. }
  { change (shown_prompt (with_count _ s)) with (shown_prompt s). lia. }
  exists w', kb', tr'. rewrite replicate_S, for_each_cons, (bind_Ok _ _ _ _ _ E1), E.
  unfold editor_text. rewrite foldl_app. split; [by rewrite <- app_assoc|].
  unfold cells in *. rewrite Hcol in Hs'. exact Hs'.
Qed.


(** The kernel as [kernel_main] leaves it, ready for any key. *)
Record typing_ready (s : OS KeyCode KB) : Prop := {
  tr_console : console_free (console s);
  tr_count : fits 64 (written_char_count (inner (shell (console s))));
  tr_handlers : event_handlers s = mutex_new shell_handlers;
  tr_decoder : locked (kb_decoder s) = false;
  tr_lapic : is_Some (LAPIC s);
  tr_gate : idt s !! as_u8 Keyboard = Some (MkGate keyboard_interrupt_handler None);
}.
Abbreviation count s := (written_char_count (inner (shell (console s)))).

(** The reaction to a key, whichever it is. *)
Lemma key_reaction_total k (c : Console) :
  console_free c -> fits 64 (written_char_count (inner (shell c))) ->
  (P = true -> written_char_count (inner (shell c)) + 1 < 2 ^ 64) ->
  exists c', key_reaction shell_handlers k c = Ok (tt, c') /\ console_free c' /\ console_cpu c' = console_cpu c /\
    initialized c' = initialized c /\ fits 64 (written_char_count (inner (shell c'))) /\
    written_char_count (inner (shell c')) <= written_char_count (inner (shell c)) + 1.
Proof.
  destruct c as [[ls s] ini [lw w] m]. intros (Hls & Hlw & Hw) Hn Hp. simpl in *. subst ls lw.
  destruct k as [k|].
  2:{ eexists. split; [reflexivity|]. split; [done|]. simpl. split; [done|]. split; [done|]. split; [exact Hn|lia]. }
  cbn [key_reaction]. unfold call_keyboard_event, shell_handlers. cbn [keyboard]. rewrite for_each_one. unfold kb_handler.
  rewrite (bind_Ok _ _ _ ini (con false s ini false w m)) by done. destruct ini.
  - destruct (key_event_total Backspace key_debug k true s true w m Hw Hn Hp) as (n & w' & E & Hw' & Hn' & Hle).
    eexists. split; [eapply with_shell_ok; exact E|]. split; [done|]. simpl. split; [done|]. split; [done|]. split; [exact Hn'|exact Hle].
  - eexists. split; [reflexivity|]. split; [done|]. simpl. split; [done|]. split; [done|]. split; [exact Hn|lia].
Qed.

Lemma deliver_keyboard_total s : typing_ready s -> (P = true -> count s + 1 < 2 ^ 64) ->
  exists s', deliver (as_u8 Keyboard) s = Ok (tt, s') /\ typing_ready s' /\ count s' <= count s + 1.
Proof.
  destruct s as [c e [lk kb] l pics t b f arr]. intros [Hc Hn He Hk [log Hl] Ht] Hp. simpl in *. subst e lk l.
  destruct (kb_step kb (io (console_cpu c))) as [[kb' tr'] k] eqn:Ek.
  destruct (key_reaction_total k (update machine (MkMachine (Z.clearbit (rflags (console_cpu c)) 9) tr') c))
    as (c' & E & Hc' & Hcpu & Hini & Hn' & Hle); [exact Hc|exact Hn|exact Hp|].
  eexists. split.
  { eapply deliver_keyboard_run; [exact Ht|exact Ek|exact E]. }
  split; [|exact Hle]. split; [exact Hc'|exact Hn'|reflexivity|reflexivity|by eexists|exact Ht].
Qed.
End Typing.

(** * Properties *)

(** A keyboard whose scancodes are the characters themselves, for the witnesses. *)
Definition plain_add_byte (kb : unit) (scancode : Z) : unit * option (option Z) := (kb, Some (Some scancode)).
Definition plain_keyevent (kb : unit) (ev : Z) : unit * option (DecodedKey bool) := (kb, Some (Unicode ev)).
(** Port 0x60 delivers the [i]-th byte of [text] when [i] port accesses have been made. *)
Definition typed_device (text : list Z) (tr : list io_event) (port : Z) : Z :=
  default 0 (text !! length tr).



(** C16: no key stops the kernel.  Whatever bytes the keyboard sends, whatever keys they decode to and
    whatever those keys are called, every keyboard interrupt returns and leaves the locks free, the writer
    well-formed and the handler in place, for any number of interrupts in a release build; where overflow
    is checked, as long as the count of typed characters cannot reach 2^64.  (Backspace at the left
    edge, on an empty line and at the top of the screen included.) *)
Theorem typing_never_stops `{P : Profile} {KeyCode KB KeyEvent : Type} `{KD : EqDecision KeyCode}
    (add_byte : KB -> Z -> KB * option (option KeyEvent))
    (process_keyevent : KB -> KeyEvent -> KB * option (DecodedKey KeyCode))
    (device : list io_event -> Z -> Z) (cr2_text code_text frame_text : list Z)
    (run_apic run_syscall : M (OS KeyCode KB) unit) (Backspace : KeyCode) (key_debug : KeyCode -> list Z)
    (n : nat) (s : OS KeyCode KB) (Hs : typing_ready Backspace key_debug s)
    (Hcount : P = true -> written_char_count (inner (shell (console s))) + Z.of_nat n < 2 ^ 64) :
  exists s', for_each (replicate n (as_u8 Keyboard))
      (deliver add_byte process_keyevent device cr2_text code_text frame_text run_apic run_syscall) s = Ok (tt, s') /\
    typing_ready Backspace key_debug s' /\
    written_char_count (inner (shell (console s'))) <= written_char_count (inner (shell (console s))) + Z.of_nat n.
Proof.
  revert s Hs Hcount. induction n as [|n IH]; intros s Hs Hp.
  - exists s. split; [done|]. split; [done|]. lia.
  - destruct (deliver_keyboard_total add_byte process_keyevent device cr2_text code_text frame_text run_apic run_syscall
      Backspace key_debug s Hs) as (s1 & E1 & H1 & Hle1); [intros HP; specialize (Hp HP); lia|].
    destruct (IH s1 H1) as (s' & E' & H' & Hle'); [intros HP; specialize (Hp HP); lia|].
    exists s'. cbn [replicate]. rewrite for_each_cons, (bind_Ok _ _ _ _ _ E1). split; [exact E'|]. split; [exact H'|lia].
Qed.

Lemma typing_never_stops_witness :
  exists s', for_each (replicate 1000 (as_u8 Keyboard))
      (deliver (P := dev_profile) plain_add_byte plain_keyevent (typed_device [104; 8; 8; 0x20ac]) [] [] [] (ret tt) (ret tt))
      (MkOS (MkConsole (Mutex false SHELL_init) true (Mutex false ready_writer) (MkMachine 0x202 []))
         (mutex_new (shell_handlers (P := dev_profile) true (fun _ => []))) (mutex_new tt) (Some []) (mutex_new [])
         idt_table true 0 []) = Ok (tt, s') /\ console_free (console s').
Proof.
  destruct (@typing_never_stops dev_profile bool unit Z _ plain_add_byte plain_keyevent
    (typed_device [104; 8; 8; 0x20ac]) [] [] [] (ret tt) (ret tt) true (fun _ => []) 1000
    (MkOS (MkConsole (Mutex false SHELL_init) true (Mutex false ready_writer) (MkMachine 0x202 []))
         (mutex_new (shell_handlers (P := dev_profile) true (fun _ => []))) (mutex_new tt) (Some []) (mutex_new [])
         idt_table true 0 [])) as (s' & E & Hs & _).
  - split; [|split; [discriminate|reflexivity]|reflexivity|reflexivity|eexists; reflexivity|vm_compute; reflexivity].
    split; [reflexivity|]. split; [reflexivity|]. exact (line_shows_wf _ _ ready_shows).
  - intros _. simpl. lia.
  - exists s'. split; [exact E|]. exact (tr_console _ _ _ Hs).
Defined.

(** Exceptions reach their handlers.  After [interrupts::init] the table's gates are those of
    twenty architectural exceptions and of the six kernel vectors, no handler serves two vectors, and
    only the double fault switches to an interrupt stack (the first); an exception with a panicking
    handler, taken in any state that has this table, panics with that handler's message. *)
Theorem exceptions_reach_their_handlers `{P : Profile} {KeyCode KB KeyEvent : Type}
    (add_byte : KB -> Z -> KB * option (option KeyEvent))
    (process_keyevent : KB -> KeyEvent -> KB * option (DecodedKey KeyCode))
    (device : list io_event -> Z -> Z) (cr2_text code_text frame_text : list Z)
    (run_apic run_syscall : M (OS KeyCode KB) unit) :
  exists t, idt_init ∅ = Ok (tt, t) /\
    (forall v g, t !! v = Some g ->
       (v, gate_handler g) ∈ exception_vectors ++ external_vectors /\
       ist_index g = if decide (v = 8) then Some DOUBLE_FAULT_IST_INDEX else None) /\
    (forall v v' g g', t !! v = Some g -> t !! v' = Some g' -> gate_handler g = gate_handler g' -> v = v') /\
    (forall h msg, exception_message h = Some msg ->
       exists v g, t !! v = Some g /\ gate_handler g = h /\
         forall s, idt s = t ->
           deliver add_byte process_keyevent device cr2_text code_text frame_text run_apic run_syscall v s
           = Panic (Explicit msg)).
Proof.
  exists idt_table. split_and!.
  - exact idt_init_run.
  - intros v g Hg. by apply idt_table_lookup.
  - intros v v' g g' [H1 _]%idt_table_lookup [H2 _]%idt_table_lookup Heq. rewrite <- Heq in H2.
    assert (NoDup (snd <$> exception_vectors ++ external_vectors)) as Hnd.
    { apply (bool_decide_unpack (NoDup _)). by vm_compute. }
    apply list_elem_of_lookup in H1 as [i Hi]. apply list_elem_of_lookup in H2 as [j Hj].
    assert (i = j); [|subst; congruence].
    apply (proj1 (NoDup_alt _) Hnd i j (gate_handler g)); rewrite list_lookup_fmap; [by rewrite Hi|by rewrite Hj].
  - intros h msg Hm.
    assert (exists v, (v, h) ∈ exception_vectors ++ external_vectors) as [v Hv].
    { destruct h; try discriminate Hm; eexists; unfold exception_vectors; repeat constructor. }
    set (g := MkGate h (if decide (v = 8) then Some 0 else None)).
    assert (idt_table !! v = Some g) as Hg by (by apply idt_table_lookup).
    exists v, g. split_and!; [done|done|]. intros s Hs. unfold deliver. rewrite !bind_gets, Hs, Hg.
    unfold bind, zoom, run_handler. simpl. by rewrite Hm.
Qed.


(** The kernel's state between [LeafOS::init] and [init_apic], for the witnesses. *)
Definition booting (lapic : option (list lapic_event)) (arr : list Z) : OS bool unit :=
  MkOS (console_boot spaces (MkMachine 0x202 [])) (mutex_new EventHandlers_new) (mutex_new tt) lapic
    (mutex_new [PicInitialize]) idt_table false 0 arr.




(** C24: the calibration of the APIC timer.  With interrupts on, [init_apic] waits through any number
    of PIC timer ticks for the first interrupt of the APIC timer, reads the PIT counter [e], installs
    the scheduler's handler and no other gate, and stores the frequency
    [65535 / (65535 - e) * 1193182].  The division rounds before the multiplication: the stored value
    is never above the measured [65535 * 1193182 / (65535 - e)] but may be off by as much as the PIT's
    own frequency; and a counter that still reads 65535 makes the kernel panic. *)
Theorem init_apic_calibrates `{P : Profile} {KeyCode KB KeyEvent : Type}
    (add_byte : KB -> Z -> KB * option (option KeyEvent))
    (process_keyevent : KB -> KeyEvent -> KB * option (DecodedKey KeyCode))
    (device : list io_event -> Z -> Z) (cr2_text code_text frame_text : list Z)
    (run_apic run_syscall : M (OS KeyCode KB) unit) (base offset : Z) (n : nat) (s : OS KeyCode KB)
    (arr : list Z) (Hoff : fits 64 (offset + base)) (Hc : console_free (console s))
    (HIF : IF (console_cpu (console s)) = true) (Ht : idt s = idt_table)
    (Htr : TRIGGERED_ONCE s = false)
    (Harr : arriving s = replicate n (as_u8 Timer) ++ as_u8 ApicTimer :: arr) :
  let e := pit_reading device (io (console_cpu (console s)) ++ calibration_io) in
  let run := init_apic add_byte process_keyevent device cr2_text code_text frame_text run_apic
               run_syscall base None offset s in
  0 <= e <= 65535 /\ (e = 65535 -> run = Panic DivideByZero) /\
  (e < 65535 -> exists s', run = Ok (tt, s') /\
     idt s' = <[as_u8 ApicTimer := MkGate apic_timer_handler None]> idt_table /\
     APIC_TIMER_FREQUENCY s' = 65535 / (65535 - e) * PIT_DIVIDEND /\
     APIC_TIMER_FREQUENCY s' * (65535 - e) <= 65535 * PIT_DIVIDEND <
       (APIC_TIMER_FREQUENCY s' + PIT_DIVIDEND) * (65535 - e)).
Proof.
  intros e run. pose proof (pit_reading_fits device (io (console_cpu (console s)) ++ calibration_io)) as Hfit.
  unfold fits in Hfit. fold e in Hfit. change (2 ^ 16) with 65536 in Hfit.
  destruct s as [c eh kb l pics t b f arr0]. cbn [console idt TRIGGERED_ONCE arriving] in *. subst t b arr0.
  destruct (init_apic_run add_byte process_keyevent device cr2_text code_text frame_text run_apic
    run_syscall base offset n c eh kb l pics idt_table f arr Hoff Hc HIF) as (c' & log & m & _ & _ & _ & E);
    [vm_compute; reflexivity..|].
  fold e in E. subst run. rewrite E. split_and!; [lia|lia| |].
  - intros ->. by rewrite decide_True.
  - intros He. rewrite decide_False by lia. eexists. split; [done|].
    cbn [idt APIC_TIMER_FREQUENCY]. split_and!; [done|done| |];
      pose proof (Z.div_mod 65535 (65535 - e) ltac:(lia));
      pose proof (Z.mod_pos_bound 65535 (65535 - e) ltac:(lia)); unfold PIT_DIVIDEND; nia.
Qed.

Lemma init_apic_calibrates_witness :
  exists s', init_apic (P := dev_profile) plain_add_byte plain_keyevent (fun _ _ => 0xf0) [] [] [] (ret tt)
      (ret tt) 0xfee00000 None 0x10000000000 (booting None [32; 32; 33]) = Ok (tt, s') /\
    APIC_TIMER_FREQUENCY s' = 17 * PIT_DIVIDEND.
Proof.
  destruct (@init_apic_calibrates dev_profile bool unit Z plain_add_byte plain_keyevent (fun _ _ => 0xf0)
    [] [] [] (ret tt) (ret tt) 0xfee00000 0x10000000000 2 (booting None [32; 32; 33]) [])
    as (_ & _ & H).
  - split; [discriminate|reflexivity].
  - split; [reflexivity|]. split; [reflexivity|]. exact clear_writer_wf.
  - reflexivity.
  - reflexivity.
  - reflexivity.
  - reflexivity.
  - destruct H as (s' & E & _ & Hf & _); [vm_compute; reflexivity|].
    exists s'. split; [exact E|]. rewrite Hf. vm_compute. reflexivity.
Defined.

(** C36: the one-shot timer's count.  On a local APIC, [start_timer_one_shot us] selects the divider
    64 and one-shot mode and loads [us * (frequency / 1000000)] (whole MHz) when that fits the 32-bit
    register; larger products are truncated modulo 2^32, and only a product beyond 64 bits panics, in
    a build with overflow checks.  Without a local APIC it panics. *)
Theorem start_timer_one_shot_count {KeyCode KB : Type} (P : Profile) (us : Z) (s : OS KeyCode KB)
    (Hus : fits 64 us) (Hf : fits 64 (APIC_TIMER_FREQUENCY s)) :
  let n := us * (APIC_TIMER_FREQUENCY s / 1000000) in
  match LAPIC s with
  | None => start_timer_one_shot us s = Panic UnwrapNone
  | Some log =>
      if P && bool_decide (2 ^ 64 <= n) then start_timer_one_shot us s = Panic ArithmeticOverflow
      else exists s' c, start_timer_one_shot us s = Ok (tt, s') /\
        LAPIC s' = Some (log ++ [TimerDivideDiv64; TimerModeOneShot; TimerInitial c]) /\
        fits 32 c /\ c = n mod 2 ^ 32 /\ (n < 2 ^ 32 -> c = n)
  end.
Proof.
  intros n. destruct (LAPIC s) as [log|] eqn:E.
  2:{ unfold start_timer_one_shot, bind at 1. by rewrite lapic_command_none. }
  assert (0 <= APIC_TIMER_FREQUENCY s / 1000000) by (apply Z.div_pos; unfold fits in Hf; lia).
  assert (0 <= n) as Hn by (unfold n, fits in *; nia).
  destruct (P && bool_decide (2 ^ 64 <= n)) eqn:Hb.
  - apply andb_true_iff in Hb as [HP Hb]. apply bool_decide_eq_true in Hb. unfold overflow_checks in *.
    destruct P; [|done]. unfold start_timer_one_shot.
    erewrite bind_Ok by (by apply lapic_command_run).
    erewrite bind_Ok by (by apply lapic_command_run). rewrite bind_gets.
    cbn [APIC_TIMER_FREQUENCY update LAPIC_lens].
    unfold bind, lift, timer_count, mul_w, arith. simpl. fold n. by rewrite decide_False by lia.
  - rewrite (start_timer_one_shot_run us log s E Hn).
    + eexists _, (n mod 2 ^ 32). split_and!; [done|done|apply Z.mod_pos_bound; lia..|done|].
      intros Hlt. by apply Z.mod_small.
    + intros ->. simpl in Hb. apply bool_decide_eq_false in Hb. lia.
Qed.

Lemma start_timer_one_shot_count_witness :
  exists s', start_timer_one_shot (P := dev_profile) 1000000
      (set_frequency_static (16 * PIT_DIVIDEND) (booting (Some []) [])) = Ok (tt, s') /\
    LAPIC s' = Some [TimerDivideDiv64; TimerModeOneShot; TimerInitial 19000000].
Proof.
  destruct (@start_timer_one_shot_count bool unit dev_profile 1000000
    (set_frequency_static (16 * PIT_DIVIDEND) (booting (Some []) []))) as (s' & c & E & Hl & _ & Hc & _).
  - split; [discriminate|reflexivity].
  - split; [discriminate|reflexivity].
  - exists s'. split; [exact E|]. rewrite Hl, Hc. reflexivity.
Defined.
