(* ===== verification/Hal.v ===== *)
(** * The hardware abstraction layer for its three targets (src/src/arch)

    [hal_impls] is what each architecture's module provides; the functions of src/src/arch/mod.rs
    dispatch to one of them by [target_arch].  The x86_64 module is the one the rest of the development
    uses (Arch, Interrupts); for riscv the instructions are those of the riscv crate and for aarch64
    those of cortex_a and the processor, which are parameters. *)

From S2P Require Import Prelude Arch Shell Events Interrupts.

Inductive target_arch : Type := X86_64 | Riscv | Aarch64.

#[export] Instance target_arch_eq_dec : EqDecision target_arch.
Proof. solve_decision. Defined.

Record hal_impls (S : Type) : Type := MkHal {
  impl_nop : M S unit;
  impl_enable_interrupts : M S unit;
  impl_disable_interrupts : M S unit;
  impl_is_interrupts_enabled : M S bool;
  impl_wait_for_interrupt : M S unit;
  impl_break_point : M S unit
}.
Arguments MkHal {S} _ _ _ _ _ _.
Arguments impl_nop {S} _.
Arguments impl_enable_interrupts {S} _.
Arguments impl_disable_interrupts {S} _.
Arguments impl_is_interrupts_enabled {S} _.
Arguments impl_wait_for_interrupt {S} _.
Arguments impl_break_point {S} _.

(** ** arch/mod.rs *)

Section Dispatch.
Context {S : Type}.
Variables x86 riscv aarch64 : hal_impls S.
Variable target : target_arch.

Definition arch_nop : M S unit :=
  match target with
  | X86_64 => impl_nop x86
  | Riscv => impl_nop riscv
  | Aarch64 => impl_nop aarch64
  end.
Definition arch_enable_interrupts : M S unit :=
  match target with
  | X86_64 => impl_enable_interrupts x86
  | Riscv => impl_enable_interrupts riscv
  | Aarch64 => impl_enable_interrupts aarch64
  end.
Definition arch_disable_interrupts : M S unit :=
  match target with
  | X86_64 => impl_disable_interrupts x86
  | Riscv => impl_disable_interrupts riscv
  | Aarch64 => impl_disable_interrupts aarch64
  end.
Definition arch_is_interrupts_enabled : M S bool :=
  match target with
  | X86_64 => impl_is_interrupts_enabled x86
  | Riscv => impl_is_interrupts_enabled riscv
  | Aarch64 => impl_is_interrupts_enabled aarch64
  end.
Definition arch_without_interrupts {R} (f : M S R) : M S R :=
  let! enabled := arch_is_interrupts_enabled in
  if enabled : bool then
    arch_disable_interrupts ;;
    let! result := f in
    arch_enable_interrupts ;;
    ret result
  else f.
Definition arch_wait_for_interrupt : M S unit :=
  match target with
  | X86_64 => impl_wait_for_interrupt x86
  | Riscv => impl_wait_for_interrupt riscv
  | Aarch64 => impl_wait_for_interrupt aarch64
  end.
(** On aarch64 the source calls [wait_for_interrupt]. *)
Definition arch_break_point : M S unit :=
  match target with
  | X86_64 => impl_break_point x86
  | Riscv => impl_break_point riscv
  | Aarch64 => impl_wait_for_interrupt aarch64
  end.
End Dispatch.

(** ** The architectures *)

(** arch/riscv/mod.rs: [enable], [disable], [wfi] and [ebreak] of the riscv crate, and [mie] of the
    [mstatus] register. *)
Definition riscv_hal {S} (enable disable wfi ebreak : M S unit) (mie : S -> bool) : hal_impls S :=
  MkHal (ret tt) enable disable (gets mie) wfi ebreak.

(** arch/aarch64/mod.rs: [cpsie if], [cpsid if] and [wfi]; the rest is [todo!()]. *)
Definition aarch64_hal {S} (cpsie cpsid wfi : M S unit) : hal_impls S :=
  MkHal (ret tt) cpsie cpsid (throw Unimplemented) wfi (throw Unimplemented).

Section X86.
Context `{P : Profile} {KeyCode KB KeyEvent : Type}.
Variable add_byte : KB -> Z -> KB * option (option KeyEvent).
Variable process_keyevent : KB -> KeyEvent -> KB * option (DecodedKey KeyCode).
Variable device : list io_event -> Z -> Z.
Variables cr2_text code_text frame_text : list Z.
Variables run_apic run_syscall : M (OS KeyCode KB) unit.
Abbreviation OS := (OS KeyCode KB).

(** arch/x86/mod.rs: [x86::halt], and [int3] through its gate. *)
Definition x86_wait_for_interrupt : M OS unit :=
  wait_for_interrupt add_byte process_keyevent device cr2_text code_text frame_text run_apic run_syscall.
Definition x86_break_point : M OS unit :=
  deliver add_byte process_keyevent device cr2_text code_text frame_text run_apic run_syscall 3.

Definition x86_hal : hal_impls OS :=
  MkHal nop enable_interrupts disable_interrupts is_interrupts_enabled x86_wait_for_interrupt x86_break_point.
End X86.

(** ** arch/x86/cpuid.rs

    The lazily initialised [CPU_ID]: the answer of the intrinsic, a parameter, at the first call. *)
Definition CPU_ID (intrinsic : bool) : M (option bool) bool :=
  let! cached := get in
  match cached with
  | Some b => ret b
  | None => modify (fun _ => Some intrinsic) ;; ret intrinsic
  end.
Definition has_cpuid (intrinsic : bool) : M (option bool) bool := CPU_ID intrinsic.

(** * Lemmas *)

(** For x86_64 it is the [without_interrupts] of Arch. *)
Lemma x86_without_interrupts `{P : Profile} {KeyCode KB KeyEvent : Type}
    (add_byte : KB -> Z -> KB * option (option KeyEvent))
    (process_keyevent : KB -> KeyEvent -> KB * option (DecodedKey KeyCode)) device cr2_text code_text frame_text
    run_apic run_syscall riscv aarch64 {R} (f : M (OS KeyCode KB) R) s :
  arch_without_interrupts (x86_hal add_byte process_keyevent device cr2_text code_text frame_text run_apic run_syscall)
    riscv aarch64 X86_64 f s = without_interrupts f s.
Proof. reflexivity. Qed.

(** What [without_interrupts] needs of a target: an interrupt-enable bit [on] that can be read, set and
    cleared. *)
Class InterruptControl {S} (enable disable : M S unit) (enabled : M S bool) (on : S -> bool) : Prop := {
  control_enabled : forall s, enabled s = Ok (on s, s);
  control_enable : forall s, exists s', enable s = Ok (tt, s') /\ on s' = true;
  control_disable : forall s, exists s', disable s = Ok (tt, s') /\ on s' = false;
}.

#[export] Instance x86_control {S} `{HM : HasMachine S} `{LL : !LensLaws (machine (S:=S))} :
  InterruptControl enable_interrupts disable_interrupts (is_interrupts_enabled (S:=S)) interrupts_on.
Proof.
  split; intros s; [apply is_interrupts_enabled_run|exists (set_interrupts true s)|exists (set_interrupts false s)];
    (split; [reflexivity|apply interrupts_on_set]).
Qed.

(** [without_interrupts] against the interface. *)
Lemma arch_without_interrupts_run {S R} (x86 riscv aarch64 : hal_impls S) t on (f : M S R) s :
  InterruptControl (arch_enable_interrupts x86 riscv aarch64 t) (arch_disable_interrupts x86 riscv aarch64 t)
    (arch_is_interrupts_enabled x86 riscv aarch64 t) on ->
  exists s1, (on s = true -> arch_disable_interrupts x86 riscv aarch64 t s = Ok (tt, s1)) /\
    (on s = false -> s1 = s) /\ on s1 = false /\
    match f s1 with
    | Ok (r, s2) => on s2 = false ->
        exists s3, arch_without_interrupts x86 riscv aarch64 t f s = Ok (r, s3) /\ on s3 = on s
    | Panic e => arch_without_interrupts x86 riscv aarch64 t f s = Panic e
    | Hang => arch_without_interrupts x86 riscv aarch64 t f s = Hang
    end.
Proof.
  intros IC. unfold arch_without_interrupts. destruct (on s) eqn:Hon.
  - destruct (control_disable (InterruptControl := IC) s) as (s1 & E1 & H1). exists s1. split_and!; [done..|].
    destruct (f s1) as [[r s2]|e|] eqn:Ef.
    + intros H2. destruct (control_enable (InterruptControl := IC) s2) as (s3 & E3 & H3). exists s3. split; [|done].
      unfold bind. rewrite control_enabled, Hon. simpl. rewrite E1. simpl. rewrite Ef. simpl. by rewrite E3.
    + unfold bind. rewrite control_enabled, Hon. simpl. rewrite E1. simpl. by rewrite Ef.
    + unfold bind. rewrite control_enabled, Hon. simpl. rewrite E1. simpl. by rewrite Ef.
  - exists s. split_and!; [done..|]. unfold bind. rewrite control_enabled, Hon. simpl.
    destruct (f s) as [[r s2]|e|]; [|done..]. intros H2. by exists s2.
Qed.

(** * Properties *)

(** C31: [without_interrupts] on every target.  On x86_64, and on riscv if [interrupt::enable] and
    [interrupt::disable] set and clear [mstatus.mie], the closure runs with interrupts off whatever they
    were before, its result or failure is that of the whole, and interrupts are afterwards enabled if
    and only if they were (for a closure that does not enable them).  On aarch64, whose
    [is_interrupts_enabled] is a [todo!()], it panics without running the closure, and so does every
    [print!]. *)
Theorem without_interrupts_on_each_target `{P : Profile} {KeyCode KB KeyEvent : Type}
    (add_byte : KB -> Z -> KB * option (option KeyEvent))
    (process_keyevent : KB -> KeyEvent -> KB * option (DecodedKey KeyCode))
    (device : list io_event -> Z -> Z) (cr2_text code_text frame_text : list Z)
    (run_apic run_syscall : M (OS KeyCode KB) unit)
    (enable disable wfi ebreak cpsie cpsid a_wfi : M (OS KeyCode KB) unit) (mie : OS KeyCode KB -> bool)
    (Henable : forall s, exists s', enable s = Ok (tt, s') /\ mie s' = true)
    (Hdisable : forall s, exists s', disable s = Ok (tt, s') /\ mie s' = false)
    {R : Type} (t : target_arch) (f : M (OS KeyCode KB) R) (s : OS KeyCode KB) :
  let x86 := x86_hal add_byte process_keyevent device cr2_text code_text frame_text run_apic run_syscall in
  let riscv := riscv_hal enable disable wfi ebreak mie in
  let aarch64 := aarch64_hal cpsie cpsid a_wfi in
  let critical := arch_without_interrupts x86 riscv aarch64 t f s in
  let on := match t with Riscv => mie | _ => interrupts_on end in
  if decide (t = Aarch64) then critical = Panic Unimplemented
  else exists s1, (if on s then arch_disable_interrupts x86 riscv aarch64 t s = Ok (tt, s1) else s1 = s) /\
    on s1 = false /\
    match f s1 with
    | Ok (r, s2) => on s2 = false -> exists s3, critical = Ok (r, s3) /\ on s3 = on s
    | Panic e => critical = Panic e
    | Hang => critical = Hang
    end.
Proof.
  intros x86 riscv aarch64 critical on. subst critical on. destruct t; cbv iota; [| |reflexivity].
  - destruct (arch_without_interrupts_run x86 riscv aarch64 X86_64 interrupts_on f s x86_control)
      as (s1 & Hd & Hs & H1 & H). exists s1. split; [destruct (interrupts_on s); auto|by split].
  - destruct (arch_without_interrupts_run x86 riscv aarch64 Riscv mie f s) as (s1 & Hd & Hs & H1 & H).
    + split; [reflexivity|exact Henable|exact Hdisable].
    + exists s1. split; [destruct (mie s); auto|by split].
Qed.

Lemma without_interrupts_on_each_target_witness :
  exists s1 : OS bool unit, interrupts_on s1 = false /\
    arch_without_interrupts
      (x86_hal (P := dev_profile) (KeyCode := bool) (KB := unit) plain_add_byte plain_keyevent (typed_device []) [] [] [] (ret tt) (ret tt))
      (riscv_hal enable_interrupts disable_interrupts (ret tt) (ret tt) interrupts_on)
      (aarch64_hal (ret tt) (ret tt) (ret tt)) Riscv (throw DivideByZero : M (OS bool unit) unit)
      (booting None []) = Panic DivideByZero /\ interrupts_on (booting None []) = true.
Proof.
  destruct (@without_interrupts_on_each_target dev_profile bool unit Z plain_add_byte plain_keyevent (typed_device []) []
    [] [] (ret tt) (ret tt) enable_interrupts disable_interrupts (ret tt) (ret tt) (ret tt) (ret tt) (ret tt)
    interrupts_on (fun s => ex_intro _ (set_interrupts true s) (conj eq_refl (interrupts_on_set true s)))
    (fun s => ex_intro _ (set_interrupts false s) (conj eq_refl (interrupts_on_set false s)))
    unit Riscv (throw DivideByZero) (booting None [])) as (s1 & _ & H1 & E).
  exists s1. split; [exact H1|]. split; [exact E|reflexivity].
Defined.
