(* ===== verification/Cpu.v ===== *)
(** * The processor as the kernel's assembly sees it

    General purpose registers, the stack in byte memory, the interrupt frame, and calls into compiled
    code under the System V calling convention.  What compiled code leaves in caller-saved registers
    and in its dead stack frames is a parameter. *)

From S2P Require Import Prelude Mem.

(** The general purpose registers but rsp, which has a field of its own. *)
Inductive reg : Type :=
  | RAX | RBX | RCX | RDX | RSI | RDI | R8 | R9 | R10 | R11 | R12 | R13 | R14 | R15 | RBP.

#[export] Instance reg_eq_dec : EqDecision reg.
Proof. solve_decision. Defined.

(** A state with a byte memory. *)
Class HasMem (S : Type) : Type := mem_lens : lens S mem.

#[export] Instance mem_self : HasMem mem := Lens id (fun m _ => m).

Record Cpu (S : Type) : Type := MkCpu {
  regs : reg -> Z;
  rsp : Z;
  rip : Z;
  cs : Z;
  cpu_rflags : Z;
  ss : Z;
  data_segments : Z;  (* ds, es, fs and gs *)
  sys : S
}.
Arguments MkCpu {S} _ _ _ _ _ _ _ _.
Arguments regs {S} _ _.
Arguments rsp {S} _.
Arguments rip {S} _.
Arguments cs {S} _.
Arguments cpu_rflags {S} _.
Arguments ss {S} _.
Arguments data_segments {S} _.
Arguments sys {S} _.

Definition rset (f : reg -> Z) (r : reg) (v : Z) : reg -> Z :=
  fun q => if decide (q = r) then v else f q.

(** The registers a callee may change. *)
Definition caller_saved (r : reg) : bool :=
  match r with RAX | RCX | RDX | RSI | RDI | R8 | R9 | R10 | R11 => true | _ => false end.

(** What compiled code leaves behind: values in the caller-saved registers, given the registers at
    the call, the memory below the stack pointer, and there the address of a local variable of the
    called function. *)
Class Abi : Type := {
  clobber : (reg -> Z) -> reg -> Z;
  scratch : Z -> mem -> mem;
  local_addr : Z -> Z
}.

Section Instructions.
Context {S : Type} `{HS : HasMem S}.
Abbreviation Cpu := (Cpu S).

Definition cpu_mem (c : Cpu) : mem := view mem_lens (sys c).
Definition set_reg (r : reg) (v : Z) (c : Cpu) : Cpu :=
  MkCpu (rset (regs c) r v) (rsp c) (rip c) (cs c) (cpu_rflags c) (ss c) (data_segments c) (sys c).
Definition set_rsp (v : Z) (c : Cpu) : Cpu :=
  MkCpu (regs c) v (rip c) (cs c) (cpu_rflags c) (ss c) (data_segments c) (sys c).
Definition set_sys (s : S) (c : Cpu) : Cpu :=
  MkCpu (regs c) (rsp c) (rip c) (cs c) (cpu_rflags c) (ss c) (data_segments c) s.
Definition set_cpu_mem (m : mem) (c : Cpu) : Cpu := set_sys (update mem_lens m (sys c)) c.

(** [push v] and [push r]. *)
Definition push_val (v : Z) : M Cpu unit := modify (fun c =>
  let sp := wrap 64 (rsp c - 8) in
  set_cpu_mem (store64 (cpu_mem c) sp v) (set_rsp sp c)).
Definition push (r : reg) : M Cpu unit := let! v := gets (fun c => regs c r) in push_val v.

(** [pop r], and the popped value. *)
Definition pop_val : M Cpu Z :=
  let! v := gets (fun c => load64 (cpu_mem c) (rsp c)) in
  modify (fun c => set_rsp (wrap 64 (rsp c + 8)) c) ;;
  ret v.
Definition pop (r : reg) : M Cpu unit := let! v := pop_val in modify (set_reg r v).

(** [add rsp, n]. *)
Definition add_rsp (n : Z) : M Cpu unit := modify (fun c => set_rsp (wrap 64 (rsp c + n)) c).

(** [mov r, [base + off]], [mov [base + off], r], [mov rsp, [base]] and [mov [base], rsp]. *)
Definition mov_load (r base : reg) (off : Z) : M Cpu unit :=
  modify (fun c => set_reg r (load64 (cpu_mem c) (wrap 64 (regs c base + off))) c).
Definition mov_store (base : reg) (off : Z) (r : reg) : M Cpu unit :=
  modify (fun c => set_cpu_mem (store64 (cpu_mem c) (wrap 64 (regs c base + off)) (regs c r)) c).
Definition mov_load_rsp (base : reg) : M Cpu unit :=
  modify (fun c => set_rsp (load64 (cpu_mem c) (regs c base)) c).
Definition mov_store_rsp (base : reg) : M Cpu unit :=
  modify (fun c => set_cpu_mem (store64 (cpu_mem c) (regs c base) (rsp c)) c).

(** [mov ax, v]. *)
Definition mov_ax (v : Z) : M Cpu unit :=
  modify (fun c => set_reg RAX (regs c RAX - regs c RAX mod 2 ^ 16 + v) c).
(** [mov ds, ax], and the same for es, fs and gs. *)
Definition mov_segments : M Cpu unit := modify (fun c =>
  MkCpu (regs c) (rsp c) (rip c) (cs c) (cpu_rflags c) (ss c) (regs c RAX mod 2 ^ 16) (sys c)).

(** [call f] for a function with result in rax, or without a result: [f] is what the function does to
    the rest of the state. *)
Definition call_gen `{A : Abi} {R} (result : R -> option Z) (f : M S R) : M Cpu unit := fun c =>
  res_bind (f (sys c)) (fun p =>
    let left := clobber (regs c) in
    let regs' := fun r => if caller_saved r then left r else regs c r in
    Ok (tt, MkCpu (match result p.1 with Some v => rset regs' RAX v | None => regs' end)
              (rsp c) (rip c) (cs c) (cpu_rflags c) (ss c) (data_segments c)
              (update mem_lens (scratch (rsp c) (view mem_lens p.2)) p.2))).
Definition call `{A : Abi} (f : M S Z) : M Cpu unit := call_gen Some f.
Definition call_void `{A : Abi} (f : M S unit) : M Cpu unit := call_gen (fun _ => None) f.

(** The processor enters an interrupt handler at the privilege level it is at: it aligns the stack,
    pushes ss, rsp, rflags, cs and rip, and clears the interrupt flag. *)
Definition interrupt_entry : M Cpu unit :=
  let! c := get in
  modify (set_rsp (rsp c - rsp c mod 16)) ;;
  for_each [ss c; rsp c; cpu_rflags c; cs c; rip c] push_val ;;
  modify (fun c => MkCpu (regs c) (rsp c) (rip c) (cs c) (Z.clearbit (cpu_rflags c) 9) (ss c)
                     (data_segments c) (sys c)).

(** [iretq]. *)
Definition iretq : M Cpu unit :=
  let! new_rip := pop_val in
  let! new_cs := pop_val in
  let! new_rflags := pop_val in
  let! new_rsp := pop_val in
  let! new_ss := pop_val in
  modify (fun c => MkCpu (regs c) new_rsp new_rip new_cs new_rflags new_ss (data_segments c) (sys c)).

End Instructions.

(** * Lemmas *)

(** The convention: compiled code writes at most [stack_use] bytes below the stack pointer, and its
    local variables (here of at most 104 bytes) are there. *)
Class AbiLaws `{A : Abi} (stack_use : Z) : Prop := {
  stack_use_nonneg : 0 <= stack_use;
  scratch_frame : forall rsp m x, rsp <= x \/ x < rsp - stack_use -> scratch rsp m x = m x;
  local_addr_frame : forall rsp, rsp - stack_use <= local_addr rsp <= rsp - 104
}.

Class HasMemLaws (S : Type) `{HS : HasMem S} : Prop := mem_lens_laws :: LensLaws (mem_lens (S := S)).

#[export] Instance mem_self_laws : HasMemLaws mem.
Proof. by split. Qed.

Lemma rset_eq f r v : rset f r v r = v.
Proof. unfold rset. by rewrite decide_True. Qed.
Lemma rset_ne f r q v : q <> r -> rset f r v q = f q.
Proof. intros. unfold rset. by rewrite decide_False. Qed.

(** The registers after popping [ws] into [rs]. *)
Fixpoint popped (f : reg -> Z) (rs : list reg) (ws : list Z) : reg -> Z :=
  match rs, ws with
  | r :: rs, v :: ws => popped (rset f r v) rs ws
  | _, _ => f
  end.

Lemma popped_other f rs ws q : q ∉ rs -> popped f rs ws q = f q.
Proof.
  revert f ws. induction rs as [|r rs IH]; intros f [|v ws] Hq; try done. simpl.
  apply not_elem_of_cons in Hq as [Hne Hq]. rewrite IH by done. by apply rset_ne.
Qed.

Lemma popped_fmap f rs ws : NoDup rs -> length rs = length ws -> popped f rs ws <$> rs = ws.
Proof.
  revert f ws. induction rs as [|r rs IH]; intros f [|v ws] Hnd Hl; try done. simpl in *.
  apply NoDup_cons in Hnd as [Hr Hnd]. f_equal; [|apply IH; [done|lia]].
  rewrite popped_other by done. apply rset_eq.
Qed.

Lemma popped_ext f g rs ws q :
  (forall r, r ∉ rs -> f r = g r) -> length rs = length ws -> popped f rs ws q = popped g rs ws q.
Proof.
  revert f g ws. induction rs as [|r rs IH]; intros f g [|v ws] Hfg Hl; try done; [by apply Hfg, not_elem_of_nil|].
  simpl in *. apply IH; [|lia]. intros r' Hr'. unfold rset. case_decide; [done|].
  apply Hfg, not_elem_of_cons. done.
Qed.

Section InstructionLemmas.
Context {S : Type} `{HS : HasMem S} `{HL : !HasMemLaws S}.
Abbreviation Cpu := (Cpu S).

(** The processor with another stack pointer and memory. *)
Definition with_stack (sp : Z) (m : mem) (c : Cpu) : Cpu :=
  MkCpu (regs c) sp (rip c) (cs c) (cpu_rflags c) (ss c) (data_segments c) (update mem_lens m (sys c)).

Lemma cpu_mem_with_stack sp m c : cpu_mem (with_stack sp m c) = m.
Proof. unfold cpu_mem, with_stack. simpl. apply view_update. Qed.

Lemma with_stack_twice sp m sp' m' c : with_stack sp m (with_stack sp' m' c) = with_stack sp m c.
Proof. unfold with_stack. simpl. by rewrite update_update. Qed.

Lemma with_stack_id c : with_stack (rsp c) (cpu_mem c) c = c.
Proof. unfold with_stack, cpu_mem. rewrite update_view. by destruct c. Qed.

Lemma push_val_run v sp m c :
  8 <= sp < 2 ^ 64 ->
  push_val v (with_stack sp m c) = Ok (tt, with_stack (sp - 8) (store64 m (sp - 8) v) c).
Proof.
  intros Hsp. unfold push_val, modify. cbv zeta. rewrite cpu_mem_with_stack. cbn [rsp with_stack].
  rewrite wrap_small by (unfold fits; lia). do 2 f_equal.
  unfold set_cpu_mem, set_rsp, set_sys, with_stack. simpl. by rewrite update_update.
Qed.

Lemma push_vals_run vs c :
  8 * Z.of_nat (length vs) <= rsp c < 2 ^ 64 ->
  for_each vs push_val c =
  Ok (tt, with_stack (rsp c - 8 * Z.of_nat (length vs)) (store_slots (cpu_mem c) (rsp c) (-1) vs) c).
Proof.
  intros Hsp. enough (forall i m sp, sp = rsp c + 8 * (i + 1) -> 8 * Z.of_nat (length vs) <= sp < 2 ^ 64 ->
    for_each vs push_val (with_stack sp m c) =
    Ok (tt, with_stack (sp - 8 * Z.of_nat (length vs)) (store_slots m (rsp c) i vs) c)) as H.
  { rewrite <- (H (-1) (cpu_mem c) (rsp c)) by lia. by rewrite with_stack_id. }
  clear Hsp. induction vs as [|v vs IH]; intros i m sp Hi Hsp.
  { unfold for_each, ret. do 3 f_equal. simpl. lia. }
  cbn [length] in *. rewrite for_each_cons, (bind_Ok _ _ _ _ _ (push_val_run v sp m c ltac:(lia))).
  rewrite (IH (i - 1)) by lia. cbn [store_slots].
  replace (rsp c + 8 * i) with (sp - 8) by lia. do 3 f_equal. lia.
Qed.

Lemma pushes_run rs c :
  8 * Z.of_nat (length rs) <= rsp c < 2 ^ 64 ->
  for_each rs push c =
  Ok (tt, with_stack (rsp c - 8 * Z.of_nat (length rs)) (store_slots (cpu_mem c) (rsp c) (-1) (regs c <$> rs)) c).
Proof.
  intros Hsp. rewrite <- (length_fmap (regs c) rs), <- push_vals_run by (by rewrite length_fmap).
  enough (forall c', regs c' = regs c -> for_each rs push c' = for_each (regs c <$> rs) push_val c') as H by auto.
  clear Hsp. induction rs as [|r rs IH]; intros c' Hc; [done|].
  rewrite fmap_cons, !for_each_cons. unfold push at 1. rewrite bind_assoc, bind_gets, Hc.
  unfold push_val at 1 2. rewrite !bind_modify. by apply IH.
Qed.

Lemma pop_val_run c :
  0 <= rsp c -> rsp c + 8 < 2 ^ 64 ->
  pop_val c = Ok (load64 (cpu_mem c) (rsp c), set_rsp (rsp c + 8) c).
Proof. intros H1 H2. unfold pop_val. run_pure. unfold ret. by rewrite wrap_small by (unfold fits; lia). Qed.

Definition set_regs (f : reg -> Z) (sp : Z) (c : Cpu) : Cpu :=
  MkCpu f sp (rip c) (cs c) (cpu_rflags c) (ss c) (data_segments c) (sys c).

Lemma pops_run rs ws c :
  length rs = length ws -> 0 <= rsp c -> rsp c + 8 * Z.of_nat (length ws) < 2 ^ 64 ->
  words_at (cpu_mem c) (rsp c) ws ->
  for_each rs pop c =
  Ok (tt, set_regs (popped (regs c) rs ws) (rsp c + 8 * Z.of_nat (length ws)) c).
Proof.
  revert ws c. induction rs as [|r rs IH]; intros [|v ws] c Hl H0 Hsp Hw; try done.
  { unfold for_each, ret. do 3 f_equal. destruct c. unfold set_regs. simpl. f_equal. lia. }
  cbn [length words_at] in *. destruct Hw as [Hv Hw]. rewrite for_each_cons. unfold pop at 1.
  rewrite bind_assoc, (bind_Ok _ _ _ _ _ (pop_val_run c H0 ltac:(lia))), Hv, bind_modify.
  rewrite (IH ws); [|lia|simpl; lia|simpl; lia|done]. unfold set_regs. simpl. do 3 f_equal. lia.
Qed.

End InstructionLemmas.
