(* ===== verification/Context.v ===== *)
(** * The context switch ([apic_timer_handler] and [restart_apic] of src/src/interrupts.rs, [tss_ptr]
    of src/src/gdt.rs)

    The timer handler in assembly, on the processor of [Cpu] over the scheduler's state and memory: it
    saves the interrupted context on the task's own stack and the stack pointer in the task's state,
    and resumes the context of the task the scheduler selects. *)

From S2P Require Import Prelude Mem Gdt Sched Arch Pit Vga Shell Events Interrupts Cpu.

(** What the handler reaches: the scheduler with the memory, and the rest of the kernel. *)
Record Sys (H KeyCode KB : Type) : Type := MkSys { kern : Kernel H; os : OS KeyCode KB }.
Arguments MkSys {H KeyCode KB} _ _.
Arguments kern {H KeyCode KB} _.
Arguments os {H KeyCode KB} _.

Section Handler.
Context `{P : Profile} `{A : Abi} {H KeyCode KB : Type}.
Variable alloc : Z -> Z -> H -> option (Z * H).
Variable idle : Z.

Abbreviation Sys := (Sys H KeyCode KB).

Definition KERN : lens Sys (Kernel H) := Lens kern (fun k s => MkSys k (os s)).
Definition OS_lens : lens Sys (OS KeyCode KB) := Lens os (fun o s => MkSys (kern s) o).
#[export] Instance sys_mem : HasMem Sys :=
  Lens (fun s => memory (kern s)) (fun m s => MkSys (set_memory m (kern s)) (os s)).

Definition restart_apic : M (OS KeyCode KB) unit :=
  lapic_command LapicEndOfInterrupt ;;
  start_timer_one_shot SCHEDULER_TIMER_DELAY.

(** [tss_ptr()]: the address of its local copy of the TSS. *)
Definition call_tss_ptr : M (Cpu Sys) unit :=
  let! sp := gets rsp in
  call (ret (local_addr sp)).

Definition run_apic_timer_handler : M (Cpu Sys) unit :=
  for_each [RAX; RBX; RCX; RDX; RSI; RDI; R8; R9; R10; R11; R12; R13; R14; R15; RBP] push ;;
  call_void (zoom OS_lens restart_apic) ;;
  call (zoom KERN (current_task_ptr alloc idle)) ;;
  mov_store_rsp RAX ;;
  call (zoom KERN (select_next_task alloc idle)) ;;
  mov_load_rsp RAX ;;
  mov_load RBX RAX 8 ;;
  push RBX ;;
  call_tss_ptr ;;
  pop RBX ;;
  mov_store RAX 4 RBX ;;
  mov_ax 0 ;;
  mov_segments ;;
  for_each [RBP; R15; R14; R13; R12; R11; R10; R9; R8; RDI; RSI; RDX; RCX; RBX; RAX] pop ;;
  iretq.

(** A timer interrupt of code at ring 0. *)
Definition timer_tick : M (Cpu Sys) unit := interrupt_entry ;; run_apic_timer_handler.

End Handler.

(** * Lemmas *)

(** The order in which the handler finds the registers on the stack, from the stack pointer up. *)
Definition POP_ORDER : list reg :=
  [RBP; R15; R14; R13; R12; R11; R10; R9; R8; RDI; RSI; RDX; RCX; RBX; RAX].

(** The context of a processor, as the handler lays it out in memory. *)
Definition context {S} (c : Cpu S) : list Z :=
  (regs c <$> POP_ORDER) ++ [rip c; cs c; cpu_rflags c; rsp c; ss c].

(** All registers hold 64-bit values. *)
Definition cpu_wf {S} (c : Cpu S) : Prop := Forall (fits 64) (context c).

#[export] Instance sys_mem_laws {H KeyCode KB} : HasMemLaws (Sys H KeyCode KB).
Proof. split; intros; try done. by destruct s as [[] ?]. Qed.

Section Switch.
Context `{P : Profile} `{A : Abi} {H KeyCode KB : Type}.
Variable stack_use : Z.
Context `{AL : !AbiLaws stack_use}.
Variable alloc : Z -> Z -> H -> option (Z * H).
Variable idle : Z.

Abbreviation Sys := (Sys H KeyCode KB).

(** ** Runs *)

(** The registers after a call. *)
Definition after_call (g : reg -> Z) : reg -> Z := fun r => if caller_saved r then clobber g r else g r.

Lemma call_run (f : M Sys Z) g sp ip c fl sg d m (k k' : Kernel H) o v m' :
  f (MkSys (set_memory m k) o) = Ok (v, MkSys (set_memory m' k') o) ->
  call f (MkCpu g sp ip c fl sg d (MkSys (set_memory m k) o)) =
  Ok (tt, MkCpu (rset (after_call g) RAX v) sp ip c fl sg d (MkSys (set_memory (scratch sp m') k') o)).
Proof. intros E. unfold call, call_gen. cbn [sys]. by rewrite E. Qed.

Lemma call_void_run (f : M Sys unit) g sp ip c fl sg d m m' (k k' : Kernel H) o o' :
  f (MkSys (set_memory m k) o) = Ok (tt, MkSys (set_memory m' k') o') ->
  call_void f (MkCpu g sp ip c fl sg d (MkSys (set_memory m k) o)) =
  Ok (tt, MkCpu (after_call g) sp ip c fl sg d (MkSys (set_memory (scratch sp m') k') o')).
Proof. intros E. unfold call_void, call_gen. cbn [sys]. by rewrite E. Qed.

(** The memory when the next task has been selected: [p] is the state of the interrupted task and
    [sp] its stack pointer. *)
Definition saved_mem (p sp : Z) (m : mem) : mem :=
  scratch sp (store64 (scratch sp (scratch sp m)) p sp).

(** The memory when the registers of the next task are about to be popped from [sp]; [top] is its
    [kernel_top_rsp]. *)
Definition resumed_mem (sp top : Z) (m : mem) : mem :=
  let m7 := scratch (sp - 8) (store64 m (sp - 8) top) in
  store64 m7 (local_addr (sp - 8) + 4) (load64 m7 (sp - 8)).

Lemma saved_mem_frame p sp m x :
  sp <= x \/ x < sp - stack_use -> x < p \/ p + 8 <= x -> saved_mem p sp m x = m x.
Proof.
  intros Hx Hp. unfold saved_mem. rewrite (scratch_frame sp) by done. rewrite store_outside by lia.
  by rewrite !(scratch_frame sp) by done.
Qed.

Lemma saved_mem_slot p sp m :
  fits 64 sp -> p + 8 <= sp - stack_use \/ sp <= p -> load64 (saved_mem p sp m) p = sp.
Proof.
  intros Hsp Hp. unfold saved_mem.
  transitivity (load64 (store64 (scratch sp (scratch sp m)) p sp) p); [|by apply load_store_eq].
  apply load64_ext. intros x Hx. apply scratch_frame. lia.
Qed.

Lemma resumed_mem_frame sp top m x :
  sp <= x \/ x < sp - 8 - stack_use -> resumed_mem sp top m x = m x.
Proof.
  intros Hx. unfold resumed_mem. pose proof (local_addr_frame (sp - 8)) as Hl.
  rewrite store_outside by lia. rewrite scratch_frame by lia. apply store_outside. lia.
Qed.

Lemma iretq_run g sp ip cs0 fl sg d (s : Sys) a b e q r :
  0 <= sp -> sp + 40 < 2 ^ 64 -> words_at (view mem_lens s) sp [a; b; e; q; r] ->
  iretq (MkCpu g sp ip cs0 fl sg d s) = Ok (tt, MkCpu g q a b e r d s).
Proof.
  intros H0 Hsp (Ha & Hb & He & Hq & Hr & _). unfold iretq.
  assert (forall sp' v, sp <= sp' -> sp' + 8 <= sp + 40 -> load64 (view mem_lens s) sp' = v ->
    pop_val (MkCpu g sp' ip cs0 fl sg d s) = Ok (v, MkCpu g (sp' + 8) ip cs0 fl sg d s)) as Hpop.
  { intros sp' v H1 H2 Hv. rewrite pop_val_run by (simpl; lia). unfold cpu_mem. cbn [sys rsp]. by rewrite Hv. }
  rewrite (bind_Ok _ _ _ _ _ (Hpop sp a ltac:(lia) ltac:(lia) Ha)).
  rewrite (bind_Ok _ _ _ _ _ (Hpop (sp + 8) b ltac:(lia) ltac:(lia) Hb)).
  rewrite (bind_Ok _ _ _ _ _ (Hpop (sp + 8 + 8) e ltac:(lia) ltac:(lia) He)).
  rewrite (bind_Ok _ _ _ _ _ (Hpop (sp + 8 + 8 + 8) q ltac:(lia) ltac:(lia) Hq)).
  rewrite (bind_Ok _ _ _ _ _ (Hpop (sp + 8 + 8 + 8 + 8) r ltac:(lia) ltac:(lia) Hr)). done.
Qed.

(** The end of the handler: data segments, registers, interrupt frame. *)
Lemma restore_run g sp ip cs0 fl sg d (s : Sys) ws frame :
  0 <= sp -> sp + 160 < 2 ^ 64 -> length ws = 15%nat -> length frame = 5%nat ->
  words_at (view mem_lens s) sp (ws ++ frame) ->
  exists c', (mov_ax 0 ;; mov_segments ;; for_each POP_ORDER pop ;; iretq) (MkCpu g sp ip cs0 fl sg d s)
      = Ok (tt, c') /\ context c' = ws ++ frame /\ data_segments c' = 0 /\ sys c' = s.
Proof.
  intros H0 Hsp Hws Hframe [Hw Hf]%words_at_app.
  destruct frame as [|a [|b [|e [|q [|r []]]]]]; try discriminate Hframe.
  unfold mov_ax, mov_segments. rewrite !bind_modify. cbn [regs rsp rip cs cpu_rflags ss sys set_reg].
  rewrite rset_eq. set (g' := rset g RAX _).
  rewrite (bind_Ok _ _ _ _ _ (pops_run POP_ORDER ws
    (MkCpu g' sp ip cs0 fl sg ((g RAX - g RAX mod 2 ^ 16 + 0) mod 2 ^ 16) s) (eq_sym Hws) ltac:(simpl; lia)
    ltac:(simpl; lia) Hw)).
  unfold set_regs. cbn [regs rsp rip cs cpu_rflags ss sys data_segments]. rewrite Hws in Hf |- *.
  rewrite (iretq_run _ _ _ _ _ _ _ s a b e q r); [|lia|lia|done].
  eexists. split; [done|]. split_and!; [| |done].
  - unfold context. cbn [regs rsp rip cs cpu_rflags ss]. f_equal.
    apply popped_fmap; [|by rewrite Hws]. apply (bool_decide_unpack (NoDup _)). by vm_compute.
  - cbn [data_segments]. rewrite Z.add_0_r. apply Z.mod_divide; [lia|].
    exists (g RAX / 2 ^ 16). pose proof (Z.div_mod (g RAX) (2 ^ 16) ltac:(lia)). lia.
Qed.

(** The handler from its first instruction on: [k], [k1] and [k'] are the scheduler before it, with the
    interrupted task found, and after it, [p] and [p'] the states of the interrupted and of the selected
    task. *)
Lemma handler_run g sp ip cs0 fl sg d (k k1 k' : Kernel H) (o o' : OS KeyCode KB) m p p' ws frame :
  (forall m, current_task_ptr alloc idle (set_memory m k) = Ok (p, set_memory m k1)) ->
  (forall m, select_next_task alloc idle (set_memory m k1) = Ok (p', set_memory m k')) ->
  restart_apic o = Ok (tt, o') ->
  120 <= sp < 2 ^ 64 ->
  let m1 := store_slots m sp (-1) (reverse (g <$> POP_ORDER)) in
  let m5 := saved_mem p (sp - 120) m1 in
  let sp' := load64 m5 p' in
  let m8 := resumed_mem sp' (load64 m5 (wrap 64 (p' + 8))) m5 in
  8 + stack_use <= sp' -> sp' + 160 < 2 ^ 64 ->
  length ws = 15%nat -> length frame = 5%nat -> words_at m5 sp' (ws ++ frame) ->
  exists c', run_apic_timer_handler alloc idle (MkCpu g sp ip cs0 fl sg d (MkSys (set_memory m k) o)) =
    Ok (tt, c') /\ context c' = ws ++ frame /\ data_segments c' = 0 /\
    sys c' = MkSys (set_memory m8 k') o'.
Proof.
  intros Hcur Hsel Hra Hsp m1 m5 sp' m8 Hlo Hhi Hws Hframe Hat.
  pose proof stack_use_nonneg as Hsu. pose proof (local_addr_frame (sp' - 8)) as Hloc.
  assert (words_at m8 sp' (ws ++ frame)) as Hat8.
  { eapply words_at_ext; [|exact Hat]. intros x Hx. symmetry. apply resumed_mem_frame. lia. }
  unfold run_apic_timer_handler.
  rewrite (bind_Ok _ _ _ tt (MkCpu g (sp - 120) ip cs0 fl sg d (MkSys (set_memory m1 k) o))).
  2:{ rewrite pushes_run by (simpl; lia). done. }
  erewrite bind_Ok.
  2:{ apply call_void_run. unfold zoom. cbn [view OS_lens os]. rewrite Hra. reflexivity. }
  erewrite bind_Ok.
  2:{ apply call_run. unfold zoom. cbn [view KERN kern]. rewrite Hcur. reflexivity. }
  set (g2 := rset (after_call (after_call g)) RAX p).
  rewrite (bind_Ok _ _ _ tt (MkCpu g2 (sp - 120) ip cs0 fl sg d
    (MkSys (set_memory (store64 (scratch (sp - 120) (scratch (sp - 120) m1)) p (sp - 120)) k1) o'))).
  2:{ unfold mov_store_rsp, modify. done. }
  erewrite bind_Ok.
  2:{ apply call_run. unfold zoom. cbn [view KERN kern]. rewrite Hsel. reflexivity. }
  fold (saved_mem p (sp - 120) m1). fold m5.
  set (top := load64 m5 (wrap 64 (p' + 8))).
  set (g3 := rset (after_call g2) RAX p').
  rewrite (bind_Ok _ _ _ tt (MkCpu g3 sp' ip cs0 fl sg d (MkSys (set_memory m5 k') o'))) by done.
  rewrite (bind_Ok _ _ _ tt (MkCpu (rset g3 RBX top) sp' ip cs0 fl sg d (MkSys (set_memory m5 k') o'))) by done.
  rewrite (bind_Ok _ _ _ tt (MkCpu (rset g3 RBX top) (sp' - 8) ip cs0 fl sg d
    (MkSys (set_memory (store64 m5 (sp' - 8) top) k') o'))).
  2:{ unfold push, push_val. rewrite bind_gets. unfold modify. cbn [rsp].
      rewrite wrap_small by (unfold fits; lia). done. }
  set (m6 := store64 m5 (sp' - 8) top).
  rewrite (bind_Ok _ _ _ tt (MkCpu (rset (after_call (rset g3 RBX top)) RAX (local_addr (sp' - 8))) (sp' - 8)
    ip cs0 fl sg d (MkSys (set_memory (scratch (sp' - 8) m6) k') o'))).
  2:{ unfold call_tss_ptr. rewrite bind_gets. by apply call_run. }
  set (m7 := scratch (sp' - 8) m6). set (g4 := rset (after_call _) RAX _).
  rewrite (bind_Ok _ _ _ tt (MkCpu (rset g4 RBX (load64 m7 (sp' - 8))) sp' ip cs0 fl sg d
    (MkSys (set_memory m7 k') o'))).
  2:{ unfold pop. erewrite bind_Ok by (apply pop_val_run; simpl; lia). unfold modify, set_rsp, set_reg. simpl.
      by replace (sp' - 8 + 8) with sp' by lia. }
  rewrite (bind_Ok _ _ _ tt (MkCpu (rset g4 RBX (load64 m7 (sp' - 8))) sp' ip cs0 fl sg d
    (MkSys (set_memory m8 k') o'))).
  2:{ unfold mov_store, modify. cbn [regs]. rewrite rset_eq, rset_ne by done.
      change (g4 RAX) with (local_addr (sp' - 8)). rewrite wrap_small by (unfold fits; lia). done. }
  destruct (restore_run (rset g4 RBX (load64 m7 (sp' - 8))) sp' ip cs0 fl sg d
    (MkSys (set_memory m8 k') o') ws frame) as (c' & E & Hc'); [lia|lia|done|done|exact Hat8|].
  exists c'. split; [exact E|exact Hc'].
Qed.

(** ** Tasks in memory *)

(** The memory of a task: its stack and the address of its [ProcessState]. *)
Record region : Type := Region { lo : Z; hi : Z; slot : Z }.

Definition region_wf (r : region) : Prop :=
  0 <= lo r /\ hi r < 2 ^ 64 /\ 0 <= slot r /\ (slot r + 16 <= lo r \/ hi r <= slot r).

Definition apart (r1 r2 : region) : Prop :=
  (hi r1 <= lo r2 \/ hi r2 <= lo r1) /\
  (slot r1 + 16 <= slot r2 \/ slot r2 + 16 <= slot r1) /\
  (slot r1 + 16 <= lo r2 \/ hi r2 <= slot r1) /\ (slot r2 + 16 <= lo r1 \/ hi r1 <= slot r2).

(** [sp] is a stack pointer in [r] from which an interrupt can be taken. *)
Definition stack_ok (r : region) (sp : Z) : Prop := lo r + stack_use + 192 <= sp <= hi r.

(** The context [ws] of a task that is not running: on its stack, where its state points to. *)
Definition saved (m : mem) (r : region) (ws : list Z) : Prop :=
  exists sp, load64 m (slot r) = sp /\ lo r + stack_use + 8 <= sp /\ sp + 160 <= hi r /\
    length ws = 20%nat /\ Forall (fits 64) ws /\ words_at m sp ws /\ exists v, ws !! 18%nat = Some v /\ stack_ok r v.

(** The running task. *)
Definition running (c : Cpu Sys) (r : region) : Prop := cpu_wf c /\ stack_ok r (rsp c).

(** What the handler may write to when it switches from [r] to [r']. *)
Definition footprint (r r' : region) (x : Z) : Prop :=
  lo r <= x < hi r \/ slot r <= x < slot r + 8 \/ lo r' <= x < hi r'.

Lemma saved_ext m m' r ws :
  (forall x, lo r <= x < hi r \/ slot r <= x < slot r + 8 -> m' x = m x) -> saved m r ws -> saved m' r ws.
Proof.
  intros Hm (sp & Hsp & Hlo & Hhi & Hlen & Hf & Hw & Hv). pose proof stack_use_nonneg.
  exists sp. split_and!; try done.
  - rewrite <- Hsp. apply load64_ext. intros x Hx. apply Hm. lia.
  - eapply words_at_ext; [|exact Hw]. intros x Hx. symmetry. apply Hm. rewrite Hlen in Hx. lia.
Qed.

Lemma saved_frame m m' r ws r1 r2 :
  apart r r1 -> apart r r2 -> (forall x, ~ footprint r1 r2 x -> m' x = m x) ->
  saved m r ws -> saved m' r ws.
Proof.
  intros A1 A2 Hm. apply saved_ext. intros x Hx. apply Hm. unfold apart, footprint in *. lia.
Qed.

Lemma entry_run (c : Cpu Sys) m k o :
  sys c = MkSys (set_memory m k) o -> 56 <= rsp c < 2 ^ 64 ->
  let sp0 := rsp c - rsp c mod 16 in
  interrupt_entry c =
  Ok (tt, MkCpu (regs c) (sp0 - 40) (rip c) (cs c) (Z.clearbit (cpu_rflags c) 9) (ss c) (data_segments c)
            (MkSys (set_memory (store_slots m sp0 (-1) [ss c; rsp c; cpu_rflags c; cs c; rip c]) k) o)).
Proof.
  intros Hs Hsp sp0. pose proof (Z.mod_pos_bound (rsp c) 16 ltac:(lia)).
  unfold interrupt_entry. rewrite (bind_Ok _ _ _ c c) by done. rewrite bind_modify.
  erewrite bind_Ok by (apply push_vals_run; cbn [rsp set_rsp length]; lia).
  destruct c as [g sp ip c fl sg d s]. cbn [sys] in Hs. subst s. done.
Qed.

Lemma reverse_context (c : Cpu Sys) :
  reverse (context c) = [ss c; rsp c; cpu_rflags c; cs c; rip c] ++ reverse (regs c <$> POP_ORDER).
Proof. done. Qed.

Lemma length_context (c : Cpu Sys) : length (context c) = 20%nat.
Proof. done. Qed.

(** The processor's pushes at [sp0] and the handler's are those of the context. *)
Lemma context_pushes (c : Cpu Sys) m sp0 :
  store_slots (store_slots m sp0 (-1) [ss c; rsp c; cpu_rflags c; cs c; rip c]) (sp0 - 40) (-1)
    (reverse (regs c <$> POP_ORDER)) = store_slots m sp0 (-1) (reverse (context c)).
Proof.
  replace (sp0 - 40) with (sp0 - 8 * 5) by lia. rewrite store_slots_shift.
  by rewrite reverse_context, store_slots_app.
Qed.

Lemma context_words (c : Cpu Sys) m sp0 :
  cpu_wf c -> words_at (store_slots m sp0 (-1) (reverse (context c))) (sp0 - 160) (context c).
Proof.
  intros Hc. pose proof (store_slots_words m sp0 (-1) (reverse (context c))) as Hw.
  rewrite reverse_involutive, length_reverse, length_context in Hw.
  replace (sp0 - 160) with (sp0 + 8 * (-1 + 1 - Z.of_nat 20)) by lia. apply Hw.
  unfold cpu_wf in Hc. by rewrite reverse_Permutation.
Qed.

Section Tick.
Variables (c : Cpu Sys) (m : mem) (k k1 k' : Kernel H) (o o' : OS KeyCode KB) (r r' : region) (ws : list Z).
Hypothesis Hsys : sys c = MkSys (set_memory m k) o.
Hypothesis Hcur : forall m, current_task_ptr alloc idle (set_memory m k) = Ok (slot r, set_memory m k1).
Hypothesis Hsel : forall m, select_next_task alloc idle (set_memory m k1) = Ok (slot r', set_memory m k').
Hypothesis Hra : restart_apic o = Ok (tt, o').
Hypothesis Hwf : region_wf r.
Hypothesis Hwf' : region_wf r'.
Hypothesis Hapart : apart r r'.
Hypothesis Hrun : running c r.
Hypothesis Hsaved : saved m r' ws.

(** The stack pointer the processor starts to push at, the memory after the pushes, and the memory
    when the next task has been selected. *)
Let sp0 : Z := rsp c - rsp c mod 16.
Let m1 : mem := store_slots m sp0 (-1) (reverse (context c)).
Let m5 : mem := saved_mem (slot r) (sp0 - 160) m1.

Lemma tick_bounds :
  0 <= stack_use /\ 0 <= lo r /\ lo r + stack_use + 168 <= sp0 <= hi r /\ hi r < 2 ^ 64 /\
  (slot r + 16 <= lo r \/ hi r <= slot r).
Proof.
  pose proof stack_use_nonneg. destruct Hrun as [_ Hst]. unfold stack_ok in Hst.
  pose proof (Z.mod_pos_bound (rsp c) 16 ltac:(lia)). unfold region_wf in Hwf. unfold sp0. lia.
Qed.

Lemma tick_pushes :
  store_slots (store_slots m sp0 (-1) [ss c; rsp c; cpu_rflags c; cs c; rip c]) (sp0 - 40) (-1)
    (reverse (regs c <$> POP_ORDER)) = m1.
Proof. apply context_pushes. Qed.

Lemma tick_m5 x : ~ (lo r <= x < hi r \/ slot r <= x < slot r + 8) -> m5 x = m x.
Proof.
  pose proof tick_bounds as (? & ? & ? & ? & ?). intros Hx. unfold m5. rewrite saved_mem_frame by lia.
  unfold m1. destruct (Z_lt_dec x (sp0 - 160)).
  - apply store_slots_below. rewrite length_reverse, length_context. lia.
  - apply store_slots_above. lia.
Qed.

(** The interrupted context, in any memory that agrees with [m5] on the task's memory. *)
Lemma tick_saved m' :
  (forall x, lo r <= x < hi r \/ slot r <= x < slot r + 8 -> m' x = m5 x) -> saved m' r (context c).
Proof.
  pose proof tick_bounds as (? & ? & ? & ? & ?). destruct Hrun as [Hcwf Hst]. intros Hm'.
  exists (sp0 - 160). split_and!; [|lia|lia|done|done| |].
  - transitivity (load64 m5 (slot r)); [apply load64_ext; intros x Hx; apply Hm'; lia|].
    apply saved_mem_slot; [unfold fits; lia|lia].
  - apply (words_at_ext m1).
    + intros x Hx. rewrite length_context in Hx. rewrite Hm' by lia. unfold m5.
      by rewrite saved_mem_frame by lia.
    + by apply context_words.
  - by exists (rsp c).
Qed.

Lemma tick_run :
  exists c' m', timer_tick alloc idle c = Ok (tt, c') /\ context c' = ws /\ data_segments c' = 0 /\
    sys c' = MkSys (set_memory m' k') o' /\ saved m' r (context c) /\
    (forall x, ~ footprint r r' x -> m' x = m x).
Proof.
  pose proof tick_bounds as (Hsu & Hlo & Hsp & Hhi & Hslot). unfold region_wf, apart in Hwf', Hapart.
  destruct Hsaved as (sp' & Hsp' & Hlo' & Hhi' & Hlen & _ & Hw & _).
  assert (load64 m5 (slot r') = sp') as Hsp5.
  { rewrite <- Hsp'. apply load64_ext. intros x Hx. apply tick_m5. lia. }
  assert (words_at m5 sp' (take 15 ws ++ drop 15 ws)) as Hw5.
  { rewrite take_drop. eapply words_at_ext; [|exact Hw]. intros x Hx. symmetry. apply tick_m5.
    rewrite Hlen in Hx. lia. }
  pose proof (handler_run (regs c) (sp0 - 40) (rip c) (cs c) (Z.clearbit (cpu_rflags c) 9) (ss c)
    (data_segments c) k k1 k' o o' (store_slots m sp0 (-1) [ss c; rsp c; cpu_rflags c; cs c; rip c])
    (slot r) (slot r') (take 15 ws) (drop 15 ws) Hcur Hsel Hra ltac:(lia)) as Hh.
  cbv zeta in Hh. rewrite tick_pushes in Hh.
  replace (sp0 - 40 - 120) with (sp0 - 160) in Hh by lia. fold m5 in Hh. rewrite Hsp5 in Hh.
  destruct Hh as (c' & E & Hctx & Hseg & Hs'); [lia|lia|rewrite length_take; lia|rewrite length_drop; lia|done|].
  rewrite take_drop in Hctx. eexists c', _. split_and!; [|done|done|exact Hs'| |].
  - unfold timer_tick. rewrite (bind_Ok _ _ _ _ _ (entry_run c m k o Hsys
      ltac:(destruct Hrun as [_ ?]; unfold stack_ok in *; lia))). exact E.
  - apply tick_saved. intros x Hx. apply resumed_mem_frame. lia.
  - intros x Hx. unfold footprint in Hx. rewrite resumed_mem_frame by lia. apply tick_m5. lia.
Qed.
End Tick.

(** ** The machine as a set of suspended contexts *)

(** The local APIC is there and its timer can be restarted. *)
Definition apic_ready (o : OS KeyCode KB) : Prop :=
  is_Some (LAPIC o) /\ 0 <= APIC_TIMER_FREQUENCY o /\
  SCHEDULER_TIMER_DELAY * (APIC_TIMER_FREQUENCY o / 1000000) < 2 ^ 64.

(** [o'] is [o] with other commands sent to the local APIC. *)
Definition apic_only (o o' : OS KeyCode KB) : Prop := exists log, o' = update LAPIC_lens log o.

Lemma apic_only_same o o' : apic_only o o' -> console o' = console o /\ idt o' = idt o.
Proof. by intros [log ->]. Qed.

Lemma restart_apic_run o :
  apic_ready o -> exists o', restart_apic o = Ok (tt, o') /\ apic_ready o' /\ apic_only o o'.
Proof.
  intros ([log Hlog] & Hf & Hlt). unfold restart_apic, start_timer_one_shot.
  erewrite bind_Ok by (by apply lapic_command_run).
  erewrite bind_Ok by (by apply lapic_command_run).
  erewrite bind_Ok by (by apply lapic_command_run). rewrite bind_gets.
  cbn [APIC_TIMER_FREQUENCY update LAPIC_lens].
  assert (0 <= APIC_TIMER_FREQUENCY o / 1000000) by (apply Z.div_pos; lia).
  erewrite bind_Ok.
  2:{ unfold lift, timer_count, div_w, mul_w. simpl. rewrite arith_fits; [reflexivity|].
      unfold fits, SCHEDULER_TIMER_DELAY in *. lia. }
  erewrite lapic_command_run by reflexivity. eexists. split; [done|].
  split; [split_and!; [by eexists|done|done]|by eexists].
Qed.

(** A task that is not running, with its memory and its context. *)
Abbreviation suspended := (Task * region * list Z)%type.

(** The running task with its memory, and the suspended ones in the order in which they will run. *)
Record machine_inv (c : Cpu Sys) (cur : Task * region) (q : list suspended) : Prop := {
  mi_unlocked : unlocked (kern (sys c));
  mi_task : task (kern (sys c)) = Some cur.1;
  mi_queue : reverse (tasks (rr_of (kern (sys c)))) = (fun x => x.1.1) <$> q;
  mi_apic : apic_ready (os (sys c));
  mi_slots : slot cur.2 = cur.1.2 /\ Forall (fun x => slot x.1.2 = x.1.1.2) q;
  mi_wf : region_wf cur.2 /\ Forall (fun x => region_wf x.1.2) q;
  mi_apart : pairwise apart (cur.2 :: ((fun x => x.1.2) <$> q));
  mi_running : running c cur.2;
  mi_saved : Forall (fun x => saved (memory (kern (sys c))) x.1.2 x.2) q;
}.

#[export] Instance apart_sym : Symmetric apart.
Proof. intros r1 r2. unfold apart. lia. Qed.

Lemma sys_memory (s : Sys) : s = MkSys (set_memory (memory (kern s)) (kern s)) (os s).
Proof. by destruct s as [[] ?]. Qed.

Lemma context_rsp (c : Cpu Sys) : context c !! 18%nat = Some (rsp c).
Proof. done. Qed.

(** A resumed context is a running task. *)
Lemma saved_running m r ws (c : Cpu Sys) : saved m r ws -> context c = ws -> running c r.
Proof.
  intros (sp & _ & _ & _ & _ & Hf & _ & v & Hv & Hok) Hc. split; [by unfold cpu_wf; rewrite Hc|].
  rewrite <- Hc, context_rsp in Hv. by injection Hv as ->.
Qed.

Lemma tick_inv (c : Cpu Sys) cur t r ws q :
  machine_inv c cur ((t, r, ws) :: q) ->
  exists c', timer_tick alloc idle c = Ok (tt, c') /\ context c' = ws /\ data_segments c' = 0 /\
    machine_inv c' (t, r) (q ++ [(cur, context c)]) /\
    (forall x, ~ footprint cur.2 r x -> memory (kern (sys c')) x = memory (kern (sys c)) x) /\
    apic_only (os (sys c)) (os (sys c')).
Proof.
  intros [[Hl Hi] Ht Hq Hap [Hs Hss] [Hw Hws] Hpw Hrun Hsv]. destruct cur as [t0 r0]. cbn [fst snd] in *.
  apply Forall_cons_1 in Hss as [Hs' Hss]. apply Forall_cons_1 in Hws as [Hw' Hws].
  apply Forall_cons_1 in Hsv as [Hsv' Hsv]. cbn [fmap list_fmap fst snd] in Hpw, Hq, Hs', Hw', Hsv'.
  pose proof Hpw as [[Hap0 Hap0']%Forall_cons_1 [Hap1 Hpw']].
  destruct (restart_apic_run _ Hap) as (o' & Hra & Hap' & Hcon).
  set (k := kern (sys c)) in *. set (ts := reverse ((fun x => x.1.1) <$> q)).
  assert (tasks (rr_of k) = ts ++ [t]) as Hts.
  { rewrite <- (reverse_involutive (tasks (rr_of k))), Hq. by rewrite reverse_cons. }
  set (k' := MkKernel (Mutex false (MkRR (t0 :: ts) (task_id (rr_of k)))) (Some t) (idle_task k)
    (init_flag k) (void_task k) (memory k) (heap k)).
  assert (forall m0, current_task_ptr alloc idle (set_memory m0 k) = Ok (slot r0, set_memory m0 k)) as Hcur.
  { intros m0. rewrite Hs. unfold current_task_ptr. run_pure. cbn [task set_memory]. by rewrite Ht. }
  assert (forall m0, select_next_task alloc idle (set_memory m0 k) = Ok (slot r, set_memory m0 k')) as Hsel.
  { intros m0. rewrite (select_some alloc idle ts t) by assumption. cbn [task set_memory]. rewrite Ht.
    by rewrite Hs'. }
  destruct (tick_run c (memory k) k k k' (os (sys c)) o' r0 r ws (sys_memory (sys c)) Hcur Hsel Hra Hw Hw'
    Hap0 Hrun Hsv') as (c' & m' & E & Hctx & Hseg & Hsys & Hsv0 & Hm').
  exists c'. split_and!; [done|done|done| |by rewrite Hsys|by rewrite Hsys]. split; rewrite ?Hsys; cbn [kern os fst snd].
  - split; [done|exact Hi].
  - done.
  - unfold rr_of. cbn [set_memory scheduler inner tasks k']. rewrite reverse_cons, fmap_app. simpl.
    unfold ts. by rewrite reverse_involutive.
  - done.
  - split; [done|]. apply Forall_app. split; [done|]. by apply Forall_singleton.
  - split; [done|]. apply Forall_app. split; [done|]. by apply Forall_singleton.
  - rewrite fmap_app. refine (pairwise_perm _ _ _ _ Hpw).
    rewrite Permutation_swap. apply perm_skip. apply Permutation_cons_append.
  - by eapply saved_running.
  - apply Forall_app. split; [|by apply Forall_singleton].
    rewrite Forall_fmap, Forall_forall in Hap0', Hap1. rewrite Forall_forall in Hsv |- *. intros x Hx. eapply (saved_frame (memory k) m' _ _ r0 r); [| |exact Hm'|by apply Hsv].
    + symmetry. by apply Hap0'.
    + symmetry. by apply Hap1.
Qed.

(** Code of the running task [r] between two timer interrupts, system calls included: it leaves the
    scheduler alone, the memory outside its stack, and an APIC that is ready. *)
Definition user_step (r : region) (c c' : Cpu Sys) : Prop :=
  running c' r /\ exists m' o', sys c' = MkSys (set_memory m' (kern (sys c))) o' /\
    (apic_ready (os (sys c)) -> apic_ready o') /\
    forall x, ~ (lo r <= x < hi r) -> m' x = memory (kern (sys c)) x.

Lemma user_step_inv c c' cur q : machine_inv c cur q -> user_step cur.2 c c' -> machine_inv c' cur q.
Proof.
  intros [Hu Ht Hq Hap Hs Hw Hpw Hrun Hsv] (Hrun' & m' & o' & Hsys & Ho' & Hm').
  split; rewrite ?Hsys; cbn [kern os]; try done; [by apply Ho'|].
  rewrite Forall_forall in *. intros x Hx. destruct Hpw as [Hap0 _].
  rewrite Forall_fmap, Forall_forall in Hap0. specialize (Hap0 x Hx). simpl in Hap0.
  eapply (saved_frame (memory (kern (sys c))) m' _ _ cur.2 cur.2); [by symmetry|by symmetry| |by apply Hsv].
  intros y Hy. apply Hm'. unfold footprint in Hy. lia.
Qed.

(** ** New processes *)

(** The context of a new kernel process: [top] is the end of its stack. *)
Definition initial_context (top f ss0 : Z) : list Z :=
  (top :: replicate 14 0) ++ [f; code_selector true; 0x202; top; ss0].

Lemma frame_words m top us f :
  fits 64 top -> 144 <= top -> fits 64 f ->
  words_at (store_slots m top 0 (frame_slots true top us f)) (top - 144)
    (initial_context top f (load64 m (top + 8))).
Proof.
  intros Ht H144 Hf. set (vs := frame_slots true top us f).
  assert (Forall (fits 64) vs) as Hvs.
  { unfold vs, frame_slots. repeat (apply Forall_cons; split; [done || (by vm_compute)|]).
    constructor. }
  change (initial_context top f (load64 m (top + 8))) with (reverse vs ++ [load64 m (top + 8)]).
  apply words_at_app. split.
  - pose proof (store_slots_words m top 0 vs Hvs) as Hw. by replace (top - 144) with
      (top + 8 * (0 + 1 - Z.of_nat (length vs))) by (simpl; lia).
  - split; [|done]. replace (top - 144 + 8 * Z.of_nat (length (reverse vs))) with (top + 8) by (simpl; lia).
    apply load64_ext. intros x Hx. apply store_slots_above. lia.
Qed.

(** [Box::new(state)] at [p]. *)
Lemma box_state_run ps (k : Kernel H) p h :
  alloc 48 8 (heap k) = Some (p, h) ->
  exists m', box_state alloc ps k = Ok (p, set_memory m' (set_heap h k)) /\
    (forall x, x < p \/ p + 48 <= x -> m' x = memory k x) /\
    (fits 64 (kernel_rsp ps) -> load64 m' p = kernel_rsp ps).
Proof.
  intros E. unfold box_state, box_alloc, write_usize.
  rewrite (bind_Ok _ _ _ p (set_heap h k)) by (by rewrite E).
  run_pure. eexists. split; [reflexivity|]. cbn [memory set_memory set_heap]. split.
  - intros x Hx. by rewrite !store_outside by lia.
  - intros Hf. rewrite !load_store_ne by lia. by apply load_store_eq.
Qed.

(** A new kernel process, with the frame of its writes. *)
Lemma new_process_saved (k : Kernel H) ks kl us ul f p h :
  0 <= ks -> stack_use + 192 <= kl -> ks + kl + kl + 16 < 2 ^ 64 -> fits 64 f ->
  alloc 48 8 (heap k) = Some (p, h) -> p + 48 <= ks \/ ks + kl + 16 <= p ->
  exists m', (let! ps := ProcessState_new (ks, kl) (us, ul) true f in box_state alloc ps) k =
      Ok (p, set_memory m' (set_heap h k)) /\
    (forall x, ~ (ks <= x < ks + kl + 16 \/ p <= x < p + 48) -> m' x = memory k x) /\
    saved m' (Region ks (ks + kl + 16) p) (initial_context (ks + kl) f (load64 (memory k) (ks + kl + 8))).
Proof.
  intros Hlo Hlen Hhi Hf Halloc Hp. pose proof stack_use_nonneg as Hsu.
  rewrite (bind_Ok _ _ _ _ _ (ProcessState_new_run ks kl us ul true f k ltac:(unfold fits; lia)
    ltac:(lia) ltac:(unfold fits; lia))).
  set (m1 := store_slots (memory k) (ks + kl) 0 (frame_slots true (ks + kl) us f)).
  set (ps := MkProcessState _ _ _ _).
  destruct (box_state_run ps (set_memory m1 k) p h) as (m' & E & Hm' & Hslot); [done|].
  exists m'. split; [exact E|]. split.
  { intros x Hx. rewrite Hm' by lia. cbn [memory set_memory]. unfold m1.
    destruct (Z_lt_dec x (ks + kl - 144)); [apply store_slots_below; simpl; lia|apply store_slots_above; lia]. }
  exists (ks + kl - 144). split_and!; cbn [lo hi slot].
  - apply Hslot. unfold fits. simpl. lia.
  - lia.
  - lia.
  - reflexivity.
  - unfold initial_context.
    repeat (apply Forall_cons; split; [apply load64_fits || (unfold fits; lia) || done || by vm_compute|]).
    constructor.
  - eapply words_at_ext; [|apply (frame_words (memory k) (ks + kl) us f); try done; unfold fits; lia].
    intros x Hx. change (8 * Z.of_nat _) with 160 in Hx. symmetry. apply Hm'. lia.
  - exists (ks + kl). split; [reflexivity|]. unfold stack_ok. cbn [lo hi]. lia.
Qed.

End Switch.

(** * Properties *)

(** Compiled code that leaves zeros in the registers it may change and writes nothing to its stack, and
    a machine with a running and a suspended task, for the witnesses. *)
#[export] Instance quiet_abi : Abi := {|
  clobber _ _ := 0;
  scratch _ m := m;
  local_addr sp := sp - 104
|}.

#[export] Instance quiet_abi_laws : AbiLaws 256.
Proof. split; [done|done|]. intros sp. simpl. lia. Qed.

Definition region1 : region := Region 0x10000 0x11000 0x20000.
Definition region2 : region := Region 0x30000 0x31000 0x20020.
Definition context2 : list Z := initial_context 0x31000 0x7777 0.

Definition two_stacks : mem :=
  store64 (store_slots (fun _ => 0) 0x31000 (-1) (reverse context2)) 0x20020 (0x31000 - 160).

Definition task1 : Task := (MkProcess 1 Runnable, 0x20000).
Definition task2 : Task := (MkProcess 2 Runnable, 0x20020).

Definition running_cpu : Cpu (Sys Z bool unit) :=
  MkCpu (fun r => match r with RAX => 1 | RBX => 2 | RBP => 0x10ff0 | _ => 3 end) 0x10f88 0x4242 8 0x202 0 0
    (MkSys (MkKernel (Mutex false (MkRR [task2] 2)) (Some task1) None true None two_stacks 0x444444440000)
       (set_frequency_static 20000000 (booting (Some []) []))).

Lemma running_cpu_inv : machine_inv 256 running_cpu (task1, region1) [(task2, region2, context2)].
Proof.
  split; cbn [fst snd].
  - done.
  - done.
  - done.
  - split; [by exists []|]. split; [discriminate|reflexivity].
  - split; [done|]. by constructor.
  - split; [|constructor; [|constructor]]; unfold region_wf; simpl; lia.
  - simpl. split; [constructor; [|constructor]|split; constructor]. unfold apart. simpl. lia.
  - split; [|unfold stack_ok; simpl; lia].
    unfold cpu_wf, context, fits. simpl. repeat (constructor; [lia|]). constructor.
  - constructor; [|constructor]. exists (0x31000 - 160). split_and!.
    + vm_compute. reflexivity.
    + simpl. lia.
    + simpl. lia.
    + reflexivity.
    + unfold fits. simpl. repeat (constructor; [lia || by vm_compute|]). constructor.
    + vm_compute. repeat split.
    + exists 0x31000. split; [reflexivity|]. unfold stack_ok. simpl. lia.
Qed.

(** C2: the timer interrupt switches contexts.  If [cur] runs and the suspended tasks, in queue order,
    have their contexts saved in their own memory, a timer tick returns with the first of them running
    in exactly the context it was suspended in (fifteen registers, rip, cs, rflags, rsp and ss), the
    interrupted context saved for [cur] at the end of the queue, and all others untouched; the
    invariant holds again.  Nothing is written outside the two tasks' stacks and the interrupted task's
    state: in particular not to the TSS, whose rsp0 the handler means to update. *)
Theorem tick_switches_contexts `{P : Profile} `{A : Abi} {H KeyCode KB : Type} (stack_use : Z)
    `{AL : !AbiLaws stack_use} (alloc : Z -> Z -> H -> option (Z * H)) (idle : Z)
    (c : Cpu (Sys H KeyCode KB)) (cur : Task * region) (t : Task) (r : region) (ws : list Z)
    (q : list (Task * region * list Z)) (Hinv : machine_inv stack_use c cur ((t, r, ws) :: q)) :
  exists c', timer_tick alloc idle c = Ok (tt, c') /\ context c' = ws /\
    machine_inv stack_use c' (t, r) (q ++ [(cur, context c)]) /\
    (forall x, ~ footprint cur.2 r x -> memory (kern (sys c')) x = memory (kern (sys c)) x).
Proof.
  destruct (tick_inv stack_use alloc idle c cur t r ws q Hinv) as (c' & E & Hc & _ & Hi & Hm & _).
  exists c'. by split_and!.
Qed.

Lemma tick_switches_contexts_witness :
  exists c', @timer_tick dev_profile _ Z bool unit bump 0x9000 running_cpu = Ok (tt, c') /\
    context c' = context2 /\
    machine_inv 256 c' (task2, region2) [((task1, region1), context running_cpu)].
Proof.
  destruct (@tick_switches_contexts dev_profile _ Z bool unit 256 _ bump 0x9000 running_cpu
    (task1, region1) task2 region2 context2 [] running_cpu_inv) as (c' & E & Hc & Hi & _).
  exists c'. split; [exact E|]. split; [exact Hc|exact Hi].
Defined.

(** A preempted task resumes where it was.  Two tasks: the first is interrupted, the second runs
    (changing registers and its own stack as it likes, or calling the kernel) and is interrupted, and the first one continues
    with every register, the instruction and stack pointers, the flags and the segments it had. *)
Theorem preempted_task_resumes `{P : Profile} `{A : Abi} {H KeyCode KB : Type} (stack_use : Z)
    `{AL : !AbiLaws stack_use} (alloc : Z -> Z -> H -> option (Z * H)) (idle : Z)
    (c : Cpu (Sys H KeyCode KB)) (cur : Task * region) (t : Task) (r : region) (ws : list Z)
    (Hinv : machine_inv stack_use c cur [(t, r, ws)]) :
  exists c1, timer_tick alloc idle c = Ok (tt, c1) /\
    forall c2, user_step stack_use r c1 c2 ->
      exists c3, timer_tick alloc idle c2 = Ok (tt, c3) /\ context c3 = context c /\
        machine_inv stack_use c3 cur [(t, r, context c2)].
Proof.
  destruct (tick_inv stack_use alloc idle c cur t r ws [] Hinv) as (c1 & E1 & _ & _ & H1 & _).
  exists c1. split; [done|]. intros c2 Hu. destruct cur as [t0 r0].
  pose proof (user_step_inv stack_use c1 c2 (t, r) _ H1 Hu) as H2.
  destruct (tick_inv stack_use alloc idle c2 (t, r) t0 r0 (context c) [] H2) as (c3 & E3 & Hc3 & _ & H3 & _).
  exists c3. by split_and!.
Qed.

Lemma preempted_task_resumes_witness :
  exists c1, @timer_tick dev_profile _ Z bool unit bump 0x9000 running_cpu = Ok (tt, c1) /\
    forall c2, user_step 256 region2 c1 c2 ->
      exists c3, @timer_tick dev_profile _ Z bool unit bump 0x9000 c2 = Ok (tt, c3) /\
        context c3 = context running_cpu.
Proof.
  destruct (@preempted_task_resumes dev_profile _ Z bool unit 256 _ bump 0x9000 running_cpu
    (task1, region1) task2 region2 context2 running_cpu_inv) as (c1 & E1 & H1).
  exists c1. split; [exact E1|]. intros c2 Hu. destruct (H1 c2 Hu) as (c3 & E3 & Hc3 & _).
  exists c3. split; [exact E3|exact Hc3].
Defined.


