(* ===== verification/Syscall.v ===== *)
(** * System calls (src/src/syscall.rs, src/src/error_codes.rs, [syscall_handler] of
    src/src/interrupts.rs)

    The caller puts the number and the arguments in registers and raises interrupt 0x80; the handler's
    assembly builds a [SyscallArgs] on the stack, which [handle_syscall] receives by value, that is, in
    place; the error field is popped into rax.  The handler is an [x86-interrupt] function: the
    compiler saves the interrupted code's registers before its body and restores them after it. *)

From S2P Require Import Prelude Mem Gdt Sched Arch Vga Shell Events Interrupts Cpu Context.

(** ** error_codes.rs *)

Inductive Error : Type := EIO | ENOSYS.
Definition error_usize (e : Error) : Z := match e with EIO => 5 | ENOSYS => 38 end.

(** ** syscall.rs *)

Definition STDOUT_FD : Z := 1.
Definition WRITE : Z := 1.

(** The [#[repr(C)]] struct, and its place in memory. *)
Record SyscallArgs : Type := MkSyscallArgs {
  syscall_id : Z; arg0 : Z; arg1 : Z; arg2 : Z; arg3 : Z; arg4 : Z; arg5 : Z; error : Z
}.

Definition read_args (m : mem) (a : Z) : SyscallArgs :=
  MkSyscallArgs (load64 m a) (load64 m (a + 8)) (load64 m (a + 16)) (load64 m (a + 24))
    (load64 m (a + 32)) (load64 m (a + 40)) (load64 m (a + 48)) (load64 m (a + 56)).

(** The bytes of a [&str]. *)
Definition str_bytes (m : mem) (a len : Z) : list Z := (fun i => m (a + i) mod 256) <$> seqZ 0 len.

Section Syscalls.
Context `{P : Profile} `{A : Abi} {H KeyCode KB : Type}.
Abbreviation Sys := (Sys H KeyCode KB).

Definition _handle_write (fd msg msg_len : Z) : M Sys Z :=
  if fd =? STDOUT_FD then
    let! m := gets (view mem_lens) in
    let msg := str_bytes m msg msg_len in
    zoom OS_lens (os_println [msg]) ;;
    ret 0
  else ret (error_usize EIO).

(** [a] is the address of the arguments. *)
Definition handle_write (a : Z) : M Sys unit :=
  let! args := gets (fun s => read_args (view mem_lens s) a) in
  let! result := _handle_write (arg0 args) (arg1 args) (arg2 args) in
  modify (fun s => update mem_lens (store64 (view mem_lens s) (a + 56) result) s).

Definition handle_syscall (a : Z) : M Sys unit :=
  let! args := gets (fun s => read_args (view mem_lens s) a) in
  if syscall_id args =? 1 then handle_write a else throw Unimplemented.

(** The body of [syscall_handler] in assembly. *)
Definition syscall_asm : M (Cpu Sys) unit :=
  push_val 0 ;;
  for_each [R9; R8; RCX; RDX; RSI; RDI; RAX] push ;;
  let! sp := gets rsp in
  call_void (handle_syscall sp) ;;
  add_rsp 8 ;;
  for_each [RDI; RSI; RDX; RCX; R8; R9; RAX] pop.

(** Code on the kernel's state, from within a handler. *)
Definition in_os {R} (f : M (OS KeyCode KB) R) : M (Cpu Sys) R := fun c =>
  res_bind (zoom OS_lens f (sys c)) (fun p => Ok (p.1, set_sys p.2 c)).

Definition syscall_body : M (Cpu Sys) unit :=
  in_os disable_interrupts ;;
  syscall_asm ;;
  in_os (end_of_interrupt (as_u8 Syscall)) ;;
  in_os enable_interrupts.

(** An [extern "x86-interrupt"] function entered through an interrupt: the prologue takes [frame] bytes
    of stack for the registers it saves, the epilogue brings back registers and stack pointer, and
    [iretq] returns. *)
Definition x86_interrupt (frame : Z) (body : M (Cpu Sys) unit) : M (Cpu Sys) unit :=
  interrupt_entry ;;
  let! entry := get in
  modify (fun c => set_rsp (rsp c - frame) c) ;;
  body ;;
  modify (fun c => set_regs (regs entry) (rsp entry) c) ;;
  iretq.

(** [int 0x80]. *)
Definition int_0x80 (frame : Z) : M (Cpu Sys) unit := x86_interrupt frame syscall_body.

(** [inout("rax") syscall_id => result, in("rdi") arg0, ...]. *)
Definition set_args (vals : list (reg * Z)) : M (Cpu Sys) unit :=
  for_each vals (fun '(r, v) => modify (set_reg r v)).

Section DoSyscall.
(** The size of the handler's prologue frame, a choice of the compiler. *)
Variable frame : Z.

Definition do_syscall (vals : list (reg * Z)) : M (Cpu Sys) Z :=
  set_args vals ;;
  int_0x80 frame ;;
  gets (fun c => regs c RAX).

Definition do_syscall_0 (id : Z) : M (Cpu Sys) Z := do_syscall [(RAX, id)].
Definition do_syscall_1 (id a0 : Z) : M (Cpu Sys) Z := do_syscall [(RAX, id); (RDI, a0)].
Definition do_syscall_2 (id a0 a1 : Z) : M (Cpu Sys) Z :=
  do_syscall [(RAX, id); (RDI, a0); (RSI, a1)].
Definition do_syscall_3 (id a0 a1 a2 : Z) : M (Cpu Sys) Z :=
  do_syscall [(RAX, id); (RDI, a0); (RSI, a1); (RDX, a2)].
Definition do_syscall_4 (id a0 a1 a2 a3 : Z) : M (Cpu Sys) Z :=
  do_syscall [(RAX, id); (RDI, a0); (RSI, a1); (RDX, a2); (RCX, a3)].
Definition do_syscall_5 (id a0 a1 a2 a3 a4 : Z) : M (Cpu Sys) Z :=
  do_syscall [(RAX, id); (RDI, a0); (RSI, a1); (RDX, a2); (RCX, a3); (R8, a4)].
Definition do_syscall_6 (id a0 a1 a2 a3 a4 a5 : Z) : M (Cpu Sys) Z :=
  do_syscall [(RAX, id); (RDI, a0); (RSI, a1); (RDX, a2); (RCX, a3); (R8, a4); (R9, a5)].

End DoSyscall.
End Syscalls.

(** * Lemmas *)

Section SyscallLemmas.
Context `{P : Profile} `{A : Abi} {H KeyCode KB : Type}.
Variable stack_use : Z.
Context `{AL : !AbiLaws stack_use}.
Abbreviation Sys := (Sys H KeyCode KB).

(** The system call of write and its result on the rest of the kernel, as a caller sees them. *)
Definition write_spec (m : mem) (fd msg len : Z) : M (OS KeyCode KB) Z :=
  if fd =? STDOUT_FD then os_println [str_bytes m msg len] ;; ret 0 else ret (error_usize EIO).

Lemma handle_write_spec fd msg len m (k : Kernel H) o v o' :
  write_spec m fd msg len o = Ok (v, o') ->
  _handle_write fd msg len (MkSys (set_memory m k) o) = Ok (v, MkSys (set_memory m k) o').
Proof.
  unfold write_spec, _handle_write. destruct (fd =? STDOUT_FD); [|by intros [= <- <-]].
  intros E. rewrite bind_gets. cbv zeta. change (view mem_lens _) with m.
  inv_bind E. unfold bind, zoom. cbn [view OS_lens os]. destruct a. rewrite E0. by injection E as <- <-.
Qed.

(** The registers the assembly passes, in the order of the struct's fields. *)
Definition ARG_ORDER : list reg := [RAX; RDI; RSI; RDX; RCX; R8; R9].

Lemma args_in_memory g m sp :
  Forall (fits 64) (g <$> ARG_ORDER) ->
  let m1 := store_slots m sp (-1) ([0] ++ reverse (g <$> ARG_ORDER)) in
  words_at m1 (sp - 64) ((g <$> ARG_ORDER) ++ [0]) /\
  read_args m1 (sp - 64) = MkSyscallArgs (g RAX) (g RDI) (g RSI) (g RDX) (g RCX) (g R8) (g R9) 0.
Proof.
  intros Hf m1. assert (words_at m1 (sp - 64) ((g <$> ARG_ORDER) ++ [0])) as Hw.
  { pose proof (store_slots_words m sp (-1) ([0] ++ reverse (g <$> ARG_ORDER))) as Hw.
    rewrite reverse_app, reverse_involutive in Hw.
    replace (sp - 64) with (sp + 8 * (-1 + 1 - Z.of_nat (length ([0] ++ reverse (g <$> ARG_ORDER)))))
      by (simpl; lia).
    apply Hw. apply Forall_app. split; [by constructor|]. by rewrite reverse_Permutation. }
  split; [done|]. destruct Hw as (H0 & H1 & H2 & H3 & H4 & H5 & H6 & H7 & _).
  unfold read_args. f_equal; (etransitivity;
    [|first [exact H0|exact H1|exact H2|exact H3|exact H4|exact H5|exact H6|exact H7]]); f_equal; lia.
Qed.

Lemma handle_syscall_unknown g m sp (k : Kernel H) (o : OS KeyCode KB) :
  Forall (fits 64) (g <$> ARG_ORDER) -> g RAX <> WRITE ->
  handle_syscall (sp - 64)
    (MkSys (set_memory (store_slots m sp (-1) ([0] ++ reverse (g <$> ARG_ORDER))) k) o) = Panic Unimplemented.
Proof.
  intros Hf Hid. unfold handle_syscall. rewrite bind_gets. cbn [view mem_lens sys_mem kern memory set_memory].
  rewrite (proj2 (args_in_memory g m sp Hf)). cbn [syscall_id].
  by rewrite (proj2 (Z.eqb_neq _ _)) by (unfold WRITE in Hid; lia).
Qed.

Lemma handle_syscall_write g m sp (k : Kernel H) o v o' :
  Forall (fits 64) (g <$> ARG_ORDER) -> g RAX = WRITE ->
  let m1 := store_slots m sp (-1) ([0] ++ reverse (g <$> ARG_ORDER)) in
  write_spec m1 (g RDI) (g RSI) (g RDX) o = Ok (v, o') ->
  handle_syscall (sp - 64) (MkSys (set_memory m1 k) o) =
  Ok (tt, MkSys (set_memory (store64 m1 (sp - 8) v) k) o').
Proof.
  intros Hf Hid m1 E. destruct (args_in_memory g m sp Hf) as [_ Ha]. fold m1 in Ha.
  unfold handle_syscall. rewrite bind_gets. cbn [view mem_lens sys_mem kern memory set_memory].
  rewrite Ha. cbn [syscall_id]. rewrite Hid. cbn [Z.eqb Pos.eqb WRITE].
  unfold handle_write. rewrite bind_gets. cbn [view mem_lens sys_mem kern memory set_memory].
  rewrite Ha. cbn [arg0 arg1 arg2].
  rewrite (bind_Ok _ _ _ _ _ (handle_write_spec _ _ _ _ k _ _ _ E)).
  unfold modify. by replace (sp - 64 + 56) with (sp - 8) by lia.
Qed.

(** The pushes at the head of the assembly. *)
Lemma syscall_pushes {R} (body : unit -> M (Cpu Sys) R) g sp ip c fl sg d m (k : Kernel H) o :
  64 <= sp < 2 ^ 64 ->
  (push_val 0 ;; let! x := for_each [R9; R8; RCX; RDX; RSI; RDI; RAX] push in body x)
    (MkCpu g sp ip c fl sg d (MkSys (set_memory m k) o)) =
  body tt (MkCpu g (sp - 64) ip c fl sg d
    (MkSys (set_memory (store_slots m sp (-1) ([0] ++ reverse (g <$> ARG_ORDER))) k) o)).
Proof.
  intros Hsp.
  rewrite (bind_Ok _ _ _ tt (MkCpu g (sp - 8) ip c fl sg d (MkSys (set_memory (store64 m (sp - 8) 0) k) o))).
  2:{ unfold push_val, modify. cbn [rsp]. rewrite wrap_small by (unfold fits; lia). done. }
  apply bind_Ok. rewrite pushes_run by (simpl; lia). cbn [rsp regs]. unfold with_stack.
  do 3 f_equal; [simpl; lia|]. cbn [app]. by rewrite <- store_slots_push.
Qed.

(** The assembly, from the registers of the caller to those of the caller again. *)
Lemma syscall_asm_run g sp ip c fl sg d m (k : Kernel H) o v o' :
  Forall (fits 64) (g <$> ARG_ORDER) -> g RAX = WRITE -> 64 <= sp < 2 ^ 64 -> fits 64 v ->
  let m1 := store_slots m sp (-1) ([0] ++ reverse (g <$> ARG_ORDER)) in
  write_spec m1 (g RDI) (g RSI) (g RDX) o = Ok (v, o') ->
  exists g' m', syscall_asm (MkCpu g sp ip c fl sg d (MkSys (set_memory m k) o)) =
      Ok (tt, MkCpu g' sp ip c fl sg d (MkSys (set_memory m' k) o')) /\
    g' RAX = v /\ g' <$> tail ARG_ORDER = g <$> tail ARG_ORDER /\
    (forall x, x < sp - 64 - stack_use \/ sp <= x -> m' x = m x).
Proof.
  intros Hf Hid Hsp Hv m1 E. pose proof stack_use_nonneg as Hsu. unfold syscall_asm.
  rewrite syscall_pushes by done. rewrite bind_gets. cbn [rsp]. fold m1.
  rewrite (bind_Ok _ _ _ _ _ (call_void_run _ _ _ _ _ _ _ _ _ _ _ _ _ _
    (handle_syscall_write g m sp k o v o' Hf Hid E))).
  set (m2 := store64 m1 (sp - 8) v). set (m3 := scratch (sp - 64) m2).
  rewrite (bind_Ok _ _ _ tt (MkCpu (after_call g) (sp - 56) ip c fl sg d (MkSys (set_memory m3 k) o'))).
  2:{ unfold add_rsp, modify, set_rsp. cbn [rsp regs rip cs cpu_rflags ss data_segments sys].
      rewrite wrap_small by (unfold fits; lia). by replace (sp - 64 + 8) with (sp - 56) by lia. }
  assert (words_at m3 (sp - 56) ((g <$> tail ARG_ORDER) ++ [v])) as Hw.
  { destruct (args_in_memory g m sp Hf) as [[_ Hw] _]. fold m1 in Hw.
    replace (sp - 64 + 8) with (sp - 56) in Hw by lia. change (_ ++ [0]) with ((g <$> tail ARG_ORDER) ++ [0]) in Hw.
    apply words_at_app in Hw as [Hw _]. apply words_at_app. split.
    - eapply words_at_ext; [|exact Hw]. intros x Hx. simpl in Hx. unfold m3, m2.
      by rewrite scratch_frame, store_outside by lia.
    - split; [|done].
      replace (sp - 56 + 8 * Z.of_nat (length (g <$> tail ARG_ORDER))) with (sp - 8) by (simpl; lia).
      transitivity (load64 m2 (sp - 8)); [|by apply load_store_eq].
      apply load64_ext. intros x Hx. apply scratch_frame. lia. }
  rewrite (pops_run [RDI; RSI; RDX; RCX; R8; R9; RAX] ((g <$> tail ARG_ORDER) ++ [v])); [|done|simpl; lia|simpl; lia|done].
  eexists _, m3. split_and!.
  - unfold set_regs. cbn [rsp regs rip cs cpu_rflags ss data_segments sys]. do 3 f_equal. simpl. lia.
  - done.
  - done.
  - intros x Hx. unfold m3, m2. rewrite scratch_frame, store_outside by lia. unfold m1.
    destruct Hx; [apply store_slots_below; simpl; lia|apply store_slots_above; lia].
Qed.

Lemma syscall_asm_unknown g sp ip c fl sg d m (k : Kernel H) (o : OS KeyCode KB) :
  Forall (fits 64) (g <$> ARG_ORDER) -> g RAX <> WRITE -> 64 <= sp < 2 ^ 64 ->
  syscall_asm (MkCpu g sp ip c fl sg d (MkSys (set_memory m k) o)) = Panic Unimplemented.
Proof.
  intros Hf Hid Hsp. unfold syscall_asm.
  rewrite syscall_pushes by done. rewrite bind_gets. cbn [rsp].
  unfold bind, call_void, call_gen. cbn [sys]. by rewrite handle_syscall_unknown.
Qed.

Lemma str_bytes_ext m m' a n : same_bytes m m' a n -> str_bytes m a n = str_bytes m' a n.
Proof.
  intros Hs. unfold str_bytes. apply list_fmap_ext. intros i x Hx.
  apply lookup_seqZ in Hx as [-> Hi]. f_equal. apply Hs. lia.
Qed.

Lemma write_spec_ext m m' fd msg len : same_bytes m m' msg len -> write_spec m fd msg len = write_spec m' fd msg len.
Proof. intros Hs. unfold write_spec. by rewrite (str_bytes_ext m m'). Qed.

(** On a console without held locks, write returns. *)
Lemma write_spec_run m fd msg len (o : OS KeyCode KB) :
  console_free (console o) ->
  exists cn, write_spec m fd msg len o =
      Ok (if fd =? STDOUT_FD then 0 else error_usize EIO, update CONSOLE cn o) /\ console_free cn /\
    console_cpu cn = console_cpu (console o) /\
    (if fd =? STDOUT_FD then println [str_bytes m msg len] (console o) = Ok (tt, cn)
     else cn = console o).
Proof.
  intros Hc. unfold write_spec. destruct (fd =? STDOUT_FD).
  - destruct (println_free [str_bytes m msg len] (console o) Hc) as (cn & E & Hcn & Hcpu & _).
    exists cn. split_and!; [|done..]. unfold bind, os_println, zoom. cbn [view CONSOLE]. by rewrite E.
  - exists (console o). split_and!; [by destruct o|done..].
Qed.

Lemma in_os_run {R} (f : M (OS KeyCode KB) R) g sp ip c fl sg d (k : Kernel H) o v o' :
  f o = Ok (v, o') ->
  in_os f (MkCpu g sp ip c fl sg d (MkSys k o)) = Ok (v, MkCpu g sp ip c fl sg d (MkSys k o')).
Proof. intros E. unfold in_os, zoom. cbn [sys view OS_lens os]. by rewrite E. Qed.

(** The handler's body: interrupts off, the call, the end of the interrupt, interrupts on. *)
Lemma syscall_body_run g sp ip c fl sg d m (k : Kernel H) (o : OS KeyCode KB) log :
  Forall (fits 64) (g <$> ARG_ORDER) -> g RAX = WRITE -> 64 <= sp < 2 ^ 64 ->
  console_free (console o) -> LAPIC o = Some log ->
  (g RSI + g RDX <= sp - 64 \/ sp <= g RSI) ->
  exists g' m' cn,
    syscall_body (MkCpu g sp ip c fl sg d (MkSys (set_memory m k) o)) =
      Ok (tt, MkCpu g' sp ip c fl sg d (MkSys (set_memory m' k)
        (set_interrupts true (update LAPIC_lens (Some (log ++ [LapicEndOfInterrupt]))
           (update CONSOLE cn (set_interrupts false o)))))) /\
    (if g RDI =? STDOUT_FD
     then println [str_bytes m (g RSI) (g RDX)] (console (set_interrupts false o)) = Ok (tt, cn)
     else cn = console (set_interrupts false o)) /\ console_free cn /\
    (forall x, x < sp - 64 - stack_use \/ sp <= x -> m' x = m x).
Proof.
  intros Hf Hid Hsp Hc Hl Htext. set (o1 := set_interrupts false o).
  set (m1 := store_slots m sp (-1) ([0] ++ reverse (g <$> ARG_ORDER))).
  assert (same_bytes m1 m (g RSI) (g RDX)) as Hsame.
  { intros x Hx. unfold m1. destruct (Z_lt_dec x (sp - 64)).
    - apply store_slots_below. simpl. lia.
    - apply store_slots_above. lia. }
  destruct (write_spec_run m1 (g RDI) (g RSI) (g RDX) o1) as (cn & E & Hcn & Hcpu & Hpr); [exact Hc|].
  assert (fits 64 (if g RDI =? STDOUT_FD then 0 else error_usize EIO)) as Hv
    by (destruct (_ =? _); split; done || reflexivity).
  destruct (syscall_asm_run g sp ip c fl sg d m k o1 _ _ Hf Hid Hsp Hv E) as (g' & m' & Ea & _ & _ & Hm').
  exists g', m', cn. split_and!; [|by rewrite <- (str_bytes_ext m1 m)|done|done].
  unfold syscall_body. rewrite (bind_Ok _ _ _ _ _ (in_os_run _ _ _ _ _ _ _ _ _ _ _ _ (disable_interrupts_run o))).
  rewrite (bind_Ok _ _ _ _ _ Ea). erewrite bind_Ok.
  2:{ apply in_os_run. unfold end_of_interrupt, has_lapic. rewrite bind_gets. cbn [LAPIC update CONSOLE].
      change (LAPIC o1) with (LAPIC o). rewrite Hl. cbv iota. by apply lapic_command_run. }
  apply in_os_run. apply enable_interrupts_run.
Qed.

(** An interrupt whose handler leaves the pushed frame alone returns with every register as it was. *)
Lemma x86_interrupt_run frame (body : M (Cpu Sys) unit) g sp ip cs0 fl sg d m (k : Kernel H) (o : OS KeyCode KB) g' ip' cs' fl' sg' m' o' :
  let sp0 := sp - sp mod 16 in
  let m1 := store_slots m sp0 (-1) [sg; sp; fl; cs0; ip] in
  56 <= sp -> cpu_wf (MkCpu g sp ip cs0 fl sg d (MkSys (set_memory m k) o)) ->
  body (MkCpu g (sp0 - 40 - frame) ip cs0 (Z.clearbit fl 9) sg d (MkSys (set_memory m1 k) o)) =
    Ok (tt, MkCpu g' (sp0 - 40 - frame) ip' cs' fl' sg' d (MkSys (set_memory m' k) o')) ->
  (forall x, sp0 - 40 <= x -> m' x = m1 x) ->
  x86_interrupt frame body (MkCpu g sp ip cs0 fl sg d (MkSys (set_memory m k) o)) =
  Ok (tt, MkCpu g sp ip cs0 fl sg d (MkSys (set_memory m' k) o')).
Proof.
  intros sp0 m1 Hlow Hwf Eb Hm'. pose proof (Z.mod_pos_bound sp 16 ltac:(lia)) as Hmod.
  apply Forall_app in Hwf as [_ Hframe]. simpl in Hframe.
  assert (sp < 2 ^ 64) as Hsp by exact (proj2 (Forall_lookup_1 _ _ 3 sp Hframe eq_refl)).
  unfold x86_interrupt.
  rewrite (bind_Ok _ _ _ _ _ (entry_run (MkCpu g sp ip cs0 fl sg d (MkSys (set_memory m k) o)) m k o eq_refl ltac:(simpl; lia))).
  rewrite (bind_Ok _ _ _ _ _ eq_refl), bind_modify. cbn [rsp set_rsp].
  erewrite bind_Ok by exact Eb. rewrite bind_modify. unfold set_regs. cbn [regs rsp rip cs cpu_rflags ss data_segments sys].
  rewrite (iretq_run _ _ _ _ _ _ _ _ ip cs0 fl sp sg); [done|simpl; lia|simpl; lia|].
  cbn [view mem_lens sys_mem kern memory set_memory].
  eapply (words_at_ext m1); [intros x Hx; symmetry; apply Hm'; simpl in Hx; lia|].
  pose proof (store_slots_words m sp0 (-1) [sg; sp; fl; cs0; ip]) as Hw. simpl in Hw.
  replace (sp0 - 40) with (sp0 + -40) by lia. apply Hw.
  rewrite <- (reverse_Permutation [sg; sp; fl; cs0; ip]). exact Hframe.
Qed.

(** What the processor pushes is on the interrupted stack. *)
Lemma entry_memory m sp (ws : list Z) x : length ws = 5%nat ->
  x < sp - sp mod 16 - 40 \/ sp - sp mod 16 <= x -> store_slots m (sp - sp mod 16) (-1) ws x = m x.
Proof.
  intros Hl Hx. destruct (Z_lt_dec x (sp - sp mod 16 - 40)).
  - apply store_slots_below. rewrite Hl. lia.
  - apply store_slots_above. lia.
Qed.

(** [int 0x80] returns with every register as it was. *)
Lemma int_0x80_run frame g sp ip cs0 fl sg d m (k : Kernel H) (o : OS KeyCode KB) log :
  let c := MkCpu g sp ip cs0 fl sg d (MkSys (set_memory m k) o) in
  0 <= frame -> stack_use + frame + 128 <= sp -> cpu_wf c -> g RAX = WRITE ->
  console_free (console o) -> LAPIC o = Some log ->
  (g RSI + g RDX <= sp - frame - 128 \/ sp <= g RSI) ->
  exists m' cn,
    int_0x80 frame c =
      Ok (tt, MkCpu g sp ip cs0 fl sg d (MkSys (set_memory m' k)
        (set_interrupts true (update LAPIC_lens (Some (log ++ [LapicEndOfInterrupt]))
           (update CONSOLE cn (set_interrupts false o)))))) /\
    (if g RDI =? STDOUT_FD
     then println [str_bytes m (g RSI) (g RDX)] (console (set_interrupts false o)) = Ok (tt, cn)
     else cn = console (set_interrupts false o)) /\ console_free cn /\
    (forall x, x < sp - frame - 128 - stack_use \/ sp <= x -> m' x = m x).
Proof.
  intros c Hfr Hlow Hwf Hid Hc Hl Htext. subst c. pose proof stack_use_nonneg as Hsu.
  pose proof (Z.mod_pos_bound sp 16 ltac:(lia)) as Hmod.
  assert (Forall (fits 64) (g <$> ARG_ORDER) /\ Forall (fits 64) [ip; cs0; fl; sp; sg]) as [Hargs Hframe].
  { apply Forall_app in Hwf as [Hg Hfrm]. split; [|exact Hfrm].
    rewrite Forall_fmap, Forall_forall in Hg. apply Forall_fmap, Forall_forall. intros r Hr. apply (Hg r).
    destruct r; apply (bool_decide_unpack (_ ∈ _)); by vm_compute || (exfalso; clear -Hr;
      apply (bool_decide_pack (_ ∈ _)) in Hr; by vm_compute in Hr). }
  set (sp0 := sp - sp mod 16). set (m1 := store_slots m sp0 (-1) [sg; sp; fl; cs0; ip]).
  assert (forall x, x < sp0 - 40 \/ sp0 <= x -> m1 x = m x) as Hm1 by (intros x Hx; by apply entry_memory).
  assert (same_bytes m m1 (g RSI) (g RDX)) as Hsame by (intros x Hx; symmetry; apply Hm1; lia).
  assert (sp < 2 ^ 64) as Hsp by exact (proj2 (Forall_lookup_1 _ _ 3 sp Hframe eq_refl)).
  destruct (syscall_body_run g (sp0 - 40 - frame) ip cs0 (Z.clearbit fl 9) sg d m1 k o log Hargs Hid
    ltac:(lia) Hc Hl ltac:(lia)) as (g' & m' & cn & Eb & Hpr & Hcn & Hm').
  exists m', cn. split_and!; [|by rewrite (str_bytes_ext m m1)|done|].
  - exact (x86_interrupt_run frame _ g sp ip cs0 fl sg d m k o _ _ _ _ _ _ _ ltac:(lia) Hwf Eb
      (fun x Hx => Hm' x ltac:(lia))).
  - intros x Hx. rewrite Hm' by lia. apply Hm1. lia.
Qed.
(** [do_syscall_3] for a write: [int_0x80_run] with the arguments in their registers. *)
Lemma do_syscall_3_run frame fd msg len g sp ip cs0 fl sg d (k : Kernel H) (o : OS KeyCode KB) log :
  let g' := rset (rset (rset (rset g RAX WRITE) RDI fd) RSI msg) RDX len in
  0 <= frame -> stack_use + frame + 128 <= sp -> cpu_wf (MkCpu g sp ip cs0 fl sg d (MkSys k o)) ->
  fits 64 fd -> fits 64 msg -> fits 64 len -> console_free (console o) -> LAPIC o = Some log ->
  (msg + len <= sp - frame - 128 \/ sp <= msg) ->
  exists m' cn,
    do_syscall_3 frame WRITE fd msg len (MkCpu g sp ip cs0 fl sg d (MkSys k o)) =
      Ok (WRITE, MkCpu g' sp ip cs0 fl sg d (MkSys (set_memory m' k)
        (set_interrupts true (update LAPIC_lens (Some (log ++ [LapicEndOfInterrupt]))
           (update CONSOLE cn (set_interrupts false o)))))) /\
    cpu_wf (MkCpu g' sp ip cs0 fl sg d (MkSys k o)) /\
    (if fd =? STDOUT_FD
     then println [str_bytes (memory k) msg len] (console (set_interrupts false o)) = Ok (tt, cn)
     else cn = console (set_interrupts false o)) /\ console_free cn /\
    (forall x, x < sp - frame - 128 - stack_use \/ sp <= x -> m' x = memory k x).
Proof.
  intros g' Hframe Hsp Hwf Hfd Hmsg Hlen Hc Hl Htext.
  assert (set_memory (memory k) k = k) as Hk by (by destruct k).
  assert (cpu_wf (MkCpu g' sp ip cs0 fl sg d (MkSys (set_memory (memory k) k) o))) as Hwf'.
  { apply Forall_app in Hwf as [Hg Hfr]. apply Forall_app. split; [|exact Hfr].
    unfold g'. simpl in Hg |- *. repeat (apply Forall_cons_1 in Hg as [? Hg]).
    repeat (constructor; [assumption || (split; [discriminate|reflexivity])|]). constructor. }
  destruct (int_0x80_run frame g' sp ip cs0 fl sg d (memory k) k o log Hframe Hsp Hwf' eq_refl Hc Hl Htext)
    as (m' & cn & E & Hpr & Hcn & Hm').
  rewrite Hk in E, Hwf'. exists m', cn. split_and!; [|done..].
  unfold do_syscall_3, do_syscall, set_args.
  rewrite (bind_Ok _ _ _ tt (MkCpu g' sp ip cs0 fl sg d (MkSys k o))) by done.
  rewrite (bind_Ok _ _ _ _ _ E). done.
Qed.
End SyscallLemmas.

(** * Properties *)


(** A caller of write to descriptor 7 with its stack at 0x11000, for the witnesses. *)
Definition write_regs (fd : Z) : reg -> Z := fun r =>
  match r with RAX => 1 | RDI => fd | RSI => 0x9000 | RDX => 4 | _ => 0 end.
Definition syscall_os : OS bool unit := booting (Some []) [].
Definition text_mem : mem := fun x => if x =? 0x9000 then 84 else 69.

Lemma write_regs_fit fd : fits 64 fd -> Forall (fits 64) (write_regs fd <$> ARG_ORDER).
Proof. intros Hfd. simpl. repeat (constructor; [done || (split; [discriminate|reflexivity])|]). constructor. Qed.



