(* ===== verification/DataStructures.v ===== *)
(** * Data structures (src/src/data_structures)

    The singly and the doubly linked list, whose nodes own their neighbours, and the ring buffer.
    A method that returns [&mut] into the structure is a lens; [&self] methods are functions. *)

From S2P Require Import Prelude.

#[local] Set Warnings "-register-all".

(** ** linked_list.rs *)

(** [next: Box<Option<LinkedListNode<T>>>]. *)
Inductive LinkedListNode (T : Type) : Type :=
  | MkNode (val : T) (next : option (LinkedListNode T)).
Arguments MkNode {T} _ _.

(** The [#[repr(transparent)]] wrapper. *)
Definition LinkedList (T : Type) : Type := LinkedListNode T.

Section LinkedList.
Context {T : Type}.

Definition LinkedListNode_new (val : T) : LinkedListNode T := MkNode val None.
Definition to_list (n : LinkedListNode T) : LinkedList T := n.
Definition LinkedList_new (val : T) : LinkedList T := to_list (LinkedListNode_new val).

Definition node_value (n : LinkedListNode T) : T := let 'MkNode v _ := n in v.
Definition node_value_mut : lens (LinkedListNode T) T :=
  Lens node_value (fun v n => let 'MkNode _ nx := n in MkNode v nx).
(** [mem::replace(&mut self.val, val)]. *)
Definition node_set_value (val : T) : M (LinkedListNode T) T :=
  let! old := gets node_value in modify (update node_value_mut val) ;; ret old.

Definition node_next (n : LinkedListNode T) : option (LinkedListNode T) := let 'MkNode _ nx := n in nx.
Definition node_next_mut : lens (LinkedListNode T) (option (LinkedListNode T)) :=
  Lens node_next (fun nx n => let 'MkNode v _ := n in MkNode v nx).

(** [self.next.replace(node)]: the old next node. *)
Definition replace_next_raw (node : LinkedListNode T) : M (LinkedListNode T) (option (LinkedListNode T)) :=
  let! old := gets node_next in modify (update node_next_mut (Some node)) ;; ret old.
Definition replace_next (val : T) : M (LinkedListNode T) (option (LinkedListNode T)) :=
  replace_next_raw (LinkedListNode_new val).

(** The methods of [LinkedList] itself. *)
Definition list_value (l : LinkedList T) : T := node_value l.
Definition list_value_mut : lens (LinkedList T) T := node_value_mut.
Definition list_set_value (val : T) : M (LinkedList T) T := node_set_value val.
Definition list_next (l : LinkedList T) : option (LinkedListNode T) := node_next l.
Definition list_next_mut : lens (LinkedList T) (option (LinkedListNode T)) := node_next_mut.

End LinkedList.

(** ** doubly_linked_list.rs *)

Inductive DoublyLinkedListNode (T : Type) : Type :=
  | MkDNode (val : T) (last next : option (DoublyLinkedListNode T)).
Arguments MkDNode {T} _ _ _.

Definition DoublyLinkedList (T : Type) : Type := DoublyLinkedListNode T.

Section DoublyLinkedList.
Context {T : Type}.

Definition DoublyLinkedListNode_new (val : T) : DoublyLinkedListNode T := MkDNode val None None.
Definition to_dlist (n : DoublyLinkedListNode T) : DoublyLinkedList T := n.
Definition DoublyLinkedList_new (val : T) : DoublyLinkedList T := to_dlist (DoublyLinkedListNode_new val).

Definition dnode_value (n : DoublyLinkedListNode T) : T := let 'MkDNode v _ _ := n in v.
Definition dnode_value_mut : lens (DoublyLinkedListNode T) T :=
  Lens dnode_value (fun v n => let 'MkDNode _ l nx := n in MkDNode v l nx).
Definition dnode_set_value (val : T) : M (DoublyLinkedListNode T) T :=
  let! old := gets dnode_value in modify (update dnode_value_mut val) ;; ret old.

Definition dnode_next (n : DoublyLinkedListNode T) : option (DoublyLinkedListNode T) :=
  let 'MkDNode _ _ nx := n in nx.
Definition dnode_next_mut : lens (DoublyLinkedListNode T) (option (DoublyLinkedListNode T)) :=
  Lens dnode_next (fun nx n => let 'MkDNode v l _ := n in MkDNode v l nx).
Definition dnode_last (n : DoublyLinkedListNode T) : option (DoublyLinkedListNode T) :=
  let 'MkDNode _ l _ := n in l.
Definition dnode_last_mut : lens (DoublyLinkedListNode T) (option (DoublyLinkedListNode T)) :=
  Lens dnode_last (fun l n => let 'MkDNode v _ nx := n in MkDNode v l nx).

Definition dreplace_next_raw (node : DoublyLinkedListNode T)
    : M (DoublyLinkedListNode T) (option (DoublyLinkedListNode T)) :=
  let! old := gets dnode_next in modify (update dnode_next_mut (Some node)) ;; ret old.
Definition dreplace_next (val : T) : M (DoublyLinkedListNode T) (option (DoublyLinkedListNode T)) :=
  dreplace_next_raw (DoublyLinkedListNode_new val).
Definition dreplace_last_raw (node : DoublyLinkedListNode T)
    : M (DoublyLinkedListNode T) (option (DoublyLinkedListNode T)) :=
  let! old := gets dnode_last in modify (update dnode_last_mut (Some node)) ;; ret old.
Definition dreplace_last (val : T) : M (DoublyLinkedListNode T) (option (DoublyLinkedListNode T)) :=
  dreplace_last_raw (DoublyLinkedListNode_new val).

Definition dlist_value (l : DoublyLinkedList T) : T := dnode_value l.
Definition dlist_value_mut : lens (DoublyLinkedList T) T := dnode_value_mut.
Definition dlist_set_value (val : T) : M (DoublyLinkedList T) T := dnode_set_value val.
Definition dlist_next (l : DoublyLinkedList T) : option (DoublyLinkedListNode T) := dnode_next l.
Definition dlist_next_mut : lens (DoublyLinkedList T) (option (DoublyLinkedListNode T)) := dnode_next_mut.

End DoublyLinkedList.

(** ** ring_buffer.rs *)

(** The buffer's elements may be uninitialised. *)
Record RingBuffer (T : Type) : Type := MkRing { ring : list (option T); offset : Z }.
Arguments MkRing {T} _ _.
Arguments ring {T} _.
Arguments offset {T} _.

Definition capacity {T} (b : RingBuffer T) : Z := Z.of_nat (length (ring b)).
Definition ring_length {T} (b : RingBuffer T) : Z := offset b.

(** [RingBuffer<T, N, true>::push] and [RingBuffer<T, N, false>::push]. *)
Definition push_checked {T} (elem : T) : M (RingBuffer T) bool :=
  let! b := get in
  if ring_length b >=? capacity b then ret false else ret true.
Definition push_unchecked {T} (elem : T) : M (RingBuffer T) unit := ret tt.

(** * Lemmas *)

Section ListLemmas.
Context {T : Type}.

(** The values of a list. *)
Fixpoint values (n : LinkedListNode T) : list T :=
  let 'MkNode v nx := n in v :: match nx with Some n => values n | None => [] end.

Definition opt_values (n : option (LinkedListNode T)) : list T :=
  match n with Some n => values n | None => [] end.

(** Run [m] on the [k]-th node, following [next_mut]; a missing node is a failed [unwrap]. *)
Fixpoint at_depth {A} (k : nat) (m : M (LinkedListNode T) A) : M (LinkedListNode T) A :=
  match k with
  | O => m
  | S k =>
      zoom node_next_mut (fun nx =>
        res_bind (unwrap nx) (fun n => res_bind (at_depth k m n) (fun p => Ok (p.1, Some p.2))))
  end.

#[export] Instance node_next_mut_laws : LensLaws (@node_next_mut T).
Proof. by split; intros; destruct s. Qed.
#[export] Instance node_value_mut_laws : LensLaws (@node_value_mut T).
Proof. by split; intros; destruct s. Qed.

Lemma values_cons n : values n = node_value n :: opt_values (node_next n).
Proof. by destruct n. Qed.

(** Two nodes that own each other would contain each other. *)
Fixpoint dsize (n : DoublyLinkedListNode T) : nat :=
  let 'MkDNode _ l nx := n in
  S (match l with Some l => dsize l | None => 0 end + match nx with Some nx => dsize nx | None => 0 end).

Lemma dsize_next (n m : DoublyLinkedListNode T) : dnode_next n = Some m -> (dsize m < dsize n)%nat.
Proof. destruct n as [v l nx]. simpl. intros ->. destruct l; lia. Qed.

Lemma dsize_last (n m : DoublyLinkedListNode T) : dnode_last n = Some m -> (dsize m < dsize n)%nat.
Proof. destruct n as [v l nx]. simpl. intros ->. lia. Qed.

End ListLemmas.

(** * Properties *)


(** A doubly linked list never has back links.  Because a node owns both its neighbours, no node
    can be the predecessor of its own successor; in particular the node that [replace_next] appends
    has no predecessor. *)
Theorem no_back_links {T : Type} (n m : DoublyLinkedListNode T) (v : T) :
  ~ (dnode_next n = Some m /\ dnode_last m = Some n) /\
  exists old n' m', dreplace_next v n = Ok (old, n') /\ dnode_next n' = Some m' /\ dnode_last m' = None.
Proof.
  split.
  - intros [Hn Hl]. apply dsize_next in Hn. apply dsize_last in Hl. lia.
  - destruct n as [w l nx]. by eexists _, _, _.
Qed.

(** Pushing to a ring buffer stores nothing.  The checked push reports whether the buffer has room,
    and neither it nor the unchecked one changes the buffer or its length, whatever was pushed before:
    after any number of pushes the buffer is the one it was. *)
Theorem ring_push_stores_nothing {T : Type} (elems : list T) (elem : T) (b : RingBuffer T) :
  for_each elems (fun e => push_checked e ;; push_unchecked e) b = Ok (tt, b) /\
  push_checked elem b = Ok (ring_length b <? capacity b, b).
Proof.
  assert (forall e : T, push_checked e b = Ok (ring_length b <? capacity b, b)) as Hp.
  { intros e. unfold push_checked, bind, get. simpl. rewrite Z.geb_leb, Z.leb_antisym.
    by destruct (ring_length b <? capacity b). }
  split; [|done]. induction elems as [|e elems IH]; [done|].
  rewrite for_each_cons. unfold bind at 1 2. rewrite Hp. exact IH.
Qed.
