(* ===== verification/Driver.v ===== *)
(** * The driver interfaces (src/src/drivers/driver.rs)

    The traits [Driver], [CharDriverImpl] and [BlockDriverImpl] as classes, the wrappers
    [CharDriver] and [BlockDriver] around a boxed trait object, whose phantom access parameter
    selects the methods, and the VGA writer as the one instance the kernel has. *)

From S2P Require Import Prelude Vga Interrupts.

(** The traits, for an implementing type [S].  [init] also changes the descriptor table it is given. *)
Class Driver (S : Type) : Type := {
  driver_init : M (S * IDT) bool;
  driver_exit : M S unit;
}.

Class CharDriverImpl (T S : Type) : Type := {
  impl_write_char : T -> M S unit;
  impl_write_char_indexed : Z -> T -> M S unit;
  impl_read_char : M S T;
  impl_read_char_indexed : Z -> M S T;
}.

Class BlockDriverImpl (T S : Type) : Type := {
  impl_write_block : list T -> M S unit;
  impl_write_block_indexed : Z -> list T -> M S unit;
  impl_read_block : Z -> M S (list T);
  impl_read_block_indexed : Z -> Z -> M S (list T);
}.

(** [Box<dyn Impl>]: a value of some type with that type's implementations of the trait [Impl] and of
    its supertrait [Driver]. *)
Record dyn (Impl : Type -> Type) : Type := Dyn {
  dyn_type : Type;
  dyn_driver : Driver dyn_type;
  dyn_impl : Impl dyn_type;
  dyn_value : dyn_type;
}.
Arguments Dyn {Impl} dyn_type {_ _} _.
Arguments dyn_type {Impl} _.
Arguments dyn_driver {Impl} _.
Arguments dyn_impl {Impl} _.
Arguments dyn_value {Impl} _.

Definition dyn_set {Impl} (d : dyn Impl) (v : dyn_type d) : dyn Impl :=
  @Dyn Impl (dyn_type d) (dyn_driver d) (dyn_impl d) v.

(** A method call through the vtable. *)
Definition dyn_call {Impl A} (method : forall S, Driver S -> Impl S -> M S A) : M (dyn Impl) A := fun d =>
  res_bind (method (dyn_type d) (dyn_driver d) (dyn_impl d) (dyn_value d)) (fun p => Ok (p.1, dyn_set d p.2)).

(** The access markers. *)
Inductive ReadOnly : Type := .
Inductive WriteOnly : Type := .
Inductive ReadWrite : Type := .

(** [CharDriver<T, A>] and [BlockDriver<T, A>]: [A] is phantom. *)
Record CharDriver (T A : Type) : Type := MkCharDriver { char_impl : dyn (CharDriverImpl T) }.
Arguments MkCharDriver {T A} _.
Arguments char_impl {T A} _.
Record BlockDriver (T A : Type) : Type := MkBlockDriver { block_impl : dyn (BlockDriverImpl T) }.
Arguments MkBlockDriver {T A} _.
Arguments block_impl {T A} _.

Definition char_lens {T A} : lens (CharDriver T A) (dyn (CharDriverImpl T)) :=
  Lens char_impl (fun d _ => MkCharDriver d).
Definition block_lens {T A} : lens (BlockDriver T A) (dyn (BlockDriverImpl T)) :=
  Lens block_impl (fun d _ => MkBlockDriver d).

(** [Driver::init] through the vtable. *)
Definition dyn_init {Impl} : M (dyn Impl * IDT) bool := fun s =>
  let '(d, idt) := s in
  res_bind (@driver_init _ (dyn_driver d) (dyn_value d, idt)) (fun p => Ok (p.1, (dyn_set d p.2.1, p.2.2))).

#[export] Instance CharDriver_Driver {T A} : Driver (CharDriver T A) := {|
  driver_init := fun s => res_bind (dyn_init (char_impl s.1, s.2)) (fun p => Ok (p.1, (MkCharDriver p.2.1, p.2.2)));
  driver_exit := zoom char_lens (dyn_call (fun S D _ => driver_exit));
|}.

#[export] Instance BlockDriver_Driver {T A} : Driver (BlockDriver T A) := {|
  driver_init := fun s => res_bind (dyn_init (block_impl s.1, s.2)) (fun p => Ok (p.1, (MkBlockDriver p.2.1, p.2.2)));
  driver_exit := zoom block_lens (dyn_call (fun S D _ => driver_exit));
|}.

Section CharDriver.
Context {T : Type}.

Definition new_read_write (inner_impl : dyn (CharDriverImpl T)) : CharDriver T ReadWrite := MkCharDriver inner_impl.
Definition new_read_only (inner_impl : dyn (CharDriverImpl T)) : CharDriver T ReadOnly := MkCharDriver inner_impl.
Definition new_write_only (inner_impl : dyn (CharDriverImpl T)) : CharDriver T WriteOnly := MkCharDriver inner_impl.

(** [impl CharDriver<T, ReadOnly>]. *)
Definition ro_read_char : M (CharDriver T ReadOnly) T :=
  zoom char_lens (dyn_call (fun S _ _ => impl_read_char)).
Definition ro_read_char_indexed (index : Z) : M (CharDriver T ReadOnly) T :=
  zoom char_lens (dyn_call (fun S _ _ => impl_read_char_indexed index)).

(** [impl CharDriver<T, WriteOnly>]. *)
Definition wo_write_char (char : T) : M (CharDriver T WriteOnly) unit :=
  zoom char_lens (dyn_call (fun S _ _ => impl_write_char char)).
Definition wo_write_char_indexed (index : Z) (char : T) : M (CharDriver T WriteOnly) unit :=
  zoom char_lens (dyn_call (fun S _ _ => impl_write_char_indexed index char)).

(** [impl CharDriver<T, ReadWrite>]. *)
Definition rw_read_char : M (CharDriver T ReadWrite) T :=
  zoom char_lens (dyn_call (fun S _ _ => impl_read_char)).
Definition rw_read_char_indexed (index : Z) : M (CharDriver T ReadWrite) T :=
  zoom char_lens (dyn_call (fun S _ _ => impl_read_char_indexed index)).
Definition rw_write_char (char : T) : M (CharDriver T ReadWrite) unit :=
  zoom char_lens (dyn_call (fun S _ _ => impl_write_char char)).
Definition rw_write_char_indexed (index : Z) (char : T) : M (CharDriver T ReadWrite) unit :=
  zoom char_lens (dyn_call (fun S _ _ => impl_write_char_indexed index char)).

End CharDriver.

Section BlockDriver.
Context {T : Type}.

Definition block_new_read_write (inner_impl : dyn (BlockDriverImpl T)) : BlockDriver T ReadWrite :=
  MkBlockDriver inner_impl.
Definition block_new_read_only (inner_impl : dyn (BlockDriverImpl T)) : BlockDriver T ReadOnly :=
  MkBlockDriver inner_impl.
Definition block_new_write_only (inner_impl : dyn (BlockDriverImpl T)) : BlockDriver T WriteOnly :=
  MkBlockDriver inner_impl.

(** [impl BlockDriver<T, ReadOnly>]. *)
Definition ro_read_block (block_size : Z) : M (BlockDriver T ReadOnly) (list T) :=
  zoom block_lens (dyn_call (fun S _ _ => impl_read_block block_size)).
Definition ro_read_block_indexed (index block_size : Z) : M (BlockDriver T ReadOnly) (list T) :=
  zoom block_lens (dyn_call (fun S _ _ => impl_read_block_indexed index block_size)).

(** [impl BlockDriver<T, WriteOnly>]. *)
Definition wo_write_block (block : list T) : M (BlockDriver T WriteOnly) unit :=
  zoom block_lens (dyn_call (fun S _ _ => impl_write_block block)).
Definition wo_write_block_indexed (index : Z) (block : list T) : M (BlockDriver T WriteOnly) unit :=
  zoom block_lens (dyn_call (fun S _ _ => impl_write_block_indexed index block)).

(** [impl BlockDriver<T, ReadWrite>]. *)
Definition rw_read_block (block_size : Z) : M (BlockDriver T ReadWrite) (list T) :=
  zoom block_lens (dyn_call (fun S _ _ => impl_read_block block_size)).
Definition rw_read_block_indexed (index block_size : Z) : M (BlockDriver T ReadWrite) (list T) :=
  zoom block_lens (dyn_call (fun S _ _ => impl_read_block_indexed index block_size)).
Definition rw_write_block (block : list T) : M (BlockDriver T ReadWrite) unit :=
  zoom block_lens (dyn_call (fun S _ _ => impl_write_block block)).
Definition rw_write_block_indexed (index : Z) (block : list T) : M (BlockDriver T ReadWrite) unit :=
  zoom block_lens (dyn_call (fun S _ _ => impl_write_block_indexed index block)).

End BlockDriver.

(** ** The VGA writer as a character driver (vga_buffer.rs) *)

#[export] Instance Writer_Driver : Driver Writer := {|
  driver_init := ret true;
  driver_exit := ret tt;
|}.

#[export] Instance Writer_CharDriverImpl `{P : Profile} : CharDriverImpl ScreenChar Writer := {|
  impl_write_char := write_char;
  impl_write_char_indexed := write_char_indexed;
  impl_read_char := read_char;
  impl_read_char_indexed := read_char_indexed;
|}.

(** * Lemmas *)

Section DynLemmas.
Context {Impl : Type -> Type} (S : Type) `{D : Driver S} {I : Impl S}.

(** Running a method on a boxed value runs the type's implementation on the value. *)
Lemma dyn_call_Dyn {A} (method : forall S, Driver S -> Impl S -> M S A) (v : S) :
  dyn_call method (@Dyn Impl S D I v) = res_bind (method S D I v) (fun p => Ok (p.1, @Dyn Impl S D I p.2)).
Proof. done. Qed.

End DynLemmas.

Lemma write_char_run `{P : Profile} c w :
  writer_wf w -> ascii_character c <> 10 -> write_char c w = Ok (tt, typed c w).
Proof.
  intros Hw Hc. unfold write_char. rewrite write_byte_colored_run by done.
  rewrite (proj2 (Z.eqb_neq _ _) Hc). by destruct c.
Qed.

(** * Properties *)


