(* ===== verification/Boot.v ===== *)
(** * The boot sequence ([init] of src/src/lib.rs, [kernel_main] and [panic] of src/src/main.rs)

    The components composed in the order the kernel starts them, on one state: the segment registers
    and tables, the page tables, the scheduler with the memory and the heap, and the rest of the
    kernel.  Interrupts that arrive during boot are those [init_apic] waits for. *)

From stdpp Require Import pretty.
From S2P Require Import Prelude Mem Arch Pit Vga Shell Gdt Sched Alloc Frames Events Interrupts Cpu Context.

Record Boot (T X H KeyCode KB : Type) : Type := MkBoot {
  segments : Segments T;
  page_tables : option X;
  bsys : Sys H KeyCode KB
}.
Arguments MkBoot {T X H KeyCode KB} _ _ _.
Arguments segments {T X H KeyCode KB} _.
Arguments page_tables {T X H KeyCode KB} _.
Arguments bsys {T X H KeyCode KB} _.

Section Boot.
Context `{P : Profile} `{ST : SegmentTable T} `{A : AddrOps}.
Context {RT : Type} `{RD : EqDecision RT}.
Variable Usable : RT.
Context {X E H KeyCode KB KeyEvent : Type}.
Context `{MP : Mapper X (BootInfoFrameAllocator RT) E} `{HH : Heap H} `{KD : EqDecision KeyCode}.
(** The addresses of the two static stacks of [gdt::init]. *)
Variables stack_ist stack_rsp0 : Z.
(** The processor's and the crates' parameters of the components. *)
Variable cr3_frame : Z.
Variable offset_page_table_new : Z -> Z -> X.
Variable alloc : Z -> Z -> H -> option (Z * H).
Variable add_byte : KB -> Z -> KB * option (option KeyEvent).
Variable process_keyevent : KB -> KeyEvent -> KB * option (DecodedKey KeyCode).
Variable device : list io_event -> Z -> Z.
Variables cr2_text code_text frame_text : list Z.
Variables run_apic run_syscall : M (OS KeyCode KB) unit.
Variable xapic_base : Z.
Variable build_error : option string.
Variable Backspace : KeyCode.
Variable key_debug : KeyCode -> list Z.
(** The addresses of the functions [idle], [test_fn] and [test_fn_hello]. *)
Variables idle test_fn test_fn_hello : Z.

Abbreviation Boot := (Boot T X H KeyCode KB).

Definition SEGMENTS : lens Boot (Segments T) :=
  Lens segments (fun g b => MkBoot g (page_tables b) (bsys b)).
Definition B_SYS : lens Boot (Sys H KeyCode KB) :=
  Lens bsys (fun s b => MkBoot (segments b) (page_tables b) s).
Definition B_KERN : lens Boot (Kernel H) := lens_comp B_SYS KERN.
Definition B_OS : lens Boot (OS KeyCode KB) := lens_comp B_SYS OS_lens.

(** [LeafOS::init]. *)
Definition lib_init : M Boot unit :=
  zoom SEGMENTS (gdt_init stack_ist stack_rsp0) ;;
  zoom B_OS (zoom IDT_lens idt_init) ;;
  zoom B_OS (pics_command PicInitialize) ;;
  zoom B_OS enable_interrupts.

(** [let (table, allocator) = memory::setup(..)]: the page tables, the global allocator and the
    memory change. *)
Definition memory_setup (memory_map : list (MemoryRegion RT)) (physical_memory_offset : Z) : M Boot unit := fun b =>
  let k := kern (bsys b) in
  res_bind (setup Usable cr3_frame offset_page_table_new memory_map physical_memory_offset
              (mutex_new (heap k)) (memory k)) (fun s =>
  Ok (tt, MkBoot (segments b) (Some (mapper s))
            (MkSys (set_heap (inner (ALLOCATOR s)) (set_memory (hs_mem s) k)) (os (bsys b))))).

(** [kernel_main] up to the start of the processes. *)
Definition startup_processes (memory_map : list (MemoryRegion RT)) (physical_memory_offset : Z) : M Boot unit :=
  zoom B_OS (os_println [bytes "Initializing..."]) ;;
  lib_init ;;
  zoom B_OS (os_println [bytes "Initialization succeeded!"]) ;;
  memory_setup memory_map physical_memory_offset ;;
  zoom B_KERN (sched_init alloc idle) ;;
  zoom B_OS (init_apic add_byte process_keyevent device cr2_text code_text frame_text run_apic run_syscall
               xapic_base build_error physical_memory_offset) ;;
  zoom B_OS (zoom machine pit_init) ;;
  zoom B_OS (start_timer_one_shot SCHEDULER_TIMER_DELAY) ;;
  zoom B_KERN (start_proc alloc test_fn true) ;;
  zoom B_KERN (start_proc alloc test_fn_hello true).

(** The rest of [kernel_main], up to [hlt_loop]. *)
Definition startup_shell : M Boot unit :=
  zoom B_OS (os_println [bytes "Startup succeeded!"]) ;;
  zoom B_OS (zoom CONSOLE (with_lock SHELL shell_init)) ;;
  zoom B_OS (init_kb_handler Backspace key_debug EVENT_HANDLERS).

Definition kernel_startup (memory_map : list (MemoryRegion RT)) (physical_memory_offset : Z) : M Boot unit :=
  startup_processes memory_map physical_memory_offset ;; startup_shell.

Definition kernel_main (memory_map : list (MemoryRegion RT)) (physical_memory_offset : Z) : M Boot unit :=
  kernel_startup memory_map physical_memory_offset ;; hlt_loop.

(** The [#[panic_handler]] of the kernel; [info] is the formatted [PanicInfo]. *)
Definition panic_handler (info : list Z) : M (OS KeyCode KB) unit :=
  os_println [info] ;; hlt_loop.

(** The statics when the bootloader enters the kernel, with [screen] on display and the interrupts
    [arr] to arrive. *)
Definition power_on (screen : list (list ScreenChar)) (cpu : Machine) (m : mem) (kb : KB) (arr : list Z)
    (cs : Z) : Boot :=
  MkBoot (MkSegments TSS_new None cs 0) None
    (MkSys (kernel_boot m heap_empty)
       (MkOS (console_boot screen cpu) (mutex_new EventHandlers_new) (mutex_new kb) None (mutex_new [])
          ∅ false 0 arr)).

(** * Lemmas *)

Lemma zoom_os_ok {R} (f : M (OS KeyCode KB) R) g pt k o r o' :
  f o = Ok (r, o') -> zoom B_OS f (MkBoot g pt (MkSys k o)) = Ok (r, MkBoot g pt (MkSys k o')).
Proof. intros E1. unfold zoom. cbn [view B_OS lens_comp B_SYS OS_lens bsys os]. by rewrite E1. Qed.

Lemma zoom_kern_ok {R} (f : M (Kernel H) R) g pt k o r k' :
  f k = Ok (r, k') -> zoom B_KERN f (MkBoot g pt (MkSys k o)) = Ok (r, MkBoot g pt (MkSys k' o)).
Proof. intros E1. unfold zoom. cbn [view B_KERN lens_comp B_SYS KERN bsys kern]. by rewrite E1. Qed.

(** Output before the shell runs: [line w text] is the writer after [text] and a line feed. *)
Definition line (w : Writer) (text : list Z) : Writer :=
  apply_items (item_of (w_color w) <$> text ++ [10]) w.

Lemma line_wf w text : writer_wf w -> writer_wf (line w text).
Proof. intros Hw. by apply apply_items_wf. Qed.

Lemma line_color w text : w_color (line w text) = w_color w.
Proof. apply apply_items_color. Qed.

Lemma line_clear w text : last (buffer (line w text)) = Some (blank_row (line w text)).
Proof.
  unfold line. rewrite fmap_app, apply_items_app. cbn. unfold scrolled_up. cbn [buffer].
  by rewrite last_snoc.
Qed.

Lemma write_line w t1 t2 : line (line w t1) t2 = apply_items (item_of (w_color w) <$> (t1 ++ [10]) ++ t2 ++ [10]) w.
Proof. unfold line at 1. rewrite line_color. unfold line. by rewrite (fmap_app _ (t1 ++ [10])), apply_items_app. Qed.

Lemma println_line args ls s w m :
  writer_wf w -> println args (con ls s false false w m) =
  Ok (tt, con ls s false false (line w (concat args)) m).
Proof.
  intros Hw. unfold println. rewrite print_writer_run by done. unfold line.
  by rewrite concat_app.
Qed.

Lemma boot_println text g pt k ls s w cpu e kb l pics t b f arr :
  writer_wf w ->
  zoom B_OS (os_println [text])
    (MkBoot g pt (MkSys k (MkOS (con ls s false false w cpu) e kb l pics t b f arr))) =
  Ok (tt, MkBoot g pt (MkSys k (MkOS (con ls s false false (line w text) cpu) e kb l pics t b f arr))).
Proof.
  intros Hw. apply zoom_os_ok. unfold os_println, zoom. cbn [view CONSOLE console].
  rewrite println_line by done. simpl concat. by rewrite app_nil_r.
Qed.

(** The scheduler's part: the pseudo task of the boot context, then two processes. *)
Lemma processes_run `{HA : !AllocOk alloc} m (h : H) :
  exists k1 k2 k3 v p1 p2,
    sched_init alloc idle (kernel_boot m h) = Ok (tt, k1) /\
    start_proc alloc test_fn true k1 = Ok (tt, k2) /\
    start_proc alloc test_fn_hello true k2 = Ok (tt, k3) /\
    scheduler k3 = mutex_new (MkRR [(Process_new 1 Runnable, p1); (Process_new 2 Runnable, p2)] 2) /\
    task k3 = None /\ init_flag k3 = false /\ void_task k3 = Some v.
Proof.
  destruct (new_state_run alloc 256 0 true idle (kernel_boot m h)) as (v & k & E0 & []); [lia..|].
  set (k1 := set_void (Some v) k).
  assert (rr_of k1 = RoundRobinScheduler_new) as R1 by (unfold rr_of; simpl; by rewrite om_scheduler).
  assert (unlocked k1) as U1.
  { split; simpl; [by rewrite om_scheduler|by rewrite om_idle]. }
  destruct (start_proc_run alloc test_fn true k1) as (p1 & k2 & E2 & T2 & N2 & C2 & U2 & I2 & V2);
    [done|by rewrite R1|].
  destruct (start_proc_run alloc test_fn_hello true k2) as (p2 & k3 & E3 & T3 & N3 & C3 & U3 & I3 & V3);
    [done|by rewrite N2, R1|].
  rewrite N2, T2, R1 in *. exists k1, k2, k3, v, p1, p2. split_and!; [|done|done| | | |].
  - unfold sched_init. by rewrite (bind_Ok _ _ _ _ _ E0).
  - destruct U3 as [L3 _]. unfold rr_of in *. destruct (scheduler k3) as [l [ts n]]. simpl in *. by subst.
  - rewrite C3, C2. exact om_task.
  - rewrite I3, I2. exact om_init.
  - by rewrite V3, V2.
Qed.

Lemma lib_init_run g pt k ls s ini lw w cpu e kb l pics b f arr :
  exists g', cs_reg g' = KERNEL_CODE_SEGMENT_IDX * 8 /\
    lib_init (MkBoot g pt (MkSys k (MkOS (con ls s ini lw w cpu) e kb l (mutex_new pics) ∅ b f arr))) =
    Ok (tt, MkBoot g' pt (MkSys k
      (MkOS (con ls s ini lw w (set_rflags (Z.setbit (rflags cpu) 9) cpu)) e kb l
         (mutex_new (pics ++ [PicInitialize])) idt_table b f arr))).
Proof.
  destruct (gdt_init stack_ist stack_rsp0 g) as [[[] g']| |] eqn:Eg; [|done..].
  exists g'. split.
  { unfold gdt_init in Eg. rewrite !bind_modify in Eg. unfold modify in Eg. injection Eg as <-. cbn [cs_reg].
    by rewrite GDT_selectors. }
  unfold lib_init. rewrite (bind_Ok _ _ _ tt (MkBoot g' pt (MkSys k
      (MkOS (con ls s ini lw w cpu) e kb l (mutex_new pics) ∅ b f arr)))).
  2:{ unfold zoom at 1. cbn [view SEGMENTS segments]. by rewrite Eg. }
  rewrite (bind_Ok _ _ _ tt (MkBoot g' pt (MkSys k
      (MkOS (con ls s ini lw w cpu) e kb l (mutex_new pics) idt_table b f arr)))).
  2:{ apply zoom_os_ok. unfold zoom. cbn [view IDT_lens idt]. by rewrite idt_init_run. }
  rewrite (bind_Ok _ _ _ tt (MkBoot g' pt (MkSys k
      (MkOS (con ls s ini lw w cpu) e kb l (mutex_new (pics ++ [PicInitialize])) idt_table b f arr)))).
  2:{ by apply zoom_os_ok. }
  by apply zoom_os_ok.
Qed.

Lemma pit_init_run (cpu : Machine) :
  exists cpu', pit_init cpu = Ok (tt, cpu') /\ rflags cpu' = rflags cpu.
Proof.
  unfold pit_init. rewrite set_frequency_run by done. rewrite write_channel0_count_run.
  - by eexists.
  - split; [done|reflexivity].
Qed.

Lemma shell_init_locked s w m :
  writer_wf w -> last (buffer w) = Some (blank_row w) ->
  with_lock SHELL shell_init (con false s false false w m) =
  Ok (tt, con false s true false (apply_items (Some <$> cs_chars (prompt s)) w) m).
Proof.
  intros Hw Hl. eapply with_shell_ok. rewrite shell_init_run by done. by rewrite bool_decide_true.
Qed.

(** What the kernel has printed when it starts the shell. *)
Definition boot_text (pit_end : Z) : list Z :=
  (bytes "Initializing..." ++ [10]) ++ (bytes "Initialization succeeded!" ++ [10]) ++
  (bytes "pit end: " ++ bytes (pretty pit_end) ++ [10]) ++ bytes "Startup succeeded!" ++ [10].

(** The kernel part of [kernel_startup] before and after the calibration of the timer. *)
Section Startup.
Context `{AL : !AddrLaws} (translate : X -> Z -> option (Z * Z)) `{ML : !MapperLaws Usable translate}.
Context `{HA : !AllocOk alloc}.
Variables (screen : list (list ScreenChar)) (cpu : Machine) (m : mem) (kb : KB) (arr : list Z) (cs : Z).
Variables (map : list (MemoryRegion RT)) (offset : Z) (n : nat).
Hypothesis Hscreen : writer_wf (WRITER_init screen).
Hypothesis Hm : Forall region_ok map.
Hypothesis Hd : pairwise regions_disjoint map.
Hypothesis Hoff : 0 <= offset.
Hypothesis Hcr3 : 0 <= cr3_frame.
Hypothesis Hvirt : offset + cr3_frame < 2 ^ 47.
Hypothesis Hn : 1000 <= Z.of_nat (length (frame_addresses Usable map)) < 2 ^ 64.
Hypothesis Hfree : Forall (fun p => translate (offset_page_table_new (offset + cr3_frame) offset) p = None) heap_pages.
Hypothesis Hbase : fits 64 (offset + xapic_base).
Hypothesis Herr : build_error = None.

Abbreviation w0 := (WRITER_init screen).
Abbreviation arriving0 := (replicate n (as_u8 Timer) ++ as_u8 ApicTimer :: arr).
Abbreviation pit_end := (pit_reading device (io cpu ++ calibration_io)).
Abbreviation frequency := (65535 / (65535 - pit_end) * PIT_DIVIDEND).

(** The console when the shell starts. *)
Abbreviation boot_writer :=
  (line (line (line (line w0 (bytes "Initializing...")) (bytes "Initialization succeeded!"))
     (bytes "pit end: " ++ bytes (pretty pit_end))) (bytes "Startup succeeded!")).

Lemma boot_writer_text : boot_writer = apply_items (item_of (w_color w0) <$> boot_text pit_end) w0.
Proof.
  unfold line at 1 2. rewrite !apply_items_color, write_line, <- !apply_items_app, <- !fmap_app.
  unfold boot_text. by rewrite <- !app_assoc.
Qed.

(** The operating-system part between [LeafOS::init] and [init_kb_handler], once the page tables are
    set up. *)
Lemma calibrated_run cpu1 (e : mutex (EventHandlers Console KeyCode)) pics w (f : Z) :
  io cpu1 = io cpu -> writer_wf w -> pit_end < 65535 -> IF cpu1 = true ->
  exists cpu' log, IF cpu' = true /\
    init_apic add_byte process_keyevent device cr2_text code_text frame_text run_apic run_syscall xapic_base
      build_error offset
      (MkOS (con false SHELL_init false false w cpu1) e (mutex_new kb) None pics idt_table false f arriving0) =
    Ok (tt, MkOS (con false SHELL_init false false (line w (bytes "pit end: " ++ bytes (pretty pit_end))) cpu')
              e (mutex_new kb) (Some log) pics
              (<[as_u8 ApicTimer := MkGate apic_timer_handler None]> idt_table) true frequency arr).
Proof.
  intros Hio Hw He HIF. rewrite Herr.
  destruct (init_apic_run add_byte process_keyevent device cr2_text code_text frame_text run_apic
    run_syscall xapic_base offset n (con false SHELL_init false false w cpu1) e (mutex_new kb) None pics
    idt_table f arr Hbase) as (c' & log & m' & Hc & Hr & Hp & E1);
    [by split_and!|done|vm_compute; reflexivity..|].
  cbn [console_cpu] in *. rewrite Hio in *. rewrite decide_False in E1 by lia.
  change (update machine m' (con false SHELL_init false false w cpu1))
    with (con false SHELL_init false false w m') in Hp.
  rewrite println_line in Hp by done. injection Hp as <-. simpl concat in E1. rewrite app_nil_r in E1.
  exists m', log. split; [|exact E1]. unfold IF in *. cbn [console_cpu] in Hr. by rewrite Hr.
Qed.

(** The state in which [kernel_main] waits for interrupts. *)
Record booted (b : Boot) : Prop := {
  booted_code_segment : cs_reg (segments b) = KERNEL_CODE_SEGMENT_IDX * 8;
  booted_idt : idt (os (bsys b)) = <[as_u8 ApicTimer := MkGate apic_timer_handler None]> idt_table;
  booted_interrupts : IF (console_cpu (console (os (bsys b)))) = true;
  booted_heap : exists x fs, page_tables b = Some x /\ NoDup fs /\
    Forall2 (fun page fr => translate x page = Some (fr, Z.lor PRESENT WRITABLE)) heap_pages fs;
  booted_processes : exists p1 p2, scheduler (kern (bsys b)) =
    mutex_new (MkRR [(Process_new 1 Runnable, p1); (Process_new 2 Runnable, p2)] 2);
  booted_current : task (kern (bsys b)) = None /\ init_flag (kern (bsys b)) = false /\
    is_Some (void_task (kern (bsys b)));
  booted_timer : exists log, LAPIC (os (bsys b)) = Some (log ++ [TimerDivideDiv64; TimerModeOneShot;
    TimerInitial ((SCHEDULER_TIMER_DELAY * (frequency / 1000000)) mod 2 ^ 32)]);
  booted_frequency : APIC_TIMER_FREQUENCY (os (bsys b)) = frequency;
  booted_keyboard : event_handlers (os (bsys b)) = mutex_new (MkHandlers [kb_handler Backspace key_debug]);
  booted_screen : exists w1 w2, write_string (boot_text pit_end) w0 = Ok (tt, w1) /\
    write_colored_string (prompt SHELL_init) w1 = Ok (tt, w2) /\
    shell (console (os (bsys b))) = mutex_new SHELL_init /\ initialized (console (os (bsys b))) = true /\
    writer (console (os (bsys b))) = mutex_new w2
}.

Lemma frequency_bounds : pit_end < 65535 -> 0 <= SCHEDULER_TIMER_DELAY * (frequency / 1000000) < 2 ^ 64.
Proof.
  clear Hn Hvirt. intros He. pose proof (pit_reading_fits device (io cpu ++ calibration_io)) as Hf.
  unfold fits in Hf. change (2 ^ 16) with 65536 in Hf. change (2 ^ 64) with 18446744073709551616.
  pose proof (Z.div_le_upper_bound 65535 (65535 - pit_end) 65535 ltac:(lia) ltac:(nia)).
  pose proof (Z.div_pos 65535 (65535 - pit_end) ltac:(lia) ltac:(lia)).
  pose proof (Z.div_pos frequency 1000000 ltac:(unfold PIT_DIVIDEND; nia) ltac:(lia)).
  pose proof (Z.mul_div_le frequency 1000000 ltac:(lia)).
  unfold SCHEDULER_TIMER_DELAY, PIT_DIVIDEND in *. nia.
Qed.

(** From the calibrated timer to the started processes. *)
Lemma services_run g pt k1 k2 k3 c e cpu1 kb' log pics t :
  start_proc alloc test_fn true k1 = Ok (tt, k2) -> start_proc alloc test_fn_hello true k2 = Ok (tt, k3) ->
  pit_end < 65535 ->
  exists cpu2, rflags cpu2 = rflags cpu1 /\
    (zoom B_OS (zoom machine pit_init) ;;
     zoom B_OS (start_timer_one_shot SCHEDULER_TIMER_DELAY) ;;
     zoom B_KERN (start_proc alloc test_fn true) ;;
     zoom B_KERN (start_proc alloc test_fn_hello true))
      (MkBoot g pt (MkSys k1 (MkOS (update machine cpu1 c) e kb' (Some log) pics t true frequency arr))) =
    Ok (tt, MkBoot g pt (MkSys k3 (MkOS (update machine cpu2 c) e kb'
         (Some (log ++ [TimerDivideDiv64; TimerModeOneShot;
            TimerInitial ((SCHEDULER_TIMER_DELAY * (frequency / 1000000)) mod 2 ^ 32)]))
         pics t true frequency arr))).
Proof.
  intros K2 K3 He. destruct (pit_init_run cpu1) as (cpu2 & Ep & Hr). exists cpu2. split; [done|].
  destruct (frequency_bounds He) as [F1 F2].
  rewrite (bind_Ok _ _ _ tt (MkBoot g pt (MkSys k1 (MkOS (update machine cpu2 c) e kb' (Some log) pics t true
    frequency arr)))).
  2:{ apply zoom_os_ok. unfold zoom. cbn. by rewrite Ep. }
  rewrite (bind_Ok _ _ _ _ _ (zoom_os_ok _ _ _ _ _ _ _ (start_timer_one_shot_run _ log (MkOS _ _ _ (Some log)
    _ _ _ frequency _) eq_refl F1 (fun _ => F2)))). cbn [update LAPIC_lens console event_handlers kb_decoder PICS
    idt TRIGGERED_ONCE APIC_TIMER_FREQUENCY arriving].
  rewrite (bind_Ok _ _ _ _ _ (zoom_kern_ok _ _ _ _ _ _ _ K2)). by rewrite (zoom_kern_ok _ _ _ _ _ _ _ K3).
Qed.

(** From the started processes to the registered keyboard handler. *)
Lemma startup_shell_run g pt k w cpu1 kb' log pics t f :
  writer_wf w ->
  startup_shell (MkBoot g pt (MkSys k (MkOS (con false SHELL_init false false w cpu1) (mutex_new EventHandlers_new) kb'
    log pics t true f arr))) =
  Ok (tt, MkBoot g pt (MkSys k (MkOS (con false SHELL_init true false
    (apply_items (Some <$> cs_chars (prompt SHELL_init)) (line w (bytes "Startup succeeded!"))) cpu1)
    (mutex_new (MkHandlers [kb_handler Backspace key_debug])) kb' log pics t true f arr))).
Proof.
  intros Hw. unfold startup_shell. rewrite (bind_Ok _ _ _ _ _ (boot_println _ _ _ _ _ _ _ _ _ _ _ _ _ _ _ _ Hw)).
  erewrite bind_Ok.
  2:{ apply zoom_os_ok. unfold zoom. cbn [view CONSOLE console].
      rewrite (shell_init_locked _ _ _ (line_wf _ _ Hw) (line_clear _ _)). reflexivity. }
  by apply zoom_os_ok.
Qed.

(** The writer when the processes have been started. *)
Abbreviation started_writer :=
  (line (line (line w0 (bytes "Initializing...")) (bytes "Initialization succeeded!"))
     (bytes "pit end: " ++ bytes (pretty pit_end))).

(** The state then. *)
Abbreviation started g x k3 cpu3 log :=
  (MkBoot g (Some x) (MkSys k3 (MkOS (con false SHELL_init false false started_writer cpu3) (mutex_new EventHandlers_new)
     (mutex_new kb) (Some (log ++ [TimerDivideDiv64; TimerModeOneShot;
        TimerInitial ((SCHEDULER_TIMER_DELAY * (frequency / 1000000)) mod 2 ^ 32)]))
     (mutex_new [PicInitialize]) (<[as_u8 ApicTimer := MkGate apic_timer_handler None]> idt_table) true frequency arr))).

(** The run of [startup_processes], given what the scheduler's steps do. *)
Lemma startup_processes_run k1 k2 k3 :
  let '(h, m') := heap_init HEAP_START HEAP_SIZE heap_empty m in
  sched_init alloc idle (kernel_boot m' h) = Ok (tt, k1) ->
  start_proc alloc test_fn true k1 = Ok (tt, k2) -> start_proc alloc test_fn_hello true k2 = Ok (tt, k3) ->
  pit_end < 65535 ->
  exists g x fs cpu3 log,
    startup_processes map offset (power_on screen cpu m kb arriving0 cs) = Ok (tt, started g x k3 cpu3 log) /\
    cs_reg g = KERNEL_CODE_SEGMENT_IDX * 8 /\ IF cpu3 = true /\ NoDup fs /\
    Forall2 (fun page fr => translate x page = Some (fr, Z.lor PRESENT WRITABLE)) heap_pages fs.
Proof.
  destruct (setup_run (E := E) Usable translate cr3_frame offset_page_table_new map offset heap_empty m)
    as (x & hi & fs & Es & Hf & Hnd & _); [done..|].
  destruct (heap_init HEAP_START HEAP_SIZE heap_empty m) as [h m'] eqn:Eh. simpl in Es.
  intros K1 K2 K3 He.
  destruct (lib_init_run (MkSegments TSS_new None cs 0) (@None X) (kernel_boot m heap_empty) false SHELL_init
    false false (line w0 (bytes "Initializing...")) cpu (mutex_new EventHandlers_new) (mutex_new kb) None []
    false 0 arriving0) as (g & Hg & El).
  set (cpu1 := set_rflags (Z.setbit (rflags cpu) 9) cpu) in El.
  set (w2 := line (line w0 (bytes "Initializing...")) (bytes "Initialization succeeded!")).
  assert (writer_wf w2) as Hw2 by (by do 2 apply line_wf).
  unfold startup_processes, power_on, console_boot, mutex_new at 1 2.
  rewrite (bind_Ok _ _ _ _ _ (boot_println _ _ _ _ _ _ _ _ _ _ _ _ _ _ _ _ Hscreen)).
  rewrite (bind_Ok _ _ _ _ _ El).
  rewrite (bind_Ok _ _ _ _ _ (boot_println _ _ _ _ _ _ _ _ _ _ _ _ _ _ _ _ (line_wf _ _ Hscreen))). fold w2.
  rewrite (bind_Ok _ _ _ tt (MkBoot g (Some x) (MkSys (kernel_boot m' h)
    (MkOS (con false SHELL_init false false w2 cpu1) (mutex_new EventHandlers_new) (mutex_new kb) None
       (mutex_new [PicInitialize]) idt_table false 0 arriving0)))).
  2:{ unfold memory_setup. cbn [bsys kern heap memory kernel_boot]. rewrite Es. reflexivity. }
  rewrite (bind_Ok _ _ _ _ _ (zoom_kern_ok _ _ _ _ _ _ _ K1)).
  destruct (calibrated_run cpu1 (mutex_new EventHandlers_new) (mutex_new [PicInitialize]) w2 0
    eq_refl Hw2 He) as (cpu2 & log & HIF & Ec).
  { unfold cpu1, IF. simpl. by rewrite Z.setbit_eq. }
  rewrite (bind_Ok _ _ _ _ _ (zoom_os_ok _ _ _ _ _ _ _ Ec)).
  destruct (services_run g (Some x) k1 k2 k3 (con false SHELL_init false false (line w2 (bytes "pit end: " ++ bytes (pretty pit_end))) cpu2)
    (mutex_new EventHandlers_new) cpu2 (mutex_new kb) log (mutex_new [PicInitialize])
    (<[as_u8 ApicTimer := MkGate apic_timer_handler None]> idt_table) K2 K3 He) as (cpu3 & Hr & Ef).
  exists g, x, fs, cpu3, log. split; [exact Ef|]. split_and!; [exact Hg|unfold IF; rewrite Hr; exact HIF|exact Hnd|exact Hf].
Qed.

(** The rest of the start-up leaves the machine booted. *)
Lemma started_booted g x fs k3 cpu3 log v p1 p2 :
  cs_reg g = KERNEL_CODE_SEGMENT_IDX * 8 -> IF cpu3 = true -> NoDup fs ->
  Forall2 (fun page fr => translate x page = Some (fr, Z.lor PRESENT WRITABLE)) heap_pages fs ->
  scheduler k3 = mutex_new (MkRR [(Process_new 1 Runnable, p1); (Process_new 2 Runnable, p2)] 2) ->
  task k3 = None -> init_flag k3 = false -> void_task k3 = Some v ->
  exists b, startup_shell (started g x k3 cpu3 log) = Ok (tt, b) /\ booted b /\ kern (bsys b) = k3 /\
    console_cpu (console (os (bsys b))) = cpu3.
Proof.
  intros Hg HIF Hnd Hf Hsch Htask Hini Hvoid. rewrite startup_shell_run by (by do 3 apply line_wf).
  eexists. split; [reflexivity|]. split; [|split; reflexivity]. split; cbn [segments page_tables bsys kern os idt console
    console_cpu LAPIC APIC_TIMER_FREQUENCY event_handlers shell initialized writer];
    [exact Hg|reflexivity|exact HIF|exists x, fs; exact (conj eq_refl (conj Hnd Hf))
    |exists p1, p2; exact Hsch|exact (conj Htask (conj Hini (ex_intro _ v Hvoid)))|eexists; reflexivity
    |reflexivity|reflexivity|].
  eexists _, _. rewrite write_string_run by done. split; [done|].
  rewrite write_colored_string_run by (by apply apply_items_wf). split; [done|].
  split_and!; [done|done|]. by rewrite <- boot_writer_text.
Qed.

(** The run of [kernel_startup]. *)
Lemma kernel_startup_run k1 k2 k3 v p1 p2 :
  let '(h, m') := heap_init HEAP_START HEAP_SIZE heap_empty m in
  sched_init alloc idle (kernel_boot m' h) = Ok (tt, k1) ->
  start_proc alloc test_fn true k1 = Ok (tt, k2) -> start_proc alloc test_fn_hello true k2 = Ok (tt, k3) ->
  scheduler k3 = mutex_new (MkRR [(Process_new 1 Runnable, p1); (Process_new 2 Runnable, p2)] 2) ->
  task k3 = None -> init_flag k3 = false -> void_task k3 = Some v ->
  pit_end < 65535 ->
  exists b, kernel_startup map offset (power_on screen cpu m kb arriving0 cs) = Ok (tt, b) /\ booted b /\
    kern (bsys b) = k3.
Proof.
  pose proof (startup_processes_run k1 k2 k3) as Hp.
  destruct (heap_init HEAP_START HEAP_SIZE heap_empty m) as [h m'] eqn:Eh.
  intros K1 K2 K3 Hsch Htask Hini Hvoid He.
  destruct (Hp K1 K2 K3 He) as (g & x & fs & cpu3 & log & E1 & Hg & HIF & Hnd & Hf).
  unfold kernel_startup. rewrite (bind_Ok _ _ _ _ _ E1).
  destruct (started_booted g x fs k3 cpu3 log v p1 p2 Hg HIF Hnd Hf Hsch Htask Hini Hvoid) as (b & E2 & Hb & Hk & _).
  exists b. split; [exact E2|]. split; [exact Hb|exact Hk].
Qed.


End Startup.

End Boot.

(** A global allocator for the witness: ascending addresses, from the start of the heap again at the
    end of the lower half. *)
Definition boot_alloc (n _ : Z) (h : bump_heap) : option (Z * bump_heap) :=
  if (0 <? bump_next h) && (bump_next h + n <=? 2 ^ 47)
  then Some (bump_next h, MkBump (bump_next h + n) (bump_end h))
  else Some (HEAP_START, MkBump (HEAP_START + n) (bump_end h)).

#[export] Instance boot_alloc_ok : AllocOk boot_alloc.
Proof.
  intros n a h Hn. unfold boot_alloc, HEAP_START.
  destruct (Z.ltb_spec 0 (bump_next h)), (Z.leb_spec (bump_next h + n) (2 ^ 47)); simpl;
    eexists _, _; (split; [reflexivity|]); lia.
Qed.

