(* ===== verification/Testing.v ===== *)
(** * Serial output, the test harness and the tests (src/src/serial.rs, [test_runner],
    [test_panic_handler] and [test_kernel_main] of src/src/lib.rs, the [#[test_case]]s of
    src/src/vga_buffer.rs and src/src/interrupts.rs)

    The serial port is the sequence of the bytes sent to it; a test is code on the kernel's state. *)

From stdpp Require Import pretty.
From S2P Require Import Prelude Mem Arch Pit Vga Shell Gdt Sched Alloc Frames Events Interrupts Cpu Context Boot.

Section Testing.
Context {S : Type} `{HM : HasMachine S}.
(** The static [SERIAL1]: the uart_16550 port, as the bytes it has sent. *)
Variable SERIAL1 : lens S (mutex (list Z)).

Definition send (piece : list Z) : M S unit :=
  zoom (lens_comp SERIAL1 inner_lens) (modify (fun sent => sent ++ piece)).
(** The port's [write_str] sends the bytes and never fails. *)
Definition port_write_str : FmtWrite (list Z) S := fun piece => send piece ;; ret (inr tt).

(** [serial::_print] of the pieces of a format string. *)
Definition serial_print (args : list (list Z)) : M S unit :=
  with_lock SERIAL1 (let! r := write_fmt (list Z) (FW := port_write_str) args in result_expect r).
Definition serial_println (args : list (list Z)) : M S unit := serial_print (args ++ [[10]]).

(** [T: Fn()] with its [type_name]. *)
Record Testable : Type := MkTest { type_name : list Z; test_fn : M S unit }.

Definition run_test (t : Testable) : M S unit :=
  serial_print [type_name t; bytes "..."; [9]] ;;
  test_fn t ;;
  serial_println [bytes "[ok]"].

Definition test_runner (tests : list Testable) : M S unit :=
  serial_println [bytes "Running "; bytes (pretty (Z.of_nat (length tests))); bytes " tests"] ;;
  for_each tests run_test ;;
  zoom machine (exit_qemu Success).

(** [info] is the formatted [PanicInfo]. *)
Definition test_panic_handler (info : list Z) : M S unit :=
  serial_println [bytes "[failed]"; [10]] ;;
  serial_println [bytes "Error: "; info; [10]] ;;
  zoom machine (exit_qemu Failed) ;;
  hlt_loop.

(** The [#[panic_handler]] of the library's test build. *)
Definition lib_panic (info : list Z) : M S unit := test_panic_handler info.

End Testing.

(** ** The tests *)

Record TestState (B : Type) : Type := MkTestState { under_test : B; SERIAL1 : mutex (list Z) }.
Arguments MkTestState {B} _ _.
Arguments under_test {B} _.
Arguments SERIAL1 {B} _.

Definition UNDER_TEST {B} : lens (TestState B) B := Lens under_test (fun b s => MkTestState b (SERIAL1 s)).
Definition SERIAL1_lens {B} : lens (TestState B) (mutex (list Z)) :=
  Lens SERIAL1 (fun x s => MkTestState (under_test s) x).

(** [assert_eq!]. *)
Definition assert_eq {S} (x y : Z) : M S unit := if x =? y then ret tt else throw AssertFailed.

Section Tests.
Context `{P : Profile}.

Definition test_println_simple : M Console unit := println [bytes "test_println_simple output"].

Definition test_println_many : M Console unit :=
  for_each (range 0 200) (fun _ => println [bytes "test_println_many output"]).

(** [WRITER.lock().buffer.chars[row][col].read()]. *)
Definition read_screen (row col : Z) : M Console ScreenChar :=
  with_lock WRITER (wr (let! b := gets buffer in
    match b !! Z.to_nat row ≫= (fun r => r !! Z.to_nat col) with
    | Some c => ret c
    | None => throw IndexOutOfBounds
    end)).

Definition test_println_output : M Console unit :=
  let s := bytes "Some test string that fits on a single line" in
  println [s] ;;
  for_each (zip (seqZ 0 (Z.of_nat (length s))) s) (fun '(i, c) =>
    let! screen_char := read_screen (BUFFER_HEIGHT - 2) i in
    assert_eq (ascii_character screen_char) c).

Definition trivial_assertion {S} : M S unit := assert_eq 1 1.
End Tests.

Section TestMain.
Context `{P : Profile} `{ST : SegmentTable T} {X H KeyCode KB KeyEvent : Type}.
Variables stack_ist stack_rsp0 : Z.
Variable add_byte : KB -> Z -> KB * option (option KeyEvent).
Variable process_keyevent : KB -> KeyEvent -> KB * option (DecodedKey KeyCode).
Variable device : list io_event -> Z -> Z.
Variables cr2_text code_text frame_text : list Z.
Variables run_apic run_syscall : M (OS KeyCode KB) unit.
Abbreviation TestState := (TestState (Boot T X H KeyCode KB)).

#[export] Instance test_machine : HasMachine TestState := lens_comp UNDER_TEST (lens_comp B_OS machine).

(** A test of the console, and the test of the breakpoint exception. *)
Definition console_test (name : string) (f : M Console unit) : @Testable TestState :=
  MkTest (bytes name) (zoom UNDER_TEST (zoom B_OS (zoom CONSOLE f))).
Definition test_breakpoint_exception : M (OS KeyCode KB) unit :=
  deliver add_byte process_keyevent device cr2_text code_text frame_text run_apic run_syscall 3.

(** The tests of the library, in the order the source has them. *)
Definition println_tests : list Testable :=
  [console_test "LeafOS::vga_buffer::test_println_simple" test_println_simple;
   console_test "LeafOS::vga_buffer::test_println_many" test_println_many;
   console_test "LeafOS::vga_buffer::test_println_output" test_println_output].
Definition breakpoint_test : @Testable TestState :=
  MkTest (bytes "LeafOS::interrupts::test_breakpoint_exception")
    (zoom UNDER_TEST (zoom B_OS test_breakpoint_exception)).

(** [test_kernel_main] up to [hlt_loop]; [tests] are those [test_main] passes to the runner. *)
Definition test_startup (tests : list Testable) : M TestState unit :=
  zoom UNDER_TEST (lib_init stack_ist stack_rsp0) ;;
  test_runner SERIAL1_lens tests.

Definition test_kernel_main (tests : list Testable) : M TestState unit :=
  test_startup tests ;; hlt_loop.
End TestMain.

(** * Lemmas *)

Section RunnerLemmas.
Context {S : Type} `{HM : HasMachine S}.
Abbreviation Testable := (@Testable S).
Variable SERIAL1 : lens S (mutex (list Z)).
Context `{SL : !LensLaws SERIAL1}.

(** The state with [text] appended to what the serial port has sent. *)
Definition sent (text : list Z) (s : S) : S :=
  update SERIAL1 (Mutex false (inner (view SERIAL1 s) ++ text)) s.

Lemma send_pieces args out s :
  view SERIAL1 s = Mutex true out ->
  for_each args (send SERIAL1) s =
  Ok (tt, update SERIAL1 (Mutex true (out ++ concat args)) s).
Proof.
  revert out s. induction args as [|a args IH]; intros out s Hs.
  - cbn [concat]. rewrite app_nil_r, <- Hs, update_view. done.
  - rewrite for_each_cons. unfold bind at 1, send at 1, zoom at 1, modify. cbn. rewrite Hs. cbn.
    rewrite (IH (out ++ a)) by (by rewrite view_update). by rewrite update_update, <- app_assoc.
Qed.

#[local] Instance port_infallible : FmtInfallible (list Z) S (FW := port_write_str SERIAL1) (send SERIAL1).
Proof. by intros s. Qed.

Lemma serial_print_run args s :
  locked (view SERIAL1 s) = false -> serial_print SERIAL1 args s = Ok (tt, sent (concat args) s).
Proof.
  intros Hl. unfold serial_print, with_lock. rewrite Hl.
  rewrite (write_fmt_expect (list Z) (send SERIAL1) args _).
  rewrite (send_pieces _ (inner (view SERIAL1 s))) by (by rewrite view_update).
  cbn [res_bind fst snd]. rewrite view_update, update_update, update_update. done.
Qed.

(** The report of a run in which every test returns: for each test its name and [ok]. *)
Definition report (t : Testable) : list Z := type_name t ++ bytes "..." ++ [9] ++ bytes "[ok]" ++ [10].

(** What the tests rely on and leave in place; the serial port is no part of it. *)
Variable Inv : S -> Prop.
Hypothesis HInv : forall x s, Inv s -> Inv (update SERIAL1 x s).

(** A test that returns and leaves the serial port and its lock alone. *)
Definition passes (t : Testable) : Prop :=
  forall s, Inv s ->
    exists s', test_fn t s = Ok (tt, s') /\ view SERIAL1 s' = view SERIAL1 s /\ Inv s'.

Lemma run_test_passes t s :
  passes t -> locked (view SERIAL1 s) = false -> Inv s ->
  exists s', run_test SERIAL1 t s = Ok (tt, s') /\
    view SERIAL1 s' = Mutex false (inner (view SERIAL1 s) ++ report t) /\ Inv s'.
Proof.
  intros Ht Hl Hi. unfold run_test. rewrite (bind_Ok _ _ _ _ _ (serial_print_run _ s Hl)).
  set (s1 := sent _ s).
  destruct (Ht s1) as (s2 & E2 & V2 & I2); [by apply HInv|].
  rewrite (bind_Ok _ _ _ _ _ E2). unfold serial_println. rewrite serial_print_run.
  - eexists. split; [done|]. split; [|by apply HInv]. unfold sent at 1. rewrite view_update, V2. unfold s1, sent.
    rewrite view_update. cbn [inner]. f_equal. unfold report. cbn [concat app].
    by rewrite ?app_nil_r, <- !app_assoc.
  - by rewrite V2; unfold s1, sent; rewrite view_update.
Qed.

Lemma run_tests_pass tests s :
  Forall passes tests -> locked (view SERIAL1 s) = false -> Inv s ->
  exists s', for_each tests (run_test SERIAL1) s = Ok (tt, s') /\
    view SERIAL1 s' = Mutex false (inner (view SERIAL1 s) ++ concat (report <$> tests)) /\ Inv s'.
Proof.
  intros Ht. revert s. induction Ht as [|t tests H1 _ IH]; intros s Hl Hi.
  - exists s. split; [done|]. split; [|done]. rewrite app_nil_r. destruct (view SERIAL1 s). by simpl in *; subst.
  - destruct (run_test_passes t s H1 Hl Hi) as (s2 & E2 & V2 & I2).
    destruct (IH s2) as (s3 & E3 & V3 & I3); [by rewrite V2|done|].
    exists s3. rewrite for_each_cons, (bind_Ok _ _ _ _ _ E2). split; [done|]. split; [|done].
    rewrite V3, V2. cbn. by rewrite <- app_assoc.
Qed.

(** A run of passing tests reports every one of them in order, and then leaves QEMU with the success
    code. *)
Lemma test_runner_passes tests s :
  Forall passes tests -> locked (view SERIAL1 s) = false -> Inv s ->
  exists s', test_runner SERIAL1 tests s = zoom machine (exit_qemu Success) s' /\ Inv s' /\
    inner (view SERIAL1 s') = inner (view SERIAL1 s) ++ bytes "Running " ++
      bytes (pretty (Z.of_nat (length tests))) ++ bytes " tests" ++ [10] ++ concat (report <$> tests).
Proof.
  intros Ht Hl Hi. unfold test_runner, serial_println. rewrite (bind_Ok _ _ _ _ _ (serial_print_run _ s Hl)).
  set (s1 := sent _ s).
  destruct (run_tests_pass tests s1 Ht) as (s2 & E2 & V2 & I2); [by unfold s1, sent; rewrite view_update|by apply HInv|].
  exists s2. rewrite (bind_Ok _ _ _ _ _ E2). split; [done|]. split; [done|].
  rewrite V2. unfold s1, sent. rewrite view_update. cbn [inner concat app]. by rewrite <- !app_assoc.
Qed.

(** A test that panics ends the run, whatever has passed before it. *)
Lemma test_runner_panics before t after e s :
  Forall passes before -> (forall s, Inv s -> test_fn t s = Panic e) -> locked (view SERIAL1 s) = false -> Inv s ->
  test_runner SERIAL1 (before ++ t :: after) s = Panic e.
Proof.
  intros Hb Ht Hl Hi. unfold test_runner, serial_println. rewrite (bind_Ok _ _ _ _ _ (serial_print_run _ s Hl)).
  set (s1 := sent _ s).
  destruct (run_tests_pass before s1 Hb) as (s2 & E2 & V2 & I2); [by unfold s1, sent; rewrite view_update|by apply HInv|].
  unfold bind at 1. rewrite for_each_app. unfold bind at 1. rewrite E2. cbn [res_bind fst snd].
  rewrite for_each_cons. unfold run_test, bind. rewrite serial_print_run by (by rewrite V2). cbn [res_bind fst snd].
  by rewrite Ht by (by apply HInv).
Qed.
End RunnerLemmas.

Section LibraryLemmas.
Context `{P : Profile}.

(** A printable line on an empty bottom line scrolls up to the row above it. *)
Lemma line_printed w above s :
  at_line w above [] -> Forall (fun c => printable c = true) s -> (length s <= 80)%nat ->
  at_line (apply_items (item_of (w_color w) <$> s ++ [10]) w)
    (tail above ++ [pad w ((fun c => MkScreenChar c (w_color w)) <$> s)]) [].
Proof.
  intros Hw Hs Hlen. rewrite fmap_app, (items_printable _ _ Hs).
  set (cells := (fun c => MkScreenChar c (w_color w)) <$> s).
  pose proof (apply_items_at_line ((Some <$> cells) ++ (item_of (w_color w) <$> [10])) w _ _ Hw) as H.
  rewrite layout_short in H by (unfold cells; by rewrite length_fmap). simpl in H.
  rewrite lastn_app_cons, app_nil_r in H by apply Hw. pose proof (line_above _ _ _ Hw) as Ha.
  destruct above as [|a above]; [done|]. simpl in Ha, H |- *.
  rewrite lastn_all in H by (rewrite length_app; simpl; lia). exact H.
Qed.

(** A test of the console: nothing but the lines on the screen changes. *)
Definition console_keeps (f : M Console unit) : Prop :=
  forall sh w above cpu, at_line w above [] ->
    exists w' above', f (MkConsole sh false (Mutex false w) cpu) = Ok (tt, MkConsole sh false (Mutex false w') cpu) /\
      at_line w' above' [].

Lemma println_scrolls s sh w above cpu :
  at_line w above [] -> Forall (fun c => printable c = true) s -> (length s <= 80)%nat ->
  exists w', println [s] (MkConsole sh false (Mutex false w) cpu) = Ok (tt, MkConsole sh false (Mutex false w') cpu) /\
    at_line w' (tail above ++ [pad w ((fun c => MkScreenChar c (w_color w)) <$> s)]) [].
Proof.
  intros Hw Hs Hlen. destruct sh as [ls sh0]. eexists. split; [|by apply line_printed].
  unfold println. by rewrite print_writer_run by (by eapply at_line_wf).
Qed.

Lemma println_keeps s : Forall (fun c => printable c = true) s -> (length s <= 80)%nat -> console_keeps (println [s]).
Proof. intros Hs Hl sh w above cpu Hw. destruct (println_scrolls s sh w above cpu Hw Hs Hl) as (w' & E & H). eauto. Qed.

Lemma for_each_keeps {A} (xs : list A) body :
  (forall x, console_keeps (body x)) -> console_keeps (for_each xs body).
Proof.
  intros Hb. induction xs as [|x xs IH]; intros sh w above cpu Hw; [by exists w, above|].
  destruct (Hb x sh w above cpu Hw) as (w1 & above1 & E1 & H1).
  rewrite for_each_cons, (bind_Ok _ _ _ _ _ E1). by apply (IH sh w1 above1).
Qed.

Lemma for_each_reads {S A} (xs : list A) (body : A -> M S unit) s :
  Forall (fun x => body x s = Ok (tt, s)) xs -> for_each xs body s = Ok (tt, s).
Proof. induction 1 as [|x xs Hx _ IH]; [done|]. by rewrite for_each_cons, (bind_Ok _ _ _ _ _ Hx). Qed.

Lemma zip_seq_lookup (s : list Z) : Forall (fun p => 0 <= p.1 /\ s !! Z.to_nat p.1 = Some p.2)
  (zip (seqZ 0 (Z.of_nat (length s))) s).
Proof.
  apply Forall_lookup. intros k [i c] Hk. apply lookup_zip_Some in Hk as [Hi Hc].
  apply lookup_seqZ in Hi as [-> Hlt]. cbn [fst snd]. split; [lia|]. by replace (Z.to_nat (0 + Z.of_nat k)) with k by lia.
Qed.

(** What the test reads: the row above the bottom one. *)
Lemma read_screen_run sh w above row above' cpu i c :
  at_line w (above ++ [row]) above' -> 0 <= i -> row !! Z.to_nat i = Some c ->
  read_screen (BUFFER_HEIGHT - 2) i (MkConsole sh false (Mutex false w) cpu) =
  Ok (c, MkConsole sh false (Mutex false w) cpu).
Proof.
  intros Hw Hi Hc. destruct sh as [ls sh0]. unfold read_screen.
  change (Z.to_nat (BUFFER_HEIGHT - 2)) with 23%nat. eapply with_writer_ok. unfold wr, zoom, bind, gets.
  cbn [view update lens_comp WRITER inner_lens writer inner locked res_bind fst snd].
  rewrite (line_buffer _ _ _ Hw), <- app_assoc.
  pose proof (line_above _ _ _ Hw) as Ha. rewrite length_app in Ha. simpl in Ha.
  cbn [app]. rewrite (list_lookup_middle above _ row 23) by lia. simpl. rewrite Hc. reflexivity.
Qed.

Lemma test_println_output_keeps : console_keeps test_println_output.
Proof.
  intros sh w above cpu Hw. unfold test_println_output.
  set (s := bytes "Some test string that fits on a single line").
  destruct (println_scrolls s sh w above cpu Hw) as (w' & E & Hw'); [by repeat constructor|simpl; lia|].
  exists w', (tail above ++ [pad w ((fun c => MkScreenChar c (w_color w)) <$> s)]).
  rewrite (bind_Ok _ _ _ _ _ E). split; [|done].
  apply for_each_reads. eapply Forall_impl; [apply zip_seq_lookup|]. intros [i c] [Hi Hc]. cbn [fst snd] in *.
  erewrite bind_Ok; [|eapply (read_screen_run _ _ _ _ _ _ _ (MkScreenChar c (w_color w)) Hw' Hi)].
  - cbn [ascii_character]. unfold assert_eq. by rewrite Z.eqb_refl.
  - unfold pad. rewrite lookup_app_l by (rewrite length_fmap; by eapply lookup_lt_Some).
    by rewrite list_lookup_fmap, Hc.
Qed.

Lemma println_tests_keep f : f ∈ [test_println_simple; test_println_many; test_println_output] -> console_keeps f.
Proof.
  intros Hf. repeat (apply elem_of_cons in Hf as [->|Hf]); [| | |by apply elem_of_nil in Hf].
  - apply println_keeps; [by repeat constructor|simpl; lia].
  - apply for_each_keeps. intros _. apply println_keeps; [by repeat constructor|simpl; lia].
  - exact test_println_output_keeps.
Qed.
End LibraryLemmas.

Section LibraryTests.
Context `{P : Profile} `{ST : SegmentTable T} {X H KeyCode KB KeyEvent : Type} `{HH : Heap H}.
Variables stack_ist stack_rsp0 : Z.
Variable add_byte : KB -> Z -> KB * option (option KeyEvent).
Variable process_keyevent : KB -> KeyEvent -> KB * option (DecodedKey KeyCode).
Variable device : list io_event -> Z -> Z.
Variables cr2_text code_text frame_text : list Z.
Variables run_apic run_syscall : M (OS KeyCode KB) unit.
Abbreviation TestState := (TestState (Boot T X H KeyCode KB)).
Abbreviation breakpoint_test := (breakpoint_test (T := T) (X := X) (H := H) add_byte process_keyevent device cr2_text
  code_text frame_text run_apic run_syscall).

(** The kernel as the tests find it: no shell, the writer at the start of an empty line, and the
    handlers installed. *)
Definition test_ready (s : TestState) : Prop :=
  exists sh w above cpu, console (os (bsys (under_test s))) = MkConsole sh false (Mutex false w) cpu /\
    at_line w above [] /\ idt (os (bsys (under_test s))) = idt_table.

#[export] Instance serial_laws {B} : LensLaws (@SERIAL1_lens B).
Proof. by split; intros; try destruct s. Qed.

Lemma console_test_passes name f :
  console_keeps f -> passes SERIAL1_lens test_ready (console_test name f).
Proof.
  intros Hf [[g pt [k [c e kb l pics t b fr arr]]] ser] (sh & w & above & cpu & Hc & Hw & Hi). simpl in Hc, Hi. subst c t.
  destruct (Hf sh w above cpu Hw) as (w' & above' & E & Hw').
  exists (MkTestState (MkBoot g pt (MkSys k (MkOS (MkConsole sh false (Mutex false w') cpu) e kb l pics idt_table b fr arr))) ser).
  split; [|split; [|exists sh, w', above', cpu; split; [reflexivity|split; [exact Hw'|reflexivity]]]].
  - cbn [console_test test_fn]. unfold zoom. cbn [view UNDER_TEST under_test B_OS lens_comp B_SYS OS_lens bsys os CONSOLE console].
    rewrite E. reflexivity.
  - reflexivity.
Qed.

Lemma println_tests_pass : Forall (passes SERIAL1_lens test_ready) println_tests.
Proof.
  repeat (apply Forall_cons; split; [apply console_test_passes, println_tests_keep; repeat constructor|]).
  by apply Forall_nil.
Qed.

(** The handler of the breakpoint exception panics. *)
Lemma breakpoint_test_panics s : test_ready s ->
  test_fn breakpoint_test s = Panic (Explicit "EXCEPTION: BREAKPOINT").
Proof.
  intros (sh & w & above & cpu & _ & _ & Hi). cbn [Testing.breakpoint_test test_fn]. unfold zoom.
  cbn [view UNDER_TEST B_OS lens_comp B_SYS OS_lens].
  unfold test_breakpoint_exception, deliver. rewrite !bind_gets, Hi.
  rewrite (proj2 (idt_table_lookup 3 (MkGate breakpoint_handler None))); [reflexivity|].
  split; [|reflexivity]. apply (bool_decide_unpack (_ ∈ _)). by vm_compute.
Qed.

Lemma first_breakpoint (Q R : @Testable TestState -> Prop) tests :
  Forall (fun t => Q t \/ R t) tests -> Exists R tests ->
  exists before t after, tests = before ++ t :: after /\ Forall Q before /\ R t.
Proof.
  intros HF HE. induction HF as [|t tests [Hq|Hr] _ IH].
  - by apply Exists_nil in HE.
  - apply Exists_cons in HE as [Hr|HE]; [by exists [], t, tests|].
    destruct (IH HE) as (before & t' & after & -> & Hb & Ht). exists (t :: before), t', after. by split; [|split; [constructor|]].
  - by exists [], t, tests.
Qed.

Variables (screen : list (list ScreenChar)) (above : list (list ScreenChar)) (cpu : Machine) (m : mem) (kb : KB).
Variables (arr : list Z) (cs : Z).
Hypothesis Hscreen : at_line (WRITER_init screen) above [].

Lemma tests_start (f : M TestState unit) :
  exists s1, (zoom UNDER_TEST (lib_init stack_ist stack_rsp0) ;; f)
      (MkTestState (power_on screen cpu m kb arr cs) (mutex_new [])) = f s1 /\
    test_ready s1 /\ SERIAL1 s1 = mutex_new [].
Proof.
  destruct (lib_init_run (KeyCode := KeyCode) stack_ist stack_rsp0 (MkSegments TSS_new None cs 0) (@None X) (kernel_boot m heap_empty) false SHELL_init
    false false (WRITER_init screen) cpu (mutex_new EventHandlers_new) (mutex_new kb) None [] false 0 arr) as (g' & _ & E).
  eexists. split; [|split].
  - erewrite bind_Ok; [reflexivity|]. unfold zoom at 1. cbn [view UNDER_TEST under_test]. unfold power_on, console_boot, mutex_new at 1 2.
    rewrite E. reflexivity.
  - eexists _, _, above, _. split; [reflexivity|]. split; [exact Hscreen|reflexivity].
  - reflexivity.
Qed.
End LibraryTests.

(** * Properties *)

(** C29: the library's own tests.  [cargo test] boots [test_kernel_main] on a screen whose bottom line is
    empty: run in any order and number, the tests of [println!] (which read the text back from row 23)
    all pass, the serial port carries the report of each and QEMU is left with the success code.  But a
    run that includes [test_breakpoint_exception] panics at that test, since the handler of the
    breakpoint exception panics: the test fails. *)
Theorem library_test_run `{P : Profile} `{ST : SegmentTable T} {X H KeyCode KB KeyEvent : Type} `{HH : Heap H}
    (stack_ist stack_rsp0 : Z) (add_byte : KB -> Z -> KB * option (option KeyEvent))
    (process_keyevent : KB -> KeyEvent -> KB * option (DecodedKey KeyCode))
    (device : list io_event -> Z -> Z) (cr2_text code_text frame_text : list Z)
    (run_apic run_syscall : M (OS KeyCode KB) unit) (screen above : list (list ScreenChar)) (cpu : Machine) (m : mem)
    (kb : KB) (arr : list Z) (cs : Z) (tests : list Testable) (Hscreen : at_line (WRITER_init screen) above []) :
  let breakpoint := breakpoint_test (T := T) (X := X) (H := H) add_byte process_keyevent device cr2_text code_text
                      frame_text run_apic run_syscall in
  let result := test_startup stack_ist stack_rsp0 tests
                  (MkTestState (power_on screen cpu m kb arr cs) (mutex_new [])) in
  (Forall (fun t => t ∈ println_tests) tests ->
     exists s', result = Ok (tt, s') /\
       inner (SERIAL1 s') = bytes "Running " ++ bytes (pretty (Z.of_nat (length tests))) ++ bytes " tests" ++ [10] ++
         concat (report <$> tests) /\
       last (io (view machine s')) = Some (PortOut 0xf4 32 0x10)) /\
  (Forall (fun t => t ∈ println_tests \/ t = breakpoint) tests -> Exists (fun t => t = breakpoint) tests ->
     result = Panic (Explicit "EXCEPTION: BREAKPOINT")).
Proof.
  intros breakpoint result. unfold result, test_startup.
  destruct (tests_start (X := X) (H := H) stack_ist stack_rsp0 screen above cpu m kb arr cs Hscreen
    (test_runner SERIAL1_lens tests)) as (s1 & -> & Hr & Hser).
  pose proof (println_tests_pass (T := T) (X := X) (H := H) (KeyCode := KeyCode) (KB := KB)) as Hpass.
  assert (forall x (s : TestState (Boot T X H KeyCode KB)), test_ready s -> test_ready (update SERIAL1_lens x s)) as Hinv by (intros x s Hs; exact Hs).
  assert (forall ts : list (@Testable (TestState (Boot T X H KeyCode KB))), Forall (fun t => t ∈ println_tests) ts -> Forall (passes SERIAL1_lens test_ready) ts) as Hall.
  { intros ts Hts. eapply Forall_impl; [exact Hts|]. intros t Ht. rewrite Forall_forall in Hpass. by apply Hpass. }
  split.
  - intros Ht. destruct (test_runner_passes SERIAL1_lens test_ready Hinv tests s1 (Hall _ Ht)) as (s' & E & _ & Hs');
      [cbn; by rewrite Hser|done|].
    rewrite E. eexists. split; [reflexivity|]. split.
    + cbn [view SERIAL1_lens] in Hs'. by rewrite Hser in Hs'.
    + cbn. by rewrite last_snoc.
  - intros Ht Hex. destruct (first_breakpoint _ _ _ Ht Hex) as (before & t & after & -> & Hb & ->).
    apply (test_runner_panics SERIAL1_lens test_ready Hinv); [by apply Hall| |cbn; by rewrite Hser|done].
    intros s Hs. by apply breakpoint_test_panics.
Qed.

Lemma library_test_run_witness :
  test_startup (T := list Descriptor) (X := tables) (H := bump_heap) (KeyCode := bool) (KB := unit)
    0x1000 0x8000
    (println_tests (P := dev_profile) ++
     [breakpoint_test (P := dev_profile) plain_add_byte plain_keyevent (fun _ _ => 0) [] [] [] (ret tt) (ret tt)])
    (MkTestState (power_on spaces (MkMachine 2 []) (fun _ => 0) tt [] 8) (mutex_new [])) =
  Panic (Explicit "EXCEPTION: BREAKPOINT").
Proof.
  apply (proj2 (@library_test_run dev_profile (list Descriptor) _ tables bump_heap bool unit Z _ 0x1000 0x8000
    plain_add_byte plain_keyevent (fun _ _ => 0) [] [] [] (ret tt) (ret tt) spaces (take 24 spaces) (MkMachine 2 [])
    (fun _ => 0) tt [] 8 (println_tests (P := dev_profile) ++ [breakpoint_test (P := dev_profile) plain_add_byte
      plain_keyevent (fun _ _ => 0) [] [] [] (ret tt) (ret tt)]) clear_writer_at_line)).
  - apply Forall_app. split; [|by apply Forall_singleton; right].
    apply Forall_forall. intros t Ht. left. exact Ht.
  - apply Exists_app. right. by apply Exists_cons_hd.
Defined.
