(* ===== verification/MainTest.v ===== *)
(** * The test build of the kernel (src/src/main.rs under [cfg(test)])

    [cargo test] also builds the kernel itself with [test_main] in the middle of [kernel_main]: it boots,
    starts its processes, runs the tests of main.rs and only then starts the shell.  The file has its own
    copies of the test runner, of [exit_qemu] and of the panic handler. *)

From stdpp Require Import pretty.
From S2P Require Import Prelude Mem Arch Pit Vga Shell Gdt Sched Alloc Frames Events Interrupts Cpu Context Boot Testing.

Section Harness.
Context {S : Type} `{HM : HasMachine S}.
Variable SERIAL1 : lens S (mutex (list Z)).

Definition main_exit_code_u32 (c : QemuExitCode) : Z :=
  match c with Success => 0x10 | Failed => 0x11 end.
Definition main_exit_qemu (exit_code : QemuExitCode) : M Machine unit :=
  out 0xf4 32 (main_exit_code_u32 exit_code).

(** [impl Testable for T]. *)
Definition main_run_test (t : Testable) : M S unit :=
  serial_print SERIAL1 [type_name t; bytes "..."; [9]] ;;
  test_fn t ;;
  serial_println SERIAL1 [bytes "[ok]"].

Definition main_test_runner (tests : list Testable) : M S unit :=
  serial_println SERIAL1 [bytes "Running "; bytes (pretty (Z.of_nat (length tests))); bytes " tests"] ;;
  for_each tests main_run_test ;;
  zoom machine (main_exit_qemu Success).

(** The [#[panic_handler]] of the test build, up to [hlt_loop]. *)
Definition main_test_panic_report (info : list Z) : M S unit :=
  serial_println SERIAL1 [bytes "[failed]"; [10]] ;;
  serial_println SERIAL1 [bytes "Error: "; info; [10]] ;;
  zoom machine (main_exit_qemu Failed).
Definition main_test_panic (info : list Z) : M S unit := main_test_panic_report info ;; hlt_loop.

(** The tests of the file. *)
Definition main_tests : list (@Testable S) := [MkTest (bytes "LeafOS::trivial_assertion") trivial_assertion].
Definition main_test_main : M S unit := main_test_runner main_tests.
End Harness.

(** * Lemmas *)

Section HarnessLemmas.
Context {S : Type} `{HM : HasMachine S}.
Variable SERIAL1 : lens S (mutex (list Z)).
Context `{SL : !LensLaws SERIAL1}.

Lemma main_test_panic_run info s :
  locked (view SERIAL1 s) = false ->
  main_test_panic_report SERIAL1 info s =
  zoom machine (main_exit_qemu Failed)
    (sent SERIAL1 (bytes "[failed]" ++ [10; 10] ++ bytes "Error: " ++ info ++ [10; 10]) s).
Proof.
  intros Hl. unfold main_test_panic_report, serial_println.
  rewrite (bind_Ok _ _ _ _ _ (serial_print_run SERIAL1 _ s Hl)).
  assert (forall t, locked (view SERIAL1 (sent SERIAL1 t s)) = false) as Hs by (intros t; unfold sent; by rewrite view_update).
  rewrite (bind_Ok _ _ _ _ _ (serial_print_run SERIAL1 _ _ (Hs _))).
  f_equal. unfold sent. rewrite view_update, update_update. cbn [inner concat app]. f_equal. f_equal.
  by rewrite ?app_nil_r, <- !app_assoc.
Qed.
End HarnessLemmas.

Section TestBuild.
Context `{P : Profile} `{ST : SegmentTable T} `{A : AddrOps}.
Context {RT : Type} `{RD : EqDecision RT}.
Variable Usable : RT.
Context {X E H KeyCode KB KeyEvent : Type}.
Context `{MP : Mapper X (BootInfoFrameAllocator RT) E} `{HH : Heap H} `{KD : EqDecision KeyCode}.
Variables stack_ist stack_rsp0 cr3_frame : Z.
Variable offset_page_table_new : Z -> Z -> X.
Variable alloc : Z -> Z -> H -> option (Z * H).
Variable add_byte : KB -> Z -> KB * option (option KeyEvent).
Variable process_keyevent : KB -> KeyEvent -> KB * option (DecodedKey KeyCode).
Variable device : list io_event -> Z -> Z.
Variables cr2_text code_text frame_text : list Z.
Variables run_apic run_syscall : M (OS KeyCode KB) unit.
Variable xapic_base : Z.
Variable Backspace : KeyCode.
Variable key_debug : KeyCode -> list Z.
Variables idle test_fn test_fn_hello : Z.
Abbreviation TestState := (TestState (Boot T X H KeyCode KB)).

Abbreviation startup_processes :=
  (startup_processes Usable stack_ist stack_rsp0 cr3_frame offset_page_table_new alloc add_byte process_keyevent device
     cr2_text code_text frame_text run_apic run_syscall xapic_base None idle test_fn test_fn_hello).

(** [kernel_main] of the test build, up to [hlt_loop]. *)
Definition main_test_startup (memory_map : list (MemoryRegion RT)) (physical_memory_offset : Z) : M TestState unit :=
  zoom UNDER_TEST (startup_processes memory_map physical_memory_offset) ;;
  main_test_main SERIAL1_lens ;;
  zoom UNDER_TEST (startup_shell Backspace key_debug).

Context `{AL : !AddrLaws} (translate : X -> Z -> option (Z * Z)) `{ML : !MapperLaws Usable translate}.
Context `{HA : !AllocOk alloc}.
Variables (screen : list (list ScreenChar)) (cpu : Machine) (m : mem) (kb : KB) (arr : list Z) (cs : Z).
Variables (map : list (MemoryRegion RT)) (offset : Z) (n : nat).

(** What the runner leaves of the kernel. *)
Lemma main_test_main_run (b : Boot T X H KeyCode KB) :
  main_test_main SERIAL1_lens (MkTestState b (mutex_new [])) =
  Ok (tt, MkTestState (update (lens_comp B_OS machine)
                         (add_io (PortOut 0xf4 32 0x10) (view (lens_comp B_OS machine) b)) b)
            (mutex_new (bytes "Running 1 tests" ++ [10] ++ bytes "LeafOS::trivial_assertion..." ++ [9] ++ bytes "[ok]" ++ [10]))).
Proof.
  vm_compute. reflexivity.
Qed.

Abbreviation pit_end := (pit_reading device (io cpu ++ calibration_io)).
Abbreviation started_state := (MkTestState (power_on screen cpu m kb
  (replicate n (as_u8 Timer) ++ as_u8 ApicTimer :: arr) cs) (mutex_new [])).

End TestBuild.

