(* ===== verification/Run.v ===== *)
(** * From boot to running processes

    What connects [kernel_main] (Boot) with the context switch (Context): the memory [start_proc] leaves
    is that of suspended processes, the first timer tick leaves the boot context for one of them, and
    from then on ticks and the processes' own steps alternate for ever.  The process [test_fn] of
    src/src/main.rs is here as well. *)

From stdpp Require Import pretty.
From S2P Require Import Prelude Mem Arch Pit Vga Shell Gdt Sched Alloc Frames Events Interrupts Cpu Context Syscall Boot.

(** * Lemmas *)

(** What the kernel relies on of a heap from which nothing has been freed: first-fit allocation goes
    upwards.  [top h] is the end of the memory in use, [limit] the end of the heap; alignment and
    rounding cost at most [a + 32] bytes. *)
Class Ascending {H} (alloc : Z -> Z -> H -> option (Z * H)) (top : H -> Z) (limit : Z) : Prop :=
  ascending : forall n a h, 0 < n -> 0 <= a -> top h + n + a + 32 <= limit ->
    exists p h', alloc n a h = Some (p, h') /\ top h <= p /\ p + n <= top h' /\ top h' <= top h + n + a + 32.

Section Processes.
Context `{P : Profile} `{A : Abi} {H KeyCode KB : Type}.
Variable stack_use : Z.
Context `{AL : !AbiLaws stack_use}.
Variable alloc : Z -> Z -> H -> option (Z * H).
Variables (top : H -> Z) (limit : Z).
Context `{HA : !Ascending alloc top limit}.
Hypothesis Hlimit : limit + 8192 < 2 ^ 64.

Lemma box_zeroed_asc n (k : Kernel H) :
  0 < n -> top (heap k) + n + 33 <= limit ->
  exists p h', box_zeroed alloc n k = Ok (p, set_memory (fill_zero (memory k) p n) (set_heap h' k)) /\
    top (heap k) <= p /\ p + n <= top h' /\ top h' <= top (heap k) + n + 33.
Proof.
  intros Hn Hr. destruct (ascending n 1 (heap k)) as (p & h' & E & H1 & H2 & H3); [lia..|].
  exists p, h'. split; [|lia]. unfold box_zeroed. rewrite (proj2 (Z.eqb_neq n 0)) by lia.
  rewrite (bind_Ok _ _ _ p (set_heap h' k)); [done|]. unfold box_alloc. by rewrite E.
Qed.

Lemma fill_zero_outside m a n x : x < a \/ a + n <= x -> fill_zero m a n x = m x.
Proof.
  intros Hx. unfold fill_zero. destruct (Z.leb_spec a x), (Z.ltb_spec x (a + n)); done || lia.
Qed.

(** A new kernel process is suspended in memory of its own: its kernel stack and the two words behind
    it at [ks] (the latter belong to no other block, because the process's own user stack follows), its
    state at [p]. *)
Lemma new_state_asc kl ul f (k : Kernel H) :
  stack_use + 192 <= kl -> kl <= 4096 -> 16 <= ul -> fits 64 f -> 0 <= top (heap k) ->
  top (heap k) + kl + ul + 154 <= limit ->
  exists ks p m' h' ss0, new_state alloc kl ul true f k = Ok (p, set_memory m' (set_heap h' k)) /\
    top (heap k) <= ks /\ ks + kl + 16 <= p /\ p + 48 <= top h' /\ top h' <= top (heap k) + kl + ul + 154 /\
    (forall x, x < top (heap k) \/ top h' <= x -> m' x = memory k x) /\
    saved stack_use m' (Region ks (ks + kl + 16) p) (initial_context (ks + kl) f ss0).
Proof.
  intros Hkl Hkl' Hul Hf H0 Hr. pose proof (stack_use_nonneg (stack_use := stack_use)) as Hsu.
  destruct (box_zeroed_asc kl k) as (ks & h1 & E1 & B1 & B2 & B3); [lia..|].
  set (k1 := set_memory (fill_zero (memory k) ks kl) (set_heap h1 k)) in E1.
  destruct (box_zeroed_asc ul k1) as (us & h2 & E2 & B4 & B5 & B6); [lia|simpl; lia|].
  set (k2 := set_memory _ _) in E2. simpl in B4, B6.
  destruct (ascending 48 8 (heap k2)) as (p & h3 & E3 & B7 & B8 & B9); [lia..|simpl; lia|]. simpl in B7, B9.
  destruct (new_process_saved stack_use alloc k2 ks kl us ul f p h3) as (m' & E4 & Hm' & Hs);
    [lia|lia|lia|done|exact E3|lia|].
  exists ks, p, m', h3. eexists. split.
  { unfold new_state. rewrite (bind_Ok _ _ _ _ _ E1), (bind_Ok _ _ _ _ _ E2). exact E4. }
  split_and!; [lia..| |exact Hs].
  intros x Hx. rewrite Hm' by lia. cbn [k2 k1 memory set_memory set_heap].
  by rewrite !fill_zero_outside by lia.
Qed.

(** The pseudo task of the boot context: 256 bytes of stack that are never used, and no user stack. *)
Lemma sched_init_asc idle (k : Kernel H) :
  0 <= top (heap k) -> top (heap k) + 377 <= limit ->
  exists v m' h', sched_init alloc idle k = Ok (tt, set_void (Some v) (set_memory m' (set_heap h' k))) /\
    top (heap k) <= v /\ v + 48 <= top h' /\ top h' <= top (heap k) + 377.
Proof.
  intros H0 Hr. destruct (box_zeroed_asc 256 k) as (ks & h1 & E1 & B1 & B2 & B3); [lia..|].
  set (k1 := set_memory _ _) in E1.
  destruct (ascending 48 8 h1) as (v & h2 & E2 & B4 & B5 & B6); [lia..|].
  pose proof (ProcessState_new_run ks 256 1 0 true idle k1 ltac:(unfold fits; lia) ltac:(lia)
    ltac:(unfold fits; lia)) as Ep.
  destruct (box_state_run alloc (MkProcessState (ks + 256 - 144) (ks + 256 + 256) (ks, 256) (1, 0))
    (set_memory (store_slots (memory k1) (ks + 256) 0 (frame_slots true (ks + 256) 1 idle)) k1) v h2 E2)
    as (m' & Eb & _).
  exists v, m', h2. split; [|lia]. unfold sched_init, new_state. rewrite !bind_assoc.
  rewrite (bind_Ok _ _ _ _ _ E1), bind_assoc.
  rewrite (bind_Ok _ _ _ 1 k1) by done. rewrite bind_assoc, (bind_Ok _ _ _ _ _ Ep).
  by rewrite (bind_Ok _ _ _ _ _ Eb).
Qed.

(** Creating a state does not look at the scheduler. *)
Definition scheduler_blind {R} (f : M (Kernel H) R) : Prop :=
  forall x k, f (update SCHEDULER x k) = res_bind (f k) (fun p => Ok (p.1, update SCHEDULER x p.2)).

Lemma blind_bind {R R'} (f : M (Kernel H) R) (g : R -> M (Kernel H) R') :
  scheduler_blind f -> (forall r, scheduler_blind (g r)) -> scheduler_blind (bind f g).
Proof.
  intros Hf Hg x k. unfold bind. rewrite Hf. destruct (f k) as [[r k']| |]; [|done..]. apply Hg.
Qed.

Lemma blind_for_each {R} (xs : list R) (f : R -> M (Kernel H) unit) :
  (forall r, scheduler_blind (f r)) -> scheduler_blind (for_each xs f).
Proof.
  intros Hf. induction xs as [|x xs IH]; [done|]. apply blind_bind; [apply Hf|]. intros _. exact IH.
Qed.

Lemma blind_lift {R} (r : res R) : scheduler_blind (lift r).
Proof. intros x k. unfold lift. by destruct r. Qed.

Lemma blind_box_alloc n a : scheduler_blind (box_alloc alloc n a).
Proof. intros x k. unfold box_alloc. simpl. destruct (alloc n a (heap k)) as [[p h]|]; done. Qed.

Lemma new_state_blind kl ul b f : scheduler_blind (new_state alloc kl ul b f).
Proof.
  assert (forall n, scheduler_blind (box_zeroed alloc n)) as Hz.
  { intros n. unfold box_zeroed. destruct (n =? 0); [done|].
    apply blind_bind; [apply blind_box_alloc|]. by intros p. }
  unfold new_state. apply blind_bind; [apply Hz|]. intros ks. apply blind_bind; [apply Hz|]. intros us.
  apply blind_bind.
  - unfold ProcessState_new. apply blind_bind; [apply blind_lift|]. intros addr.
    apply blind_bind; [by apply blind_for_each; intros []|]. intros _.
    apply blind_bind; [apply blind_lift|]. intros r. by apply blind_bind; [apply blind_lift|].
  - intros ps. unfold box_state. by apply blind_bind; [apply blind_box_alloc|].
Qed.

(** [start_proc] around the creation of the state. *)
Lemma start_proc_from f b ts n cur it ini v m (h : H) p m' h' sch0 :
  fits 64 (n + 1) ->
  new_state alloc 4096 4096 b f (MkKernel sch0 cur it ini v m h) = Ok (p, MkKernel sch0 cur it ini v m' h') ->
  start_proc alloc f b (MkKernel (Mutex false (MkRR ts n)) cur it ini v m h) =
  Ok (tt, MkKernel (Mutex false (MkRR (ts ++ [(Process_new (n + 1) Runnable, p)]) (n + 1))) cur it ini v m' h').
Proof.
  intros Hn En.
  assert (forall sch, new_state alloc 4096 4096 b f (MkKernel sch cur it ini v m h) =
    Ok (p, MkKernel sch cur it ini v m' h')) as Es.
  { intros sch. pose proof (new_state_blind 4096 4096 b f sch (MkKernel sch0 cur it ini v m h)) as Hb.
    rewrite En in Hb. exact Hb. }
  unfold start_proc, with_lock. cbn [locked view SCHEDULER scheduler inner update].
  unfold start_process. rewrite bind_assoc.
  set (k0 := MkKernel (Mutex true (MkRR ts n)) cur it ini v m h).
  rewrite (bind_Ok _ _ _ n k0) by done. rewrite bind_assoc.
  rewrite (bind_Ok _ _ _ (n + 1) k0) by (unfold lift, add_w; by rewrite arith_fits).
  rewrite bind_assoc, (bind_Ok _ _ _ tt (MkKernel (Mutex true (MkRR ts (n + 1))) cur it ini v m h)) by done.
  rewrite bind_assoc, (bind_Ok _ _ _ _ _ (Es _)). done.
Qed.

(** The scheduler's part of [kernel_main], with the memory it leaves. *)
Lemma processes_asc idle f1 f2 m (h : H) :
  stack_use + 192 <= 4096 -> fits 64 f1 -> fits 64 f2 -> 0 <= top h -> top h + 17069 <= limit ->
  exists k1 k2 k3 v p1 p2 ks1 ks2 ss1 ss2,
    sched_init alloc idle (kernel_boot m h) = Ok (tt, k1) /\
    start_proc alloc f1 true k1 = Ok (tt, k2) /\ start_proc alloc f2 true k2 = Ok (tt, k3) /\
    k3 = MkKernel (mutex_new (MkRR [(Process_new 1 Runnable, p1); (Process_new 2 Runnable, p2)] 2)) None None
           false (Some v) (memory k3) (heap k3) /\
    (top h <= v /\ v + 48 <= ks1 /\ ks1 + 4112 <= p1 /\ p1 + 48 <= ks2 /\ ks2 + 4112 <= p2 /\ p2 + 48 <= limit) /\
    saved stack_use (memory k3) (Region ks1 (ks1 + 4112) p1) (initial_context (ks1 + 4096) f1 ss1) /\
    saved stack_use (memory k3) (Region ks2 (ks2 + 4112) p2) (initial_context (ks2 + 4096) f2 ss2).
Proof.
  intros Hsu Hf1 Hf2 H0 Hr.
  destruct (sched_init_asc idle (kernel_boot m h)) as (v & m1 & h1 & K1 & V1 & V2 & V3); [done|simpl; lia|].
  simpl in V1, V3. set (k1 := set_void _ _) in K1.
  destruct (new_state_asc 4096 4096 f1 k1) as (ks1 & p1 & m2 & h2 & ss1 & N1 & B1 & B2 & B3 & B4 & F1 & S1);
    [lia..|done|simpl; lia|simpl; lia|].
  simpl in B1, B4, F1.
  set (k2 := MkKernel (mutex_new (MkRR [(Process_new 1 Runnable, p1)] 1)) None None false (Some v) m2 h2).
  destruct (new_state_asc 4096 4096 f2 k2) as (ks2 & p2 & m3 & h3 & ss2 & N2 & B5 & B6 & B7 & B8 & F2 & S2);
    [lia..|done|simpl; lia|simpl; lia|].
  simpl in B5, B8, F2.
  rewrite <- Z.add_assoc in S1, S2. change (4096 + 16) with 4112 in S1, S2.
  exists k1, k2, (MkKernel (mutex_new (MkRR [(Process_new 1 Runnable, p1); (Process_new 2 Runnable, p2)] 2)) None
    None false (Some v) m3 h3), v, p1, p2, ks1, ks2, ss1, ss2.
  split_and!; [exact K1| | |done|lia..| |].
  - exact (start_proc_from f1 true [] 0 None None false (Some v) m1 h1 p1 m2 h2 _ ltac:(done) N1).
  - exact (start_proc_from f2 true [_] 1 None None false (Some v) m2 h2 p2 m3 h3 _ ltac:(done) N2).
  - apply (saved_ext stack_use m2); [|exact S1]. intros x Hx. cbn [lo hi slot] in Hx. apply F2. lia.
  - exact S2.
Qed.

End Processes.

Section Ticks.
Context `{P : Profile} `{A : Abi} {H KeyCode KB : Type}.
Variable stack_use : Z.
Context `{AL : !AbiLaws stack_use}.
Variable alloc : Z -> Z -> H -> option (Z * H).
Variable idle : Z.

Abbreviation Sys := (Sys H KeyCode KB).
Abbreviation suspended := (Task * region * list Z)%type.

(** The machine before the first tick: the boot code runs on the stack of [r0], whose context will be
    stored for the pseudo task; the processes are suspended. *)
Record starting (c : Cpu Sys) (r0 : region) (q : list suspended) : Prop := {
  st_unlocked : unlocked (kern (sys c));
  st_task : task (kern (sys c)) = None /\ init_flag (kern (sys c)) = false /\
    void_task (kern (sys c)) = Some (slot r0);
  st_queue : reverse (tasks (rr_of (kern (sys c)))) = (fun x => x.1.1) <$> q;
  st_apic : apic_ready (os (sys c));
  st_slots : Forall (fun x => slot x.1.2 = x.1.1.2) q;
  st_wf : region_wf r0 /\ Forall (fun x => region_wf x.1.2) q;
  st_apart : pairwise apart (r0 :: ((fun x => x.1.2) <$> q));
  st_running : running stack_use c r0;
  st_saved : Forall (fun x => saved stack_use (memory (kern (sys c))) x.1.2 x.2) q;
}.

Lemma first_tick_inv (c : Cpu Sys) r0 t r ws q :
  starting c r0 ((t, r, ws) :: q) ->
  exists c', timer_tick alloc idle c = Ok (tt, c') /\ context c' = ws /\
    machine_inv stack_use c' (t, r) q /\
    (forall x, ~ footprint r0 r x -> memory (kern (sys c')) x = memory (kern (sys c)) x) /\
    apic_only (os (sys c)) (os (sys c')).
Proof.
  intros [[Hl Hi] (Ht & Hini & Hv) Hq Hap Hss [Hw Hws] Hpw Hrun Hsv].
  apply Forall_cons_1 in Hss as [Hs' Hss]. apply Forall_cons_1 in Hws as [Hw' Hws].
  apply Forall_cons_1 in Hsv as [Hsv' Hsv]. cbn [fmap list_fmap fst snd] in Hpw, Hq, Hs', Hw', Hsv'.
  pose proof Hpw as [[Hap0 Hap0']%Forall_cons_1 Hpw'].
  destruct (restart_apic_run _ Hap) as (o' & Hra & Hap' & Hcon).
  set (k := kern (sys c)) in *. set (ts := reverse ((fun x => x.1.1) <$> q)).
  assert (tasks (rr_of k) = ts ++ [t]) as Hts.
  { rewrite <- (reverse_involutive (tasks (rr_of k))), Hq. by rewrite reverse_cons. }
  set (k' := MkKernel (Mutex false (MkRR ts (task_id (rr_of k)))) (Some t) (idle_task k) true
    (void_task k) (memory k) (heap k)).
  assert (forall m0, current_task_ptr alloc idle (set_memory m0 k) = Ok (slot r0, set_memory m0 (set_init true k)))
    as Hcur.
  { intros m0. unfold current_task_ptr. run_pure. cbn [task set_memory]. rewrite Ht. run_pure.
    cbn [init_flag set_memory]. rewrite Hini. cbn [negb]. run_pure. cbn [void_task set_memory set_init]. by rewrite Hv. }
  assert (forall m0, select_next_task alloc idle (set_memory m0 (set_init true k)) = Ok (slot r, set_memory m0 k'))
    as Hsel.
  { intros m0. rewrite (select_some alloc idle ts t) by assumption. cbn [task set_memory set_init].
    by rewrite Ht, Hs'. }
  destruct (tick_run stack_use alloc idle c (memory k) k (set_init true k) k' (os (sys c)) o' r0 r ws
    (sys_memory (sys c)) Hcur Hsel Hra Hw Hw' Hap0 Hrun Hsv') as (c' & m' & E & Hctx & Hseg & Hsys & _ & Hm').
  exists c'. split_and!; [done|done| |by rewrite Hsys|by rewrite Hsys]. split; rewrite ?Hsys; cbn [kern os fst snd].
  - split; [done|exact Hi].
  - done.
  - unfold rr_of. cbn [set_memory scheduler inner tasks k']. unfold ts. by rewrite reverse_involutive.
  - done.
  - by split.
  - by split.
  - exact Hpw'.
  - by eapply saved_running.
  - destruct Hpw' as [Hap1 _]. rewrite Forall_fmap, Forall_forall in Hap0', Hap1. rewrite Forall_forall in Hsv |- *.
    intros x Hx. eapply (saved_frame stack_use (memory k) m' _ _ r0 r); [| |exact Hm'|by apply Hsv].
    + symmetry. by apply Hap0'.
    + symmetry. by apply Hap1.
Qed.

(** Executions: a process runs code of its own between interrupts, or the timer ticks.  [mem_of] gives
    the memory of a process; the index counts the ticks. *)
Variable mem_of : Task -> region.

Inductive exec (c0 : Cpu Sys) : nat -> Cpu Sys -> Prop :=
  | exec_start : exec c0 0 c0
  | exec_code n c c' t :
      exec c0 n c -> task (kern (sys c)) = Some t -> user_step stack_use (mem_of t) c c' -> exec c0 n c'
  | exec_tick n c c' : exec c0 n c -> timer_tick alloc idle c = Ok (tt, c') -> exec c0 (S n) c'.

(** The queue after [n] turns. *)
Definition turn {T} (n : nat) (l : list T) : list T :=
  drop (n mod length l) l ++ take (n mod length l) l.

Lemma length_turn {T} n (l : list T) : length (turn n l) = length l.
Proof.
  unfold turn. rewrite length_app, length_drop, length_take.
  destruct l as [|x l]; [simpl; lia|]. pose proof (Nat.mod_upper_bound n (length (x :: l)) ltac:(done)). lia.
Qed.

Lemma turn_head {T} n (l : list T) x rest : turn n l = x :: rest -> l !! (n mod length l)%nat = Some x.
Proof.
  unfold turn. intros E. destruct (drop _ l) as [|y k] eqn:Ed.
  - destruct l as [|y l]; [by rewrite take_nil in E|].
    apply (f_equal length) in Ed. rewrite length_drop in Ed.
    pose proof (Nat.mod_upper_bound n (length (y :: l)) ltac:(done)). simpl in *. lia.
  - simpl in E. injection E as <- _. rewrite <- (Nat.add_0_r (n mod _)), <- lookup_drop. by rewrite Ed.
Qed.

Lemma turn_S {T} n (l : list T) x rest : turn n l = x :: rest -> turn (S n) l = rest ++ [x].
Proof.
  unfold turn. intros E. destruct (decide (length l = 0)%nat) as [H0|H0].
  { apply length_zero_iff_nil in H0. subst l. by rewrite drop_nil, take_nil in E. }
  set (i := (n mod length l)%nat) in *.
  assert (i < length l)%nat as Hi by (by apply Nat.mod_upper_bound).
  destruct (lookup_lt_is_Some_2 l i Hi) as [y Hy]. rewrite (drop_S l y i Hy) in E.
  simpl in E. injection E as <- <-. rewrite <- app_assoc, <- (take_S_r l i y Hy).
  assert (S n mod length l = S i mod length l)%nat as ->.
  { unfold i. rewrite <- (Nat.Div0.add_mod_idemp_r 1 n). done. }
  destruct (decide (S i = length l)) as [He|Hne].
  - rewrite He, Nat.Div0.mod_same, drop_0, take_0, app_nil_r. rewrite drop_ge, take_ge by lia. done.
  - rewrite Nat.mod_small by lia. done.
Qed.

(** A machine whose processes have the memory [mem_of] says. *)
Definition slicing (c : Cpu Sys) (ts : list Task) : Prop :=
  exists t q, ts = t :: (fst <$> q) /\
    machine_inv stack_use c (t, mem_of t) ((fun x => (x.1, mem_of x.1, x.2)) <$> q).

Lemma slicing_tick c t ts :
  slicing c (t :: ts) -> ts <> [] -> exists c', timer_tick alloc idle c = Ok (tt, c') /\ slicing c' (ts ++ [t]).
Proof.
  intros (t' & q & [= <- ->] & Hinv) Hne. destruct q as [|[t1 ws1] q]; [done|].
  destruct (tick_inv stack_use alloc idle c _ _ _ _ _ Hinv) as (c' & E & _ & _ & Hinv' & _).
  exists c'. split; [done|]. exists t1, (q ++ [(t, context c)]). rewrite !fmap_app. split; [reflexivity|exact Hinv'].
Qed.

Lemma slicing_code c c' t ts :
  slicing c (t :: ts) -> user_step stack_use (mem_of t) c c' -> slicing c' (t :: ts).
Proof.
  intros (t' & q & [= <- ->] & Hinv) Hu. exists t, q. split; [done|].
  by apply (user_step_inv stack_use c c' (t, mem_of t)).
Qed.

Lemma slicing_task c t ts : slicing c (t :: ts) -> task (kern (sys c)) = Some t.
Proof. intros (t' & q & [= <- ->] & Hinv). exact (mi_task _ _ _ _ Hinv). Qed.

Lemma exec_slicing c0 ts n c :
  slicing c0 ts -> (2 <= length ts)%nat -> exec c0 n c -> slicing c (turn n ts).
Proof.
  intros H0 Hl. induction 1 as [|n c c' t _ IH Ht Hu|n c c' _ IH E].
  - unfold turn. by rewrite Nat.Div0.mod_0_l, drop_0, take_0, app_nil_r.
  - destruct IH as (t' & q & Eq & Hinv). rewrite Eq in *.
    pose proof (mi_task _ _ _ _ Hinv) as Ht'. simpl in Ht'. rewrite Ht in Ht'. injection Ht' as <-.
    apply (slicing_code c); [by exists t, q|done].
  - destruct (turn n ts) as [|t rest] eqn:Et.
    { apply (f_equal length) in Et. rewrite length_turn in Et. simpl in Et. lia. }
    rewrite (turn_S n ts t rest Et). destruct (slicing_tick c t rest IH) as (c1 & E1 & H1).
    + intros ->. apply (f_equal length) in Et. rewrite length_turn in Et. simpl in Et. lia.
    + rewrite E in E1. injection E1 as ->. exact H1.
Qed.

End Ticks.

(** ** The processes of [kernel_main] *)

Section Demo.
Context `{P : Profile} `{A : Abi} {H KeyCode KB : Type}.
Abbreviation Sys := (Sys H KeyCode KB).
Variable stack_use : Z.
Context `{AL : !AbiLaws stack_use}.
(** The size of the system call handler's prologue frame, and where the compiler puts the text. *)
Variables frame msg : Z.

Definition MSG : list Z := bytes "TESTeee!".

(** [n] rounds of the loop. *)
Fixpoint test_fn (n : nat) : M (Cpu Sys) unit :=
  match n with
  | O => ret tt
  | S n => do_syscall_3 frame WRITE STDOUT_FD msg (Z.of_nat (length MSG)) ;; test_fn n
  end.

(** The console with the processor in the state [m]: what [println!] leaves as it finds it. *)
Definition console_at (m : Machine) (c : Console) : Console :=
  MkConsole (shell c) (initialized c) (writer c) m.

Lemma set_memory_id (k : Kernel H) : set_memory (memory k) k = k.
Proof. by destruct k. Qed.

(** The registers of the system call. *)
Definition test_args : list (reg * Z) :=
  [(RAX, WRITE); (RDI, STDOUT_FD); (RSI, msg); (RDX, Z.of_nat (length MSG))].
Definition args_loaded (c : Cpu Sys) : Prop :=
  regs c RAX = WRITE /\ regs c RDI = STDOUT_FD /\ regs c RSI = msg /\ regs c RDX = 8.

Lemma set_reg_wf r v (c : Cpu Sys) : cpu_wf c -> fits 64 v -> cpu_wf (set_reg r v c).
Proof.
  intros Hwf Hv. apply Forall_app in Hwf as [Hg Hfr]. apply Forall_app. split; [|exact Hfr].
  apply Forall_fmap. rewrite Forall_fmap in Hg. eapply Forall_impl; [exact Hg|]. intros x Hx. cbn in Hx |- *.
  unfold rset. by destruct (decide _).
Qed.

(** The memory, the text and the stack a round needs. *)
Record round_ready (r : region) (c : Cpu Sys) : Prop := {
  rr_running : running stack_use c r;
  rr_stack : 0 <= lo r /\ lo r + stack_use + frame + 192 <= rsp c;
  rr_text : str_bytes (memory (kern (sys c))) msg 8 = MSG;
  rr_console : console_free (console (os (sys c)));
  rr_apic : apic_ready (os (sys c));
}.

Hypothesis Hframe : 0 <= frame.
Hypothesis Hmsg : fits 64 msg.

Lemma set_args_run (c : Cpu Sys) r : round_ready r c ->
  exists c1, set_args test_args c = Ok (tt, c1) /\ round_ready r c1 /\ args_loaded c1 /\ sys c1 = sys c /\
    rsp c1 = rsp c /\ rip c1 = rip c /\ cpu_rflags c1 = cpu_rflags c.
Proof.
  intros [[Hwf Hst] Hs Ht Hc Ha]. eexists. split; [reflexivity|]. split_and!; [|by split_and!|reflexivity..].
  split; [|exact Hs|exact Ht|exact Hc|exact Ha]. split; [|exact Hst].
  repeat (apply set_reg_wf; [|first [exact Hmsg|split; [discriminate|reflexivity]]]). exact Hwf.
Qed.

(** The [int 0x80] of a round. *)
Lemma int_write_run r (c : Cpu Sys) :
  msg + 8 <= lo r \/ hi r <= msg -> round_ready r c -> args_loaded c ->
  exists c', int_0x80 frame c = Ok (tt, c') /\ context c' = context c /\ user_step stack_use r c c' /\
    round_ready r c' /\ idt (os (sys c')) = idt (os (sys c)) /\
    forall m, println [MSG] (console_at m (console (os (sys c)))) = Ok (tt, console_at m (console (os (sys c')))).
Proof.
  intros Hsep [[Hwf [Hs1 Hs2]] [Hlo Hsp] Htext Hc Hap] (Ha & Hdi & Hsi & Hdx).
  destruct c as [g sp ip cs0 fl sg d [k o]]. pose proof stack_use_nonneg as Hsu. cbn [rsp regs sys os kern] in *.
  destruct Hap as ([log Hl] & Hf1 & Hf2).
  pose proof (int_0x80_run stack_use frame g sp ip cs0 fl sg d (memory k) k o log) as Hint. cbv zeta in Hint.
  rewrite set_memory_id, Hdi, Hsi, Hdx in Hint.
  destruct (Hint Hframe ltac:(lia) Hwf Ha Hc Hl ltac:(lia)) as (m' & cn & E & Hpr & Hcn & Hm'). clear Hint.
  assert (forall x, ~ (lo r <= x < hi r) -> m' x = memory k x) as Hm'' by (intros x Hx; apply Hm'; lia).
  destruct o as [[s0 ini w0 m0] o1 o2 o3 o4 o5 o6 o7 o8]. cbn [console] in *.
  destruct (println_any_cpu [MSG] s0 ini w0 m0 Hc) as (s' & w' & Hp).
  change (STDOUT_FD =? STDOUT_FD) with true in Hpr. cbv iota in Hpr. rewrite Htext in Hpr.
  assert (println [MSG] (MkConsole s0 ini w0 (set_rflags (Z.clearbit (rflags m0) 9) m0)) = Ok (tt, cn)) as Hpr'
    by exact Hpr.
  rewrite Hp in Hpr'. injection Hpr' as <-. clear Hpr.
  eexists. split; [exact E|]. split; [reflexivity|]. split_and!.
  - split; [split; [exact Hwf|split; [exact Hs1|exact Hs2]]|]. eexists m', _. split; [reflexivity|].
    split; [|exact Hm'']. intros _. split; [eexists; reflexivity|]. split; [exact Hf1|exact Hf2].
  - split; [split; [exact Hwf|split; [exact Hs1|exact Hs2]]|split; [exact Hlo|exact Hsp]| |exact Hcn|].
    + cbn [memory set_memory kern sys]. rewrite <- Htext. apply str_bytes_ext. intros x Hx. apply Hm''. lia.
    + split; [eexists; reflexivity|]. split; [exact Hf1|exact Hf2].
  - reflexivity.
  - exact Hp.
Qed.

Lemma user_step_trans r (c c1 c2 : Cpu Sys) :
  user_step stack_use r c c1 -> user_step stack_use r c1 c2 -> user_step stack_use r c c2.
Proof.
  intros (_ & m1 & o1 & H1 & Ho1 & Hm1) (Hr & m2 & o2 & H2 & Ho2 & Hm2). rewrite H1 in H2, Ho2, Hm2.
  split; [exact Hr|]. exists m2, o2. split; [exact H2|]. split; [tauto|].
  intros x Hx. rewrite (Hm2 x Hx). exact (Hm1 x Hx).
Qed.

Lemma test_fn_S n (c c1 : Cpu Sys) : test_fn 1 c = Ok (tt, c1) -> test_fn (S n) c = test_fn n c1.
Proof. exact (bind_ret_tt _ (test_fn n) c c1). Qed.

Lemma user_step_refl r (c : Cpu Sys) : running stack_use c r -> user_step stack_use r c c.
Proof.
  intros Hr. split; [exact Hr|]. exists (memory (kern (sys c))), (os (sys c)).
  split; [exact (sys_memory (sys c))|]. split; [tauto|reflexivity].
Qed.

Lemma println_S n c0 c1 c' :
  println [MSG] c0 = Ok (tt, c1) -> for_each (replicate n [MSG]) println c1 = Ok (tt, c') ->
  for_each (replicate (S n) [MSG]) println c0 = Ok (tt, c').
Proof. intros E1 E'. cbn [replicate]. by rewrite for_each_cons, (bind_Ok _ _ _ _ _ E1). Qed.

Lemma set_args_step r (c c1 : Cpu Sys) :
  running stack_use c1 r -> sys c1 = sys c -> user_step stack_use r c c1.
Proof.
  intros Hr Hs. split; [exact Hr|]. exists (memory (kern (sys c))), (os (sys c)).
  split; [rewrite Hs; exact (sys_memory (sys c))|]. split; [tauto|reflexivity].
Qed.

Lemma test_fn_round r (c : Cpu Sys) :
  msg + 8 <= lo r \/ hi r <= msg -> round_ready r c ->
  exists c', test_fn 1 c = Ok (tt, c') /\ user_step stack_use r c c' /\ round_ready r c' /\
    forall m, println [MSG] (console_at m (console (os (sys c)))) = Ok (tt, console_at m (console (os (sys c')))).
Proof.
  intros Hsep Hc. destruct (set_args_run c r Hc) as (c1 & E1 & H1 & Hargs & Hs1 & _).
  destruct (int_write_run r c1 Hsep H1 Hargs) as (c' & E' & _ & U' & H' & _ & Pr). rewrite Hs1 in Pr.
  exists c'. split; [|split; [|split; [exact H'|exact Pr]]].
  - cbn [test_fn]. unfold do_syscall_3, do_syscall. fold test_args. unfold bind at 1 2 3. rewrite E1. cbn [res_bind fst snd].
    rewrite E'. reflexivity.
  - apply (user_step_trans r c c1 c'); [|exact U']. apply set_args_step; [exact (rr_running _ _ H1)|exact Hs1].
Qed.

Lemma test_fn_rounds n r (c : Cpu Sys) :
  msg + 8 <= lo r \/ hi r <= msg -> round_ready r c ->
  exists c', test_fn n c = Ok (tt, c') /\ user_step stack_use r c c' /\
    forall m, for_each (replicate n [MSG]) println (console_at m (console (os (sys c)))) =
      Ok (tt, console_at m (console (os (sys c')))).
Proof.
  intros Hsep. revert c. induction n as [|n IH]; intros c Hc.
  - exists c. split; [reflexivity|]. split; [exact (user_step_refl r c (rr_running _ _ Hc))|reflexivity].
  - destruct (test_fn_round r c Hsep Hc) as (c1 & E1 & U1 & H1 & P1).
    destruct (IH c1 H1) as (c' & E' & U' & P').
    exists c'. split; [exact (eq_trans (test_fn_S n c c1 E1) E')|]. split; [exact (user_step_trans r c c1 c' U1 U')|].
    intros m. exact (println_S n _ _ _ (P1 m) (P' m)).
Qed.

End Demo.

(** * Properties *)

(** C4: the processes run in turns for ever.  Let a list of at least two processes, the running one
    first, be in the memory [mem_of] gives them.  Whatever the running process does to its registers and
    its own stack between ticks, its system calls included, and however long, every timer tick returns (it neither panics nor
    hangs), and after [n] ticks the [n]-th process of the list, modulo its length, runs: each process
    gets every [length ts]-th turn. *)
Theorem processes_take_turns `{P : Profile} `{A : Abi} {H KeyCode KB : Type} (stack_use : Z)
    `{AL : !AbiLaws stack_use} (alloc : Z -> Z -> H -> option (Z * H)) (idle : Z) (mem_of : Task -> region)
    (c0 : Cpu (Sys H KeyCode KB)) (ts : list Task) (n : nat) (c : Cpu (Sys H KeyCode KB))
    (H0 : slicing stack_use mem_of c0 ts) (Hl : (2 <= length ts)%nat)
    (He : exec stack_use alloc idle mem_of c0 n c) :
  task (kern (sys c)) = ts !! (n mod length ts)%nat /\
  exists c', timer_tick alloc idle c = Ok (tt, c') /\ task (kern (sys c')) = ts !! (S n mod length ts)%nat.
Proof.
  assert (forall n c, exec stack_use alloc idle mem_of c0 n c ->
    task (kern (sys c)) = ts !! (n mod length ts)%nat /\ exists c', timer_tick alloc idle c = Ok (tt, c')) as Hex.
  { clear n c He. intros n c He. pose proof (exec_slicing _ _ _ _ _ _ _ _ H0 Hl He) as Hs.
    destruct (turn n ts) as [|t rest] eqn:Et; [by destruct Hs as (? & ? & ? & _)|].
    assert (rest <> []) as Hne.
    { intros ->. apply (f_equal length) in Et. rewrite length_turn in Et. simpl in Et. lia. }
    split; [|by destruct (slicing_tick _ alloc idle _ _ _ _ Hs Hne) as (c' & E & _); exists c'].
    rewrite (slicing_task _ _ _ _ _ Hs). symmetry. by apply turn_head with rest. }
  destruct (Hex n c He) as [Ht (c' & E)]. split; [exact Ht|]. exists c'. split; [exact E|].
  apply (Hex (S n) c'). by apply exec_tick with c.
Qed.

(** Two processes that share the memory of Context's examples. *)
Definition example_mem (t : Task) : region := if t.2 =? 0x20000 then region1 else region2.

Lemma processes_take_turns_witness :
  task (kern (sys running_cpu)) = Some task1 /\
  exists c', @timer_tick dev_profile _ Z bool unit bump 0x9000 running_cpu = Ok (tt, c') /\
    task (kern (sys c')) = Some task2.
Proof.
  apply (@processes_take_turns dev_profile _ Z bool unit 256 _ bump 0x9000 example_mem running_cpu
    [task1; task2] 0 running_cpu).
  - exists task1, [(task2, context2)]. split; [reflexivity|exact running_cpu_inv].
  - simpl. lia.
  - apply exec_start.
Defined.

(** What the first process does.  While it runs, [n] rounds of [test_fn]'s loop return: each is a
    [write] system call that is accepted, so that the console is the one [n] direct
    [println!("TESTeee!")] would leave; and they are steps of the process in the sense of
    [processes_take_turns] (they keep to the process' stack, the scheduler and the APIC are ready for the
    next tick), so the other processes are as they were suspended. *)
Theorem test_fn_prints_each_round `{P : Profile} `{A : Abi} {H KeyCode KB : Type} (stack_use : Z)
    `{AL : !AbiLaws stack_use} (frame msg : Z) (n : nat) (c : Cpu (Sys H KeyCode KB)) (t : Task) (r : region)
    (q : list (Task * region * list Z)) (Hinv : machine_inv stack_use c (t, r) q) (Hfr : 0 <= frame)
    (Hmsg : fits 64 msg) (Hsep : msg + 8 <= lo r \/ hi r <= msg)
    (Hsp : lo r + stack_use + frame + 192 <= rsp c) (Ht : str_bytes (memory (kern (sys c))) msg 8 = MSG)
    (Hc : console_free (console (os (sys c)))) :
  exists c', test_fn frame msg n c = Ok (tt, c') /\ user_step stack_use r c c' /\
    machine_inv stack_use c' (t, r) q /\
    forall m, for_each (replicate n [MSG]) println (console_at m (console (os (sys c)))) =
      Ok (tt, console_at m (console (os (sys c')))).
Proof.
  destruct (test_fn_rounds stack_use frame msg Hfr Hmsg n r c Hsep) as (c' & E & U & Pr).
  { split; [exact (mi_running _ _ _ _ Hinv)|split; [exact (proj1 (proj1 (mi_wf _ _ _ _ Hinv)))|exact Hsp]
      |exact Ht|exact Hc|exact (mi_apic _ _ _ _ Hinv)]. }
  exists c'. split; [exact E|]. split; [exact U|]. split; [|exact Pr].
  exact (user_step_inv stack_use c c' (t, r) q Hinv U).
Qed.

(** The machine of Context's examples with the text of the process at 0x40000. *)
Definition msg_mem : mem := fun x => default (two_stacks x) (if 0x40000 <=? x then MSG !! Z.to_nat (x - 0x40000) else None).

Definition printing_cpu : Cpu (Sys Z bool unit) :=
  set_sys (MkSys (set_memory msg_mem (kern (sys running_cpu))) (os (sys running_cpu))) running_cpu.

Lemma printing_cpu_inv : machine_inv 256 printing_cpu (task1, region1) [(task2, region2, context2)].
Proof.
  destruct running_cpu_inv as [Hu Ht Hq Ha Hs Hw Hp Hr Hsv]. split; try assumption.
  apply Forall_singleton. apply (saved_ext 256 two_stacks); [|exact (Forall_inv Hsv)].
  intros x Hx. simpl in Hx. change (msg_mem x = two_stacks x). unfold msg_mem.
  destruct (Z.leb_spec 0x40000 x); [lia|reflexivity].
Qed.

Lemma test_fn_prints_each_round_witness :
  exists c', @test_fn release_profile _ Z bool unit 120 0x40000 5 printing_cpu = Ok (tt, c') /\
    machine_inv 256 c' (task1, region1) [(task2, region2, context2)].
Proof.
  destruct (@test_fn_prints_each_round release_profile _ Z bool unit 256 _ 120 0x40000 5 printing_cpu task1 region1
    [(task2, region2, context2)] printing_cpu_inv) as (c' & E & _ & Hi & _).
  - discriminate.
  - split; [discriminate|reflexivity].
  - right. discriminate.
  - discriminate.
  - reflexivity.
  - split; [reflexivity|]. split; [reflexivity|]. exact clear_writer_wf.
  - exists c'. split; [exact E|exact Hi].
Defined.

Section FromPowerOn.
Context `{P : Profile} `{ABI : Abi} `{ST : SegmentTable T} `{A : AddrOps} `{AL : !AddrLaws}.
Context {RT : Type} `{RD : EqDecision RT} (Usable : RT) {X E H KeyCode KB KeyEvent : Type}.
Context `{MP : !Mapper X (BootInfoFrameAllocator RT) E} `{HH : Heap H} `{KD : EqDecision KeyCode}.
Variables (stack_ist stack_rsp0 cr3_frame : Z) (offset_page_table_new : Z -> Z -> X).
Variable alloc : Z -> Z -> H -> option (Z * H).
Variable add_byte : KB -> Z -> KB * option (option KeyEvent).
Variable process_keyevent : KB -> KeyEvent -> KB * option (DecodedKey KeyCode).
Variables (device : list io_event -> Z -> Z) (cr2_text code_text frame_text : list Z).
Variables (run_apic run_syscall : M (OS KeyCode KB) unit) (xapic_base : Z).
Variables (Backspace : KeyCode) (key_debug : KeyCode -> list Z) (idle test_fn test_fn_hello : Z).
Context (translate : X -> Z -> option (Z * Z)) `{ML : !MapperLaws Usable translate}.
Variable stack_use : Z.
Context `{AB : !AbiLaws stack_use}.
Variable top : H -> Z.
Context `{HA : !Ascending alloc top (HEAP_START + HEAP_SIZE)}.
Variables (screen : list (list ScreenChar)) (cpu : Machine) (m : mem) (kb : KB) (arr : list Z) (cs0 : Z).
Variables (map : list (MemoryRegion RT)) (offset : Z) (n : nat).

(** The timer as [init_apic] leaves it can be restarted. *)
Lemma calibrated_apic (o : OS KeyCode KB) :
  pit_reading device (io cpu ++ calibration_io) < 65535 -> is_Some (LAPIC o) ->
  APIC_TIMER_FREQUENCY o = 65535 / (65535 - pit_reading device (io cpu ++ calibration_io)) * PIT_DIVIDEND ->
  apic_ready o.
Proof.
  intros He Hl Hf. destruct (frequency_bounds device cpu He) as [F1 F2].
  unfold apic_ready. rewrite Hf. split; [exact Hl|]. split; [|done]. unfold SCHEDULER_TIMER_DELAY in F1.
  set (f := 65535 / _ * _) in *. pose proof (Z.div_mod f 1000000 ltac:(lia)).
  pose proof (Z.mod_pos_bound f 1000000 ltac:(lia)). lia.
Qed.

Lemma booted_apic (b : Boot T X H KeyCode KB) :
  pit_reading device (io cpu ++ calibration_io) < 65535 ->
  booted device Backspace key_debug translate screen cpu b -> apic_ready (os (bsys b)).
Proof.
  intros He Hb. destruct (booted_timer _ _ _ _ _ _ _ Hb) as [log Hl].
  apply calibrated_apic; [exact He|by rewrite Hl; eexists|exact (booted_frequency _ _ _ _ _ _ _ Hb)].
Qed.

(** A process in the heap. *)
Definition in_heap (r : region) : Prop :=
  HEAP_START <= lo r /\ hi r = lo r + 4112 /\ hi r <= HEAP_START + HEAP_SIZE /\
  HEAP_START <= slot r /\ slot r + 48 <= HEAP_START + HEAP_SIZE.

(** The machine that waits in [kernel_main]: [blo .. bhi] is the boot stack. *)
Lemma starting_after_boot (c : Cpu (Sys H KeyCode KB)) m' mk (hp : H) o v p1 p2 ks1 ks2 ws1 ws2 blo bhi :
  sys c = MkSys (set_memory m' (MkKernel (mutex_new (MkRR [(Process_new 1 Runnable, p1); (Process_new 2 Runnable, p2)] 2))
                   None None false (Some v) mk hp)) o ->
  apic_ready o ->
  (forall x, HEAP_START <= x < HEAP_START + HEAP_SIZE -> m' x = mk x) ->
  HEAP_START <= v /\ v + 48 <= ks1 /\ ks1 + 4112 <= p1 /\ p1 + 48 <= ks2 /\ ks2 + 4112 <= p2 /\
    p2 + 48 <= HEAP_START + HEAP_SIZE ->
  saved stack_use mk (Region ks1 (ks1 + 4112) p1) ws1 -> saved stack_use mk (Region ks2 (ks2 + 4112) p2) ws2 ->
  0 <= blo -> bhi < 2 ^ 64 -> bhi <= HEAP_START \/ HEAP_START + HEAP_SIZE <= blo ->
  cpu_wf c -> blo + stack_use + 192 <= rsp c <= bhi ->
  starting stack_use c (Region blo bhi v)
    [((Process_new 2 Runnable, p2), Region ks2 (ks2 + 4112) p2, ws2);
     ((Process_new 1 Runnable, p1), Region ks1 (ks1 + 4112) p1, ws1)].
Proof.
  intros Hsys Hap Hm' Hb S1 S2 Hblo Hbhi Hbs Hwf Hsp.
  unfold HEAP_START, HEAP_SIZE in *. change (2 ^ 64) with 18446744073709551616 in *.
  split; rewrite ?Hsys; cbn [kern os].
  - by split.
  - done.
  - done.
  - done.
  - by repeat constructor.
  - split; [|apply Forall_cons; split; [|apply Forall_singleton]]; unfold region_wf; simpl; lia.
  - cbn [pairwise fmap list_fmap fst snd]. split_and!; repeat (apply Forall_cons; split); try apply Forall_nil;
      try done; unfold apart; simpl; lia.
  - by split.
  - apply Forall_cons; split; [|apply Forall_cons; split; [|by apply Forall_nil]]; cbn [fst snd].
    + apply (saved_ext stack_use mk); [|exact S2]. intros x Hx. simpl in Hx. apply Hm'. lia.
    + apply (saved_ext stack_use mk); [|exact S1]. intros x Hx. simpl in Hx. apply Hm'. lia.
Qed.

Abbreviation startup :=
  (kernel_startup Usable stack_ist stack_rsp0 cr3_frame offset_page_table_new alloc add_byte process_keyevent
     device cr2_text code_text frame_text run_apic run_syscall xapic_base None Backspace key_debug idle test_fn
     test_fn_hello map offset).
Abbreviation arriving0 := (replicate n (as_u8 Timer) ++ as_u8 ApicTimer :: arr).

(** The scheduler's statics after [start_proc] has run twice: the processes [t1] and [t2] queued, in the
    regions [r1] and [r2] of the heap, suspended at their entries. *)
Definition two_processes (k : Kernel H) (t1 t2 : Task) (r1 r2 : region) (ss1 ss2 : Z) : Prop :=
  exists v p1 p2 ks1 ks2,
    k = MkKernel (mutex_new (MkRR [(Process_new 1 Runnable, p1); (Process_new 2 Runnable, p2)] 2)) None None
          false (Some v) (memory k) (heap k) /\
    (HEAP_START <= v /\ v + 48 <= ks1 /\ ks1 + 4112 <= p1 /\ p1 + 48 <= ks2 /\ ks2 + 4112 <= p2 /\
     p2 + 48 <= HEAP_START + HEAP_SIZE) /\
    t1 = (Process_new 1 Runnable, p1) /\ t2 = (Process_new 2 Runnable, p2) /\
    r1 = Region ks1 (ks1 + 4112) p1 /\ r2 = Region ks2 (ks2 + 4112) p2 /\
    saved stack_use (memory k) r1 (initial_context (ks1 + 4096) test_fn ss1) /\
    saved stack_use (memory k) r2 (initial_context (ks2 + 4096) test_fn_hello ss2).

Lemma two_processes_heap k t1 t2 r1 r2 ss1 ss2 : two_processes k t1 t2 r1 r2 ss1 ss2 -> in_heap r1 /\ in_heap r2.
Proof.
  intros (v & p1 & p2 & ks1 & ks2 & _ & Hb & _ & _ & -> & -> & _). unfold in_heap. cbn [lo hi slot]. split; lia.
Qed.

(** The first tick, wherever in [kernel_main] it comes once the processes have been started: on a stack
    [blo .. bhi] outside the heap, with the memory outside the heap being whatever the boot code left. *)
Lemma first_tick_enters k t1 t2 r1 r2 ss1 ss2 o (c : Cpu (Sys H KeyCode KB)) m' blo bhi :
  two_processes k t1 t2 r1 r2 ss1 ss2 -> apic_ready o ->
  sys c = MkSys (set_memory m' k) o ->
  (forall x, HEAP_START <= x < HEAP_START + HEAP_SIZE -> m' x = memory k x) ->
  0 <= blo -> bhi < 2 ^ 64 -> bhi <= HEAP_START \/ HEAP_START + HEAP_SIZE <= blo ->
  cpu_wf c -> blo + stack_use + 192 <= rsp c <= bhi ->
  exists c1, timer_tick alloc idle c = Ok (tt, c1) /\
    context c1 = initial_context (hi r2 - 16) test_fn_hello ss2 /\
    machine_inv stack_use c1 (t2, r2) [(t1, r1, initial_context (hi r1 - 16) test_fn ss1)] /\
    apic_only o (os (sys c1)) /\
    (forall x, ~ (blo <= x < bhi) -> ~ (HEAP_START <= x < HEAP_START + HEAP_SIZE) ->
       memory (kern (sys c1)) x = m' x).
Proof.
  intros (v & p1 & p2 & ks1 & ks2 & Hk & Hb & -> & -> & -> & -> & S1 & S2) Hap Hsys Hm' Hblo Hbhi Hbs Hwf Hsp.
  cbn [hi]. destruct (first_tick_inv stack_use alloc idle c (Region blo bhi v) (Process_new 2 Runnable, p2)
    (Region ks2 (ks2 + 4112) p2) (initial_context (ks2 + 4096) test_fn_hello ss2)
    [((Process_new 1 Runnable, p1), Region ks1 (ks1 + 4112) p1, initial_context (ks1 + 4096) test_fn ss1)])
    as (c1 & E1 & Hctx & Hinv & Hfr & Hcon).
  { apply (starting_after_boot c m' (memory k) (heap k) o); try done. by rewrite Hsys, Hk. }
  rewrite Hsys in Hfr, Hcon. cbn [kern os memory set_memory] in Hfr, Hcon.
  exists c1. replace (ks2 + 4112 - 16) with (ks2 + 4096) by lia.
  replace (ks1 + 4112 - 16) with (ks1 + 4096) by lia. split_and!; [done..|].
  intros x Hx1 Hx2. apply Hfr. unfold footprint. cbn [lo hi slot]. lia.
Qed.

(** From power-on to the started processes, on a heap that is initialised empty and allocates upwards. *)
Lemma processes_started (Hheap : top (heap_init HEAP_START HEAP_SIZE heap_empty m).1 = HEAP_START)
    (Hsu : stack_use + 192 <= 4096) (Hf1 : fits 64 test_fn) (Hf2 : fits 64 test_fn_hello) :
  exists k1 k2 k3 v p1 p2 t1 t2 r1 r2 ss1 ss2,
    let '(h, m') := heap_init HEAP_START HEAP_SIZE heap_empty m in
    sched_init alloc idle (kernel_boot m' h) = Ok (tt, k1) /\
    start_proc alloc test_fn true k1 = Ok (tt, k2) /\ start_proc alloc test_fn_hello true k2 = Ok (tt, k3) /\
    scheduler k3 = mutex_new (MkRR [(Process_new 1 Runnable, p1); (Process_new 2 Runnable, p2)] 2) /\
    task k3 = None /\ init_flag k3 = false /\ void_task k3 = Some v /\
    two_processes k3 t1 t2 r1 r2 ss1 ss2.
Proof.
  destruct (heap_init HEAP_START HEAP_SIZE heap_empty m) as [h mh] eqn:Eh. simpl in Hheap.
  destruct (processes_asc stack_use alloc top (HEAP_START + HEAP_SIZE) ltac:(done) idle test_fn test_fn_hello mh h)
    as (k1 & k2 & k3 & v & p1 & p2 & ks1 & ks2 & ss1 & ss2 & K1 & K2 & K3 & Hk3 & Hb & S1 & S2);
    [done|done|done|rewrite Hheap; done|rewrite Hheap; done|].
  rewrite Hheap in Hb.
  exists k1, k2, k3, v, p1, p2, (Process_new 1 Runnable, p1), (Process_new 2 Runnable, p2),
    (Region ks1 (ks1 + 4112) p1), (Region ks2 (ks2 + 4112) p2), ss1, ss2.
  split_and!; [exact K1|exact K2|exact K3|by rewrite Hk3|by rewrite Hk3|by rewrite Hk3|by rewrite Hk3|].
  exists v, p1, p2, ks1, ks2. split; [exact Hk3|]. split; [exact Hb|]. do 4 (split; [reflexivity|]). by split.
Qed.

(** From power-on to the first process.  Under the conditions of [kernel_boots], and with a heap
    that is initialised empty and allocates upwards, [kernel_main] starts its two processes in memory of
    their own; and when, in the wait that follows, the timer interrupts the boot code (on a stack
    outside the heap, the memory outside the heap being whatever the boot code left), the tick returns
    into the entry of [test_fn_hello], with [test_fn] suspended at its entry, in the state from which
    the processes take turns.  The boot context is never resumed. *)
Theorem boot_reaches_processes
    (Hscreen : writer_wf (WRITER_init screen)) (Hm : Forall region_ok map)
    (Hd : pairwise regions_disjoint map) (Hoff : 0 <= offset) (Hcr3 : 0 <= cr3_frame)
    (Hvirt : offset + cr3_frame < 2 ^ 47)
    (Hn : 1000 <= Z.of_nat (length (frame_addresses Usable map)) < 2 ^ 64)
    (Hfree : Forall (fun p => translate (offset_page_table_new (offset + cr3_frame) offset) p = None) heap_pages)
    (Hbase : fits 64 (offset + xapic_base)) (He : pit_reading device (io cpu ++ calibration_io) < 65535)
    (Hheap : top (heap_init HEAP_START HEAP_SIZE heap_empty m).1 = HEAP_START)
    (Hsu : stack_use + 192 <= 4096) (Hf1 : fits 64 test_fn) (Hf2 : fits 64 test_fn_hello) :
  exists b t1 t2 r1 r2 ss1 ss2,
    startup (power_on screen cpu m kb arriving0 cs0) = Ok (tt, b) /\
    booted device Backspace key_debug translate screen cpu b /\ in_heap r1 /\ in_heap r2 /\
    forall c m' blo bhi,
      sys c = MkSys (set_memory m' (kern (bsys b))) (os (bsys b)) ->
      (forall x, HEAP_START <= x < HEAP_START + HEAP_SIZE -> m' x = memory (kern (bsys b)) x) ->
      0 <= blo -> bhi < 2 ^ 64 -> bhi <= HEAP_START \/ HEAP_START + HEAP_SIZE <= blo ->
      cpu_wf c -> blo + stack_use + 192 <= rsp c <= bhi ->
      exists c1, timer_tick alloc idle c = Ok (tt, c1) /\
        context c1 = initial_context (hi r2 - 16) test_fn_hello ss2 /\
        machine_inv stack_use c1 (t2, r2) [(t1, r1, initial_context (hi r1 - 16) test_fn ss1)] /\
        apic_only (os (bsys b)) (os (sys c1)) /\
        (forall x, ~ (blo <= x < bhi) -> ~ (HEAP_START <= x < HEAP_START + HEAP_SIZE) ->
           memory (kern (sys c1)) x = m' x).
Proof.
  destruct (processes_started Hheap Hsu Hf1 Hf2) as (k1 & k2 & k3 & v & p1 & p2 & t1 & t2 & r1 & r2 & ss1 & ss2 & Hp).
  pose proof (kernel_startup_run (E := E) Usable stack_ist stack_rsp0 cr3_frame offset_page_table_new alloc add_byte
    process_keyevent device cr2_text code_text frame_text run_apic run_syscall xapic_base None Backspace key_debug
    idle test_fn test_fn_hello translate screen cpu m kb arr cs0 map offset n Hscreen Hm Hd Hoff Hcr3 Hvirt Hn
    Hfree Hbase eq_refl k1 k2 k3 v p1 p2) as Hst.
  destruct (heap_init HEAP_START HEAP_SIZE heap_empty m) as [h mh].
  destruct Hp as (K1 & K2 & K3 & Hk1 & Hk2 & Hk3 & Hk4 & Htwo).
  destruct (Hst K1 K2 K3 Hk1 Hk2 Hk3 Hk4 He) as (b & Eb & Hbt & Hbk). clear Hst.
  destruct (two_processes_heap _ _ _ _ _ _ _ Htwo) as [Hr1 Hr2].
  exists b, t1, t2, r1, r2, ss1, ss2. split; [exact Eb|]. split; [exact Hbt|]. split; [exact Hr1|]. split; [exact Hr2|].
  intros c m' blo bhi. rewrite Hbk. apply (first_tick_enters k3 t1 t2 r1 r2 ss1 ss2 (os (bsys b)) c m' blo bhi Htwo).
  exact (booted_apic b He Hbt).
Qed.

End FromPowerOn.

(** An allocator that goes upwards, for the witness. *)
Definition rising_alloc (n _ : Z) (h : bump_heap) : option (Z * bump_heap) :=
  Some (bump_next h, MkBump (bump_next h + n) (bump_end h)).

#[export] Instance rising_alloc_ascending : Ascending rising_alloc bump_next (HEAP_START + HEAP_SIZE).
Proof. intros n a h Hn Ha Hr. eexists _, _. split; [reflexivity|]. simpl. lia. Qed.

Lemma boot_reaches_processes_witness :
  exists b c c1, kernel_startup (P := dev_profile) (T := list Descriptor) (RT := bool) true (X := tables)
      (E := string) (H := bump_heap) 0x1000 0x8000 0x1000 (fun _ _ _ => None) rising_alloc plain_add_byte
      plain_keyevent (fun _ _ => 0xf0) [] [] [] (ret tt) (ret tt) 0xfee00000 None true (fun _ => []) 0x7000 0x7100
      0x7200 small_map 0x200000000000
      (power_on spaces (MkMachine 2 []) (fun _ => 0) tt (replicate 2 (as_u8 Timer) ++ [as_u8 ApicTimer]) 8) =
      Ok (tt, b) /\
    sys c = bsys b /\ timer_tick (P := dev_profile) rising_alloc 0x7000 c = Ok (tt, c1) /\ rip c1 = 0x7200.
Proof.
  destruct (@boot_reaches_processes dev_profile _ (list Descriptor) _ _ _ bool _ true tables string bump_heap bool
    unit Z _ _ _ 0x1000 0x8000 0x1000 (fun _ _ _ => None) rising_alloc plain_add_byte plain_keyevent
    (fun _ _ => 0xf0) [] [] [] (ret tt) (ret tt) 0xfee00000 true (fun _ => []) 0x7000 0x7100 0x7200 (fun x => x) _
    256 _ bump_next _ spaces (MkMachine 2 []) (fun _ => 0) tt [] 8 small_map 0x200000000000 2 clear_writer_wf
    small_map_ok small_map_disjoint ltac:(discriminate) ltac:(discriminate) ltac:(reflexivity)
    ltac:(vm_compute; split; [discriminate|reflexivity]) ltac:(apply Forall_forall; reflexivity)
    ltac:(split; [discriminate|reflexivity]) ltac:(vm_compute; reflexivity) ltac:(reflexivity)
    ltac:(discriminate) ltac:(split; [discriminate|reflexivity]) ltac:(split; [discriminate|reflexivity]))
    as (b & t1 & t2 & r1 & r2 & ss1 & ss2 & Eb & _ & _ & _ & Hc).
  set (c := MkCpu (fun _ => 0) 0x1000000 0x5000 8 0x202 0 0 (bsys b)).
  destruct (Hc c (memory (kern (bsys b))) 0xf00000 0x1000000) as (c1 & E1 & Hctx & _).
  - exact (sys_memory (bsys b)).
  - reflexivity.
  - discriminate.
  - reflexivity.
  - left. discriminate.
  - unfold cpu_wf, context, fits. simpl. repeat (apply Forall_cons; split; [lia|]). by apply Forall_nil.
  - simpl. lia.
  - exists b, c, c1. split; [exact Eb|]. split; [reflexivity|]. split; [exact E1|].
    apply (f_equal (fun l => l !! 15%nat)) in Hctx. by injection Hctx.
Defined.
