(* ===== verification/Preempt.v ===== *)
(** * Interrupts between the steps of kernel code

    Elsewhere kernel code runs undisturbed from its first step to its last.  Here the code that shares
    locks with interrupt handlers is a sequence of steps between which interrupts arrive whenever the
    interrupt flag is set: [print!] (src/src/print.rs), [Shell::init] as [kernel_main] calls it
    (src/src/shell.rs, src/src/main.rs) and [start_proc] (src/src/scheduler.rs).  Each has the run of the
    definition of its component when no interrupt arrives.  [print!] is atomic because of
    [without_interrupts]; the two others, which take their locks with interrupts on, can deadlock. *)

From S2P Require Import Prelude Mem Arch Vga Shell Sched Events Interrupts Cpu Context.

(** Code as the steps between which an interrupt can arrive. *)
Inductive code (S A : Type) : Type :=
  | Done (a : A)
  | Step {B : Type} (m : M S B) (k : B -> code S A).
Arguments Done {S A} a.
Arguments Step {S A B} m k.

(** Its uninterrupted run. *)
Fixpoint run {S A} (p : code S A) : M S A :=
  match p with
  | Done a => ret a
  | Step m k => let! b := m in run (k b)
  end.

Fixpoint then_code {S A B} (p : code S A) (f : A -> code S B) : code S B :=
  match p with
  | Done a => f a
  | Step m k => Step m (fun b => then_code (k b) f)
  end.

Fixpoint zoom_code {S T A} (l : lens S T) (p : code T A) : code S A :=
  match p with
  | Done a => Done a
  | Step m k => Step (zoom l m) (fun b => zoom_code l (k b))
  end.

Fixpoint for_each_code {S A} (xs : list A) (body : A -> code S unit) : code S unit :=
  match xs with
  | [] => Done tt
  | x :: xs => then_code (body x) (fun _ => for_each_code xs body)
  end.

(** [spin::Mutex::lock], and the drop of its guard. *)
Definition acquire {S A} (l : lens S (mutex A)) : M S unit := fun s =>
  if locked (view l s) then Hang else Ok (tt, update l (Mutex true (inner (view l s))) s).
Definition release {S A} (l : lens S (mutex A)) : M S unit :=
  modify (fun s => update l (Mutex false (inner (view l s))) s).

Definition with_lock_code {S A B} (l : lens S (mutex A)) (body : code S B) : code S B :=
  Step (acquire l) (fun _ => then_code body (fun r => Step (release l) (fun _ => Done r))).

Definition without_interrupts_code {S} `{HM : HasMachine S} {R} (f : code S R) : code S R :=
  Step is_interrupts_enabled (fun enabled =>
    if enabled : bool
    then Step disable_interrupts (fun _ =>
           then_code f (fun result => Step enable_interrupts (fun _ => Done result)))
    else f).

(** ** Interrupts *)

(** What follows a computation that has come to [x]. *)
Definition andthen {T R} (x : res T) (f : T -> res R -> Prop) (r : res R) : Prop :=
  match x with
  | Ok v => f v r
  | Panic e => r = Panic e
  | Hang => r = Hang
  end.

Section Interruptible.
Context {S : Type}.
(** Whether interrupts are taken in a state, and the handlers of those that may arrive. *)
Variable on : S -> bool.
Variable irq : M S unit -> Prop.

(** Interrupts arrive in the state [s], any number of them: each handler runs to its end before the next
    interrupt, or the interrupted code, goes on. *)
Inductive irqs : S -> res S -> Prop :=
  | irqs_none s : irqs s (Ok s)
  | irqs_one h s s' x : on s = true -> irq h -> h s = Ok (tt, s') -> irqs s' x -> irqs s x
  | irqs_panic h s e : on s = true -> irq h -> h s = Panic e -> irqs s (Panic e)
  | irqs_hang h s : on s = true -> irq h -> h s = Hang -> irqs s Hang.

(** [exec p s r]: run from [s] with interrupts arriving before, between and after its steps, [p] can
    come to [r]. *)
Fixpoint exec {A} (p : code S A) (s : S) (r : res (A * S)) : Prop :=
  exists x, irqs s x /\
    match p with
    | Done a => r = res_bind x (fun s => Ok (a, s))
    | Step m k => andthen x (fun s => andthen (m s) (fun b => exec (k b.1) b.2)) r
    end.

(** ** Lemmas *)

Lemma andthen_impl {T R} (x : res T) (f g : T -> res R -> Prop) r :
  (forall v, x = Ok v -> f v r -> g v r) -> andthen x f r -> andthen x g r.
Proof. destruct x; simpl; eauto. Qed.

Lemma irqs_trans s s' x : irqs s (Ok s') -> irqs s' x -> irqs s x.
Proof.
  intros H. remember (Ok s') as y eqn:Ey. revert s' Ey.
  induction H; intros t Ey Hx; try discriminate; [by injection Ey as ->|].
  eapply irqs_one; eauto.
Qed.

Lemma irqs_off s x : on s = false -> irqs s x -> x = Ok s.
Proof. intros Hoff H. destruct H; congruence. Qed.

Lemma irqs_exec {A} (p : code S A) s s' r : irqs s (Ok s') -> exec p s' r -> exec p s r.
Proof. destruct p; intros H (x & Hx & E); exists x; split; eauto using irqs_trans. Qed.

Lemma irqs_exec_panic {A} (p : code S A) s e : irqs s (Panic e) -> exec p s (Panic e).
Proof. destruct p; intros H; eexists; split; [exact H|done|exact H|done]. Qed.

Lemma irqs_exec_hang {A} (p : code S A) s : irqs s Hang -> exec p s Hang.
Proof. destruct p; intros H; eexists; split; [exact H|done|exact H|done]. Qed.

(** Without an interrupt the code runs as [run] says. *)
Lemma run_exec {A} (p : code S A) s : exec p s (run p s).
Proof.
  revert s. induction p as [a|B m k IH]; intros s; exists (Ok s); split; try constructor.
  simpl. unfold bind. destruct (m s) as [[b s']| |]; simpl; [apply IH|done..].
Qed.

Lemma exec_then {A B} (p : code S A) (f : A -> code S B) s r :
  exec (then_code p f) s r <-> exists y, exec p s y /\ andthen y (fun v => exec (f v.1) v.2) r.
Proof.
  revert s r. induction p as [a|C m k IH]; intros s r; split.
  - intros H. exists (Ok (a, s)). split; [|exact H]. exists (Ok s). split; [constructor|done].
  - intros (y & (x & Hx & ->) & H). destruct x; simpl in H.
    + by eapply irqs_exec.
    + subst r. by apply irqs_exec_panic.
    + subst r. by apply irqs_exec_hang.
  - intros (x & Hx & H). destruct x as [s1|e|]; simpl in H.
    + destruct (m s1) as [[b s2]|e|] eqn:Em; simpl in H.
      * apply IH in H as (y & Hy & H). exists y. split; [|done]. exists (Ok s1). split; [done|]. simpl. by rewrite Em.
      * exists (Panic e). split; [|done]. exists (Ok s1). split; [done|]. simpl. by rewrite Em.
      * exists Hang. split; [|done]. exists (Ok s1). split; [done|]. simpl. by rewrite Em.
    + exists (Panic e). split; [|done]. by apply (irqs_exec_panic (Step m k)).
    + exists Hang. split; [|done]. by apply (irqs_exec_hang (Step m k)).
  - intros (y & (x & Hx & Hy) & H). exists x. split; [done|]. destruct x as [s1|e|]; simpl in Hy |- *.
    + destruct (m s1) as [[b s2]|e|]; simpl in Hy |- *.
      * apply IH. by exists y.
      * by subst y.
      * by subst y.
    + by subst y.
    + by subst y.
Qed.

(** Steps that leave interrupts off when they are. *)
Definition masked_step {B} (m : M S B) : Prop :=
  forall s b s', on s = false -> m s = Ok (b, s') -> on s' = false.
Fixpoint masked {A} (p : code S A) : Prop :=
  match p with
  | Done _ => True
  | Step m k => masked_step m /\ forall b, masked (k b)
  end.

Lemma run_masked {A} (p : code S A) s a s' : masked p -> on s = false -> run p s = Ok (a, s') -> on s' = false.
Proof.
  revert s. induction p as [b|B m k IH]; intros s Hp Hs E; simpl in E; [by injection E as _ <-|].
  destruct Hp as [Hm Hk]. unfold bind in E. destruct (m s) as [[b s1]| |] eqn:Em; try discriminate. simpl in E.
  apply (IH b s1); [apply Hk|by eapply Hm|done].
Qed.

(** With interrupts off, masked code runs as if alone. *)
Lemma exec_masked {A} (p : code S A) s r : masked p -> on s = false -> exec p s r ->
  r = run p s.
Proof.
  revert s. induction p as [a|B m k IH]; intros s Hp Hs (x & Hx & E); rewrite (irqs_off _ _ Hs Hx) in E; simpl in E; [done|].
  destruct Hp as [Hm Hk]. simpl. unfold bind. destruct (m s) as [[b s1]|e|] eqn:Em; simpl in E |- *; [|done..].
  apply IH; [apply Hk|by eapply Hm|done].
Qed.

Lemma masked_then {A B} (p : code S A) (f : A -> code S B) :
  masked p -> (forall a, masked (f a)) -> masked (then_code p f).
Proof. intros Hp Hf. induction p as [a|C m k IH]; simpl in *; [apply Hf|]. destruct Hp. split; auto. Qed.

Lemma masked_for_each {A} (xs : list A) body : (forall x, masked (body x)) -> masked (for_each_code xs body).
Proof. intros Hb. induction xs; [done|]. simpl. by apply masked_then. Qed.
End Interruptible.

(** ** Runs of the combinators *)

Lemma run_then {S A B} (p : code S A) (f : A -> code S B) s :
  run (then_code p f) s = bind (run p) (fun a => run (f a)) s.
Proof.
  revert s. induction p as [a|C m k IH]; intros s; [done|]. simpl. unfold bind.
  destruct (m s) as [[b s1]| |]; simpl; [by rewrite IH|done..].
Qed.

Lemma run_zoom {S T A} (l : lens S T) `{!LensLaws l} (p : code T A) s :
  run (zoom_code l p) s = zoom l (run p) s.
Proof.
  revert s. induction p as [a|C m k IH]; intros s; simpl; unfold zoom, bind.
  - simpl. by rewrite update_view.
  - destruct (m (view l s)) as [[b t]| |]; simpl; [|done..]. rewrite IH. unfold zoom. rewrite view_update.
    destruct (run (k b) t) as [[a t']| |]; simpl; [by rewrite update_update|done..].
Qed.

Lemma run_for_each {S A} (xs : list A) (body : A -> code S unit) f s :
  (forall x s, run (body x) s = f x s) -> run (for_each_code xs body) s = for_each xs f s.
Proof.
  intros Hb. revert s. induction xs as [|x xs IH]; intros s; [done|]. simpl.
  rewrite run_then, for_each_cons. unfold bind. rewrite Hb. destruct (f x s) as [[[] s']| |]; simpl; [apply IH|done..].
Qed.

Lemma run_with_lock {S A B} (l : lens S (mutex A)) (p : code S B) f s :
  (forall s, run p s = f s) -> run (with_lock_code l p) s = with_lock l f s.
Proof.
  intros Hp. simpl. unfold bind at 1, acquire, with_lock. destruct (locked (view l s)); [done|]. simpl.
  rewrite run_then. unfold bind at 1. rewrite Hp. by destruct (f _) as [[b s']| |].
Qed.

Section Atomic.
Context {S : Type} `{HM : HasMachine S} `{LL : !LensLaws (machine (S:=S))}.
Abbreviation on := (interrupts_on (S:=S)).

Lemma run_without_interrupts {R} (p : code S R) f s :
  (forall s, run p s = f s) -> run (without_interrupts_code p) s = without_interrupts f s.
Proof.
  intros Hp. simpl. rewrite (bind_Ok _ _ _ _ _ (is_interrupts_enabled_run s)), without_interrupts_run.
  destruct (on s); [|apply Hp]. simpl. rewrite (bind_Ok _ _ _ _ _ (disable_interrupts_run s)), run_then.
  unfold bind at 1. rewrite Hp. by destruct (f _) as [[r s']| |].
Qed.

(** Handlers return with the interrupt flag they were entered with. *)
Variable irq : M S unit -> Prop.
Hypothesis Hirq : forall h s s', irq h -> h s = Ok (tt, s') -> on s' = on s.

Lemma irqs_flag s s' : irqs on irq s (Ok s') -> on s' = on s.
Proof.
  remember (Ok s') as y eqn:Ey. intros H. revert Ey.
  induction H as [t|h t t' x Hon Hh Et Hx IH| |]; intros Ey; try discriminate; [by injection Ey as ->|].
  rewrite IH by done. by eapply Hirq.
Qed.

(** The part of [without_interrupts] that runs with interrupts off. *)
Lemma exec_critical {R} (f : code S R) s r : masked on f -> on s = true ->
  exec on irq (Step disable_interrupts (fun _ =>
    then_code f (fun result => Step enable_interrupts (fun _ => Done result)))) s r <->
  exec on irq (Step (without_interrupts (run f)) (fun a => Done a)) s r.
Proof.
  intros Hf Hs. split; intros (x & Hx & E); exists x; (split; [exact Hx|]); destruct x as [s1|e|]; try exact E;
    pose proof (irqs_flag _ _ Hx) as H1; rewrite Hs in H1.
  - change (exec on irq (then_code f (fun result => Step enable_interrupts (fun _ => Done result)))
      (set_interrupts false s1) r) in E.
    apply exec_then in E as (y & Hy & E). apply exec_masked in Hy; [|done|apply interrupts_on_set].
    unfold andthen. rewrite without_interrupts_run, H1, <- Hy.
    destruct y as [[a s2]|e|]; cbn [res_bind andthen fst snd] in E |- *; [|exact E..].
    destruct E as (z & Hz & E). apply irqs_off in Hz as ->; [exact E|].
    by apply (run_masked _ _ _ _ _ Hf (interrupts_on_set _ _) (eq_sym Hy)).
  - unfold andthen in E. rewrite without_interrupts_run, H1 in E.
    change (exec on irq (then_code f (fun result => Step enable_interrupts (fun _ => Done result)))
      (set_interrupts false s1) r).
    apply exec_then. exists (run f (set_interrupts false s1)). split; [apply run_exec|].
    destruct (run f _) as [[a s2]|e|]; cbn [res_bind andthen fst snd] in E |- *; [|exact E..].
    exists (Ok s2). split; [constructor|exact E].
Qed.

(** [without_interrupts] is one step. *)
Lemma exec_without_interrupts {R} (f : code S R) s r : masked on f ->
  exec on irq (without_interrupts_code f) s r <->
  exec on irq (Step (without_interrupts (run f)) (fun a => Done a)) s r.
Proof.
  intros Hf. destruct (on s) eqn:Hs.
  - rewrite <- (exec_critical f s r Hf Hs). split.
    + intros (x & Hx & E). destruct x as [s1|e|]; cbn [andthen] in E; [|by exists (Panic e)|by exists Hang].
      rewrite is_interrupts_enabled_run, (irqs_flag _ _ Hx), Hs in E. by eapply irqs_exec.
    + intros E. exists (Ok s). split; [constructor|]. cbn [andthen].
      rewrite is_interrupts_enabled_run, Hs. exact E.
  - split; intros (x & Hx & E); exists x; (split; [exact Hx|]); apply irqs_off in Hx as ->; try done; cbn [andthen] in E |- *.
    + rewrite is_interrupts_enabled_run, Hs in E. apply exec_masked in E; [|done..]. subst r.
      rewrite without_interrupts_run, Hs. destruct (run f s) as [[a s1]|e|] eqn:Er; [|done..].
      exists (Ok s1). split; [constructor|done].
    + rewrite is_interrupts_enabled_run, Hs. rewrite without_interrupts_run, Hs in E.
      assert (r = run f s) as ->; [|apply run_exec].
      destruct (run f s) as [[a s1]|e|] eqn:Er; [|done..]. destruct E as (y & Hy & E).
      rewrite (irqs_off _ _ _ _ (run_masked _ _ _ _ _ Hf Hs Er) Hy) in E. done.
Qed.
End Atomic.

(** ** The code of the kernel *)

Section Kernel.
Context `{P : Profile} {KeyCode KB : Type}.
Abbreviation OS := (OS KeyCode KB).

(** [Shell::write], a character at a time. *)
Definition shell_write_code (text : list Z) : code Console unit :=
  with_lock_code WRITER (for_each_code text (fun char =>
    Step (if char =? 10 then newline
          else if printable char then wr (write_byte char)
          else wr (write_byte 0xfe)) Done)).

(** [print!]: the pieces one after the other, as [write_fmt] writes them, for [write_str] never fails
    ([print_pieces]). *)
Definition print_code (args : list (list Z)) : code OS unit :=
  without_interrupts_code (zoom_code CONSOLE (
    Step has_shell (fun has =>
      if has : bool then with_lock_code SHELL (for_each_code args shell_write_code)
      else with_lock_code WRITER (for_each_code args (fun piece => Step (wr (write_string piece)) Done))))).

(** [SHELL.lock().init()]. *)
Definition shell_init_code : code Console unit :=
  with_lock_code SHELL (with_lock_code WRITER (
    Step (wr is_current_row_clear) (fun clear =>
    Step (if negb clear then wr new_line else ret tt) (fun _ =>
    Step (sh (gets prompt)) (fun p =>
    Step (wr (write_colored_string p)) (fun _ =>
    Step (modify (update INITIALIZED true)) Done)))))).

(** *** Lemmas *)

Lemma run_step {S A} (m : M S A) s : run (Step m (fun a => Done a)) s = m s.
Proof. simpl. unfold bind, ret. by destruct (m s) as [[a s']| |]. Qed.

Lemma run_shell_write text s : run (shell_write_code text) s = shell_write text s.
Proof.
  apply run_with_lock. clear s. intros s. apply run_for_each. clear s. intros char s. apply run_step.
Qed.

Lemma without_interrupts_ext {S} `{HasMachine S} `{!LensLaws (machine (S:=S))} {R} (f g : M S R) s :
  (forall s, f s = g s) -> without_interrupts f s = without_interrupts g s.
Proof. intros E. rewrite !without_interrupts_run. by rewrite !E. Qed.

Lemma zoom_without_interrupts {R} (f : M Console R) (s : OS) :
  without_interrupts (zoom CONSOLE f) s = zoom CONSOLE (without_interrupts f) s.
Proof.
  rewrite without_interrupts_run. unfold zoom at 3. rewrite without_interrupts_run.
  change (interrupts_on s) with (interrupts_on (view CONSOLE s)). destruct (interrupts_on (view CONSOLE s)); [|done].
  unfold zoom. change (view CONSOLE (set_interrupts false s)) with (set_interrupts false (view CONSOLE s)).
  destruct (f _) as [[r c]| |]; [|done..]. reflexivity.
Qed.

Lemma run_print args (s : OS) : run (print_code args) s = zoom CONSOLE (print args) s.
Proof.
  rewrite (zoom_proper CONSOLE _ _ (print_pieces args) s). unfold print_code. rewrite <- zoom_without_interrupts. apply run_without_interrupts. clear s. intros s.
  rewrite run_zoom by apply _. unfold zoom. f_equal. cbn [run]. unfold bind, has_shell, gets. simpl.
  destruct (initialized (console s)).
  - apply run_with_lock. intros c. apply run_for_each. apply run_shell_write.
  - apply run_with_lock. intros c. apply run_for_each. intros piece c'. apply run_step.
Qed.

Lemma run_shell_init s : run shell_init_code s = with_lock SHELL shell_init s.
Proof.
  apply run_with_lock. clear s. intros s. apply run_with_lock. clear s. intros s. cbn [run].
  unfold bind, ret, modify. destruct (wr is_current_row_clear s) as [[clear s1]| |]; [|done..]. cbn [res_bind fst snd].
  destruct ((if negb clear then wr new_line else _) s1) as [[[] s2]| |]; [|done..]. cbn [res_bind fst snd].
  destruct (sh (gets prompt) s2) as [[p s3]| |]; [|done..]. cbn [res_bind fst snd].
  by destruct (wr (write_colored_string p) s3) as [[[] s4]| |].
Qed.
(** Code on the console that leaves the processor alone. *)
Definition keeps_cpu {B} (m : M Console B) : Prop :=
  forall c b c', m c = Ok (b, c') -> console_cpu c' = console_cpu c.

Lemma keeps_masked {B} (m : M Console B) : keeps_cpu m -> masked_step interrupts_on m.
Proof. intros Hm c b c' Hoff E. unfold interrupts_on. simpl. by rewrite (Hm _ _ _ E). Qed.

Lemma keeps_bind {A B} (m : M Console A) (k : A -> M Console B) :
  keeps_cpu m -> (forall a, keeps_cpu (k a)) -> keeps_cpu (bind m k).
Proof.
  intros Hm Hk c b c' E. unfold bind in E. destruct (m c) as [[a c1]| |] eqn:Em; try discriminate.
  rewrite (Hk _ _ _ _ E). exact (Hm _ _ _ Em).
Qed.

Lemma keeps_wr {B} (m : M Writer B) : keeps_cpu (wr m).
Proof.
  intros c b c' E. unfold wr, zoom in E. destruct (m _) as [[a w]| |]; try discriminate. by injection E as _ <-.
Qed.

Lemma keeps_sh {B} (m : M Shell B) : keeps_cpu (sh m).
Proof.
  intros c b c' E. unfold sh, zoom in E. destruct (m _) as [[a w]| |]; try discriminate. by injection E as _ <-.
Qed.

Lemma keeps_ret {B} (b : B) : keeps_cpu (ret b).
Proof. intros c b' c' E. by injection E as _ <-. Qed.

Lemma keeps_newline : keeps_cpu newline.
Proof.
  apply keeps_bind; [apply keeps_wr|]. intros _. apply keeps_bind; [|intros _; apply keeps_sh].
  apply keeps_bind; [apply keeps_sh|]. intros sh0. destruct (prompt_enabled sh0); [apply keeps_wr|apply keeps_ret].
Qed.

(** A lock of the console around masked code. *)
Lemma masked_lock {A B} (l : lens Console (mutex A)) (p : code Console B) :
  (forall x c, console_cpu (update l x c) = console_cpu c) -> masked interrupts_on p ->
  masked interrupts_on (with_lock_code l p).
Proof.
  intros Hl Hp. split.
  - apply keeps_masked. intros c b c' E. unfold acquire in E. destruct (locked _); try discriminate.
    injection E as _ <-. apply Hl.
  - intros _. apply masked_then; [done|]. intros r. split; [|done]. apply keeps_masked.
    intros c b c' E. injection E as _ <-. apply Hl.
Qed.

Lemma masked_shell_write text : masked interrupts_on (shell_write_code text).
Proof.
  apply masked_lock; [done|]. apply masked_for_each. intros char. split; [|done]. apply keeps_masked.
  destruct (char =? 10); [apply keeps_newline|]. destruct (printable char); apply keeps_wr.
Qed.

Lemma masked_zoom {A} (p : code Console A) :
  masked interrupts_on p -> masked (interrupts_on (S:=OS)) (zoom_code CONSOLE p).
Proof.
  induction p as [a|B m k IH]; [done|]. intros [Hm Hk]. split; [|intros b; apply IH, Hk].
  intros s b s' Hoff E. unfold zoom in E. destruct (m (view CONSOLE s)) as [[b1 c]| |] eqn:Em; try discriminate.
  injection E as _ <-. exact (Hm _ _ _ Hoff Em).
Qed.

Lemma masked_print args : masked (interrupts_on (S:=OS)) (zoom_code CONSOLE (
    Step has_shell (fun has =>
      if has : bool then with_lock_code SHELL (for_each_code args shell_write_code)
      else with_lock_code WRITER (for_each_code args (fun piece => Step (wr (write_string piece)) Done))))).
Proof.
  apply masked_zoom. split.
  - apply keeps_masked. intros c b c' E. by injection E as _ <-.
  - intros [|]; (apply masked_lock; [done|]); apply masked_for_each; intros x; [apply masked_shell_write|].
    split; [|done]. apply keeps_masked, keeps_wr.
Qed.

Lemma exec_print irq args (s : OS) r :
  (forall h s s', irq h -> h s = Ok (tt, s') -> interrupts_on s' = interrupts_on s) ->
  exec interrupts_on irq (print_code args) s r <->
  exec interrupts_on irq (Step (zoom CONSOLE (print args)) (fun a => Done a)) s r.
Proof.
  intros Hirq. unfold print_code. rewrite (exec_without_interrupts irq Hirq _ s r (masked_print args)).
  assert (forall s : OS, without_interrupts (run (zoom_code CONSOLE (Step has_shell (fun has =>
      if has : bool then with_lock_code SHELL (for_each_code args shell_write_code)
      else with_lock_code WRITER (for_each_code args (fun piece => Step (wr (write_string piece)) Done)))))) s =
    zoom CONSOLE (print args) s) as E.
  { intros t. rewrite <- run_print. symmetry. by apply run_without_interrupts. }
  split; intros (x & Hx & H); exists x; (split; [exact Hx|]); destruct x as [s1|e|]; try exact H;
    cbn [andthen] in H |- *; [rewrite <- E|rewrite E]; exact H.
Qed.
End Kernel.

(** ** Interrupts of the kernel *)

Section Deliver.
Context `{P : Profile} {KeyCode KB KeyEvent : Type}.
Variable add_byte : KB -> Z -> KB * option (option KeyEvent).
Variable process_keyevent : KB -> KeyEvent -> KB * option (DecodedKey KeyCode).
Variable device : list io_event -> Z -> Z.
Variables cr2_text code_text frame_text : list Z.
Variables run_apic run_syscall : M (OS KeyCode KB) unit.
Abbreviation OS := (OS KeyCode KB).
Abbreviation deliver :=
  (deliver add_byte process_keyevent device cr2_text code_text frame_text run_apic run_syscall).

(** A handler's [iretq] brings the interrupted code's flags back. *)
Lemma deliver_flag v (s s' : OS) : deliver v s = Ok (tt, s') -> interrupts_on s' = interrupts_on s.
Proof.
  unfold Interrupts.deliver. rewrite !bind_gets, (bind_Ok _ _ _ tt (set_interrupts false s)) by done.
  unfold bind. destruct (run_handler _ _ _ _ _ _ _ _ _ (set_interrupts false s)) as [[[] s1]| |]; intros E; [|discriminate..].
  injection E as <-. done.
Qed.

(** No lock held that an interrupt handler takes, and the APIC set up. *)
Record os_ready (s : OS) : Prop := {
  ready_console : console_free (console s);
  ready_lapic : is_Some (LAPIC s);
  ready_timer : idt s !! as_u8 Timer = Some (MkGate timer_interrupt_handler None);
  ready_error : idt s !! as_u8 ApicError = Some (MkGate apic_error_handler None);
  ready_spurious : idt s !! as_u8 ApicSpurious = Some (MkGate apic_spurious_handler None);
}.

Lemma deliver_printing v args (c : Console) e kb log pics t b f arr :
  (exists h, t !! v = Some (MkGate h None) /\
    forall s, run_handler add_byte process_keyevent device cr2_text code_text frame_text run_apic run_syscall h s =
      (os_println args ;; lapic_command LapicEndOfInterrupt) s) ->
  console_free c ->
  exists c', deliver v (MkOS c e kb (Some log) pics t b f arr) =
    Ok (tt, MkOS c' e kb (Some (log ++ [LapicEndOfInterrupt])) pics t b f arr) /\ console_free c' /\
    console_cpu c' = console_cpu c /\
    forall m, println args (update machine m c) = Ok (tt, update machine m c').
Proof.
  intros (h & Ht & Hh) Hc. destruct c as [s0 ini w0 m0].
  destruct (println_any_cpu args s0 ini w0 m0 Hc) as (s' & w' & Hp).
  destruct (println_free args _ Hc) as (c' & E & Hc' & _). rewrite Hp in E. injection E as <-.
  exists (MkConsole s' ini w' m0). split; [|split; [exact Hc'|split; [reflexivity|exact Hp]]]. unfold Interrupts.deliver. rewrite !bind_gets. cbn [idt]. rewrite Ht.
  rewrite (bind_Ok _ _ _ tt (MkOS (MkConsole s0 ini w0 (set_rflags (Z.clearbit (rflags m0) 9) m0)) e kb (Some log)
    pics t b f arr)) by done.
  cbn [gate_handler]. unfold bind at 1. rewrite Hh. unfold os_println, bind at 1, zoom at 1. cbn [view CONSOLE console].
  rewrite Hp. cbn. do 4 f_equal. by destruct m0.
Qed.

Lemma deliver_ready v (s : OS) : v ∈ [as_u8 Timer; as_u8 ApicError; as_u8 ApicSpurious] -> os_ready s ->
  exists s', deliver v s = Ok (tt, s') /\ os_ready s' /\ arriving s' = arriving s /\
    TRIGGERED_ONCE s' = TRIGGERED_ONCE s /\ idt s' = idt s.
Proof.
  destruct s as [c e kb l pics t b f arr]. intros Hv [Hc [log Hl] Ht He Hs]. simpl in *. subst l.
  assert (forall c', console_free c' ->
    os_ready (MkOS c' e kb (Some (log ++ [LapicEndOfInterrupt])) pics t b f arr)) as Hready.
  { intros c' Hc'. split; [exact Hc'|by eexists|exact Ht|exact He|exact Hs]. }
  repeat (apply elem_of_cons in Hv as [->|Hv]); [| | |by apply elem_of_nil in Hv].
  - eexists. split; [by apply deliver_timer_run|]. split; [by apply Hready|done].
  - destruct (deliver_printing (as_u8 ApicError) [bytes "apic error handler!"] c e kb log pics t b f arr) as (c' & E & Hc' & _);
      [by exists apic_error_handler|done|].
    eexists. split; [exact E|]. split; [by apply Hready|done].
  - destruct (deliver_printing (as_u8 ApicSpurious) [bytes "apic spurious handler!"] c e kb log pics t b f arr) as (c' & E & Hc' & _);
      [by exists apic_spurious_handler|done|].
    eexists. split; [exact E|]. split; [by apply Hready|done].
Qed.

(** A handler that prints finds the writer locked: it never returns. *)
Lemma deliver_deadlock sh0 w m e kb l pics t b f arr :
  t !! as_u8 ApicError = Some (MkGate apic_error_handler None) ->
  deliver (as_u8 ApicError) (MkOS (MkConsole sh0 false (Mutex true w) m) e kb l pics t b f arr) = Hang.
Proof.
  intros Ht. unfold Interrupts.deliver. rewrite !bind_gets. cbn [idt]. rewrite Ht.
  rewrite (bind_Ok _ _ _ tt (MkOS (MkConsole sh0 false (Mutex true w) (set_rflags (Z.clearbit (rflags m) 9) m)) e kb l
    pics t b f arr)) by done.
  unfold bind. cbn [gate_handler run_handler exception_message]. unfold run_apic_error_handler, bind, os_println, zoom.
  cbn [view CONSOLE console]. unfold println, print. by rewrite without_interrupts_hang.
Qed.

(** *** The wait for the calibration interrupt *)

Abbreviation wait_for_interrupt :=
  (wait_for_interrupt add_byte process_keyevent device cr2_text code_text frame_text run_apic run_syscall).
Abbreviation wait_loop :=
  (wait_loop add_byte process_keyevent device cr2_text code_text frame_text run_apic run_syscall).

Lemma wait_for_interrupt_none (s : OS) : arriving s = [] -> wait_for_interrupt s = Hang.
Proof.
  intros Ha. unfold Interrupts.wait_for_interrupt. rewrite (bind_Ok _ _ _ _ _ (is_interrupts_enabled_run s)).
  destruct (interrupts_on s); [|done]. rewrite bind_gets, Ha. done.
Qed.

Lemma wait_for_interrupt_next (s : OS) v vs : interrupts_on s = true -> arriving s = v :: vs ->
  wait_for_interrupt s = deliver v (set_arriving vs s).
Proof.
  intros Hon Ha. destruct s as [c e kb l pics t b f arr]. simpl in Ha. subst arr. by apply wait_for_interrupt_run.
Qed.

Lemma wait_loop_S fuel (s : OS) : TRIGGERED_ONCE s = false ->
  wait_loop (S fuel) s = (wait_for_interrupt ;; wait_loop fuel) s.
Proof. intros Ht. cbn [Interrupts.wait_loop]. rewrite bind_gets, Ht. done. Qed.

Lemma wait_loop_triggered fuel (s : OS) : TRIGGERED_ONCE s = true -> wait_loop fuel s = Ok (tt, s).
Proof. intros Ht. destruct fuel; cbn [Interrupts.wait_loop]; rewrite bind_gets, Ht; done. Qed.

Lemma set_arriving_ready vs (s : OS) : os_ready s -> os_ready (set_arriving vs s).
Proof. intros [H1 H2 H3 H4 H5]. by split. Qed.

(** A round of the loop that some other interrupt ends. *)
Lemma wait_other v vs (s : OS) : v ∈ [as_u8 Timer; as_u8 ApicError; as_u8 ApicSpurious] -> os_ready s ->
  interrupts_on s = true -> arriving s = v :: vs ->
  exists s', wait_for_interrupt s = Ok (tt, s') /\ os_ready s' /\ interrupts_on s' = true /\ arriving s' = vs /\
    TRIGGERED_ONCE s' = TRIGGERED_ONCE s /\ idt s' = idt s.
Proof.
  intros Hv Hs Hon Ha. rewrite (wait_for_interrupt_next s v vs Hon Ha).
  destruct (deliver_ready v (set_arriving vs s) Hv (set_arriving_ready vs s Hs)) as (s' & E & Hs' & Ha' & Ht' & Hi').
  exists s'. split_and!; [done|done| |done..]. rewrite (deliver_flag _ _ _ E). exact Hon.
Qed.

(** The round that ends the loop. *)
Lemma wait_config vs (s : OS) : is_Some (LAPIC s) -> interrupts_on s = true -> arriving s = as_u8 ApicTimer :: vs ->
  idt s !! as_u8 ApicTimer = Some (MkGate apic_timer_config_handler None) ->
  exists s', wait_for_interrupt s = Ok (tt, s') /\ TRIGGERED_ONCE s' = true /\ arriving s' = vs.
Proof.
  intros [log Hl] Hon Ha Ht. rewrite (wait_for_interrupt_next s _ vs Hon Ha).
  destruct s as [c e kb l pics t b f arr]. simpl in *. subst l. unfold set_arriving. simpl.
  rewrite deliver_config_run by done. eexists. split; [reflexivity|done].
Qed.

(** [n] rounds of the loop of the idle task: each waits for an interrupt, which its handler serves. *)
Fixpoint idle (n : nat) : M OS unit :=
  match n with
  | O => ret tt
  | S n => wait_for_interrupt ;; idle n
  end.

Lemma idle_serves vs rest (s : OS) :
  Forall (fun v => v ∈ [as_u8 Timer; as_u8 ApicError; as_u8 ApicSpurious]) vs -> os_ready s ->
  interrupts_on s = true -> arriving s = vs ++ rest ->
  exists s', idle (length vs) s = Ok (tt, s') /\ os_ready s' /\ interrupts_on s' = true /\ arriving s' = rest.
Proof.
  intros Hvs. revert s. induction Hvs as [|v vs Hv _ IH]; intros s Hs Hon Ha; [by exists s|].
  destruct (wait_other v _ s Hv Hs Hon Ha) as (s1 & E & Hs1 & Hon1 & Ha1 & _).
  destruct (IH s1 Hs1 Hon1 Ha1) as (s' & E' & H'). exists s'. split; [|exact H'].
  cbn [length idle]. rewrite (bind_Ok _ _ _ _ _ E). exact E'.
Qed.

Lemma wait_loop_ends before vs (s : OS) :
  Forall (fun v => v ∈ [as_u8 Timer; as_u8 ApicError; as_u8 ApicSpurious]) before -> os_ready s ->
  interrupts_on s = true -> TRIGGERED_ONCE s = false ->
  idt s !! as_u8 ApicTimer = Some (MkGate apic_timer_config_handler None) ->
  arriving s = before ++ as_u8 ApicTimer :: vs ->
  exists s', TRIGGERED_ONCE s' = true /\ arriving s' = vs /\
    forall fuel, (length before < fuel)%nat -> wait_loop fuel s = Ok (tt, s').
Proof.
  intros Hb. revert s. induction Hb as [|v before Hv _ IH]; intros s Hs Hon Ht Hi Ha.
  - destruct (wait_config vs s (ready_lapic _ Hs) Hon Ha Hi) as (s' & E & Ht' & Ha'). exists s'. split_and!; [done..|].
    intros [|fuel] Hf; [simpl in Hf; lia|]. rewrite wait_loop_S, (bind_Ok _ _ _ _ _ E) by done. by apply wait_loop_triggered.
  - destruct (wait_other v _ s Hv Hs Hon Ha) as (s1 & E & Hs1 & Hon1 & Ha1 & Ht1 & Hi1). rewrite Ht in Ht1. rewrite <- Hi1 in Hi.
    destruct (IH s1 Hs1 Hon1 Ht1 Hi Ha1) as (s' & Ht' & Ha' & Hf). exists s'. split_and!; [done..|].
    intros [|fuel] Hlen; [simpl in Hlen; lia|]. rewrite wait_loop_S, (bind_Ok _ _ _ _ _ E) by done.
    apply Hf. simpl in Hlen. lia.
Qed.

Lemma wait_loop_waits before (s : OS) fuel :
  Forall (fun v => v ∈ [as_u8 Timer; as_u8 ApicError; as_u8 ApicSpurious]) before -> os_ready s ->
  interrupts_on s = true -> TRIGGERED_ONCE s = false -> arriving s = before -> wait_loop fuel s = Hang.
Proof.
  intros Hb. revert s fuel. induction Hb as [|v before Hv _ IH]; intros s [|fuel] Hs Hon Ht Ha;
    try (cbn [Interrupts.wait_loop]; rewrite bind_gets, Ht; done); rewrite wait_loop_S by done.
  - unfold bind. by rewrite wait_for_interrupt_none.
  - destruct (wait_other v _ s Hv Hs Hon Ha) as (s1 & E & Hs1 & Hon1 & Ha1 & Ht1 & _). rewrite Ht in Ht1.
    rewrite (bind_Ok _ _ _ _ _ E). by apply IH.
Qed.
End Deliver.

(** ** Timer ticks *)

Section Ticks.
Context `{P : Profile} `{A : Abi} {H KeyCode KB : Type}.
Variable alloc : Z -> Z -> H -> option (Z * H).
Variable idle : Z.
Abbreviation Sys := (Sys H KeyCode KB).

Definition CPU_KERN : lens (Cpu Sys) (Kernel H) :=
  Lens (fun c => kern (sys c)) (fun k c => set_sys (MkSys k (os (sys c))) c).

(** [SCHEDULER.lock().start_process(target, kernel_owned)]. *)
Definition start_proc_code (target : Z) (kernel_owned : bool) : code (Cpu Sys) unit :=
  zoom_code CPU_KERN (with_lock_code SCHEDULER (Step (start_process alloc target kernel_owned) (fun _ => Done tt))).

Definition cpu_interrupts_on (c : Cpu Sys) : bool := Z.testbit (cpu_rflags c) 9.

#[export] Instance cpu_kern_laws : LensLaws CPU_KERN.
Proof. split; intros; try done. by destruct s as [? ? ? ? ? ? ? []]. Qed.

Lemma run_start_proc target ko (c : Cpu Sys) :
  run (start_proc_code target ko) c = zoom CPU_KERN (start_proc alloc target ko) c.
Proof. unfold start_proc_code. rewrite run_zoom by apply _. unfold zoom. f_equal. by apply run_with_lock. Qed.

(** The task a tick interrupts is known without the scheduler's lock: a running one, or the context in
    which the kernel boots. *)
Definition interruptible (k : Kernel H) : Prop :=
  is_Some (task k) \/ init_flag k = false /\ is_Some (void_task k).

Lemma current_task_ptr_interruptible k :
  interruptible k -> exists p b, forall m,
    current_task_ptr alloc idle (set_memory m k) = Ok (p, set_memory m (set_init b k)).
Proof.
  destruct k as [sch [t0|] it ini v m0 h]; intros Hi; [exists t0.2, ini; reflexivity|].
  destruct Hi as [[? [=]]|[Hini [v0 Hv]]]. simpl in *. subst ini v. exists v0, true. reflexivity.
Qed.

(** A tick that finds the scheduler locked spins for ever. *)
Lemma tick_locked (c : Cpu Sys) :
  locked (scheduler (kern (sys c))) = true -> interruptible (kern (sys c)) -> apic_ready (os (sys c)) ->
  176 <= rsp c < 2 ^ 64 -> timer_tick alloc idle c = Hang.
Proof.
  intros Hl Hi Hap Hsp. pose proof (Z.mod_pos_bound (rsp c) 16 ltac:(lia)) as Hmod.
  destruct (restart_apic_run _ Hap) as (o' & Ho & _).
  destruct (current_task_ptr_interruptible _ Hi) as (p & b & Hcur).
  unfold timer_tick. rewrite (bind_Ok _ _ _ _ _ (entry_run c (memory (kern (sys c))) (kern (sys c)) (os (sys c))
    (sys_memory (sys c)) ltac:(lia))).
  unfold run_apic_timer_handler.
  set (m1 := store_slots (memory (kern (sys c))) _ _ _). set (sp := rsp c - rsp c mod 16 - 40).
  rewrite (bind_Ok _ _ _ tt (MkCpu (regs c) (sp - 120) (rip c) (cs c) (Z.clearbit (cpu_rflags c) 9) (ss c)
    (data_segments c) (MkSys (set_memory (store_slots m1 sp (-1) (reverse (regs c <$> POP_ORDER))) (kern (sys c)))
    (os (sys c))))).
  2:{ rewrite pushes_run by (simpl; lia). reflexivity. }
  erewrite bind_Ok.
  2:{ apply call_void_run. unfold zoom. cbn [view OS_lens os]. rewrite Ho. reflexivity. }
  erewrite bind_Ok.
  2:{ apply call_run. unfold zoom. cbn [view KERN kern]. rewrite Hcur. reflexivity. }
  erewrite bind_Ok by reflexivity.
  unfold bind at 1, call, call_gen, zoom, select_next_task, bind, with_lock. cbn. by rewrite Hl.
Qed.
End Ticks.

(** ** Printing in a state that is ready for interrupts *)

Section Printing.
Context `{P : Profile} {KeyCode KB : Type}.
Abbreviation OS := (OS KeyCode KB).
Variable irq : M OS unit -> Prop.
Hypothesis Hflag : forall h t t', irq h -> h t = Ok (tt, t') -> interrupts_on t' = interrupts_on t.
Hypothesis Hready : forall h t, irq h -> os_ready t -> exists t', h t = Ok (tt, t') /\ os_ready t'.

Lemma irqs_ready s x : os_ready s -> irqs interrupts_on irq s x -> exists s', x = Ok s' /\ os_ready s'.
Proof.
  intros Hs Hx. induction Hx as [s|h s s' x _ Hh E _ IH|h s e _ Hh E|h s _ Hh E]; [by exists s|..];
    destruct (Hready h s Hh Hs) as (t & Et & Ht); rewrite E in Et; try discriminate.
  injection Et as <-. by apply IH.
Qed.

Lemma print_ready args (s : OS) : os_ready s ->
  exists s', zoom CONSOLE (print args) s = Ok (tt, s') /\ os_ready s'.
Proof.
  destruct s as [[[ls sh0] ini [lw w] m] e kb l pics t b f arr]. intros [(H1 & H2 & Hw) Hl Ht He Hsp]. simpl in *. subst ls lw.
  unfold zoom. cbn [view CONSOLE console].
  destruct ini; [rewrite print_shell_run by done|rewrite print_writer_run by done]; eexists; (split; [reflexivity|]);
    split; try assumption; (split; [reflexivity|]; split; [reflexivity|]; by apply apply_items_wf).
Qed.

Lemma exec_print_ready args (s : OS) r : os_ready s -> exec interrupts_on irq (print_code args) s r ->
  exists s', r = Ok (tt, s') /\ os_ready s'.
Proof.
  intros Hs E. apply (exec_print irq args s r Hflag) in E as (x & Hx & E).
  destruct (irqs_ready s x Hs Hx) as (s1 & -> & H1). cbn [andthen] in E.
  destruct (print_ready args s1 H1) as (s2 & Ep & H2). rewrite Ep in E. destruct E as (y & Hy & ->).
  destruct (irqs_ready s2 y H2 Hy) as (s3 & -> & H3). by exists s3.
Qed.

Lemma prints_ready texts (s : OS) : os_ready s ->
  forall r, exec interrupts_on irq (for_each_code texts print_code) s r -> exists s', r = Ok (tt, s') /\ os_ready s'.
Proof.
  revert s. induction texts as [|a texts IH]; intros s Hs r E.
  - destruct E as (x & Hx & ->). destruct (irqs_ready s x Hs Hx) as (s' & -> & Hs'). by exists s'.
  - apply exec_then in E as (y & Hy & E). destruct (exec_print_ready a s y Hs Hy) as (s1 & -> & H1).
    by apply (IH s1).
Qed.
End Printing.

(** The kernel of Interrupts' examples. *)
Lemma booting_ready : os_ready (booting (Some []) []).
Proof.
  split; [split; [reflexivity|split; [reflexivity|exact clear_writer_wf]]|by exists []|..];
    apply idt_table_lookup; (split; [apply (bool_decide_unpack (_ ∈ _)); by vm_compute|reflexivity]).
Qed.

(** * Properties *)

(** C6: [print!] is atomic.  Whatever interrupts arrive before, between and after its steps, and
    whatever becomes of their handlers, the outcomes of [print!] are those of printing the whole text in
    a single step with the interrupts before or after it: no handler ever sees the console in the middle
    of a print, or one of its locks held by it. *)
Theorem print_is_atomic `{P : Profile} {KeyCode KB KeyEvent : Type}
    (add_byte : KB -> Z -> KB * option (option KeyEvent))
    (process_keyevent : KB -> KeyEvent -> KB * option (DecodedKey KeyCode))
    (device : list io_event -> Z -> Z) (cr2_text code_text frame_text : list Z)
    (run_apic run_syscall : M (OS KeyCode KB) unit) (args : list (list Z)) (s : OS KeyCode KB) (r : res (unit * OS KeyCode KB)) :
  let irq h := exists v, h = deliver add_byte process_keyevent device cr2_text code_text frame_text run_apic
                               run_syscall v in
  exec interrupts_on irq (print_code args) s r <->
  exec interrupts_on irq (Step (zoom CONSOLE (print args)) Done) s r.
Proof. intros irq. apply exec_print. intros h t t' [v ->]. apply deliver_flag. Qed.

(** C10: printing survives interrupts.  Kernel code that prints any number of texts, with the timer's,
    the APIC's error and its spurious interrupts arriving between the steps, along with any others whose
    handlers return and leave the locks free (what a timer tick and the processes it resumes amount to
    for the code it interrupts), always comes to an end: it neither deadlocks nor panics, and the
    console's locks are free again. *)
Theorem prints_survive_interrupts `{P : Profile} {KeyCode KB KeyEvent : Type}
    (add_byte : KB -> Z -> KB * option (option KeyEvent))
    (process_keyevent : KB -> KeyEvent -> KB * option (DecodedKey KeyCode))
    (device : list io_event -> Z -> Z) (cr2_text code_text frame_text : list Z)
    (run_apic run_syscall : M (OS KeyCode KB) unit) (other : M (OS KeyCode KB) unit -> Prop)
    (texts : list (list (list Z))) (s : OS KeyCode KB)
    (Hflag : forall h t t', other h -> h t = Ok (tt, t') -> interrupts_on t' = interrupts_on t)
    (Hother : forall h t, other h -> os_ready t -> exists t', h t = Ok (tt, t') /\ os_ready t')
    (Hs : os_ready s) :
  let irq h := other h \/ exists v, v ∈ [as_u8 Timer; as_u8 ApicError; as_u8 ApicSpurious] /\
    h = deliver add_byte process_keyevent device cr2_text code_text frame_text run_apic run_syscall v in
  let program := for_each_code texts print_code in
  exec interrupts_on irq program s (run program s) /\
  forall r, exec interrupts_on irq program s r -> exists s', r = Ok (tt, s') /\ os_ready s'.
Proof.
  intros irq program. split; [apply run_exec|]. apply prints_ready; [| |done].
  - intros h t t' [Hh|(v & _ & ->)]; [by apply Hflag|apply deliver_flag].
  - intros h t [Hh|(v & Hv & ->)] Ht; [by apply Hother|].
    destruct (deliver_ready add_byte process_keyevent device cr2_text code_text frame_text run_apic run_syscall v t Hv Ht)
      as (t' & E & Ht' & _). by exists t'.
Qed.

Lemma prints_survive_interrupts_witness :
  exists s', exec interrupts_on (fun h => False \/ exists v, v ∈ [as_u8 Timer; as_u8 ApicError; as_u8 ApicSpurious] /\
      h = deliver (P := dev_profile) plain_add_byte plain_keyevent (typed_device []) [] [] [] (ret tt) (ret tt) v)
    (for_each_code [[bytes "one"]; [bytes "two"]] (print_code (P := dev_profile)))
    (booting (Some []) []) (Ok (tt, s')) /\ os_ready s'.
Proof.
  destruct (@prints_survive_interrupts dev_profile bool unit Z plain_add_byte plain_keyevent (typed_device []) [] [] []
    (ret tt) (ret tt) (fun _ => False) [[bytes "one"]; [bytes "two"]] (booting (Some []) [])) as [E Hall].
  - intros h t t' [].
  - intros h t [].
  - exact booting_ready.
  - destruct (Hall _ E) as (s' & Hr & Hs'). exists s'. split; [rewrite <- Hr; exact E|exact Hs'].
Defined.



(** C28: [kernel_main] can deadlock in [SHELL.lock().init()].  The call returns if no interrupt arrives;
    but it holds the writer's lock with interrupts on, and an APIC error that is reported meanwhile (its
    handler prints) spins on the lock for ever. *)
Theorem shell_init_can_deadlock `{P : Profile} {KeyCode KB KeyEvent : Type}
    (add_byte : KB -> Z -> KB * option (option KeyEvent))
    (process_keyevent : KB -> KeyEvent -> KB * option (DecodedKey KeyCode))
    (device : list io_event -> Z -> Z) (cr2_text code_text frame_text : list Z)
    (run_apic run_syscall : M (OS KeyCode KB) unit) (s : OS KeyCode KB) (Hs : os_ready s)
    (Hon : interrupts_on s = true) (Hini : initialized (console s) = false) :
  let irq h := h = deliver add_byte process_keyevent device cr2_text code_text frame_text run_apic
                     run_syscall (as_u8 ApicError) in
  let program := zoom_code CONSOLE shell_init_code in
  (exists s', run program s = Ok (tt, s') /\ os_ready s') /\ exec interrupts_on irq program s Hang.
Proof.
  intros irq program. destruct s as [[[ls sh0] ini [lw w] m] e kb l pics t b f arr].
  destruct Hs as [(H1 & H2 & Hw) Hl Ht He Hsp]. cbn [console shell writer locked inner initialized idt LAPIC] in *.
  subst ls lw ini. split.
  - unfold program. rewrite run_zoom by apply _. unfold zoom. cbn [view CONSOLE console]. rewrite run_shell_init.
    unfold with_lock at 1. cbn [view SHELL shell locked inner update].
    rewrite (shell_init_run true sh0 false w m Hw). eexists. split; [reflexivity|].
    split; try assumption. split; [reflexivity|]. split; [reflexivity|]. apply apply_items_wf.
    case_bool_decide; [done|by apply scrolled_up_wf].
  - eexists (Ok _). split; [constructor|]. eexists (Ok _). split; [constructor|].
    exists Hang. split; [|reflexivity].
    apply irqs_hang with (deliver add_byte process_keyevent device cr2_text code_text frame_text run_apic
      run_syscall (as_u8 ApicError)); [exact Hon|reflexivity|]. by apply deliver_deadlock.
Qed.

Lemma shell_init_can_deadlock_witness :
  exec interrupts_on (fun h => h = deliver (P := release_profile) plain_add_byte plain_keyevent (typed_device []) [] [] []
      (ret tt) (ret tt) (as_u8 ApicError))
    (zoom_code CONSOLE (shell_init_code (P := release_profile))) (booting (Some []) []) Hang.
Proof.
  exact (proj2 (@shell_init_can_deadlock release_profile bool unit Z plain_add_byte plain_keyevent (typed_device [])
    [] [] [] (ret tt) (ret tt) (booting (Some []) []) booting_ready eq_refl eq_refl)).
Defined.

(** C27: a timer tick inside [start_proc] deadlocks.  [start_proc] holds the scheduler's lock with
    interrupts on: a tick in between (of the timer [kernel_main] has armed just before it starts the
    processes) saves the interrupted context and then spins in [select_next_task] for ever. *)
Theorem start_proc_can_deadlock `{P : Profile} `{A : Abi} {H KeyCode KB : Type}
    (alloc : Z -> Z -> H -> option (Z * H)) (idle target : Z) (kernel_owned : bool)
    (c : Cpu (Sys H KeyCode KB)) (Hon : cpu_interrupts_on c = true)
    (Hl : locked (scheduler (kern (sys c))) = false) (Hi : interruptible (kern (sys c)))
    (Hap : apic_ready (os (sys c))) (Hsp : 176 <= rsp c < 2 ^ 64) :
  let irq h := h = timer_tick alloc idle in
  exec cpu_interrupts_on irq (start_proc_code alloc target kernel_owned) c Hang /\
  exec cpu_interrupts_on irq (start_proc_code alloc target kernel_owned) c
    (zoom CPU_KERN (start_proc alloc target kernel_owned) c).
Proof.
  intros irq. split; [|rewrite <- run_start_proc; apply run_exec].
  exists (Ok c). split; [constructor|]. cbn [andthen]. unfold zoom at 1, acquire. cbn [view CPU_KERN SCHEDULER].
  rewrite Hl. cbn [res_bind andthen fst snd]. exists Hang. split; [|reflexivity].
  apply irqs_hang with (timer_tick alloc idle); [exact Hon|reflexivity|]. by apply tick_locked.
Qed.

Lemma start_proc_can_deadlock_witness :
  exec cpu_interrupts_on (fun h => h = @timer_tick dev_profile _ Z bool unit bump 0x9000)
    (start_proc_code (P := dev_profile) bump 0x7000 true) running_cpu Hang.
Proof.
  refine (proj1 (@start_proc_can_deadlock dev_profile _ Z bool unit bump 0x9000 0x7000 true running_cpu
    eq_refl eq_refl _ _ _)).
  - left. by eexists.
  - exact (mi_apic _ _ _ _ running_cpu_inv).
  - split; [discriminate|reflexivity].
Defined.
