(* ===== verification/System.v ===== *)
(** * The running system

    After [kernel_main] the machine executes instructions of its two processes (src/src/main.rs) and
    takes the interrupts of its local APIC (timer, error, spurious), which can come between any two
    instructions.  The instruction pointer says what the running process does next, so that a process
    resumes at the instruction it was interrupted at.  The machine refines a specification of three
    components: which process runs, at which instruction of its loop [test_fn] is, and what has been
    printed. *)

From S2P Require Import Prelude Mem Arch Pit Vga Shell Gdt Sched Alloc Frames Events Interrupts Hal Cpu Context Syscall Boot Run Preempt.

Section System.
Context `{P : Profile} `{A : Abi} {H KeyCode KB KeyEvent : Type}.
Variable alloc : Z -> Z -> H -> option (Z * H).
Variable idle : Z.
(** The parameters of the interrupt handlers (see [Interrupts]). *)
Variable add_byte : KB -> Z -> KB * option (option KeyEvent).
Variable process_keyevent : KB -> KeyEvent -> KB * option (DecodedKey KeyCode).
Variable device : list io_event -> Z -> Z.
Variables cr2_text code_text frame_text : list Z.
Variables run_apic run_syscall : M (OS KeyCode KB) unit.
(** The prologue frames of the handlers, by vector, and the address of the text. *)
Variable frame : Z -> Z.
Variable msg : Z.
(** The compiled code: the instructions of the loop of [test_fn] with [do_syscall_3] inlined, a load for
    each argument and the [int 0x80]; and [test_fn_hello], a jump to itself. *)
Variables (loop : list Z) (test_fn_hello : Z).

Abbreviation Sys := (Sys H KeyCode KB).
Abbreviation deliver :=
  (deliver add_byte process_keyevent device cr2_text code_text frame_text run_apic run_syscall).

(** An interrupt whose handler is an [extern "x86-interrupt"] function in Rust. *)
Definition device_interrupt (v : Z) : M (Cpu Sys) unit :=
  x86_interrupt (frame v) (call_void (zoom OS_lens (deliver v))).

Definition set_rip (v : Z) (c : Cpu Sys) : Cpu Sys :=
  MkCpu (regs c) (rsp c) v (cs c) (cpu_rflags c) (ss c) (data_segments c) (sys c).

(** The [i]-th instruction of [test_fn]. *)
Definition test_fn_instruction (i : nat) : M (Cpu Sys) unit :=
  match test_args msg !! i with
  | Some (r, v) => modify (set_reg r v) ;; modify (set_rip (loop !!! S i))
  | None => int_0x80 (frame 0x80) ;; modify (set_rip (loop !!! 0%nat))
  end.

(** The instruction at the instruction pointer. *)
Definition user_instruction : M (Cpu Sys) unit :=
  let! ip := gets rip in
  match list_find (fun a => a = ip) loop with
  | Some (i, _) => test_fn_instruction i
  | None => if ip =? test_fn_hello then ret tt else throw (Explicit "no code here")
  end.

Inductive event : Type := Instruction | Tick | Error | Spurious.

Definition system_step (e : event) : M (Cpu Sys) unit :=
  match e with
  | Instruction => user_instruction
  | Tick => timer_tick alloc idle
  | Error => device_interrupt (as_u8 ApicError)
  | Spurious => device_interrupt (as_u8 ApicSpurious)
  end.

Definition system_run (evs : list event) : M (Cpu Sys) unit := for_each evs system_step.

(** ** The specification *)

Record progress : Type := MkProgress { in_test_fn : bool; next : nat; printed : list (list Z) }.

Definition say (text : list Z) (a : progress) : progress :=
  MkProgress (in_test_fn a) (next a) (printed a ++ [text]).

Definition advance (a : progress) (e : event) : progress :=
  match e with
  | Tick => MkProgress (negb (in_test_fn a)) (next a) (printed a)
  | Instruction =>
      if in_test_fn a then
        if (next a <? 4)%nat then MkProgress true (S (next a)) (printed a) else say MSG (MkProgress true 0 (printed a))
      else a
  | Error => say (bytes "apic error handler!") a
  | Spurious => say (bytes "apic spurious handler!") a
  end.

(** The first tick has started [test_fn_hello]. *)
Definition progress_after (evs : list event) : progress := foldl advance (MkProgress false 0 []) evs.

(** [println!] of lines of text. *)
Definition print_lines (texts : list (list Z)) : M Console unit := for_each texts (fun text => println [text]).

(** * Lemmas *)

Variable stack_use : Z.
Context `{AL : !AbiLaws stack_use}.
Variable max_frame : Z.
Hypothesis Hframe : forall v, 0 <= frame v <= max_frame.
Hypothesis Hmsg : fits 64 msg.
Hypothesis Hloop : length loop = 5%nat.
Hypothesis Haddr : Forall (fits 64) loop.
Hypothesis Hcode : NoDup (test_fn_hello :: loop).

(** A device interrupt returns with every register as it was, and leaves the kernel as its handler does. *)
Lemma device_run v r (c : Cpu Sys) o' :
  running stack_use c r -> 0 <= lo r -> lo r + stack_use + max_frame + 192 <= rsp c ->
  deliver v (os (sys c)) = Ok (tt, o') ->
  exists m', device_interrupt v c = Ok (tt, set_sys (MkSys (set_memory m' (kern (sys c))) o') c) /\
    forall x, ~ (lo r <= x < hi r) -> m' x = memory (kern (sys c)) x.
Proof.
  intros [Hwf [_ Hhi]] Hlo Hsp E. destruct c as [g sp ip cs0 fl sg d [k o]]. cbn [rsp sys os kern] in *.
  pose proof (Hframe v) as Hfr. pose proof stack_use_nonneg as Hsu.
  pose proof (Z.mod_pos_bound sp 16 ltac:(lia)) as Hmod.
  set (sp0 := sp - sp mod 16). set (m1 := store_slots (memory k) sp0 (-1) [sg; sp; fl; cs0; ip]).
  exists (scratch (sp0 - 40 - frame v) m1). split.
  - unfold device_interrupt. rewrite <- (set_memory_id k) in Hwf |- * at 1.
    apply (x86_interrupt_run (frame v) _ g sp ip cs0 fl sg d (memory k) k o (after_call g) ip cs0 (Z.clearbit fl 9) sg
      (scratch (sp0 - 40 - frame v) m1) o'); [lia|exact Hwf| |].
    + apply call_void_run. unfold zoom. cbn [view OS_lens os]. rewrite E. reflexivity.
    + intros x Hx. apply (scratch_frame (stack_use := stack_use)). lia.
  - intros x Hx. rewrite (scratch_frame (stack_use := stack_use)) by lia. apply entry_memory; [done|]. lia.
Qed.

(** The two interrupts of the APIC that print. *)
Lemma message_run v h text (o : OS KeyCode KB) :
  idt o !! v = Some (MkGate h None) ->
  (forall s, run_handler add_byte process_keyevent device cr2_text code_text frame_text run_apic run_syscall h s =
     (os_println [text] ;; lapic_command LapicEndOfInterrupt) s) ->
  console_free (console o) -> apic_ready o ->
  exists o', deliver v o = Ok (tt, o') /\ console_free (console o') /\ apic_ready o' /\ idt o' = idt o /\
    forall m, println [text] (console_at m (console o)) = Ok (tt, console_at m (console o')).
Proof.
  destruct o as [c e kb l pics t b f arr]. intros Hg Hh Hc ([log Hl] & Hap). cbn [console idt LAPIC] in *. subst l.
  destruct (deliver_printing add_byte process_keyevent device cr2_text code_text frame_text run_apic run_syscall v [text]
    c e kb log pics t b f arr) as (c' & E & Hc' & _ & Hpr); [by exists h|exact Hc|].
  eexists. split; [exact E|]. split; [exact Hc'|]. split; [|split; [reflexivity|exact Hpr]].
  split; [by eexists|exact Hap].
Qed.

Section Processes.
Variables (t1 t2 : Task) (r1 r2 : region).
Hypothesis Hroom : Forall (fun r => lo r + stack_use + max_frame + 192 <= hi r - 16) [r1; r2].
(** The text is in the memory of neither process. *)
Definition text_apart (r : region) : Prop :=
  (msg + 8 <= lo r \/ hi r <= msg) /\ (msg + 8 <= slot r \/ slot r + 8 <= msg).
Hypothesis Hsep : text_apart r1 /\ text_apart r2.

(** The processor when [test_fn] is about to execute instruction [i], and in [test_fn_hello]. *)
Record at_test_fn (i : nat) (c : Cpu Sys) : Prop := {
  tf_rip : loop !! i = Some (rip c);
  tf_flags : cpu_rflags c = 0x202;
  tf_rsp : rsp c = hi r1 - 16;
  tf_args : Forall (fun x => regs c x.1 = x.2) (take i (test_args msg));
}.
Definition at_hello (c : Cpu Sys) : Prop := rip c = test_fn_hello /\ cpu_rflags c = 0x202 /\ rsp c = hi r2 - 16.

(** [cn0] is the console when the processes start, [a] what has happened since.  [d] is a processor with
    the context of the suspended process. *)
Record system_inv (cn0 : Console) (c : Cpu Sys) (a : progress) : Prop := {
  si_tasks : exists d,
    if in_test_fn a
    then machine_inv stack_use c (t1, r1) [(t2, r2, context d)] /\ at_test_fn (next a) c /\ at_hello d
    else machine_inv stack_use c (t2, r2) [(t1, r1, context d)] /\ at_test_fn (next a) d /\ at_hello c;
  si_text : str_bytes (memory (kern (sys c))) msg 8 = MSG;
  si_free : console_free (console (os (sys c)));
  si_error : idt (os (sys c)) !! as_u8 ApicError = Some (MkGate apic_error_handler None);
  si_spurious : idt (os (sys c)) !! as_u8 ApicSpurious = Some (MkGate apic_spurious_handler None);
  si_console : forall m, print_lines (printed a) (console_at m cn0) =
    Ok (tt, console_at m (console (os (sys c))));
}.

(** What a processor is about to do depends on its context only. *)
Lemma context_inj (c d : Cpu Sys) : context c = context d ->
  (forall r, regs c r = regs d r) /\ rip c = rip d /\ cpu_rflags c = cpu_rflags d /\ rsp c = rsp d.
Proof. intros E. injection E. intros. split_and!; [by intros []|done..]. Qed.

Lemma at_test_fn_context i (c d : Cpu Sys) : context c = context d -> at_test_fn i d -> at_test_fn i c.
Proof.
  intros (Hg & Hip & Hfl & Hsp)%context_inj [H1 H2 H3 H4]. split; [by rewrite Hip|by rewrite Hfl|by rewrite Hsp|].
  eapply Forall_impl; [exact H4|]. intros x Hx. by rewrite Hg.
Qed.

Lemma at_hello_context (c d : Cpu Sys) : context c = context d -> at_hello d -> at_hello c.
Proof. intros (_ & Hip & Hfl & Hsp)%context_inj (H1 & H2 & H3). split_and!; congruence. Qed.

Lemma text_kept m m' : str_bytes m msg 8 = MSG ->
  (forall x, ~ (footprint r1 r2 x \/ footprint r2 r1 x) -> m' x = m x) -> str_bytes m' msg 8 = MSG.
Proof.
  intros Ht Hm. rewrite <- Ht. apply str_bytes_ext. intros x Hx. apply Hm.
  unfold text_apart in Hsep. unfold footprint. lia.
Qed.

Lemma system_tick cn0 c a : system_inv cn0 c a ->
  exists c', timer_tick alloc idle c = Ok (tt, c') /\ system_inv cn0 c' (advance a Tick).
Proof.
  intros [(d & Hd) Ht Hf He Hs Hc].
  destruct a as [[|] i n]; cbn [in_test_fn next printed advance negb] in *; destruct Hd as (Hinv & H1 & H2);
    destruct (tick_inv stack_use alloc idle c _ _ _ _ _ Hinv) as (c' & E & Hctx & _ & Hinv' & Hm & [Hcon Hidt]%apic_only_same);
    exists c'; (split; [exact E|]); split; cbn [in_test_fn next printed]; rewrite ?Hcon, ?Hidt; try assumption.
  - exists c. split; [exact Hinv'|]. split; [exact H1|exact (at_hello_context _ _ Hctx H2)].
  - apply (text_kept (memory (kern (sys c)))); [exact Ht|]. intros x Hx. apply Hm. simpl. tauto.
  - exists c. split; [exact Hinv'|]. split; [exact (at_test_fn_context _ _ _ Hctx H1)|exact H2].
  - apply (text_kept (memory (kern (sys c)))); [exact Ht|]. intros x Hx. apply Hm. simpl. tauto.
Qed.

Lemma loop_find i ip : loop !! i = Some ip -> list_find (fun a => a = ip) loop = Some (i, ip).
Proof.
  intros Hi. apply list_find_Some. split_and!; [done|done|]. intros j y Hj Hji ->.
  apply NoDup_cons in Hcode as [_ Hnd]. pose proof (NoDup_lookup _ _ _ _ Hnd Hi Hj). lia.
Qed.

Lemma hello_find : list_find (fun a => a = test_fn_hello) loop = None.
Proof.
  apply list_find_None, Forall_forall. intros x Hx ->. apply NoDup_cons in Hcode as [Hn _]. exact (Hn Hx).
Qed.

Lemma code_fits i ip : loop !! i = Some ip -> fits 64 ip.
Proof. intros Hi. exact (proj1 (Forall_lookup _ _) Haddr i ip Hi). Qed.

Lemma set_rip_wf v (c : Cpu Sys) : cpu_wf c -> fits 64 v -> cpu_wf (set_rip v c).
Proof.
  intros Hwf Hv. apply Forall_app in Hwf as [Hg Hfr]. apply Forall_app. split; [exact Hg|].
  apply Forall_cons_1 in Hfr as [_ Hfr]. by apply Forall_cons.
Qed.

(** A load. *)
Lemma load_instruction_run i r v (c : Cpu Sys) : test_args msg !! i = Some (r, v) -> at_test_fn i c -> cpu_wf c ->
  let c' := set_rip (loop !!! S i) (set_reg r v c) in
  test_fn_instruction i c = Ok (tt, c') /\ at_test_fn (S i) c' /\ cpu_wf c'.
Proof.
  intros Hi [_ Hfl Hsp Hargs] Hwf c'.
  assert (i < 4)%nat as H4 by exact (lookup_lt_Some _ _ _ Hi).
  destruct (lookup_lt_is_Some_2 loop (S i) ltac:(lia)) as [ip Hip].
  assert (loop !!! S i = ip) as Hl by by apply list_lookup_total_correct.
  split; [unfold test_fn_instruction; rewrite Hi; reflexivity|]. split.
  - split; [by rewrite <- Hl in Hip|exact Hfl|exact Hsp|]. subst c'. cbn [regs set_rip set_reg].
    destruct i as [|[|[|[|]]]]; [..|lia]; injection Hi as <- <-; cbn [take test_args] in *;
      repeat match goal with H : Forall _ (_ :: _) |- _ => apply Forall_cons_1 in H as [? H] end;
      repeat (apply Forall_cons; split); try apply Forall_nil; done.
  - apply set_rip_wf; [|rewrite Hl; exact (code_fits _ _ Hip)]. apply set_reg_wf; [exact Hwf|].
    destruct i as [|[|[|[|]]]]; [..|lia]; injection Hi as <- <-; try exact Hmsg; split; [discriminate|reflexivity|..];
      try discriminate; reflexivity.
Qed.

Lemma set_rip_step v r (c c' : Cpu Sys) : fits 64 v -> user_step stack_use r c c' -> user_step stack_use r c (set_rip v c').
Proof. intros Hv [[Hwf Hst] Hs]. split; [|exact Hs]. split; [by apply set_rip_wf|exact Hst]. Qed.

Lemma test_fn_ready i q (c : Cpu Sys) : machine_inv stack_use c (t1, r1) q -> at_test_fn i c ->
  str_bytes (memory (kern (sys c))) msg 8 = MSG -> console_free (console (os (sys c))) ->
  round_ready stack_use (frame 0x80) msg r1 c.
Proof.
  intros [_ _ _ Hap _ [Hw _] _ Hrun _] [_ _ Hsp _] Ht Hc. split; [exact Hrun| |exact Ht|exact Hc|exact Hap].
  apply Forall_inv in Hroom. pose proof (Hframe 0x80). unfold region_wf in Hw. cbn [snd] in Hw. lia.
Qed.

(** The system call. *)
Lemma syscall_instruction_run (c : Cpu Sys) : at_test_fn 4 c -> round_ready stack_use (frame 0x80) msg r1 c ->
  exists c', test_fn_instruction 4 c = Ok (tt, c') /\ at_test_fn 0 c' /\ user_step stack_use r1 c c' /\
    round_ready stack_use (frame 0x80) msg r1 c' /\ idt (os (sys c')) = idt (os (sys c)) /\
    forall m, println [MSG] (console_at m (console (os (sys c)))) = Ok (tt, console_at m (console (os (sys c')))).
Proof.
  intros [_ Hfl Hsp Hargs] Hr. destruct (lookup_lt_is_Some_2 loop 0 ltac:(lia)) as [ip Hip].
  assert (loop !!! 0%nat = ip) as Hl by by apply list_lookup_total_correct.
  assert (args_loaded msg c) as Ha.
  { cbn [take test_args] in Hargs.
    repeat match goal with H : Forall _ (_ :: _) |- _ => apply Forall_cons_1 in H as [? H] end. by split_and!. }
  destruct (int_write_run stack_use (frame 0x80) msg (proj1 (Hframe 0x80)) r1 c (proj1 (proj1 Hsep)) Hr Ha)
    as (c' & E & Hctx & Hu & Hr' & Hidt & Hpr).
  apply context_inj in Hctx as (_ & _ & Hfl' & Hsp').
  exists (set_rip ip c'). split; [|split; [|split; [|split; [|split]]]].
  - unfold test_fn_instruction. cbn [test_args lookup list_lookup]. rewrite Hl.
    exact (bind_Ok _ _ _ _ _ E).
  - split; [exact Hip|exact (eq_trans Hfl' Hfl)|exact (eq_trans Hsp' Hsp)|apply Forall_nil; exact I].
  - apply set_rip_step; [exact (code_fits _ _ Hip)|exact Hu].
  - destruct Hr' as [[Hwf Hst] H1 H2 H3 H4]. split; [|exact H1|exact H2|exact H3|exact H4].
    split; [apply set_rip_wf; [exact Hwf|exact (code_fits _ _ Hip)]|exact Hst].
  - exact Hidt.
  - exact Hpr.
Qed.

Lemma fetch_test_fn i (c : Cpu Sys) : at_test_fn i c -> user_instruction c = test_fn_instruction i c.
Proof.
  intros Ht. unfold user_instruction. rewrite bind_gets. by rewrite (loop_find _ _ (tf_rip _ _ Ht)).
Qed.

Lemma fetch_hello (c : Cpu Sys) : at_hello c -> user_instruction c = Ok (tt, c).
Proof.
  intros [Hip _]. unfold user_instruction. rewrite bind_gets, Hip, hello_find, Z.eqb_refl. reflexivity.
Qed.

Lemma print_lines_snoc texts text c c1 c2 :
  print_lines texts c = Ok (tt, c1) -> println [text] c1 = Ok (tt, c2) -> print_lines (texts ++ [text]) c = Ok (tt, c2).
Proof.
  intros E1 E2. unfold print_lines. rewrite for_each_app, (bind_Ok _ _ _ _ _ E1), for_each_one. exact E2.
Qed.

Lemma system_instruction cn0 c a : system_inv cn0 c a ->
  exists c', user_instruction c = Ok (tt, c') /\ system_inv cn0 c' (advance a Instruction).
Proof.
  destruct a as [[|] i n]; intros [(d & Hd) Ht Hf He Hs Hc]; cbn [in_test_fn next printed advance] in *;
    destruct Hd as (Hinv & H1 & H2).
  2:{ exists c. split; [exact (fetch_hello c H2)|]. split; [exists d; by split_and!|done..]. }
  pose proof (test_fn_ready _ _ _ Hinv H1 Ht Hf) as Hr. rewrite (fetch_test_fn _ _ H1).
  destruct (Nat.ltb_spec i 4) as [H4|H4].
  - destruct (lookup_lt_is_Some_2 (test_args msg) i H4) as [[r v] Hi].
    destruct (load_instruction_run i r v c Hi H1 (proj1 (rr_running _ _ _ _ _ Hr))) as (E & H1' & Hwf).
    eexists. split; [exact E|]. split; [|exact Ht|exact Hf|exact He|exact Hs|exact Hc].
    exists d. split; [|split; [exact H1'|exact H2]]. apply (user_step_inv stack_use c _ _ _ Hinv).
    apply set_args_step; [|reflexivity]. split; [exact Hwf|exact (proj2 (rr_running _ _ _ _ _ Hr))].
  - assert (i = 4)%nat as ->.
    { pose proof (lookup_lt_Some _ _ _ (tf_rip _ _ H1)). lia. }
    destruct (syscall_instruction_run c H1 Hr) as (c' & E & H1' & Hu & Hr' & Hidt & Hpr). exists c'. split; [exact E|].
    split; cbn [in_test_fn next printed say]; rewrite ?Hidt; try assumption.
    + exists d. split; [exact (user_step_inv stack_use c c' (t1, r1) _ Hinv Hu)|]. split; [exact H1'|exact H2].
    + exact (rr_text _ _ _ _ _ Hr').
    + exact (rr_console _ _ _ _ _ Hr').
    + intros m. exact (print_lines_snoc _ _ _ _ _ (Hc m) (Hpr m)).
Qed.

(** A device interrupt, as a step of the process it interrupts. *)
Lemma device_step v r (c : Cpu Sys) o' :
  running stack_use c r -> 0 <= lo r -> lo r + stack_use + max_frame + 192 <= rsp c -> text_apart r ->
  str_bytes (memory (kern (sys c))) msg 8 = MSG -> deliver v (os (sys c)) = Ok (tt, o') -> apic_ready o' ->
  exists c', device_interrupt v c = Ok (tt, c') /\ context c' = context c /\ os (sys c') = o' /\
    user_step stack_use r c c' /\ str_bytes (memory (kern (sys c'))) msg 8 = MSG.
Proof.
  intros Hrun Hlo Hsp [Hx _] Ht E Hap. destruct (device_run v r c o' Hrun Hlo Hsp E) as (m' & E' & Hm').
  eexists. split; [exact E'|]. split; [reflexivity|]. split; [reflexivity|]. split.
  - split; [exact Hrun|]. exists m', o'. split; [reflexivity|]. split; [intros _; exact Hap|exact Hm'].
  - rewrite <- Ht. apply str_bytes_ext. intros x Hx'. apply Hm'. lia.
Qed.

Lemma system_message v h text cn0 c a :
  idt (os (sys c)) !! v = Some (MkGate h None) ->
  (forall s, run_handler add_byte process_keyevent device cr2_text code_text frame_text run_apic run_syscall h s =
     (os_println [text] ;; lapic_command LapicEndOfInterrupt) s) ->
  system_inv cn0 c a -> exists c', device_interrupt v c = Ok (tt, c') /\ system_inv cn0 c' (say text a).
Proof.
  intros Hg Hh [(d & Hd) Ht Hf He Hs Hc]. apply Forall_cons_1 in Hroom as [Hr1 Hr2%Forall_inv].
  assert (apic_ready (os (sys c))) as Hap by (destruct (in_test_fn a); exact (mi_apic _ _ _ _ (proj1 Hd))).
  destruct (message_run v h text _ Hg Hh Hf Hap) as (o' & E & Hf' & Hap' & Hidt & Hpr).
  assert (exists c', device_interrupt v c = Ok (tt, c') /\ os (sys c') = o' /\
    str_bytes (memory (kern (sys c'))) msg 8 = MSG /\
    if in_test_fn a
    then machine_inv stack_use c' (t1, r1) [(t2, r2, context d)] /\ at_test_fn (next a) c' /\ at_hello d
    else machine_inv stack_use c' (t2, r2) [(t1, r1, context d)] /\ at_test_fn (next a) d /\ at_hello c')
    as (c' & E' & Ho & Ht' & Hd').
  { destruct (in_test_fn a); destruct Hd as (Hinv & H1 & H2);
      pose proof (mi_running _ _ _ _ Hinv) as Hrun; pose proof (proj1 (mi_wf _ _ _ _ Hinv)) as [Hlo _]; cbn [snd] in Hrun, Hlo.
    - destruct (device_step v r1 c o' Hrun Hlo ltac:(rewrite (tf_rsp _ _ H1); lia) (proj1 Hsep) Ht E Hap')
        as (c' & E' & Hctx & Ho & Hu & Ht'). exists c'. split; [exact E'|]. split; [exact Ho|]. split; [exact Ht'|].
      split; [exact (user_step_inv stack_use c c' (t1, r1) _ Hinv Hu)|].
      split; [exact (at_test_fn_context _ _ _ Hctx H1)|exact H2].
    - destruct (device_step v r2 c o' Hrun Hlo ltac:(rewrite (proj2 (proj2 H2)); lia) (proj2 Hsep) Ht E Hap')
        as (c' & E' & Hctx & Ho & Hu & Ht'). exists c'. split; [exact E'|]. split; [exact Ho|]. split; [exact Ht'|].
      split; [exact (user_step_inv stack_use c c' (t2, r2) _ Hinv Hu)|].
      split; [exact H1|exact (at_hello_context _ _ Hctx H2)]. }
  exists c'. split; [exact E'|]. split; cbn [say in_test_fn next printed]; rewrite ?Ho, ?Hidt; try assumption.
  - exists d. exact Hd'.
  - intros m. exact (print_lines_snoc _ _ _ _ _ (Hc m) (Hpr m)).
Qed.

Lemma system_run_inv cn0 evs c a : system_inv cn0 c a ->
  exists c', system_run evs c = Ok (tt, c') /\ system_inv cn0 c' (foldl advance a evs).
Proof.
  revert c a. induction evs as [|e evs IH]; intros c a Hinv; [by exists c|].
  assert (exists c1, system_step e c = Ok (tt, c1) /\ system_inv cn0 c1 (advance a e)) as (c1 & E1 & H1).
  { destruct e; [by apply system_instruction|by apply system_tick| |].
    - exact (system_message _ apic_error_handler _ cn0 c a (si_error _ _ _ Hinv) (fun s => eq_refl) Hinv).
    - exact (system_message _ apic_spurious_handler _ cn0 c a (si_spurious _ _ _ Hinv) (fun s => eq_refl) Hinv). }
  destruct (IH c1 _ H1) as (c' & E' & H'). exists c'. split; [|exact H'].
  unfold system_run. rewrite for_each_cons, (bind_Ok _ _ _ _ _ E1). exact E'.
Qed.

(** The machine after the first tick. *)
Lemma system_start (c : Cpu Sys) f ss1 ss2 :
  loop !! 0%nat = Some f -> context c = initial_context (hi r2 - 16) test_fn_hello ss2 ->
  machine_inv stack_use c (t2, r2) [(t1, r1, initial_context (hi r1 - 16) f ss1)] ->
  str_bytes (memory (kern (sys c))) msg 8 = MSG -> console_free (console (os (sys c))) ->
  idt (os (sys c)) = <[as_u8 ApicTimer := MkGate apic_timer_handler None]> idt_table ->
  system_inv (console (os (sys c))) c (MkProgress false 0 []).
Proof.
  intros Hf Hctx Hinv Ht Hc Hidt. split; rewrite ?Hidt; [|exact Ht|exact Hc|vm_compute; reflexivity..|reflexivity].
  exists (MkCpu (rset (fun _ => 0) RBP (hi r1 - 16)) (hi r1 - 16) f (code_selector true) 0x202 ss1 0 (sys c)).
  cbn [in_test_fn next]. split; [exact Hinv|]. split.
  - split; [exact Hf|reflexivity|reflexivity|apply Forall_nil; exact I].
  - unfold initial_context in Hctx. injection Hctx. intros. by split_and!.
Qed.

(** What the invariant says of the processor. *)
Lemma system_inv_cpu cn0 c a : system_inv cn0 c a ->
  cpu_rflags c = 0x202 /\ Some (rip c) = if in_test_fn a then loop !! next a else Some test_fn_hello.
Proof.
  intros [(d & Hd) _ _ _ _ _]. destruct (in_test_fn a); destruct Hd as (_ & H1 & H2).
  - split; [exact (tf_flags _ _ H1)|]. symmetry. exact (tf_rip _ _ H1).
  - destruct H2 as (H2 & H3 & _). split; [exact H3|]. by rewrite H2.
Qed.
End Processes.
End System.

(** ** Progress *)

Lemma advance_instructions n i ts : (i <= 4)%nat ->
  exists i' j, foldl advance (MkProgress true i ts) (replicate n Instruction) = MkProgress true i' (ts ++ replicate j MSG) /\
    (i' <= 4)%nat /\ (5 * j + i' = i + n)%nat.
Proof.
  revert i ts. induction n as [|n IH]; intros i ts Hi.
  { exists i, 0%nat. split; [by rewrite app_nil_r|lia]. }
  cbn [replicate foldl]. assert (advance (MkProgress true i ts) Instruction =
    if (i <? 4)%nat then MkProgress true (S i) ts else MkProgress true 0 (ts ++ [MSG])) as -> by done.
  destruct (Nat.ltb_spec i 4).
  - destruct (IH (S i) ts ltac:(lia)) as (i' & j & E & Hi' & Hj). exists i', j. split; [exact E|lia].
  - destruct (IH 0%nat (ts ++ [MSG]) ltac:(lia)) as (i' & j & E & Hi' & Hj). exists i', (S j).
    split; [|lia]. by rewrite E, <- app_assoc.
Qed.

Lemma advance_hello n i ts :
  foldl advance (MkProgress false i ts) (replicate n Instruction) = MkProgress false i ts.
Proof. induction n as [|n IH]; [done|]. exact IH. Qed.

(** [k] rounds of the scheduler in which the processes get [n1] and [n2] instructions. *)
Definition slices (k n1 n2 : nat) : list event :=
  mjoin (replicate k (replicate n1 Instruction ++ Tick :: replicate n2 Instruction ++ [Tick])).

Lemma slices_S k n1 n2 :
  slices (S k) n1 n2 = (replicate n1 Instruction ++ Tick :: replicate n2 Instruction ++ [Tick]) ++ slices k n1 n2.
Proof. reflexivity. Qed.

Lemma advance_slices k n1 n2 i ts : (i <= 4)%nat ->
  exists i' j, foldl advance (MkProgress false i ts) (slices k n1 n2) = MkProgress false i' (ts ++ replicate j MSG) /\
    (i' <= 4)%nat /\ (5 * j + i' = i + k * n2)%nat.
Proof.
  revert i ts. induction k as [|k IH]; intros i ts Hi.
  { exists i, 0%nat. split; [by rewrite app_nil_r|lia]. }
  rewrite slices_S, <- app_assoc, foldl_app, advance_hello. cbn [app foldl].
  change (advance (MkProgress false i ts) Tick) with (MkProgress true i ts). rewrite <- app_assoc, foldl_app.
  destruct (advance_instructions n2 i ts Hi) as (i1 & j1 & -> & Hi1 & Hj1). cbn [app foldl].
  change (advance (MkProgress true ?i ?ts) Tick) with (MkProgress false i ts).
  destruct (IH i1 (ts ++ replicate j1 MSG) Hi1) as (i2 & j2 & -> & Hi2 & Hj2). exists i2, (j1 + j2)%nat.
  split; [by rewrite <- app_assoc, <- replicate_add|lia].
Qed.

(** * Properties *)


Section FromPowerOn.
Context `{P : Profile} `{ABI : Abi} `{ST : SegmentTable T} `{A : AddrOps} `{AL : !AddrLaws}.
Context {RT : Type} `{RD : EqDecision RT} (Usable : RT) {X E H KeyCode KB KeyEvent : Type}.
Context `{MP : !Mapper X (BootInfoFrameAllocator RT) E} `{HH : Heap H} `{KD : EqDecision KeyCode}.
Variables (stack_ist stack_rsp0 cr3_frame : Z) (offset_page_table_new : Z -> Z -> X).
Variable alloc : Z -> Z -> H -> option (Z * H).
Variable add_byte : KB -> Z -> KB * option (option KeyEvent).
Variable process_keyevent : KB -> KeyEvent -> KB * option (DecodedKey KeyCode).
Variables (device : list io_event -> Z -> Z) (cr2_text code_text frame_text : list Z).
Variables (run_apic run_syscall : M (OS KeyCode KB) unit) (xapic_base : Z).
Variables (Backspace : KeyCode) (key_debug : KeyCode -> list Z) (idle test_fn test_fn_hello : Z).
Context (translate : X -> Z -> option (Z * Z)) `{ML : !MapperLaws Usable translate}.
Variable stack_use : Z.
Context `{AB : !AbiLaws stack_use}.
Variable top : H -> Z.
Context `{HA : !Ascending alloc top (HEAP_START + HEAP_SIZE)}.
Variables (screen : list (list ScreenChar)) (cpu : Machine) (m : mem) (kb : KB) (arr : list Z) (cs0 : Z).
Variables (map : list (MemoryRegion RT)) (offset : Z) (n : nat) (frame : Z -> Z) (max_frame msg : Z) (code : list Z).

Abbreviation startup :=
  (kernel_startup Usable stack_ist stack_rsp0 cr3_frame offset_page_table_new alloc add_byte process_keyevent
     device cr2_text code_text frame_text run_apic run_syscall xapic_base None Backspace key_debug idle test_fn
     test_fn_hello map offset).
Abbreviation arriving0 := (replicate n (as_u8 Timer) ++ as_u8 ApicTimer :: arr).
Abbreviation run_events :=
  (system_run alloc idle add_byte process_keyevent device cr2_text code_text frame_text run_apic run_syscall frame msg
     code test_fn_hello).

(** The processor is in [kernel_main], the scheduler's statics are [k] and the rest is [o]: its stack [blo .. bhi] is outside the heap, and the memory
    outside the heap is whatever the boot code left, with the text in its place. *)
Inductive waiting (k : Kernel H) (o : OS KeyCode KB) (c : Cpu (Sys H KeyCode KB)) : Prop :=
  Waiting m' blo bhi :
    sys c = MkSys (set_memory m' k) o ->
    (forall x, HEAP_START <= x < HEAP_START + HEAP_SIZE -> m' x = memory k x) ->
    0 <= blo -> bhi < 2 ^ 64 -> bhi <= HEAP_START \/ HEAP_START + HEAP_SIZE <= blo ->
    cpu_wf c -> blo + stack_use + 192 <= rsp c <= bhi ->
    str_bytes m' msg 8 = MSG -> msg + 8 <= blo \/ bhi <= msg -> waiting k o c.

Lemma booted_console_free (b : Boot T X H KeyCode KB) :
  writer_wf (WRITER_init screen) -> booted device Backspace key_debug translate screen cpu b ->
  console_free (console (os (bsys b))).
Proof.
  intros Hs Hb. destruct (booted_screen _ _ _ _ _ _ _ Hb) as (w1 & w2 & E1 & E2 & H1 & _ & H2).
  unfold console_free. rewrite H1, H2. split; [reflexivity|]. split; [reflexivity|].
  exact (write_colored_string_keeps_wf _ _ _ (write_string_keeps_wf _ _ _ Hs E1) E2).
Qed.

(** The machine after the first tick. *)
Lemma boot_system_inv
    (Hscreen : writer_wf (WRITER_init screen)) (Hm : Forall region_ok map)
    (Hd : pairwise regions_disjoint map) (Hoff : 0 <= offset) (Hcr3 : 0 <= cr3_frame)
    (Hvirt : offset + cr3_frame < 2 ^ 47)
    (Hn : 1000 <= Z.of_nat (length (frame_addresses Usable map)) < 2 ^ 64)
    (Hfree : Forall (fun p => translate (offset_page_table_new (offset + cr3_frame) offset) p = None) heap_pages)
    (Hbase : fits 64 (offset + xapic_base)) (He : pit_reading device (io cpu ++ calibration_io) < 65535)
    (Hheap : top (heap_init HEAP_START HEAP_SIZE heap_empty m).1 = HEAP_START)
    (Hsu : stack_use + 192 <= 4096) (Hentry : code !! 0%nat = Some test_fn) (Hf1 : fits 64 test_fn)
    (Hf2 : fits 64 test_fn_hello) (Htext : msg + 8 <= HEAP_START \/ HEAP_START + HEAP_SIZE <= msg) :
  exists b t1 t2 r1 r2,
    startup (power_on screen cpu m kb arriving0 cs0) = Ok (tt, b) /\
    booted device Backspace key_debug translate screen cpu b /\ in_heap r1 /\ in_heap r2 /\
    forall c, waiting (kern (bsys b)) (os (bsys b)) c -> exists c1, timer_tick alloc idle c = Ok (tt, c1) /\
      system_inv msg code test_fn_hello stack_use t1 t2 r1 r2 (console (os (bsys b))) c1 (MkProgress false 0 []).
Proof.
  destruct (boot_reaches_processes (E := E) Usable stack_ist stack_rsp0 cr3_frame offset_page_table_new alloc add_byte process_keyevent
    device cr2_text code_text frame_text run_apic run_syscall xapic_base Backspace key_debug idle test_fn test_fn_hello translate
    stack_use top screen cpu m kb arr cs0 map offset n Hscreen Hm Hd Hoff Hcr3 Hvirt Hn Hfree Hbase He Hheap Hsu Hf1 Hf2)
    as (b & t1 & t2 & r1 & r2 & ss1 & ss2 & Eb & Hb & Hr1 & Hr2 & Hrun).
  exists b, t1, t2, r1, r2. split; [exact Eb|]. split; [exact Hb|]. split; [exact Hr1|]. split; [exact Hr2|].
  intros c [m' blo bhi Hsys Hm' Hblo Hbhi Hbs Hwf Hsp Htx Hsep].
  destruct (Hrun c m' blo bhi Hsys Hm' Hblo Hbhi Hbs Hwf Hsp) as (c1 & E1 & Hctx & Hinv & [Hcon Hidt]%apic_only_same & Hmem).
  exists c1. split; [exact E1|]. rewrite <- Hcon.
  apply (system_start _ _ _ _ _ _ _ _ c1 test_fn ss1 ss2 Hentry Hctx Hinv).
  - rewrite <- Htx. apply str_bytes_ext. intros x Hx. apply Hmem; lia.
  - rewrite Hcon. exact (booted_console_free b Hscreen Hb).
  - rewrite Hidt. exact (booted_idt _ _ _ _ _ _ _ Hb).
Qed.

(** Printing does not start the shell. *)
Lemma prints_keep_initialized texts c c' :
  print_lines texts c = Ok (tt, c') -> console_free c -> initialized c' = initialized c.
Proof.
  unfold print_lines. revert c. induction texts as [|t texts IH]; intros c E0 Hc; [by injection E0 as <-|].
  destruct (println_free [t] c Hc) as (c1 & E1 & Hc1 & _ & Hi). rewrite for_each_cons, (bind_Ok _ _ _ _ _ E1) in E0.
  by rewrite (IH c1 E0 Hc1).
Qed.


Abbreviation processes :=
  (startup_processes Usable stack_ist stack_rsp0 cr3_frame offset_page_table_new alloc add_byte process_keyevent
     device cr2_text code_text frame_text run_apic run_syscall xapic_base None idle test_fn test_fn_hello map offset).

End FromPowerOn.

(** ** A machine, for the witnesses *)

Definition demo_code : list Z := [0x7100; 0x7107; 0x710e; 0x7115; 0x711c].
Definition demo_text : Z := 0x2000.

Definition demo_startup :=
  kernel_startup (P := dev_profile) (T := list Descriptor) (RT := bool) true (X := tables)
    (E := string) (H := bump_heap) 0x1000 0x8000 0x1000 (fun _ _ _ => None) rising_alloc plain_add_byte
    plain_keyevent (fun _ _ => 0xf0) [] [] [] (ret tt) (ret tt) 0xfee00000 None true (fun _ => []) 0x7000 0x7100
    0x7200 small_map 0x200000000000.
Definition demo_power_on :=
  power_on (T := list Descriptor) (X := tables) (H := bump_heap) (KeyCode := bool) spaces (MkMachine 2 []) (fun _ => 0) tt
    (replicate 2 (as_u8 Timer) ++ [as_u8 ApicTimer]) 8.

(** The text is in memory and the processor waits on its boot stack. *)
Definition with_text (m : mem) : mem := fun x =>
  if (demo_text <=? x) && (x <? demo_text + 8) then MSG !!! Z.to_nat (x - demo_text) else m x.
Definition demo_waiting (b : Boot (list Descriptor) tables bump_heap bool unit) : Cpu (Sys bump_heap bool unit) :=
  MkCpu (fun _ => 0) 0x1000000 0x5000 8 0x202 0 0
    (MkSys (set_memory (with_text (memory (kern (bsys b)))) (kern (bsys b))) (os (bsys b))).

Lemma demo_waits b : waiting 256 demo_text (kern (bsys b)) (os (bsys b)) (demo_waiting b).
Proof.
  apply (Waiting 256 demo_text (kern (bsys b)) (os (bsys b)) (demo_waiting b) (with_text (memory (kern (bsys b)))) 0xf00000 0x1000000).
  - reflexivity.
  - intros x Hx. unfold with_text. unfold HEAP_START in Hx. rewrite (proj2 (Z.ltb_ge x (demo_text + 8))) by
      (change (demo_text + 8) with 0x2008; lia). by rewrite andb_false_r.
  - discriminate.
  - reflexivity.
  - left. discriminate.
  - unfold cpu_wf, context, fits. simpl. repeat (apply Forall_cons; split; [lia|]). by apply Forall_nil.
  - simpl. lia.
  - reflexivity.
  - left. discriminate.
Qed.

Definition demo_frame (_ : Z) : Z := 128.
Definition demo_run : list event -> M (Cpu (Sys bump_heap bool unit)) unit :=
  system_run (P := dev_profile) rising_alloc 0x7000 plain_add_byte plain_keyevent (fun _ _ => 0xf0) [] [] [] (ret tt)
    (ret tt) demo_frame demo_text demo_code 0x7200.

(** The machine of the witnesses after its first tick. *)
Lemma demo_started : exists t1 t2 r1 r2 cn0 (c : Cpu (Sys bump_heap bool unit)), in_heap r1 /\ in_heap r2 /\
  system_inv (P := dev_profile) demo_text demo_code 0x7200 256 t1 t2 r1 r2 cn0 c (MkProgress false 0 []).
Proof.
  destruct (@boot_system_inv dev_profile _ (list Descriptor) _ _ _ bool _ true tables string bump_heap bool
    unit Z _ _ _ 0x1000 0x8000 0x1000 (fun _ _ _ => None) rising_alloc plain_add_byte plain_keyevent
    (fun _ _ => 0xf0) [] [] [] (ret tt) (ret tt) 0xfee00000 true (fun _ => []) 0x7000 0x7100 0x7200 (fun x => x) _
    256 _ bump_next _ spaces (MkMachine 2 []) (fun _ => 0) tt [] 8 small_map 0x200000000000 2 demo_text demo_code
    clear_writer_wf small_map_ok small_map_disjoint ltac:(discriminate) ltac:(discriminate) ltac:(reflexivity)
    ltac:(vm_compute; split; [discriminate|reflexivity]) ltac:(apply Forall_forall; reflexivity)
    ltac:(split; [discriminate|reflexivity]) ltac:(vm_compute; reflexivity) ltac:(reflexivity)
    ltac:(discriminate) ltac:(reflexivity) ltac:(split; [discriminate|reflexivity])
    ltac:(split; [discriminate|reflexivity]) ltac:(left; discriminate))
    as (b & t1 & t2 & r1 & r2 & _ & _ & Hr1 & Hr2 & Hb).
  destruct (Hb (demo_waiting b) (demo_waits b)) as (c1 & _ & H1).
  exists t1, t2, r1, r2, (console (os (bsys b))), c1. split; [exact Hr1|]. split; [exact Hr2|exact H1].
Qed.



