(* ===== verification/UserMode.v ===== *)
(** * Timer interrupts of processes in user mode

    [start_process] can make processes that run at ring 3 ([kernel_owned = false]).  The processor takes
    an interrupt of such code on the stack the TSS names, [privilege_stack_table[0]], which [gdt::init]
    sets once (src/src/gdt.rs).  The timer handler (src/src/interrupts.rs) means to put the selected
    process' [kernel_top_rsp] there, but writes to a copy of the TSS (Context): here is what becomes of
    the processes. *)

From S2P Require Import Prelude Mem Arch Vga Shell Gdt Sched Alloc Events Interrupts Cpu Context.

(** The stack of ring 0. *)
Definition rsp0 (t : TaskStateSegment) : Z := nth 0 (privilege_stack_table t) 0.

Section UserMode.
Context `{P : Profile} `{A : Abi} {H KeyCode KB : Type}.
Variable alloc : Z -> Z -> H -> option (Z * H).
Variable idle : Z.
(** The task state segment of the processor. *)
Variable tss : TaskStateSegment.
Abbreviation Sys := (Sys H KeyCode KB).

(** The processor enters an interrupt handler from ring 3: on the stack the TSS names. *)
Definition interrupt_entry_user : M (Cpu Sys) unit :=
  let! c := get in
  modify (set_rsp (rsp0 tss - rsp0 tss mod 16)) ;;
  for_each [ss c; rsp c; cpu_rflags c; cs c; rip c] push_val ;;
  modify (fun c => MkCpu (regs c) (rsp c) (rip c) (code_selector true) (Z.clearbit (cpu_rflags c) 9) 0
                     (data_segments c) (sys c)).

(** A timer interrupt of code at ring 3. *)
Definition user_tick : M (Cpu Sys) unit := interrupt_entry_user ;; run_apic_timer_handler alloc idle.

(** * Lemmas *)

Variable stack_use : Z.
Context `{AL : !AbiLaws stack_use}.

(** Where the contexts go. *)
Abbreviation sp0 := (rsp0 tss - rsp0 tss mod 16).

Lemma entry_user_run (c : Cpu Sys) m k o :
  sys c = MkSys (set_memory m k) o -> 56 <= sp0 < 2 ^ 64 ->
  interrupt_entry_user c =
  Ok (tt, MkCpu (regs c) (sp0 - 40) (rip c) (code_selector true) (Z.clearbit (cpu_rflags c) 9) 0 (data_segments c)
            (MkSys (set_memory (store_slots m sp0 (-1) [ss c; rsp c; cpu_rflags c; cs c; rip c]) k) o)).
Proof.
  intros Hs Hsp. unfold interrupt_entry_user. rewrite (bind_Ok _ _ _ c c) by done. rewrite bind_modify.
  erewrite bind_Ok by (apply push_vals_run; cbn [rsp set_rsp length]; lia).
  destruct c as [g sp ip c fl sg d s]. cbn [sys] in Hs. subst s. done.
Qed.

(** The memory when the next task has been selected: the interrupted context is on the stack of the TSS. *)
Definition user_saved (c : Cpu Sys) (p : Z) (m : mem) : mem :=
  saved_mem p (sp0 - 160) (store_slots m sp0 (-1) (reverse (context c))).

Lemma user_saved_frame c p m x :
  ~ (sp0 - 160 - stack_use <= x < sp0) -> ~ (p <= x < p + 8) -> user_saved c p m x = m x.
Proof.
  intros Hx Hp. unfold user_saved. pose proof stack_use_nonneg. rewrite (saved_mem_frame stack_use) by lia.
  destruct (Z_lt_dec x (sp0 - 160)).
  - apply store_slots_below. rewrite length_reverse, length_context. lia.
  - apply store_slots_above. lia.
Qed.

Lemma user_tick_run (c : Cpu Sys) m k k' o o' p p' ws :
  sys c = MkSys (set_memory m k) o ->
  (forall m, current_task_ptr alloc idle (set_memory m k) = Ok (p, set_memory m k)) ->
  (forall m, select_next_task alloc idle (set_memory m k) = Ok (p', set_memory m k')) ->
  restart_apic o = Ok (tt, o') -> 160 <= sp0 < 2 ^ 64 ->
  let m5 := user_saved c p m in
  let sp' := load64 m5 p' in
  8 + stack_use <= sp' -> sp' + 160 < 2 ^ 64 -> length ws = 20%nat -> words_at m5 sp' ws ->
  exists c', user_tick c = Ok (tt, c') /\ context c' = ws /\
    sys c' = MkSys (set_memory (resumed_mem sp' (load64 m5 (wrap 64 (p' + 8))) m5) k') o'.
Proof.
  intros Hs Hcur Hsel Hra Hsp m5 sp' Hlo Hhi Hlen Hw.
  pose proof (handler_run stack_use alloc idle (regs c) (sp0 - 40) (rip c) (code_selector true) (Z.clearbit (cpu_rflags c) 9) 0
    (data_segments c) k k k' o o' (store_slots m sp0 (-1) [ss c; rsp c; cpu_rflags c; cs c; rip c])
    p p' (take 15 ws) (drop 15 ws) Hcur Hsel Hra ltac:(lia)) as Hh.
  cbv zeta in Hh. rewrite context_pushes in Hh. replace (sp0 - 40 - 120) with (sp0 - 160) in Hh by lia.
  fold (user_saved c p m) in Hh. fold m5 in Hh. fold sp' in Hh. rewrite take_drop in Hh.
  destruct Hh as (c' & E & Hctx & _ & Hs'); [lia|lia|rewrite length_take; lia|rewrite length_drop; lia|done|].
  exists c'. split; [|split; [exact Hctx|exact Hs']].
  unfold user_tick. rewrite (bind_Ok _ _ _ _ _ (entry_user_run c m k o Hs ltac:(lia))). exact E.
Qed.

(** The scheduler of two processes: [t] runs, [t'] is next. *)
Definition switched (k : Kernel H) (t t' : Task) : Kernel H :=
  MkKernel (Mutex false (MkRR [t] (task_id (rr_of k)))) (Some t') (idle_task k) (init_flag k) (void_task k)
    (memory k) (heap k).

Lemma current_of (k : Kernel H) t : task k = Some t ->
  forall m, current_task_ptr alloc idle (set_memory m k) = Ok (t.2, set_memory m k).
Proof. intros Ht m. unfold current_task_ptr. run_pure. cbn [task set_memory]. by rewrite Ht. Qed.

Lemma switch_run (k : Kernel H) t t' :
  locked (scheduler k) = false -> task k = Some t -> tasks (rr_of k) = [t'] ->
  forall m, select_next_task alloc idle (set_memory m k) = Ok (t'.2, set_memory m (switched k t t')).
Proof. intros Hl Ht Hq m. rewrite (select_some alloc idle [] t') by assumption. cbn [task set_memory]. by rewrite Ht. Qed.

(** The stack of the TSS, the kernel stack [lo2 .. hi2] of the second process and the states of both do
    not overlap. *)
Record user_layout (p1 p2 lo2 hi2 : Z) : Prop := {
  ul_stack0 : 160 + stack_use <= sp0 < 2 ^ 64;
  ul_stack2 : 0 <= lo2 /\ hi2 < 2 ^ 64 /\ (hi2 <= sp0 - 160 - stack_use \/ sp0 <= lo2);
  ul_states : 0 <= p1 /\ 0 <= p2 /\ (p1 + 16 <= p2 \/ p2 + 16 <= p1);
  ul_state1 : (p1 + 16 <= sp0 - 160 - stack_use \/ sp0 <= p1) /\ (p1 + 16 <= lo2 \/ hi2 <= p1);
  ul_state2 : (p2 + 16 <= sp0 - 160 - stack_use \/ sp0 <= p2) /\ (p2 + 16 <= lo2 \/ hi2 <= p2);
}.

(** The tick that leaves the first process: the second resumes from its own stack, and the state of the
    first points to the stack of the TSS. *)
Lemma user_tick_leaves (c : Cpu Sys) m k k' o o' p1 p2 lo2 hi2 sp2 ws :
  user_layout p1 p2 lo2 hi2 -> sys c = MkSys (set_memory m k) o ->
  (forall m, current_task_ptr alloc idle (set_memory m k) = Ok (p1, set_memory m k)) ->
  (forall m, select_next_task alloc idle (set_memory m k) = Ok (p2, set_memory m k')) ->
  restart_apic o = Ok (tt, o') ->
  load64 m p2 = sp2 -> lo2 + stack_use + 8 <= sp2 -> sp2 + 160 <= hi2 -> length ws = 20%nat -> words_at m sp2 ws ->
  exists c' m', user_tick c = Ok (tt, c') /\ context c' = ws /\ sys c' = MkSys (set_memory m' k') o' /\
    load64 m' p1 = sp0 - 160.
Proof.
  intros [H0 H2 Hp H1' H2'] Hs Hcur Hsel Hra Hl Hlo Hhi Hlen Hw. pose proof stack_use_nonneg as Hsu.
  assert (load64 (user_saved c p1 m) p2 = sp2) as El.
  { rewrite <- Hl. apply load64_ext. intros x Hx. apply user_saved_frame; lia. }
  destruct (user_tick_run c m k k' o o' p1 p2 ws Hs Hcur Hsel Hra ltac:(lia)) as (c' & E & Hc & Hs').
  - rewrite El. lia.
  - rewrite El. lia.
  - done.
  - rewrite El. eapply words_at_ext; [|exact Hw]. intros x Hx. rewrite Hlen in Hx. symmetry. apply user_saved_frame; lia.
  - eexists c', _. split; [exact E|]. split; [exact Hc|]. split; [exact Hs'|]. rewrite El.
    transitivity (load64 (user_saved c p1 m) p1).
    + apply load64_ext. intros x Hx. apply (resumed_mem_frame stack_use). lia.
    + apply (saved_mem_slot stack_use); [unfold fits; lia|lia].
Qed.

(** The tick that comes back to it finds the interrupted context of the second process there. *)
Lemma user_tick_mixes (c : Cpu Sys) m k k' o o' p1 p2 lo2 hi2 :
  user_layout p1 p2 lo2 hi2 -> sys c = MkSys (set_memory m k) o -> cpu_wf c ->
  (forall m, current_task_ptr alloc idle (set_memory m k) = Ok (p2, set_memory m k)) ->
  (forall m, select_next_task alloc idle (set_memory m k) = Ok (p1, set_memory m k')) ->
  restart_apic o = Ok (tt, o') -> load64 m p1 = sp0 - 160 ->
  stack_use + 168 <= sp0 ->
  exists c' m', user_tick c = Ok (tt, c') /\ context c' = context c /\ sys c' = MkSys (set_memory m' k') o'.
Proof.
  intros [H0 H2 Hp H1' H2'] Hs Hwf Hcur Hsel Hra Hl Hroom. pose proof stack_use_nonneg as Hsu.
  assert (load64 (user_saved c p2 m) p1 = sp0 - 160) as El.
  { rewrite <- Hl. apply load64_ext. intros x Hx. apply user_saved_frame; lia. }
  destruct (user_tick_run c m k k' o o' p2 p1 (context c) Hs Hcur Hsel Hra ltac:(lia)) as (c' & E & Hc & Hs').
  - rewrite El. lia.
  - rewrite El. lia.
  - apply length_context.
  - rewrite El. eapply words_at_ext; [|apply context_words, Hwf].
    intros x Hx. rewrite length_context in Hx. symmetry. unfold user_saved. apply (saved_mem_frame stack_use); lia.
  - eexists c', _. split; [exact E|]. split; [exact Hc|exact Hs'].
Qed.
End UserMode.

(** * Properties *)


(** The machine of Context's examples, with its tasks in user mode. *)
Definition example_tss : TaskStateSegment := MkTss [0x51000; 0; 0] (replicate 7 0).

